(** * SAF-T Cash Register validator: findings, report aggregation and the
      validation passes, embedded from the Python sources.

    Conventions of the embedding:
    - Python [float] is IEEE binary64, modelled by Rocq's primitive floats;
    - Python [None] in an optional field is [None] of an [option];
    - an lxml element handed to the report is modelled by the three things
      the report reads from it (local tag, Line Map row, audit trail);
    - mutable attributes of [XMLValidator] are threaded explicitly. *)

From Stdlib Require Import ZArith List String Ascii Bool Lia Floats.
From Stdlib Require Import Sorting.Permutation Sorting.Sorted.
From stdpp Require Import base decidable option list gmap strings.

Open Scope string_scope.
Open Scope Z_scope.
Open Scope list_scope.

(** ** Findings (modules/conventions/variables.py) *)

(** [Check]: the six check labels of [class Check]. The labels are locale
    dependent strings ([Texts.xml_read[lang]] ...); within one locale they
    are pairwise distinct, so a check is identified with its attribute. *)
Inductive Check : Type :=
  | xml_read | naming_check | structure_check
  | certificate_check | signature_check | value_check.

(** [Status]: [Status.ok] / [Status.error]. *)
Inductive Status : Type := ok | error.

Inductive Language : Type := en | dk.

Definition check_label (lang : Language) (c : Check) : string :=
  match lang, c with
  | en, xml_read => "Error during loading"
  | en, naming_check => "Naming check"
  | en, structure_check => "Structure check"
  | en, certificate_check => "Certificate check"
  | en, signature_check => "Signature check"
  | en, value_check => "Value check"
  | dk, xml_read => "Fejl ved indlæsning"
  | dk, naming_check => "Navngivningstjek"
  | dk, structure_check => "Strukturtjek"
  | dk, certificate_check => "Certifikattjek"
  | dk, signature_check => "Signaturtjek"
  | dk, value_check => "Værditjek"
  end.

Definition status_label (lang : Language) (s : Status) : string :=
  match lang, s with
  | _, ok => "OK"
  | en, error => "Error"
  | dk, error => "Fejl"
  end.

#[global] Instance Check_eq_dec : EqDecision Check.
Proof. solve_decision. Defined.

#[global] Instance Status_eq_dec : EqDecision Status.
Proof. solve_decision. Defined.

#[global] Instance float_eq_dec : EqDecision float.
Proof.
  intros x y. destruct (PrimFloat.Leibniz.eqb x y) eqn:E.
  - left. apply FloatAxioms.Leibniz.eqb_spec. exact E.
  - right. intros Hxy. apply FloatAxioms.Leibniz.eqb_spec in Hxy. congruence.
Defined.

(** One entry of [special_error_message]: the lists built by the validators
    hold strings, [None], floats and (for WRONG_PREDEFINED_BASIC_USED) a list
    of strings. *)
Inductive Param : Type :=
  | PStr (s : string)
  | PNone
  | PNum (x : float)
  | PList (l : list string).

#[global] Instance Param_eq_dec : EqDecision Param.
Proof. solve_decision. Defined.

(** [Validation] dataclass; [check_obj] only carries the locale labels. *)
Record Validation : Type := mkValidation {
  check : Check;
  status : Status;
  technical_error_type : option string;
  error_xml_element : option string;
  error_row : option Z;
  complete_error_message : option string;
  audit_trail : option string;
  special_error_message : option (list Param)
}.

(** [__post_init__]: the rank of each check. *)
Definition check_order (c : Check) : Z :=
  match c with
  | xml_read => 0
  | naming_check => 1
  | structure_check => 2
  | certificate_check => 3
  | signature_check => 4
  | value_check => 5
  end.

(** [self.error_row or float('inf')]: [None] and row [0] both become
    infinity, modelled by [None]. *)
Definition row_or_inf (v : Validation) : option Z :=
  match error_row v with
  | Some 0 => None
  | Some r => Some r
  | None => None
  end.

Definition row_or_inf_ltb (a b : option Z) : bool :=
  match a, b with
  | Some x, Some y => x <? y
  | Some _, None => true
  | None, _ => false
  end.

(** [Validation.__lt__]. *)
Definition validation_lt (self other : Validation) : bool :=
  if negb (check_order (check self) =? check_order (check other))
  then check_order (check self) <? check_order (check other)
  else row_or_inf_ltb (row_or_inf self) (row_or_inf other).

(** [Validation.__eq__]. *)
Definition validation_eq (self other : Validation) : bool :=
  bool_decide (check self = check other) &&
  bool_decide (error_row self = error_row other).

(** The tuple [Validation.__hash__] hashes. The last component is hashed
    through [str(...)]; the string conversion is part of the hash function
    below. *)
Definition HashKey : Type :=
  Check * Status * option Z * option string * option string * option string
  * option (list Param).

Definition hash_key (v : Validation) : HashKey :=
  (check v, status v, error_row v, audit_trail v, error_xml_element v,
   technical_error_type v, special_error_message v).

(** ** The validator's mutable attributes (main.py, [XMLValidator]) *)

(** What the report reads from an lxml element: [extract_tag_from_element],
    [get_row_nr] and [get_audit_trail]. *)
Record Element : Type := mkElement {
  tag : string;
  row_nr : Z;
  trail : string
}.

#[global] Instance Element_eq_dec : EqDecision Element.
Proof. solve_decision. Defined.

Record Validator : Type := mkValidator {
  validation : list Validation;
  structure_error : bool;
  certificate_error : bool;
  signature_error : bool;
  value_error : bool
}.

Definition append_validation (v : Validation) (st : Validator) : Validator :=
  {| validation := validation st ++ [v];
     structure_error := structure_error st;
     certificate_error := certificate_error st;
     signature_error := signature_error st;
     value_error := value_error st |}.

Definition set_value_error (st : Validator) : Validator :=
  {| validation := validation st;
     structure_error := structure_error st;
     certificate_error := certificate_error st;
     signature_error := signature_error st;
     value_error := true |}.

Definition set_signature_error (st : Validator) : Validator :=
  {| validation := validation st;
     structure_error := structure_error st;
     certificate_error := certificate_error st;
     signature_error := true;
     value_error := value_error st |}.

(** [XMLValidator.log_validation_error]. *)
Definition log_validation_error (check_ : Check) (element : Element)
    (error_type : string) (special_error_msg : option (list Param))
    (st : Validator) : Validator :=
  append_validation
    {| check := check_; status := error;
       technical_error_type := Some error_type;
       error_xml_element := Some (tag element);
       error_row := Some (row_nr element);
       complete_error_message := None;
       audit_trail := Some (trail element);
       special_error_message := special_error_msg |} st.

(** [XMLValidator.log_validation_error_no_element]. *)
Definition log_validation_error_no_element (check_ : Check)
    (error_type : string) (st : Validator) : Validator :=
  append_validation
    {| check := check_; status := error;
       technical_error_type := Some error_type;
       error_xml_element := None;
       error_row := None;
       complete_error_message := None;
       audit_trail := None;
       special_error_message := None |} st.

Definition init_validator : Validator :=
  {| validation := []; structure_error := false; certificate_error := false;
     signature_error := false; value_error := false |}.

(** ** Report aggregator (main.py) *)

(** [Report]: the three file prefixes. *)
Definition ok_prefix : string := "OK_".
Definition nok_prefix : string := "NOK_".
Definition flag_prefix : string := "FLAG_".

(** [XMLValidator.prefix]. *)
Definition prefix (validation_ : list Validation) : string :=
  if existsb (fun x => bool_decide (status x = error))
       (filter (fun x => check x <> value_check) validation_)
  then nok_prefix
  else if existsb (fun x => bool_decide (status x = error))
            (filter (fun x => check x = value_check) validation_)
  then flag_prefix
  else ok_prefix.

Section ReportAggregator.
(** Python's [set] compares two members by hash first and by [__eq__]
    second. The hash function and the order in which a set is iterated
    are Python's, not the repository's: both are parameters. *)
Context {H : Type} `{EqDecision H}.
Variable py_hash : HashKey -> H.
Variable set_iteration : list Validation -> list Validation.

(** [Validation.__hash__]. *)
Definition validation_hash (v : Validation) : H := py_hash (hash_key v).

Definition same_set_entry (v w : Validation) : bool :=
  bool_decide (validation_hash v = validation_hash w) && validation_eq v w.

(** [set.add]: a member already present (same hash and [==]) is kept. *)
Definition set_add (s : list Validation) (v : Validation) : list Validation :=
  if existsb (same_set_entry v) s then s else s ++ [v].

(** [set(validation_list)], members in insertion order. *)
Definition py_set (validation_list : list Validation) : list Validation :=
  fold_left set_add validation_list [].

(** [sorted(...)]: a stable sort that only calls [__lt__]. *)
Fixpoint sorted_insert (x : Validation) (l : list Validation) : list Validation :=
  match l with
  | [] => [x]
  | y :: t => if validation_lt x y then x :: y :: t else y :: sorted_insert x t
  end.

Definition sorted (l : list Validation) : list Validation :=
  fold_left (fun acc x => sorted_insert x acc) l [].

(** [XMLValidator.remove_duplicates_and_sort_validation]. *)
Definition remove_duplicates_and_sort_validation
    (validation_list : list Validation) : list Validation :=
  sorted (set_iteration (py_set validation_list)).
End ReportAggregator.

(** ** Exceptions and state: the monad of the validation passes *)

(** A Python call either returns or raises; findings appended before an
    exception stay in [XMLValidator.validation]. *)
Inductive Outcome (A : Type) : Type :=
  | Return (a : A) (st : Validator)
  | Raise (exn : string) (st : Validator).
Arguments Return {A} a st.
Arguments Raise {A} exn st.

Definition M (A : Type) : Type := Validator -> Outcome A.

Definition ret {A : Type} (a : A) : M A := fun st => Return a st.
Definition raise {A : Type} (exn : string) : M A := fun st => Raise exn st.
Definition bind {A B : Type} (m : M A) (k : A -> M B) : M B :=
  fun st => match m st with
            | Return a st' => k a st'
            | Raise e st' => Raise e st'
            end.
Definition lift (f : Validator -> Validator) : M unit :=
  fun st => Return tt (f st).

Declare Scope py_scope.
Delimit Scope py_scope with py.
Notation "x <- m ;; k" := (bind m (fun x => k))
  (at level 62, m at next level, right associativity) : py_scope.
Notation "m ;;; k" := (bind m (fun _ => k))
  (at level 62, right associativity) : py_scope.

Definition outcome_state {A : Type} (o : Outcome A) : Validator :=
  match o with
  | Return _ st => st
  | Raise _ st => st
  end.

(** [for x in xs: body(x)] in the monad. *)
Fixpoint for_each {A : Type} (xs : list A) (body : A -> M unit) : M unit :=
  match xs with
  | [] => ret tt
  | x :: t => bind (body x) (fun _ => for_each t body)
  end.

(** ** XML input, as the domain model extractor reads it *)

(** A child element found by [get_child_element], with its [.text]. *)
Record XmlChild : Type := mkXmlChild {
  child_element : Element;
  text : option string
}.

(** [get_text_from_element]. *)
Definition get_text_from_element (c : option XmlChild) : option string :=
  match c with
  | Some e => text e
  | None => None
  end.

(** ** Basics (modules/conventions/variables.py) *)

Record Basics : Type := mkBasics {
  b_type : option string;
  b_id : option string;
  b_desc : option string;
  b_predefined_id : option string;
  b_basic_type_element : Element
}.

(** [Basics.predefined_basic] is set to [type] by the constructor. *)
Definition b_predefined_basic (b : Basics) : option string := b_type b.

(** [get_basic]: look up by id, then by description; a hit by description
    appends a copy whose id is the description to the shared list. *)
Definition get_basic (all_basics : list Basics) (trans_type : option string)
    : option Basics * list Basics :=
  match find (fun basic => bool_decide (b_id basic = trans_type)) all_basics with
  | Some basic => (Some basic, all_basics)
  | None =>
      match find (fun basic => bool_decide (b_desc basic = trans_type)) all_basics with
      | Some basic =>
          (Some basic,
           all_basics ++ [ {| b_type := b_type basic; b_id := b_desc basic;
                              b_desc := b_desc basic;
                              b_predefined_id := b_predefined_id basic;
                              b_basic_type_element := b_basic_type_element basic |} ])
      | None => (None, all_basics)
      end
  end.

(** Python truthiness of an optional string. *)
Definition truthy (s : option string) : bool :=
  match s with
  | Some "" => false
  | Some _ => true
  | None => false
  end.

(** [get_predefined_basic_id]. *)
Definition get_predefined_basic_id (basic : option Basics) : option string :=
  match basic with
  | Some b => if truthy (b_predefined_id b) then b_predefined_id b else None
  | None => None
  end.

(** [get_predefined_basic]. *)
Definition get_predefined_basic (basic : option Basics) : option string :=
  match basic with
  | Some b => if truthy (b_predefined_basic b) then b_predefined_basic b else None
  | None => None
  end.

(** ** BaseElement (modules/conventions/variables_value_test.py) *)

Record BaseElement : Type := mkBaseElement {
  element : Element;
  basic_type_element : option XmlChild;
  basic_type : option string
}.

(** [BaseElement.__init__]. *)
Definition BaseElement_init (element_ : Element) (basic_type_element_ : option XmlChild)
    : BaseElement :=
  {| element := element_;
     basic_type_element := basic_type_element_;
     basic_type := get_text_from_element basic_type_element_ |}.

(** [BaseElement.basic]; the list is the validator's shared [all_basics]. *)
Definition basic (all_basics : list Basics) (self : BaseElement) : option Basics :=
  match all_basics with
  | [] => None
  | _ => if truthy (basic_type self)
         then fst (get_basic all_basics (basic_type self))
         else None
  end.

(** [BaseElement.predefined_basic]. *)
Definition predefined_basic (all_basics : list Basics) (self : BaseElement)
    : option string :=
  match basic all_basics self with
  | Some b => get_predefined_basic_id (Some b)
  | None => None
  end.

(** [Event.predefined_basic] (override). *)
Definition Event_predefined_basic (all_basics : list Basics) (self : BaseElement)
    : option string :=
  match basic all_basics self with
  | Some b =>
      match get_predefined_basic_id (Some b) with
      | Some i => if truthy (Some i) then Some i else get_predefined_basic (Some b)
      | None => get_predefined_basic (Some b)
      end
  | None => None
  end.

(** [BaseElement.relation_to_basic_check]. *)
Definition relation_to_basic_check (all_basics : list Basics) (self : BaseElement)
    : bool :=
  bool_decide (basic all_basics self <> None).

(** The attribute read by [getattr(self, attribute, None)] in
    [mandatory_if_available]: a list (by its length) or an optional value. *)
Inductive Attr : Type :=
  | AttrList (len : nat)
  | AttrValue (present : bool).

(** [BaseElement.mandatory_if_available]; [predefined_basic_] is the value of
    the (possibly overridden) property [self.predefined_basic]. *)
Definition mandatory_if_available (predefined_basic_ : option string)
    (attr_value : Attr) (predefined_basic_list : list string) : bool :=
  match predefined_basic_ with
  | Some pb =>
      if bool_decide (pb ∈ predefined_basic_list)
      then match attr_value with
           | AttrList O => false
           | AttrList (S _) => true
           | AttrValue present => present
           end
      else true
  | None => true
  end.

(** ** Python built-ins used by the domain model *)

(** [float(str)] ([None]: ValueError) and [sum] over a list of floats are
    Python's, not the repository's; the domain model is parametric in them. *)
Class PyBuiltins : Type := {
  py_float : string -> option float;
  py_sum : list float -> float
}.

(** [str.isascii()]. A [string] stands for a Python [str] of ASCII
    characters, one character each; on other text the functions below that
    look for digits are not Python's (its [\d], [str.isdigit], [int] and
    [len] work on Unicode characters), so the theorems about them ask for
    [isascii]. *)
Definition isascii (s : string) : bool :=
  forallb (fun c => (nat_of_ascii c <? 128)%nat) (list_ascii_of_string s).

(** [re.findall(r'\d+', value)] on ASCII text: the maximal runs of the
    digits 0 to 9, left to right. *)
Definition is_digit (c : ascii) : bool :=
  ((48 <=? nat_of_ascii c) && (nat_of_ascii c <=? 57))%nat.

Fixpoint findall_digits_from (current : string) (value : string) : list string :=
  match value with
  | EmptyString => if bool_decide (current = "") then [] else [current]
  | String c rest =>
      if is_digit c
      then findall_digits_from (current ++ String c "")%string rest
      else (if bool_decide (current = "") then [] else [current])
           ++ findall_digits_from "" rest
  end.

Definition findall_digits (value : string) : list string :=
  findall_digits_from "" value.

(** [',' in value]. *)
Definition contains_comma (value : string) : bool :=
  existsb (fun c => bool_decide (c = ","%char)) (list_ascii_of_string value).

(** [''.join(parts)]. *)
Definition join_empty (parts : list string) : string := String.concat "" parts.

(** The binary64 value of a string of decimal digits: the integer it
    denotes, rounded to nearest-even. *)
Definition int_of_digits (s : string) : Z :=
  fold_left (fun acc c => 10 * acc + (Z.of_nat (nat_of_ascii c) - 48))
            (list_ascii_of_string s) 0.

Definition float_of_Z (n : Z) : float :=
  SF2Prim (binary_normalize prec emax n 0 false).

Definition float_of_digits (s : string) : float := float_of_Z (int_of_digits s).

Definition all_digits (s : string) : bool :=
  forallb is_digit (list_ascii_of_string s).

(** [float] restricted to non-empty strings of ASCII digits (every other
    string is refused): the part of Python's [float] whose value the model
    computes. *)
Definition float_of_digit_strings (s : string) : option float :=
  if all_digits s && negb (bool_decide (s = "")) then Some (float_of_digits s) else None.

(** [sum] as a left fold from [0]. *)
Definition sum_left (xs : list float) : float :=
  fold_left PrimFloat.add xs 0%float.

Definition digits_builtins : PyBuiltins :=
  {| py_float := float_of_digit_strings; py_sum := sum_left |}.

(** ** Error types (modules/conventions/error_types.py and
       variables_value_test.py) *)

Definition should_contain_number : string := "VALUE_DOES_NOT_CONTAIN_NR".
Definition out_of_sequence : string := "SCHEMAV_OUT_OF_SEQUENCE".
Definition event_report_total_cash_sales : string := "EVENT_REPORT_TOTAL_CASH_SALES".
Definition event_report_grand_total_sales : string := "EVENT_REPORT_GRAND_TOTAL_SALES".
Definition event_report_tips : string := "EVENT_REPORT_TIPS".
Definition event_report_could_not_run : string := "EVENT_REPORT_COULD_NOT_RUN".
Definition not_continous_numbering : string := "NOT_CONTINOUS_NUMBERING".
Definition continous_numbering_pr_cash_reg : string := "CONTINOUS_NUMBERING_PR_CASH_REGISTER".
Definition no_relation_to_basics_found : string := "NO_RELATION_TO_BASICS_FOUND".
Definition no_relation_to_articles_found : string := "NO_RELATION_TO_ARTICLES_FOUND".
Definition mandatory_if_available_error : string := "ELEMENT_NOT_FOUND_WHEN_EXPECTED".
Definition wrong_predefined_basic_used : string := "WRONG_PREDEFINED_BASIC_USED".
Definition could_not_verify : string := "SIGNATURE_NOT_VERIFIED".
Definition signature_break : string := "SIGNATURE_BREAK".
Definition complete_error : string := "SIGNATURE_COMPLETE_ERROR".
Definition certificate_error_type : string := "CANNOT_GET_PUBLIC_KEY".
Definition signature_xml_element : string := "signature".
Definition no_signature : string := "NO_SIGNATURE".

(** [tolerance = 1e-3]. *)
Definition tolerance : float := 0x1.0624dd2f1a9fcp-10%float.

(** [to_float]. *)
Definition to_float `{PyBuiltins} (value : option string) : float :=
  match value with
  | Some s => match py_float s with
              | Some x => x
              | None => 0%float
              end
  | None => 0%float
  end.

(** [abs(to_float(amnt)) * sign], [sign] being [-1] for [amntTp == 'D']. *)
Definition signed_amount `{PyBuiltins} (amnt amount_type : option string) : float :=
  let sign := if bool_decide (amount_type = Some "D") then (-1)%float else 1%float in
  (PrimFloat.abs (to_float amnt) * sign)%float.

(** [True if x is not None and (x == 'true' or x == '1') else False]. *)
Definition xml_true (x : option string) : bool :=
  bool_decide (x = Some "true") || bool_decide (x = Some "1").

(** ** Python dictionaries whose iteration order matters *)

Definition Dict (K V : Type) : Type := list (K * V).

Fixpoint dict_get {K V : Type} `{EqDecision K} (d : Dict K V) (k : K) : option V :=
  match d with
  | [] => None
  | (k', v) :: t => if bool_decide (k' = k) then Some v else dict_get t k
  end.

(** [if k in d: d[k].append(x) else: d[k] = [x]]. *)
Fixpoint dict_append {K V : Type} `{EqDecision K} (d : Dict K (list V)) (k : K) (x : V)
    : Dict K (list V) :=
  match d with
  | [] => [(k, [x])]
  | (k', xs) :: t =>
      if bool_decide (k' = k) then (k', xs ++ [x]) :: t
      else (k', xs) :: dict_append t k x
  end.

Definition dict_keys {K V : Type} (d : Dict K V) : list K := map fst d.
Definition dict_values {K V : Type} (d : Dict K V) : list V := map snd d.

(** ** CTLine, Payment, CashTransRaise, Event *)

Record XmlCTLine : Type := mkXmlCTLine {
  x_ctLine : Element;
  x_lineType : option XmlChild;
  x_artID : option string;
  x_qnt : option string
}.

Record XmlPayment : Type := mkXmlPayment {
  x_payment : Element;
  x_paymentType : option XmlChild;
  x_paymentRefID : option string
}.

Record XmlRaise : Type := mkXmlRaise {
  x_raise : Element;
  x_raiseType : option XmlChild
}.

Record XmlEvent : Type := mkXmlEvent {
  x_event : Element;
  x_eventType : option XmlChild;
  x_event_transID : option string;
  x_eventReport : option XmlChild
}.

Module CTLine.
Record t : Type := mk {
  base : BaseElement;
  art_id : option string;
  qnt : option string
}.

(** [CTLine.__init__]. *)
Definition init (ct_line : XmlCTLine) : t :=
  {| base := BaseElement_init (x_ctLine ct_line) (x_lineType ct_line);
     art_id := x_artID ct_line;
     qnt := x_qnt ct_line |}.
End CTLine.

Module Payment.
Record t : Type := mk {
  base : BaseElement;
  payment_ref_id : option string
}.

Definition predefined_basic_payment_ref : list string :=
  ["12002"; "12003"; "12011"].

(** [Payment.__init__]. *)
Definition init (payment : XmlPayment) : t :=
  {| base := BaseElement_init (x_payment payment) (x_paymentType payment);
     payment_ref_id := x_paymentRefID payment |}.

(** [Payment.mandatory_if_available_payment_ref_id]. *)
Definition mandatory_if_available_payment_ref_id (all_basics : list Basics)
    (self : t) : string * bool :=
  ("paymentRefID",
   mandatory_if_available (predefined_basic all_basics (base self))
     (AttrValue (bool_decide (payment_ref_id self <> None)))
     predefined_basic_payment_ref).
End Payment.

Module CashTransRaise.
Record t : Type := mk { base : BaseElement }.

Definition init (raise_ : XmlRaise) : t :=
  {| base := BaseElement_init (x_raise raise_) (x_raiseType raise_) |}.
End CashTransRaise.

Module Event.
Record t : Type := mk {
  base : BaseElement;
  trans_id : option string;
  event_report : option XmlChild
}.

Definition predefined_basic_trans_id_list : list string :=
  ["13010"; "13011"; "13012"; "13013"; "13014"; "13015"; "13016"; "13019"; "13028"].
Definition predefined_basic_event_report_list : list string :=
  ["13008"; "13009"].

(** [Event.__init__]. *)
Definition init (event : XmlEvent) : t :=
  {| base := BaseElement_init (x_event event) (x_eventType event);
     trans_id := x_event_transID event;
     event_report := x_eventReport event |}.

(** [Event.mandatory_if_available_event_report]. *)
Definition mandatory_if_available_event_report (all_basics : list Basics)
    (self : t) : string * bool :=
  ("eventReport",
   mandatory_if_available (Event_predefined_basic all_basics (base self))
     (AttrValue (bool_decide (event_report self <> None)))
     predefined_basic_event_report_list).

(** [Event.mandatory_if_available_trans_id]. *)
Definition mandatory_if_available_trans_id (all_basics : list Basics)
    (self : t) : string * bool :=
  ("transID",
   mandatory_if_available (Event_predefined_basic all_basics (base self))
     (AttrValue (bool_decide (trans_id self <> None)))
     predefined_basic_trans_id_list).
End Event.

(** [Basics.mandatory_if_available_predefined_basic_id]. *)
Definition basic_type_list_for_predefined_basics : list (option string) :=
  [Some "10"; Some "11"; Some "12"; Some "13"].

Definition mandatory_if_available_predefined_basic_id (self : Basics) : string * bool :=
  ("predefinedBasicID",
   if bool_decide (b_type self ∈ basic_type_list_for_predefined_basics)
   then (if bool_decide (b_predefined_id self = None) then false else true)
   else true).

(** ** CashTrans (modules/conventions/variables_value_test.py) *)

(** A [cashtransaction] element as [CashTrans.__init__] reads it. The
    datetime is the instant computed by
    [date_time_handler.convert_to_datetime(transDate, transTime)], [None]
    when it cannot be computed. *)
Record XmlCashTrans : Type := mkXmlCashTrans {
  x_cashtransaction : Element;
  x_transType : option XmlChild;
  x_nr : option XmlChild;
  x_transID : option string;
  x_transAmntIn : option string;
  x_transAmntEx : option string;
  x_amntTp : option string;
  x_empID : option string;
  x_transDate : option string;
  x_transTime : option string;
  x_cash_tran_datetime : option Z;
  x_voidTransaction : option string;
  x_trainingID : option string;
  x_raise_raiseType : option string;
  x_raise_raiseAmnt : option string;
  x_signature : option XmlChild;
  x_certificateData : option string;
  x_raises : list XmlRaise;
  x_ctLines : list XmlCTLine;
  x_payments : list XmlPayment
}.

Module CashTrans.
Record t : Type := mk {
  base : BaseElement;
  nr : option string;
  nr_fl : float;
  trans_id : option string;
  trans_type : option string;
  trans_amnt_incl : option string;
  trans_amnt_excl : option string;
  trans_amnt_incl_fl : float;
  employee_id : option string;
  trans_date : option string;
  trans_time : option string;
  cash_tran_datetime : option Z;
  void_trans : bool;
  training_id : bool;
  raise_type : option string;
  raise_amnt : float;
  nr_previous_fl : option float;
  nr_previous : option string;
  nr_previous_check : bool;
  signature_element : option XmlChild;
  certificate_data : option string;
  raises : list CashTransRaise.t;
  ct_lines : list CTLine.t;
  payments : list Payment.t
}.

Definition predefined_basic_ctline : list string :=
  ["11001"; "11002"; "11003"; "11004"; "11006"; "11008"; "11009"; "11012";
   "11013"; "11014"; "11015"; "11016"; "11017"; "11999"].
Definition predefined_basic_payment : list string :=
  ["11001"; "11002"; "11003"; "11004"; "11005"; "11006"; "11008"; "11009";
   "11012"; "11015"; "11016"; "11017"; "11999"].
Definition predefined_basic_for_event_report_sum : list string :=
  ["11001"; "11002"; "11004"; "11005"; "11006"; "11009"; "11012"; "11013";
   "11015"; "11016"; "11017"].

(** The class variables [__last_nr_fl] and [__last_nr]. *)
Record ClassVars : Type := mkClassVars {
  last_nr_fl : option float;
  last_nr : option string
}.

(** [CashTrans.reset_class_variables]. *)
Definition reset_class_variables : ClassVars :=
  {| last_nr_fl := None; last_nr := None |}.

Section WithBuiltins.
Context `{PyBuiltins}.

(** [CashTrans.convert_nr]; [nr_child] is the [nr] child element, whose
    text is the argument [value]. With [value = None], [float(value)]
    raises TypeError and so does [',' in value] in the handler. *)
Definition convert_nr (nr_child : option XmlChild) : M float :=
  match nr_child with
  | Some c =>
      match text c with
      | Some value =>
          match py_float value with
          | Some x => ret x
          | None =>
              if contains_comma value
              then bind (lift (log_validation_error structure_check (child_element c)
                                 should_contain_number (Some [PStr value])))
                        (fun _ => ret 0%float)
              else
                match findall_digits value with
                | [] =>
                    bind (lift (log_validation_error structure_check (child_element c)
                                  should_contain_number (Some [PStr value])))
                         (fun _ => ret 0%float)
                | digits =>
                    match py_float (join_empty digits) with
                    | Some x => ret x
                    | None => raise "ValueError"
                    end
                end
          end
      | None => raise "TypeError"
      end
  | None => raise "TypeError"
  end.

(** [CashTrans.__init__], threading the class variables. *)
Definition init (cash_trans : XmlCashTrans) (cls : ClassVars)
    : M (t * ClassVars) :=
  bind (convert_nr (x_nr cash_trans)) (fun nr_fl_ =>
  let nr_ := get_text_from_element (x_nr cash_trans) in
  let self :=
    {| base := BaseElement_init (x_cashtransaction cash_trans) (x_transType cash_trans);
       nr := nr_;
       nr_fl := nr_fl_;
       trans_id := x_transID cash_trans;
       trans_type := get_text_from_element (x_transType cash_trans);
       trans_amnt_incl := x_transAmntIn cash_trans;
       trans_amnt_excl := x_transAmntEx cash_trans;
       trans_amnt_incl_fl := signed_amount (x_transAmntIn cash_trans) (x_amntTp cash_trans);
       employee_id := x_empID cash_trans;
       trans_date := x_transDate cash_trans;
       trans_time := x_transTime cash_trans;
       cash_tran_datetime := x_cash_tran_datetime cash_trans;
       void_trans := xml_true (x_voidTransaction cash_trans);
       training_id := xml_true (x_trainingID cash_trans);
       raise_type := x_raise_raiseType cash_trans;
       raise_amnt := to_float (x_raise_raiseAmnt cash_trans);
       nr_previous_fl := last_nr_fl cls;
       nr_previous := last_nr cls;
       nr_previous_check :=
         match last_nr_fl cls with
         | None => true
         | Some previous => (nr_fl_ =? previous + 1)%float
         end;
       signature_element := x_signature cash_trans;
       certificate_data := x_certificateData cash_trans;
       raises := map CashTransRaise.init (x_raises cash_trans);
       ct_lines := map CTLine.init (x_ctLines cash_trans);
       payments := map Payment.init (x_payments cash_trans) |} in
  ret (self, {| last_nr_fl := Some nr_fl_; last_nr := nr_ |})).
End WithBuiltins.

(** [CashTrans.mandatory_if_available_ct_line]. *)
Definition mandatory_if_available_ct_line (all_basics : list Basics) (self : t)
    : string * bool :=
  if void_trans self then ("ctLine", true)
  else ("ctLine",
        mandatory_if_available (predefined_basic all_basics (base self))
          (AttrList (length (ct_lines self))) predefined_basic_ctline).

(** [CashTrans.mandatory_if_available_ct_line_qnt]. The comparison
    [[x for x in ct_lines if x.qnt is not None] != ct_lines] holds exactly
    when some line has no [qnt]. *)
Definition mandatory_if_available_ct_line_qnt (all_basics : list Basics) (self : t)
    : string * bool :=
  if void_trans self then ("qnt", true)
  else match ct_lines self with
       | [] => ("qnt", true)
       | lines =>
           match predefined_basic all_basics (base self) with
           | Some pb =>
               if bool_decide (pb ∈ predefined_basic_ctline)
               then if negb (forallb (fun x => bool_decide (CTLine.qnt x <> None)) lines)
                    then ("qnt", false) else ("qnt", true)
               else ("qnt", true)
           | None => ("qnt", true)
           end
       end.

(** [CashTrans.mandatory_if_available_ct_line_art_id]. *)
Definition mandatory_if_available_ct_line_art_id (all_basics : list Basics) (self : t)
    : string * bool :=
  if void_trans self then ("artID", true)
  else match ct_lines self with
       | [] => ("artID", true)
       | lines =>
           match predefined_basic all_basics (base self) with
           | Some pb =>
               if bool_decide (pb ∈ predefined_basic_ctline)
               then if negb (forallb (fun x => bool_decide (CTLine.art_id x <> None)) lines)
                    then ("artID", false) else ("artID", true)
               else ("artID", true)
           | None => ("artID", true)
           end
       end.

(** [CashTrans.mandatory_if_available_payment]. *)
Definition mandatory_if_available_payment (all_basics : list Basics) (self : t)
    : string * bool :=
  if void_trans self then ("payment", true)
  else ("payment",
        mandatory_if_available (predefined_basic all_basics (base self))
          (AttrList (length (payments self))) predefined_basic_payment).

(** [CashTrans.tips]; the integer [0] of the fallback is the float zero. *)
Definition tips (all_basics : list Basics) (self : t) : float :=
  match all_basics with
  | [] => 0%float
  | _ =>
      if bool_decide (get_predefined_basic_id (fst (get_basic all_basics (raise_type self)))
                      = Some "10001")
      then raise_amnt self else 0%float
  end.

(** [CashTrans.to_be_excluded]. *)
Definition to_be_excluded (all_basics : list Basics) (self : t) : bool :=
  if void_trans self then true
  else if training_id self then true
  else match predefined_basic all_basics (base self) with
       | Some pb => negb (bool_decide (pb ∈ predefined_basic_for_event_report_sum))
       | None => true
       end.
End CashTrans.

(** ** EventReport (modules/conventions/variables_value_test.py) *)

(** An [eventReport] element as [EventReport.__init__] reads it; the
    datetime is [convert_to_datetime(reportDate, reportTime)]. *)
Record XmlEventReport : Type := mkXmlEventReport {
  x_eventReport_element : Element;
  x_reportType : option XmlChild;
  x_report_datetime : option Z;
  x_totalCashSaleAmnt : option string;
  x_reportGrandTotalSales : option string;
  x_tipAmnt : option string;
  x_reportReturnAmnt : option string
}.

Module EventReport.
Record t : Type := mk {
  element : Element;
  report_type : option string;
  report_datetime : option Z;
  total_cash_sale : float;
  grand_total_cash_sale : float;
  report_tip : float;
  total_return : float;
  report_datetime_start : option Z;
  grand_total_cash_sale_previous : option float;
  grand_total_diff_from_previous : float;
  grand_total_check : bool;
  skip : option bool
}.

(** The class variables [__last_datetime] and
    [__last_grand_total_cash_sale]. *)
Record ClassVars : Type := mkClassVars {
  last_datetime : option Z;
  last_grand_total_cash_sale : option float
}.

(** [convert_to_datetime("2000-01-01", "00:00:00")]: midnight of
    2000-01-01 at UTC+1, in seconds since the epoch. *)
Definition default_datetime : option Z := Some 946681200.

(** [EventReport.reset_class_variables]. *)
Definition reset_class_variables : ClassVars :=
  {| last_datetime := default_datetime; last_grand_total_cash_sale := None |}.

Section WithBuiltins.
Context `{PyBuiltins}.

(** [EventReport.__init__], threading the class variables. *)
Definition init (event_report : XmlEventReport) (cls : ClassVars) : t * ClassVars :=
  let report_type_ := get_text_from_element (x_reportType event_report) in
  let total_cash_sale_ := to_float (x_totalCashSaleAmnt event_report) in
  let grand_total_cash_sale_ := to_float (x_reportGrandTotalSales event_report) in
  let diff := (grand_total_cash_sale_ - total_cash_sale_)%float in
  let self :=
    {| element := x_eventReport_element event_report;
       report_type := report_type_;
       report_datetime := x_report_datetime event_report;
       total_cash_sale := total_cash_sale_;
       grand_total_cash_sale := grand_total_cash_sale_;
       report_tip := to_float (x_tipAmnt event_report);
       total_return := to_float (x_reportReturnAmnt event_report);
       report_datetime_start := last_datetime cls;
       grand_total_cash_sale_previous := last_grand_total_cash_sale cls;
       grand_total_diff_from_previous := diff;
       grand_total_check :=
         match last_grand_total_cash_sale cls with
         | None => true
         | Some previous => (PrimFloat.abs (diff - previous) <=? tolerance)%float
         end;
       skip := if bool_decide (last_datetime cls = default_datetime)
               then Some true else None |} in
  (self,
   if bool_decide (report_type_ = Some "Z report")
   then {| last_datetime := x_report_datetime event_report;
           last_grand_total_cash_sale := Some grand_total_cash_sale_ |}
   else cls).
End WithBuiltins.
End EventReport.

(** ** Domain model extraction (main.py) *)

(** A [cashregister] element: the text of its [registerID] and the
    [cashtransaction], [eventReport] and [event] elements below it, in
    document order. *)
Record XmlCashRegister : Type := mkXmlCashRegister {
  x_registerID : option string;
  x_cashtransactions : list XmlCashTrans;
  x_eventReports : list XmlEventReport;
  x_events : list XmlEvent
}.

Definition dict_mem {K V : Type} `{EqDecision K} (d : Dict K V) (k : K) : bool :=
  bool_decide (dict_get d k <> None).

(** [d[k] = v]. *)
Fixpoint dict_set {K V : Type} `{EqDecision K} (d : Dict K V) (k : K) (v : V) : Dict K V :=
  match d with
  | [] => [(k, v)]
  | (k', v') :: t =>
      if bool_decide (k' = k) then (k', v) :: t else (k', v') :: dict_set t k v
  end.

Section Extraction.
Context `{PyBuiltins}.

(** Inner loop of [__gen_all_cash_trans]. *)
Fixpoint gen_cash_trans_of_register (reg_id : option string)
    (cash_transs : list XmlCashTrans) (cls : CashTrans.ClassVars)
    (all_cash_trans : Dict (option string) (list CashTrans.t))
    : M (Dict (option string) (list CashTrans.t)) :=
  match cash_transs with
  | [] => ret all_cash_trans
  | cash_trans :: rest =>
      bind (CashTrans.init cash_trans cls) (fun '(cash_trans_obj, cls') =>
      gen_cash_trans_of_register reg_id rest cls'
        (dict_append all_cash_trans reg_id cash_trans_obj))
  end.

(** Outer loop of [__gen_all_cash_trans]. *)
Fixpoint gen_cash_trans_of_registers (cash_regs : list XmlCashRegister)
    (all_cash_trans : Dict (option string) (list CashTrans.t))
    : M (Dict (option string) (list CashTrans.t)) :=
  match cash_regs with
  | [] => ret all_cash_trans
  | cash_reg :: rest =>
      bind (gen_cash_trans_of_register (x_registerID cash_reg)
              (x_cashtransactions cash_reg) CashTrans.reset_class_variables
              all_cash_trans)
           (fun d => gen_cash_trans_of_registers rest d)
  end.

(** [XMLValidator.__gen_all_cash_trans]. *)
Definition gen_all_cash_trans (cash_regs : list XmlCashRegister)
    : M (Dict (option string) (list CashTrans.t)) :=
  gen_cash_trans_of_registers cash_regs [].

(** The dictionaries [__all_z_reports] and [__all_x_reports]. *)
Record Reports : Type := mkReports {
  all_z_reports : Dict (option string) (list EventReport.t);
  all_x_reports : Dict (option string) (list EventReport.t)
}.

(** One iteration of the inner loop of [__gen_all_event_reports]. *)
Definition add_event_report (reg_id : option string) (event_report : XmlEventReport)
    (acc : Reports * EventReport.ClassVars) : Reports * EventReport.ClassVars :=
  let '(reports, cls) := acc in
  match x_reportType event_report with
  | None => (reports, cls)
  | Some report_type =>
      let '(event_report_obj, cls') := EventReport.init event_report cls in
      let is_z := bool_decide (text report_type = Some "Z report") in
      let is_x := bool_decide (text report_type = Some "X report") in
      let reports' :=
        if dict_mem (all_z_reports reports) reg_id && is_z
        then {| all_z_reports := dict_append (all_z_reports reports) reg_id event_report_obj;
                all_x_reports := all_x_reports reports |}
        else if dict_mem (all_x_reports reports) reg_id && is_x
        then {| all_z_reports := all_z_reports reports;
                all_x_reports := dict_append (all_x_reports reports) reg_id event_report_obj |}
        else if is_z
        then {| all_z_reports := dict_set (all_z_reports reports) reg_id [event_report_obj];
                all_x_reports := all_x_reports reports |}
        else if is_x
        then {| all_z_reports := all_z_reports reports;
                all_x_reports := dict_set (all_x_reports reports) reg_id [event_report_obj] |}
        else reports in
      (reports', cls')
  end.

(** [XMLValidator.__gen_all_event_reports]: the class variables are reset
    for every [cashregister] element. *)
Definition gen_all_event_reports (cash_regs : list XmlCashRegister) : Reports :=
  fold_left
    (fun reports cash_reg =>
       fst (fold_left (fun acc event_report =>
                         add_event_report (x_registerID cash_reg) event_report acc)
                      (x_eventReports cash_reg)
                      (reports, EventReport.reset_class_variables)))
    cash_regs
    {| all_z_reports := []; all_x_reports := [] |}.
End Extraction.

(** ** Value validator (modules/validate_value_test.py) *)

Definition param_of_string (s : option string) : Param :=
  match s with
  | Some x => PStr x
  | None => PNone
  end.

(** [log_validation_error] on an element that may be [None]: reading the tag
    of [None] raises AttributeError. *)
Definition log_validation_error_on (check_ : Check) (element_ : option Element)
    (error_type : string) (special_error_msg : option (list Param)) : M unit :=
  match element_ with
  | Some e => lift (log_validation_error check_ e error_type special_error_msg)
  | None => raise "AttributeError"
  end.

Module XMLValueTestValidator.

(** [filter_transactions_on_date]: the chained comparison
    [start_date < t.cash_tran_datetime <= end_date] raises TypeError on a
    [None] operand it evaluates; any exception makes the result [None]. *)
Fixpoint filter_transactions_on_date (transactions : list CashTrans.t)
    (start_date end_date : option Z) : option (list CashTrans.t) :=
  match transactions with
  | [] => Some []
  | trans :: rest =>
      match start_date, CashTrans.cash_tran_datetime trans with
      | Some s, Some d =>
          if s <? d
          then match end_date with
               | Some e =>
                   match filter_transactions_on_date rest start_date end_date with
                   | Some l => Some (if d <=? e then trans :: l else l)
                   | None => None
                   end
               | None => None
               end
          else filter_transactions_on_date rest start_date end_date
      | _, _ => None
      end
  end.

Section WithBuiltins.
Context `{PyBuiltins}.
Variable all_basics : list Basics.
Variable cash_transactions : Dict (option string) (list CashTrans.t).

(** Body of the inner loop of [__event_report_vs_cash_trans]. *)
Definition event_report_vs_cash_trans_report (cash_reg : option string)
    (event_report : EventReport.t) : M unit :=
  match EventReport.skip event_report with
  | Some _ => ret tt
  | None =>
      match dict_get cash_transactions cash_reg with
      | None => raise "KeyError"
      | Some transactions =>
          match filter_transactions_on_date transactions
                  (EventReport.report_datetime_start event_report)
                  (EventReport.report_datetime event_report) with
          | Some cash_trans =>
              let included :=
                List.filter (fun x => negb (CashTrans.to_be_excluded all_basics x))
                            cash_trans in
              let tips_amnt := py_sum (map (CashTrans.tips all_basics) included) in
              let cash_trans_amnt :=
                (py_sum (map CashTrans.trans_amnt_incl_fl included)
                 + PrimFloat.abs (EventReport.total_return event_report))%float in
              bind (if negb (PrimFloat.abs (cash_trans_amnt
                               - EventReport.total_cash_sale event_report)
                             <=? tolerance)%float
                    then lift (fun st => set_value_error
                           (log_validation_error value_check
                              (EventReport.element event_report)
                              event_report_total_cash_sales
                              (Some [PNum (EventReport.total_cash_sale event_report);
                                     PNum cash_trans_amnt]) st))
                    else ret tt) (fun _ =>
              bind (if negb (PrimFloat.abs (tips_amnt
                               - EventReport.report_tip event_report)
                             <=? tolerance)%float
                    then lift (fun st => set_value_error
                           (log_validation_error value_check
                              (EventReport.element event_report)
                              event_report_tips
                              (Some [PNum (EventReport.report_tip event_report);
                                     PNum tips_amnt]) st))
                    else ret tt) (fun _ =>
              if negb (EventReport.grand_total_check event_report)
              then lift (fun st => set_value_error
                     (log_validation_error value_check
                        (EventReport.element event_report)
                        event_report_grand_total_sales
                        (Some [PNum (EventReport.grand_total_cash_sale event_report);
                               match EventReport.grand_total_cash_sale_previous event_report with
                               | Some p => PNum p
                               | None => PNone
                               end;
                               PNum (EventReport.total_cash_sale event_report)]) st))
              else ret tt))
          | None =>
              lift (fun st => set_value_error
                (log_validation_error value_check
                   (EventReport.element event_report)
                   event_report_could_not_run None st))
          end
      end
  end.

(** [__event_report_vs_cash_trans]. *)
Definition event_report_vs_cash_trans
    (event_reports : Dict (option string) (list EventReport.t)) : M unit :=
  for_each event_reports (fun '(cash_reg, event_reports_) =>
    for_each event_reports_ (event_report_vs_cash_trans_report cash_reg)).

(** [__check_continous_numbering_in_cash_tran_pr_cash_register]: [None]
    when there is at most one register. *)
Definition check_continous_numbering_in_cash_tran_pr_cash_register : option bool :=
  if (1 <? length (dict_keys cash_transactions))%nat
  then Some (fold_left
               (fun flag '(_, cash_trans) =>
                  fold_left (fun flag' cash_tran =>
                               if negb (CashTrans.nr_previous_check cash_tran)
                               then false else flag')
                            cash_trans flag)
               cash_transactions true)
  else None.

(** [__get_unique_transactions_nr]; membership in the set of floats is
    by [==]. *)
Definition get_unique_transactions_nr (cash_trans : list CashTrans.t)
    : list CashTrans.t :=
  fst (fold_left
         (fun '(unique_transactions, seen_nrs) trans =>
            if negb (existsb (fun s => (CashTrans.nr_fl trans =? s)%float) seen_nrs)
            then (unique_transactions ++ [trans], seen_nrs ++ [CashTrans.nr_fl trans])
            else (unique_transactions, seen_nrs))
         cash_trans ([], [])).

(** [list.sort(key=lambda obj: obj.nr_fl)]: stable, by [<] on the keys
    (exact when no key is NaN). *)
Fixpoint sort_insert (x : CashTrans.t) (l : list CashTrans.t) : list CashTrans.t :=
  match l with
  | [] => [x]
  | y :: t => if (CashTrans.nr_fl x <? CashTrans.nr_fl y)%float
              then x :: y :: t else y :: sort_insert x t
  end.

Definition sort_by_nr_fl (l : list CashTrans.t) : list CashTrans.t :=
  fold_left (fun acc x => sort_insert x acc) l [].

(** The loop of the cross-register check over the sorted transactions;
    [numbering] and [previous_numbering] are the loop variables. *)
Fixpoint global_numbering_loop (all_cash_trans : list CashTrans.t)
    (numbering : float) (previous_numbering : option string)
    (st : Validator) : Validator :=
  match all_cash_trans with
  | [] => st
  | cash_tran :: rest =>
      let st' :=
        if negb (PrimFloat.abs (CashTrans.nr_fl cash_tran - (numbering + 1))
                 <=? tolerance)%float
        then log_validation_error value_check
               (element (CashTrans.base cash_tran)) not_continous_numbering
               (Some [param_of_string (CashTrans.nr cash_tran);
                      param_of_string previous_numbering])
               (set_value_error st)
        else st in
      global_numbering_loop rest (CashTrans.nr_fl cash_tran)
        (CashTrans.nr cash_tran) st'
  end.

(** [__check_continous_numbering_in_cash_tran]. *)
Definition check_continous_numbering_in_cash_tran (st : Validator) : Validator :=
  let all_cash_trans := concat (dict_values cash_transactions) in
  let all_cash_trans := get_unique_transactions_nr all_cash_trans in
  let all_cash_trans := sort_by_nr_fl all_cash_trans in
  if bool_decide (check_continous_numbering_in_cash_tran_pr_cash_register = Some true)
  then log_validation_error_no_element value_check continous_numbering_pr_cash_reg
         (set_value_error st)
  else
    match all_cash_trans with
    | [] => st
    | first :: rest =>
        global_numbering_loop rest (CashTrans.nr_fl first) (CashTrans.nr first) st
    end.
End WithBuiltins.
End XMLValueTestValidator.

(** ** Mandatory-if-available (modules/validate_value_test.py) *)

(** What [__mandatory_if_available] reads from a missed object: its
    [basic_type_element], its [predefined_basic] and the pair returned by
    the rule. *)
Record Missed : Type := mkMissed {
  missed_basic_type_element : option Element;
  missed_predefined_basic : option string;
  missed_mandatory : string * bool
}.

Definition base_element_of (b : BaseElement) : option Element :=
  match basic_type_element b with
  | Some c => Some (child_element c)
  | None => None
  end.

Module MandatoryIfAvailable.
Section Rules.
(** The shared list of basics as the last rule, the one over the basics
    themselves, finds it: with the copies [get_basic] has appended to it by
    then. The other rules only look basics up in it. *)
Variable all_basics : list Basics.
Variable events : Dict (option string) (list Event.t).
Variable cash_transactions : Dict (option string) (list CashTrans.t).

(** [get_missed_mandatory(objects, attr)], for each class of objects. *)
Definition get_missed_mandatory {A : Type} (objects : list A)
    (attr : A -> string * bool) (element_of : A -> option Element)
    (predefined_basic_of : A -> option string) : list Missed :=
  map (fun obj => {| missed_basic_type_element := element_of obj;
                     missed_predefined_basic := predefined_basic_of obj;
                     missed_mandatory := attr obj |})
      (List.filter (fun obj => negb (snd (attr obj))) objects).

Definition all_events : list Event.t := concat (dict_values events).
Definition all_cash_trans : list CashTrans.t := concat (dict_values cash_transactions).
Definition all_payments : list Payment.t :=
  flat_map CashTrans.payments all_cash_trans.

Definition cash_trans_missed (attr : list Basics -> CashTrans.t -> string * bool)
    : list Missed :=
  get_missed_mandatory all_cash_trans (attr all_basics)
    (fun obj => base_element_of (CashTrans.base obj))
    (fun obj => predefined_basic all_basics (CashTrans.base obj)).

(** [__get_all_missed_mandatory_if_available]. *)
Definition get_all_missed_mandatory_if_available : list Missed :=
  get_missed_mandatory all_events (Event.mandatory_if_available_event_report all_basics)
    (fun obj => base_element_of (Event.base obj))
    (fun obj => Event_predefined_basic all_basics (Event.base obj))
  ++ get_missed_mandatory all_events (Event.mandatory_if_available_trans_id all_basics)
    (fun obj => base_element_of (Event.base obj))
    (fun obj => Event_predefined_basic all_basics (Event.base obj))
  ++ get_missed_mandatory all_payments
    (Payment.mandatory_if_available_payment_ref_id all_basics)
    (fun obj => base_element_of (Payment.base obj))
    (fun obj => predefined_basic all_basics (Payment.base obj))
  ++ cash_trans_missed CashTrans.mandatory_if_available_ct_line_qnt
  ++ cash_trans_missed CashTrans.mandatory_if_available_ct_line_art_id
  ++ cash_trans_missed CashTrans.mandatory_if_available_payment
  ++ cash_trans_missed CashTrans.mandatory_if_available_ct_line
  ++ get_missed_mandatory all_basics mandatory_if_available_predefined_basic_id
    (fun obj => Some (b_basic_type_element obj)) b_predefined_basic.

(** Body of the loop of [__mandatory_if_available]. *)
Definition log_missed (missed : Missed) : M unit :=
  bind (log_validation_error_on value_check (missed_basic_type_element missed)
          mandatory_if_available_error
          (Some [param_of_string (missed_predefined_basic missed);
                 PStr (fst (missed_mandatory missed))]))
       (fun _ => lift set_value_error).

(** [__mandatory_if_available]. *)
Definition mandatory_if_available_check : M unit :=
  for_each get_all_missed_mandatory_if_available log_missed.
End Rules.
End MandatoryIfAvailable.

(** ** Signature message (modules/conventions/variables.py, [Signature]) *)

Record Signature : Type := mkSignature {
  sig_prev_signature : string;
  sig_nr : option string;
  sig_trans_id : option string;
  sig_trans_type : option string;
  sig_trans_date : option string;
  sig_trans_time : option string;
  sig_emp_id : option string;
  sig_trans_amnt_in : option string;
  sig_trans_amnt_ex : option string;
  sig_register_id : option string;
  sig_company_ident : option string
}.

(** [f"{x}"] of an optional string. *)
Definition py_str (s : option string) : string :=
  match s with
  | Some x => x
  | None => "None"
  end.

(** [Signature.full_message]. *)
Definition full_message (m : Signature) : string :=
  String.concat ";"
    [sig_prev_signature m; py_str (sig_nr m); py_str (sig_trans_id m);
     py_str (sig_trans_type m); py_str (sig_trans_date m); py_str (sig_trans_time m);
     py_str (sig_emp_id m); py_str (sig_trans_amnt_in m); py_str (sig_trans_amnt_ex m);
     py_str (sig_register_id m); py_str (sig_company_ident m)].

(** [signature_message.prev_signature = "0"]. *)
Definition reset_prev_signature (m : Signature) : Signature :=
  {| sig_prev_signature := "0"; sig_nr := sig_nr m; sig_trans_id := sig_trans_id m;
     sig_trans_type := sig_trans_type m; sig_trans_date := sig_trans_date m;
     sig_trans_time := sig_trans_time m; sig_emp_id := sig_emp_id m;
     sig_trans_amnt_in := sig_trans_amnt_in m; sig_trans_amnt_ex := sig_trans_amnt_ex m;
     sig_register_id := sig_register_id m; sig_company_ident := sig_company_ident m |}.

(** ** Signature mode discovery (modules/conventions/verify_signature.py) *)

Inductive VerifyMethod : Type :=
  | verify_with_pkcs1_v1_5
  | verify_with_pss_digest_length
  | verify_with_pss_max_length.

Inductive EncodeMethod : Type :=
  | encode_full_message
  | encode_full_message_sha512
  | encode_full_message_hh_mm_ss
  | encode_full_message_sha512_hh_mm_ss.

#[global] Instance VerifyMethod_eq_dec : EqDecision VerifyMethod.
Proof. solve_decision. Defined.

#[global] Instance EncodeMethod_eq_dec : EqDecision EncodeMethod.
Proof. solve_decision. Defined.

Definition Combination : Type := VerifyMethod * EncodeMethod.

(** What the cryptography library and the date handler contribute to one
    verification: hashing, time normalisation ([None]: it raises) and the
    RSA check ([Some true]: verified, [Some false]: InvalidSignature,
    [None]: any other exception). *)
Class Crypto : Type := {
  PublicKey : Type;
  sha512 : string -> string;
  message_hh_mm_ss : Signature -> option string;
  public_key_verify : PublicKey -> VerifyMethod -> string -> string -> option bool;
  b64decode : string -> option string;
  load_public_key : option string -> option PublicKey
}.

Module SignatureVerificationStrategy.
(** The class-level list [verification_priority], as the class body
    initialises it. *)
Definition verification_priority : list Combination :=
  [ (verify_with_pkcs1_v1_5, encode_full_message);
    (verify_with_pkcs1_v1_5, encode_full_message_sha512);
    (verify_with_pss_digest_length, encode_full_message);
    (verify_with_pss_digest_length, encode_full_message_sha512);
    (verify_with_pss_max_length, encode_full_message);
    (verify_with_pss_max_length, encode_full_message_sha512);
    (verify_with_pkcs1_v1_5, encode_full_message_hh_mm_ss);
    (verify_with_pkcs1_v1_5, encode_full_message_sha512_hh_mm_ss);
    (verify_with_pss_digest_length, encode_full_message_hh_mm_ss);
    (verify_with_pss_digest_length, encode_full_message_sha512_hh_mm_ss);
    (verify_with_pss_max_length, encode_full_message_hh_mm_ss);
    (verify_with_pss_max_length, encode_full_message_sha512_hh_mm_ss) ].

(** Result of [verify]: [True] (with the list as it leaves it), [None],
    or an exception. *)
Inductive VerifyResult : Type :=
  | VerifyTrue (priority : list Combination)
  | VerifyNone
  | VerifyRaise.

(** [_update_priority]: [pop(successful_idx)] then [insert(0, ...)];
    [pop] raises IndexError out of range. *)
Definition update_priority (priority : list Combination) (successful_idx : nat)
    : option (list Combination) :=
  match priority !! successful_idx with
  | Some successful_method => Some (successful_method :: delete successful_idx priority)
  | None => None
  end.

Section WithCrypto.
Context `{Crypto}.

(** [encode_method(message)]. *)
Definition encode (encode_method : EncodeMethod) (message : Signature)
    : option string :=
  match encode_method with
  | encode_full_message => Some (full_message message)
  | encode_full_message_sha512 => Some (sha512 (full_message message))
  | encode_full_message_hh_mm_ss => message_hh_mm_ss message
  | encode_full_message_sha512_hh_mm_ss =>
      match message_hh_mm_ss message with
      | Some m => Some (sha512 m)
      | None => None
      end
  end.

(** One iteration of the loop of [verify]: [Some true] when the
    combination verifies, [None] when it raises. *)
Definition try_combination (public_key : PublicKey) (message : Signature)
    (signature : string) (c : Combination) : option bool :=
  match encode (snd c) message with
  | Some message_to_verify =>
      public_key_verify public_key (fst c) signature message_to_verify
  | None => None
  end.

(** The loop of [verify] from position [idx] on; [priority] is the whole
    list, [rest] what is left to enumerate. *)
Fixpoint verify_from (public_key : PublicKey) (message : Signature)
    (signature : string) (priority : list Combination) (idx : nat)
    (rest : list Combination) : VerifyResult :=
  match rest with
  | [] => VerifyNone
  | c :: rest' =>
      match try_combination public_key message signature c with
      | None => VerifyRaise
      | Some true =>
          if bool_decide (idx <> O)
          then match update_priority priority idx with
               | Some priority' => VerifyTrue priority'
               | None => VerifyRaise
               end
          else VerifyTrue priority
      | Some false => verify_from public_key message signature priority (S idx) rest'
      end
  end.

(** [SignatureVerificationStrategy.verify], from the current value
    [priority] of the class-level list. *)
Definition verify (public_key : PublicKey) (priority : list Combination)
    (message : Signature) (signature : string) : VerifyResult :=
  verify_from public_key message signature priority O priority.
End WithCrypto.
End SignatureVerificationStrategy.

(** ** Signature validator (modules/validate_signature.py) *)

(** [str.strip()] whitespace, on ASCII. *)
Definition is_space (c : ascii) : bool :=
  let n := nat_of_ascii c in
  (((9 <=? n) && (n <=? 13)) || ((28 <=? n) && (n <=? 32)))%nat.

Fixpoint lstrip (l : list ascii) : list ascii :=
  match l with
  | [] => []
  | c :: t => if is_space c then lstrip t else c :: t
  end.

(** ["".join(text.split("\n")).strip()]. *)
Definition signature_text_of (text_ : string) : string :=
  let no_newlines :=
    List.filter (fun c => negb (bool_decide (c = "010"%char))) (list_ascii_of_string text_) in
  string_of_list_ascii (rev (lstrip (rev (lstrip no_newlines)))).

Module XMLSignatureValidator.
(** The local variables of [validate], the class-level priority list and
    the validator's attributes. [first_signature = None] stands for the
    unbound local. *)
Record State : Type := mkState {
  signature : option XmlChild;
  first_signature : option XmlChild;
  prev_signature : string;
  nr_of_errors : nat;
  nr_of_signatures : nat;
  priority : list Combination;
  validator : Validator
}.

Section WithCrypto.
Context `{Crypto}.
(** [dummy_variables.string_dummy], the company identifier of the master
    data and the result of [is_invalid_company_id] ([None]: it raises). *)
Variable string_dummy : string.
Variable company_id : option string.
Variable is_invalid_company_id : option bool.

Definition log_signature_error (element_ : Element) (error_type : string)
    (v : Validator) : Validator :=
  set_signature_error (log_validation_error signature_check element_ error_type None v).

(** [create_signature_message]. *)
Definition create_signature_message (prev_signature_ : string)
    (cash_tran : CashTrans.t) (cash_reg : option string) : Signature :=
  {| sig_prev_signature := prev_signature_;
     sig_nr := CashTrans.nr cash_tran;
     sig_trans_id := CashTrans.trans_id cash_tran;
     sig_trans_type := CashTrans.trans_type cash_tran;
     sig_trans_date := CashTrans.trans_date cash_tran;
     sig_trans_time := CashTrans.trans_time cash_tran;
     sig_emp_id := CashTrans.employee_id cash_tran;
     sig_trans_amnt_in := CashTrans.trans_amnt_incl cash_tran;
     sig_trans_amnt_ex := CashTrans.trans_amnt_excl cash_tran;
     sig_register_id := cash_reg;
     sig_company_ident := company_id |}.

(** Body of the inner loop of [validate]. *)
Definition validate_cash_tran (cash_reg : option string) (cash_tran : CashTrans.t)
    (s : State) : State :=
  let signature_ := CashTrans.signature_element cash_tran in
  let skipped :=
    mkState signature_ (first_signature s) (prev_signature s) (nr_of_errors s)
            (nr_of_signatures s) (priority s) (validator s) in
  match signature_ with
  | None => skipped
  | Some signature_element =>
      match text signature_element with
      | None => skipped
      | Some text_ =>
          if bool_decide (text_ = string_dummy) then skipped
          else
            let signature_text := signature_text_of text_ in
            let on_exception (counted : nat) :=
              mkState signature_ (first_signature s) (prev_signature s)
                      (S (nr_of_errors s)) counted (priority s)
                      (log_signature_error (child_element signature_element)
                         complete_error (validator s)) in
            if bool_decide (prev_signature s <> "0")
            then
              match b64decode signature_text with
              | None => on_exception (nr_of_signatures s)
              | Some signature_encoded =>
                  let counted := S (nr_of_signatures s) in
                  match load_public_key (CashTrans.certificate_data cash_tran) with
                  | None =>
                      mkState signature_ (first_signature s) (prev_signature s)
                              (S (nr_of_errors s)) counted (priority s)
                              (log_signature_error (child_element signature_element)
                                 certificate_error_type (validator s))
                  | Some public_key =>
                      match is_invalid_company_id with
                      | Some false =>
                          let signature_message :=
                            create_signature_message (prev_signature s) cash_tran cash_reg in
                          match SignatureVerificationStrategy.verify public_key (priority s)
                                  signature_message signature_encoded with
                          | SignatureVerificationStrategy.VerifyRaise => on_exception counted
                          | SignatureVerificationStrategy.VerifyTrue priority' =>
                              mkState signature_ (first_signature s) signature_text
                                      (nr_of_errors s) counted priority' (validator s)
                          | SignatureVerificationStrategy.VerifyNone =>
                              match SignatureVerificationStrategy.verify public_key (priority s)
                                      (reset_prev_signature signature_message)
                                      signature_encoded with
                              | SignatureVerificationStrategy.VerifyRaise => on_exception counted
                              | SignatureVerificationStrategy.VerifyTrue priority' =>
                                  mkState signature_ (first_signature s) signature_text
                                          (S (nr_of_errors s)) counted priority'
                                          (log_signature_error (child_element signature_element)
                                             signature_break (validator s))
                              | SignatureVerificationStrategy.VerifyNone =>
                                  mkState signature_ (first_signature s) signature_text
                                          (S (nr_of_errors s)) counted (priority s)
                                          (log_signature_error (child_element signature_element)
                                             could_not_verify (validator s))
                              end
                          end
                      | _ => on_exception counted
                      end
                  end
              end
            else
              mkState signature_ signature_ signature_text (nr_of_errors s)
                      (nr_of_signatures s) (priority s) (validator s)
      end
  end.

(** One iteration of the outer loop of [validate]; [None] is the
    UnboundLocalError of reading an unbound [first_signature]. *)
Definition validate_register (reg : option string * list CashTrans.t) (s : State)
    : option State :=
  let s0 := mkState (signature s) (first_signature s) "0" O O (priority s) (validator s) in
  let s1 := fold_left (fun acc cash_tran => validate_cash_tran (fst reg) cash_tran acc)
                      (snd reg) s0 in
  if ((nr_of_signatures s1 =? nr_of_errors s1) && negb (nr_of_errors s1 =? 0))%nat
  then match first_signature s1 with
       | Some first =>
           Some (mkState (signature s1) (first_signature s1) (prev_signature s1)
                         (nr_of_errors s1) (nr_of_signatures s1) (priority s1)
                         (log_signature_error (child_element first) could_not_verify
                            (validator s1)))
       | None => None
       end
  else Some s1.

Fixpoint validate_registers (regs : Dict (option string) (list CashTrans.t))
    (s : State) : option State :=
  match regs with
  | [] => Some s
  | reg :: rest =>
      match validate_register reg s with
      | Some s' => validate_registers rest s'
      | None => None
      end
  end.

(** [log_no_signature_error]. *)
Definition log_no_signature_error (v : Validator) : Validator :=
  append_validation
    {| check := signature_check; status := error;
       technical_error_type := Some no_signature;
       error_xml_element := Some signature_xml_element;
       error_row := None; complete_error_message := None;
       audit_trail := None; special_error_message := None |}
    (set_signature_error v).

(** [XMLSignatureValidator.validate]: the priority list and the
    validator after the pass ([None]: the pass raised). *)
Definition validate (cash_transactions : Dict (option string) (list CashTrans.t))
    (priority_ : list Combination) (v : Validator)
    : option (list Combination * Validator) :=
  match validate_registers cash_transactions
          (mkState None None "0" O O priority_ v) with
  | Some s =>
      match signature s with
      | None => Some (priority s, log_no_signature_error (validator s))
      | Some _ => Some (priority s, validator s)
      end
  | None => None
  end.
End WithCrypto.
End XMLSignatureValidator.

(** ** Schema Index (modules/conventions/variables.py, [SchemaCollection]) *)

(** An element of the parsed XSD document: local tag, attributes and
    children. *)
#[warnings="-register-all"] Inductive XsdNode : Type :=
  | XsdEl (xsd_tag : string) (attrib : list (string * string)) (children : list XsdNode).

Definition xsd_tag_of (n : XsdNode) : string :=
  match n with XsdEl t _ _ => t end.
Definition attrib_of (n : XsdNode) : list (string * string) :=
  match n with XsdEl _ a _ => a end.
Definition getchildren (n : XsdNode) : list XsdNode :=
  match n with XsdEl _ _ c => c end.

(** [attrib.get(key, None)]. *)
Definition attrib_get (n : XsdNode) (key : string) : option string :=
  dict_get (attrib_of n) key.

(** The descendants of a node in document order. *)
Fixpoint descendants (n : XsdNode) : list XsdNode :=
  match n with
  | XsdEl _ _ cs =>
      (fix go (l : list XsdNode) : list XsdNode :=
         match l with
         | [] => []
         | c :: t => c :: descendants c ++ go t
         end) cs
  end.

(** [node.findall(".//{http://www.w3.org/2001/XMLSchema}" + name)]. *)
Definition findall (n : XsdNode) (name : string) : list XsdNode :=
  List.filter (fun d => bool_decide (xsd_tag_of d = name)) (descendants n).

Record SchemaChild : Type := mkSchemaChild {
  sc_name : string;
  sc_optional : bool
}.

Record ElementInfo : Type := mkElementInfo {
  ei_name : string;
  ei_type : option string;
  ei_children : gmap string SchemaChild;
  ei_immediate_children : gmap string SchemaChild;
  ei_optional : bool;
  ei_parents : list string
}.

(** [True if attrib.get('minOccurs', None) is not None else False]. *)
Definition has_minOccurs (n : XsdNode) : bool :=
  bool_decide (attrib_get n "minOccurs" <> None).

(** The loop shared by the two child collectors: every node that carries a
    [name] attribute is entered under that name. *)
Definition collect_children (nodes : list XsdNode) : gmap string SchemaChild :=
  fold_left
    (fun acc child =>
       match attrib_get child "name" with
       | Some child_name => <[child_name := mkSchemaChild child_name (has_minOccurs child)]> acc
       | None => acc
       end)
    nodes ∅.

(** [__get_all_children_xsd]. *)
Definition get_all_children_xsd (xsd_element : XsdNode) : gmap string SchemaChild :=
  collect_children (findall xsd_element "element").

(** [__get_all_immediate_children]. *)
Definition get_all_immediate_children (xsd_element : XsdNode) : gmap string SchemaChild :=
  match findall xsd_element "sequence" with
  | current_sequence :: _ => collect_children (getchildren current_sequence)
  | [] => ∅
  end.

(** The [ElementInfo] built for one declaration by
    [__build_schema_collection]. *)
Definition element_info (element_name : string) (xsd_element : XsdNode) : ElementInfo :=
  {| ei_name := element_name;
     ei_type := attrib_get xsd_element "type";
     ei_children := get_all_children_xsd xsd_element;
     ei_immediate_children := get_all_immediate_children xsd_element;
     ei_optional := has_minOccurs xsd_element;
     ei_parents := [] |}.

(** [__build_schema_collection]. *)
Definition build_schema_collection (schema : XsdNode) : gmap string ElementInfo :=
  fold_left
    (fun elements xsd_element =>
       match attrib_get xsd_element "name" with
       | Some element_name => <[element_name := element_info element_name xsd_element]> elements
       | None => elements
       end)
    (findall schema "element") ∅.

(** [[x.name for x in info.immediate_children.values()]]. *)
Definition immediate_children_names (info : ElementInfo) : list string :=
  map (fun kv => sc_name (snd kv)) (map_to_list (ei_immediate_children info)).

(** [__generate_all_parents]. *)
Definition generate_all_parents (elements : gmap string ElementInfo)
    : gmap string ElementInfo :=
  (fun info =>
     {| ei_name := ei_name info; ei_type := ei_type info;
        ei_children := ei_children info;
        ei_immediate_children := ei_immediate_children info;
        ei_optional := ei_optional info;
        ei_parents :=
          map fst (List.filter
                     (fun kv => bool_decide (ei_name info ∈ immediate_children_names (snd kv)))
                     (map_to_list elements)) |}) <$> elements.

(** [SchemaCollection.__init__]: the [elements] dictionary. *)
Definition SchemaCollection (schema : XsdNode) : gmap string ElementInfo :=
  generate_all_parents (build_schema_collection schema).

(** ** Structure validator (modules/validate_structure.py) *)

(** The parsed document as a store of elements: lxml elements are mutable
    objects compared by identity, so they are names into the store. *)
Definition ElemId : Type := nat.

Record Node : Type := mkNode {
  node_tag : string;
  node_text : option string;
  node_parent : option ElemId;
  node_children : list ElemId
}.

(** An entry of the XSD validator's error log. *)
Record LogEntry : Type := mkLogEntry {
  message : string;
  type_name : string;
  line : Z
}.

(** [AddedDummy]; [__eq__] and [__hash__] use the parent and the tag. *)
Record AddedDummy : Type := mkAddedDummy {
  parent_element : option ElemId;
  added_element : ElemId;
  dummy_row : Z;
  name_of_added_element : string
}.

(** The healing strategies, named after the methods that implement them. *)
Inductive Strategy : Type :=
  | if_element_should_not_exist
  | out_of_sequence_error
  | multiple_of_same_element
  | missing_child_strategy
  | want_to_build_optional
  | add_expected_element_above.

#[global] Instance Strategy_eq_dec : EqDecision Strategy.
Proof. solve_decision. Defined.

Module XMLStructureValidator.
(** The document, the Line Map, the Added-Dummies set, the findings and
    [handled_error]. [calls] is not program state: it records the order in
    which the strategy methods are entered. *)
Record State : Type := mkState {
  tree : gmap ElemId Node;
  fresh : ElemId;
  line_mapping : gmap ElemId (Z * bool);
  dummies : list AddedDummy;
  findings : list Validation;
  handled_error : option bool;
  calls : list Strategy
}.

(** State and exceptions: what was done before an exception stays done. *)
Definition SM (A : Type) : Type := State -> (string + A) * State.

Definition sret {A : Type} (a : A) : SM A := fun st => (inr a, st).
Definition sraise {A : Type} (exn : string) : SM A := fun st => (inl exn, st).
Definition sbind {A B : Type} (m : SM A) (k : A -> SM B) : SM B :=
  fun st => match m st with
            | (inr a, st') => k a st'
            | (inl e, st') => (inl e, st')
            end.
Definition sget : SM State := fun st => (inr st, st).
Definition smodify (f : State -> State) : SM unit := fun st => (inr tt, f st).

Declare Scope sm_scope.
Delimit Scope sm_scope with sm.
Notation "x <- m ;; k" := (sbind m (fun x => k))
  (at level 62, m at next level, right associativity) : sm_scope.
Notation "m ;;; k" := (sbind m (fun _ => k))
  (at level 62, right associativity) : sm_scope.

Fixpoint sfor_each {A : Type} (xs : list A) (body : A -> SM unit) : SM unit :=
  match xs with
  | [] => sret tt
  | x :: t => sbind (body x) (fun _ => sfor_each t body)
  end.

Definition set_tree (t : gmap ElemId Node) (st : State) : State :=
  mkState t (fresh st) (line_mapping st) (dummies st) (findings st)
          (handled_error st) (calls st).
Definition set_fresh (n : ElemId) (st : State) : State :=
  mkState (tree st) n (line_mapping st) (dummies st) (findings st)
          (handled_error st) (calls st).
Definition set_line_mapping (lm : gmap ElemId (Z * bool)) (st : State) : State :=
  mkState (tree st) (fresh st) lm (dummies st) (findings st)
          (handled_error st) (calls st).
Definition set_dummies (d : list AddedDummy) (st : State) : State :=
  mkState (tree st) (fresh st) (line_mapping st) d (findings st)
          (handled_error st) (calls st).
Definition add_finding (v : Validation) (st : State) : State :=
  mkState (tree st) (fresh st) (line_mapping st) (dummies st) (findings st ++ [v])
          (handled_error st) (calls st).
Definition set_handled_error (h : option bool) (st : State) : State :=
  mkState (tree st) (fresh st) (line_mapping st) (dummies st) (findings st)
          h (calls st).
Definition enter (s : Strategy) (st : State) : State :=
  mkState (tree st) (fresh st) (line_mapping st) (dummies st) (findings st)
          (handled_error st) (calls st ++ [s]).

(** [tag.split("}")[-1]]. *)
Fixpoint after_last_brace (acc : string) (s : string) : string :=
  match s with
  | EmptyString => acc
  | String c rest =>
      if bool_decide (c = "}"%char) then after_last_brace "" rest
      else after_last_brace (acc ++ String c "")%string rest
  end.

(** [XMLValidator.extract_tag_from_tag]; [None] has no [split]. *)
Definition extract_tag_from_tag (tag_ : option string) : SM string :=
  match tag_ with
  | Some t => sret (after_last_brace "" t)
  | None => sraise "AttributeError"
  end.

(** Reading an element; a name outside the store is an error. *)
Definition node_of (e : ElemId) : SM Node :=
  fun st => match tree st !! e with
            | Some n => (inr n, st)
            | None => (inl "ReferenceError", st)
            end.

(** [XMLValidator.extract_tag_from_element]; [None] has no [tag]. *)
Definition extract_tag_from_element (element_ : option ElemId) : SM string :=
  match element_ with
  | Some e => sbind (node_of e) (fun n => sret (after_last_brace "" (node_tag n)))
  | None => sraise "AttributeError"
  end.

(** [element.getparent()]. *)
Definition getparent (e : ElemId) : SM (option ElemId) :=
  sbind (node_of e) (fun n => sret (node_parent n)).

(** [element.getchildren()]; [None] has no [getchildren]. *)
Definition getchildren_of (element_ : option ElemId) : SM (list ElemId) :=
  match element_ with
  | Some e => sbind (node_of e) (fun n => sret (node_children n))
  | None => sraise "AttributeError"
  end.

(** [XMLValidator.get_row_nr]. *)
Definition get_row_nr (elem : ElemId) : SM Z :=
  fun st =>
    match line_mapping st !! elem with
    | Some (row_, _) =>
        if row_ =? 0
        then match tree st !! elem with
             | Some n =>
                 match node_parent n with
                 | Some p => match line_mapping st !! p with
                             | Some (prow, _) => (inr prow, st)
                             | None => (inl "KeyError", st)
                             end
                 | None => (inl "KeyError", st)
                 end
             | None => (inl "ReferenceError", st)
             end
        else (inr row_, st)
    | None => (inl "KeyError", st)
    end.

(** [__gen_parent_tree]: the ancestors, nearest first. The element count
    bounds the depth of a tree. *)
Fixpoint gen_parent_tree (fuel : nat) (t : gmap ElemId Node) (e : ElemId)
    : list ElemId :=
  match fuel with
  | O => []
  | S fuel' =>
      match t !! e with
      | Some n => match node_parent n with
                  | Some p => p :: gen_parent_tree fuel' t p
                  | None => []
                  end
      | None => []
      end
  end.

Section WithSchema.
(** The Schema Index, the audit-trail translation table and
    [__get_dummy_text] (its table [get_dummy] is in a module that is not
    part of the sources; [None]: the lookup raises). *)
Variable schema_dict : gmap string ElementInfo.
Variable audit_trail_translated : gmap string string.
Variable get_dummy_text : string -> option string.

(** [XMLValidator.get_audit_trail]. *)
Definition get_audit_trail (xml_element : ElemId) : SM string :=
  fun st =>
    let parents := rev (gen_parent_tree (size (tree st)) (tree st) xml_element) in
    let tags := map (fun p => match tree st !! p with
                              | Some n => after_last_brace "" (node_tag n)
                              | None => ""
                              end) parents in
    let audit_trail_ := String.concat "/" tags in
    match audit_trail_translated !! audit_trail_ with
    | Some translated => (inr translated, st)
    | None => (inr audit_trail_, st)
    end.

(** [XMLValidator.log_validation_error] for the structure check. *)
Definition log_validation_error_at (element_ : ElemId) (error_type : string)
    : SM unit :=
  sbind (extract_tag_from_element (Some element_)) (fun tag_ =>
  sbind (get_row_nr element_) (fun row_ =>
  sbind (get_audit_trail element_) (fun trail_ =>
  smodify (add_finding
    {| check := structure_check; status := error;
       technical_error_type := Some error_type;
       error_xml_element := Some tag_;
       error_row := Some row_;
       complete_error_message := None;
       audit_trail := Some trail_;
       special_error_message := None |})))).

(** [log_structural_error]. *)
Definition log_structural_error (element_ : ElemId) (error_ : LogEntry)
    (error_tag_name : string) : SM unit :=
  sbind (get_row_nr element_) (fun row_ =>
  sbind (get_audit_trail element_) (fun trail_ =>
  smodify (add_finding
    {| check := structure_check; status := error;
       technical_error_type := Some (type_name error_);
       error_xml_element := Some error_tag_name;
       error_row := Some row_;
       complete_error_message := None;
       audit_trail := Some trail_;
       special_error_message := None |}))).

(** [parent_element.remove(element)]. *)
Definition remove_child (parent : option ElemId) (e : ElemId) : SM unit :=
  match parent with
  | None => sraise "AttributeError"
  | Some p =>
      sbind (node_of p) (fun pn =>
      sbind (node_of e) (fun en =>
      if bool_decide (e ∈ node_children pn)
      then smodify (fun st =>
             set_tree
               (<[e := mkNode (node_tag en) (node_text en) None (node_children en)]>
                  (<[p := mkNode (node_tag pn) (node_text pn) (node_parent pn)
                                 (List.filter (fun c => negb (bool_decide (c = e)))
                                              (node_children pn))]>
                     (tree st))) st)
      else sraise "ValueError"))
  end.

(** [etree.Element(tag)]: a new element without parent, text or
    children; a [None] tag is a TypeError. *)
Definition new_element (tag_ : option string) : SM ElemId :=
  match tag_ with
  | None => sraise "TypeError"
  | Some t =>
      fun st =>
        let e := fresh st in
        (inr e, set_fresh (S e) (set_tree (<[e := mkNode t None None []]> (tree st)) st))
  end.

(** [element_to_add.text = self.__get_dummy_text(expected_element_name)];
    a missing dummy is a KeyError. *)
Definition set_dummy_text (e : ElemId) (expected_element_name : string) : SM unit :=
  match get_dummy_text expected_element_name with
  | None => sraise "KeyError"
  | Some dummy =>
      sbind (node_of e) (fun n =>
      smodify (fun st =>
        set_tree (<[e := mkNode (node_tag n) (Some dummy) (node_parent n)
                                (node_children n)]> (tree st)) st))
  end.

(** Appending [e] to the children of [p]. *)
Definition append_child (p e : ElemId) : SM unit :=
  sbind (node_of p) (fun pn =>
  sbind (node_of e) (fun en =>
  smodify (fun st =>
    set_tree
      (<[e := mkNode (node_tag en) (node_text en) (Some p) (node_children en)]>
         (<[p := mkNode (node_tag pn) (node_text pn) (node_parent pn)
                        (node_children pn ++ [e])]> (tree st))) st))).

Fixpoint insert_before (x new : ElemId) (l : list ElemId) : list ElemId :=
  match l with
  | [] => []
  | y :: t => if bool_decide (y = x) then new :: y :: t else y :: insert_before x new t
  end.

(** [element.addprevious(new)]: an element without a parent cannot get
    an element sibling. *)
Definition addprevious (e new : ElemId) : SM unit :=
  sbind (node_of e) (fun en =>
  match node_parent en with
  | None => sraise "TypeError"
  | Some p =>
      sbind (node_of p) (fun pn =>
      sbind (node_of new) (fun nn =>
      smodify (fun st =>
        set_tree
          (<[new := mkNode (node_tag nn) (node_text nn) (Some p) (node_children nn)]>
             (<[p := mkNode (node_tag pn) (node_text pn) (node_parent pn)
                            (insert_before e new (node_children pn))]> (tree st))) st)))
  end).

(** [AddedDummies.has_dummy_by_name]. *)
Definition has_dummy_by_name (d : list AddedDummy) (parent : option ElemId)
    (element_name : string) : bool :=
  existsb (fun dummy => bool_decide (parent_element dummy = parent)
                        && bool_decide (name_of_added_element dummy = element_name)) d.

(** [AddedDummies.add_dummy]. *)
Definition add_dummy (parent : option ElemId) (added : ElemId) (row_ : Z) : SM unit :=
  sbind (node_of added) (fun n =>
  smodify (fun st =>
    if existsb (fun dummy => bool_decide (parent_element dummy = parent)
                             && bool_decide (name_of_added_element dummy = node_tag n))
               (dummies st)
    then st
    else set_dummies (dummies st ++ [mkAddedDummy parent added row_ (node_tag n)]) st)).

(** [__line_mapping_log_add_dummy]. *)
Definition line_mapping_log_add_dummy (element_to_add : ElemId) (error_ : LogEntry)
    (expected_element_name : string) (element_for_row_nr : ElemId) : SM unit :=
  sbind (get_row_nr element_for_row_nr) (fun row_ =>
  sbind (smodify (fun st =>
           set_line_mapping (<[element_to_add := (row_, true)]> (line_mapping st)) st))
        (fun _ =>
  sbind (log_structural_error element_to_add error_
           (after_last_brace "" expected_element_name)) (fun _ =>
  sbind (getparent element_to_add) (fun parent =>
  sbind (get_row_nr element_to_add) (fun row' =>
  add_dummy parent element_to_add row'))))).

(** [add_expected_element_above_not_expected]. *)
Definition add_expected_element_above_not_expected (not_expected_element : ElemId)
    (expected_element_name : option string) (error_ : LogEntry) : SM unit :=
  sbind (smodify (enter add_expected_element_above)) (fun _ =>
  sbind (new_element expected_element_name) (fun element_to_add =>
  let name := default "" expected_element_name in
  sbind (set_dummy_text element_to_add name) (fun _ =>
  sbind (addprevious not_expected_element element_to_add) (fun _ =>
  line_mapping_log_add_dummy element_to_add error_ name not_expected_element)))).

(** [add_missing_child_element]: [etree.SubElement] attaches the new
    element before its text is looked up. *)
Definition add_missing_child_element (parent : ElemId)
    (expected_element_name : option string) (error_ : LogEntry) : SM unit :=
  sbind (new_element expected_element_name) (fun element_to_add =>
  let name := default "" expected_element_name in
  sbind (append_child parent element_to_add) (fun _ =>
  sbind (set_dummy_text element_to_add name) (fun _ =>
  line_mapping_log_add_dummy element_to_add error_ name parent))).

(** [XMLValidator.missing_child in error.message]. *)
Definition missing_child : string := "Missing child element".

Fixpoint is_substring (p s : string) : bool :=
  String.prefix p s ||
  match s with
  | EmptyString => false
  | String _ rest => is_substring p rest
  end.

Definition is_missing_child (error_ : LogEntry) : bool :=
  is_substring missing_child (message error_).

(** [handle_if_element_should_not_exist]. *)
Definition handle_if_element_should_not_exist (not_expected_element : ElemId)
    (parent : option ElemId) : SM unit :=
  sbind (smodify (enter if_element_should_not_exist)) (fun _ =>
  sbind (extract_tag_from_element parent) (fun parent_name =>
  sbind (extract_tag_from_element (Some not_expected_element))
        (fun not_expected_element_name =>
  match schema_dict !! parent_name with
  | Some info =>
      if negb (bool_decide (not_expected_element_name ∈ immediate_children_names info))
      then
        sbind (log_validation_error_at not_expected_element out_of_sequence) (fun _ =>
        sbind (remove_child parent not_expected_element) (fun _ =>
        smodify (set_handled_error (Some true))))
      else sret tt
  | None => sret tt
  end))).

(** [handle_out_of_sequence_error]. *)
Definition handle_out_of_sequence_error (parent : option ElemId)
    (not_expected_element : ElemId) (not_expected_element_name : string) : SM unit :=
  sbind (smodify (enter out_of_sequence_error)) (fun _ =>
  sbind sget (fun st =>
  if has_dummy_by_name (dummies st) parent not_expected_element_name
  then
    sbind (log_validation_error_at not_expected_element out_of_sequence) (fun _ =>
    sbind (remove_child parent not_expected_element) (fun _ =>
    smodify (set_handled_error (Some true))))
  else sret tt)).

(** The elements of [children] whose tag is [name], in order
    ([[x for x in parent.getchildren() if x.tag == name]]). *)
Fixpoint with_tag (name : string) (children : list ElemId) : SM (list ElemId) :=
  match children with
  | [] => sret []
  | x :: t =>
      sbind (node_of x) (fun n =>
      sbind (with_tag name t) (fun l =>
      sret (if bool_decide (node_tag n = name) then x :: l else l)))
  end.

(** [handle_multiple_of_same_element]: the [while] loop removes the
    identical elements from the last one down to the second. *)
Definition handle_multiple_of_same_element (not_expected_element : ElemId)
    (not_expected_element_name : string) (parent : option ElemId) : SM unit :=
  sbind (smodify (enter multiple_of_same_element)) (fun _ =>
  sbind (getchildren_of (Some not_expected_element)) (fun own_children =>
  match own_children with
  | [] =>
      sbind (getchildren_of parent) (fun siblings =>
      sbind (with_tag not_expected_element_name siblings) (fun all_identical_elements =>
      if (1 <? length all_identical_elements)%nat
      then
        sbind (sfor_each (rev (tl all_identical_elements)) (fun x =>
                 sbind (log_validation_error_at x out_of_sequence) (fun _ =>
                 remove_child parent x))) (fun _ =>
        smodify (set_handled_error (Some true)))
      else sret tt))
  | _ => sret tt
  end)).

(** [handle_missing_child]; its [parent_element] argument is the
    offending element. *)
Definition handle_missing_child (error_ : LogEntry) (parent : ElemId)
    (expected_element_name : option string) : SM unit :=
  sbind (smodify (enter missing_child_strategy)) (fun _ =>
  if is_missing_child error_
  then sbind (add_missing_child_element parent expected_element_name error_) (fun _ =>
       smodify (set_handled_error (Some true)))
  else sret tt).

(** [handle_want_to_build_optional]. *)
Definition handle_want_to_build_optional (not_expected_element : ElemId)
    (expected_element_name : option string) (parent : option ElemId) : SM unit :=
  sbind (smodify (enter want_to_build_optional)) (fun _ =>
  sbind (extract_tag_from_element parent) (fun parent_name =>
  sbind (extract_tag_from_tag expected_element_name) (fun expected_element_name_ =>
  match schema_dict !! parent_name with
  | Some info =>
      if bool_decide (expected_element_name_ ∈ immediate_children_names info)
      then match ei_immediate_children info !! expected_element_name_ with
           | Some child =>
               if sc_optional child
               then
                 sbind (log_validation_error_at not_expected_element out_of_sequence)
                       (fun _ =>
                 sbind (remove_child parent not_expected_element) (fun _ =>
                 smodify (set_handled_error (Some true))))
               else sret tt
           | None => sraise "KeyError"
           end
      else sret tt
  | None => sret tt
  end))).

(** [if self.handled_error is None: ...]. *)
Definition if_not_handled (m : SM unit) : SM unit :=
  sbind sget (fun st =>
  match handled_error st with
  | None => m
  | Some _ => sret tt
  end).

(** Body of the loop of [handle_structural_errors], once
    [extract_error_element_and_name] has located the offender. *)
Definition handle_structure_error (structure_error_ : LogEntry)
    (expected_element_name : option string) (not_expected_element : ElemId)
    (not_expected_element_name : string) : SM unit :=
  sbind (smodify (set_handled_error None)) (fun _ =>
  sbind (getparent not_expected_element) (fun parent =>
  sbind (if_not_handled
           (handle_if_element_should_not_exist not_expected_element parent)) (fun _ =>
  sbind (if_not_handled
           (if negb (is_missing_child structure_error_)
            then handle_out_of_sequence_error parent not_expected_element
                   not_expected_element_name
            else sret tt)) (fun _ =>
  sbind (if_not_handled
           (handle_multiple_of_same_element not_expected_element
              not_expected_element_name parent)) (fun _ =>
  sbind (if_not_handled
           (handle_missing_child structure_error_ not_expected_element
              expected_element_name)) (fun _ =>
  sbind (if_not_handled
           (handle_want_to_build_optional not_expected_element
              expected_element_name parent)) (fun _ =>
  if_not_handled
    (add_expected_element_above_not_expected not_expected_element
       expected_element_name structure_error_)))))))).
End WithSchema.
End XMLStructureValidator.

(** ** Sample findings *)

Definition sample_report_element : Element :=
  {| tag := "eventReport"; row_nr := 12;
     trail := "auditfile/company/location/cashregister/event" |}.

(** Two findings of the value check on the same [eventReport] element: its
    cash-sale total and its tip total both disagree with the transactions. *)
Definition sample_total_cash_sales_finding : Validation :=
  {| check := value_check; status := error;
     technical_error_type := Some event_report_total_cash_sales;
     error_xml_element := Some (tag sample_report_element);
     error_row := Some (row_nr sample_report_element);
     complete_error_message := None;
     audit_trail := Some (trail sample_report_element);
     special_error_message := Some [PNum 101%float; PNum 100%float] |}.

Definition sample_tips_finding : Validation :=
  {| check := value_check; status := error;
     technical_error_type := Some event_report_tips;
     error_xml_element := Some (tag sample_report_element);
     error_row := Some (row_nr sample_report_element);
     complete_error_message := None;
     audit_trail := Some (trail sample_report_element);
     special_error_message := Some [PNum 5%float; PNum 0%float] |}.

(** A hash without collisions: the hashed tuple itself. *)
Definition perfect_hash (k : HashKey) : HashKey := k.

(** A hash with collisions: the row of the hashed tuple alone. *)
Definition row_hash (k : HashKey) : option Z :=
  let '(_, _, row_, _, _, _, _) := k in row_.

(** A set iterated in insertion order. *)
Definition insertion_order (l : list Validation) : list Validation := l.

(** ** Sample documents *)

Definition sample_nr_element (row : Z) : Element :=
  {| tag := "nr"; row_nr := row;
     trail := "auditfile/company/location/cashregister/cashtransaction" |}.

Definition sample_cashtransaction_element (row : Z) : Element :=
  {| tag := "cashtransaction"; row_nr := row;
     trail := "auditfile/company/location/cashregister" |}.

Definition sample_signature_child (row : Z) (text_ : string) : XmlChild :=
  {| child_element :=
       {| tag := "signature"; row_nr := row;
          trail := "auditfile/company/location/cashregister/cashtransaction" |};
     text := Some text_ |}.

(** A cash transaction at source row [row] with the given [nr] text and
    signature element, and no other child. *)
Definition sample_cash_trans (row : Z) (nr_text : string) (signature_ : option XmlChild)
    : XmlCashTrans :=
  {| x_cashtransaction := sample_cashtransaction_element row;
     x_transType := None;
     x_nr := Some {| child_element := sample_nr_element (row + 1); text := Some nr_text |};
     x_transID := None; x_transAmntIn := None; x_transAmntEx := None;
     x_amntTp := None; x_empID := None; x_transDate := None; x_transTime := None;
     x_cash_tran_datetime := None; x_voidTransaction := None; x_trainingID := None;
     x_raise_raiseType := None; x_raise_raiseAmnt := None;
     x_signature := signature_; x_certificateData := None;
     x_raises := []; x_ctLines := []; x_payments := [] |}.

Definition sample_register (reg_id : string) (transactions : list XmlCashTrans)
    : XmlCashRegister :=
  {| x_registerID := Some reg_id; x_cashtransactions := transactions;
     x_eventReports := []; x_events := [] |}.

(** Two registers that share one global numbering: register A holds the
    transactions 1 and 3, register B the transactions 2 and 4. *)
Definition interleaved_registers : list XmlCashRegister :=
  [ sample_register "A" [sample_cash_trans 10 "1" None; sample_cash_trans 20 "3" None];
    sample_register "B" [sample_cash_trans 30 "2" None; sample_cash_trans 40 "4" None] ].

(** Two registers, each numbered 1, 2 on its own. *)
Definition separately_numbered_registers : list XmlCashRegister :=
  [ sample_register "A" [sample_cash_trans 10 "1" None; sample_cash_trans 20 "2" None];
    sample_register "B" [sample_cash_trans 30 "1" None; sample_cash_trans 40 "2" None] ].

(** The value validator's numbering check on a document: extraction, then
    [__check_continous_numbering_in_cash_tran]; the findings it leaves. *)
Definition numbering_findings `{PyBuiltins} (cash_regs : list XmlCashRegister)
    : option (list Validation) :=
  match gen_all_cash_trans cash_regs init_validator with
  | Return cash_transactions st =>
      Some (validation
              (XMLValueTestValidator.check_continous_numbering_in_cash_tran
                 cash_transactions st))
  | Raise _ _ => None
  end.

(** The finding [log_validation_error_no_element] builds for
    CONTINOUS_NUMBERING_PR_CASH_REGISTER. *)
Definition pr_cash_register_finding : Validation :=
  {| check := value_check; status := error;
     technical_error_type := Some continous_numbering_pr_cash_reg;
     error_xml_element := None; error_row := None;
     complete_error_message := None; audit_trail := None;
     special_error_message := None |}.

(** From the spec's words ("extract the longest digit run"): the longest
    maximal run of digits, the first one among equally long runs. *)
Definition longest_digit_run (value : string) : string :=
  fold_left (fun best run =>
               if (String.length best <? String.length run)%nat then run else best)
            (findall_digits value) "".

(** ** Sample register with a Z report followed by an X report *)








(** ** Sample transaction of predefined basic 11003 *)

(** From the spec's words: the trigger set of the ctLine rule, "same set as
    reconciliation (a) minus {11005}". *)
Definition spec_ctline_trigger_set : list string :=
  List.filter (fun code => negb (bool_decide (code = "11005")))
              CashTrans.predefined_basic_for_event_report_sum.

Definition return_basics : list Basics :=
  [ {| b_type := Some "11"; b_id := Some "RETURN"; b_desc := Some "Return of goods";
       b_predefined_id := Some "11003";
       b_basic_type_element :=
         {| tag := "basic"; row_nr := 6; trail := "auditfile/company/basics" |} |} ].

(** A transaction of basic "RETURN" (predefined 11003), not void, with one
    payment and no [ctLine]. *)
Definition sample_return : XmlCashTrans :=
  {| x_cashtransaction := sample_cashtransaction_element 80;
     x_transType :=
       Some {| child_element :=
                 {| tag := "transType"; row_nr := 82;
                    trail := "auditfile/company/location/cashregister/cashtransaction" |};
               text := Some "RETURN" |};
     x_nr := Some {| child_element := sample_nr_element 81; text := Some "1" |};
     x_transID := None; x_transAmntIn := Some "20"; x_transAmntEx := Some "16";
     x_amntTp := Some "D"; x_empID := None; x_transDate := None; x_transTime := None;
     x_cash_tran_datetime := None; x_voidTransaction := Some "false";
     x_trainingID := None; x_raise_raiseType := None; x_raise_raiseAmnt := None;
     x_signature := None; x_certificateData := None;
     x_raises := []; x_ctLines := [];
     x_payments :=
       [ {| x_payment :=
              {| tag := "payment"; row_nr := 85;
                 trail := "auditfile/company/location/cashregister/cashtransaction" |};
            x_paymentType := None; x_paymentRefID := None |} ] |}.

(** The findings [__mandatory_if_available] leaves for a document without
    events. *)
Definition mandatory_findings `{PyBuiltins} (all_basics : list Basics)
    (cash_regs : list XmlCashRegister) : option (list Validation) :=
  match gen_all_cash_trans cash_regs init_validator with
  | Return cash_transactions st =>
      Some (validation
              (outcome_state
                 (MandatoryIfAvailable.mandatory_if_available_check all_basics []
                    cash_transactions st)))
  | Raise _ _ => None
  end.

(** The ctLine rule triggers for a transaction: it is not void, its
    predefined basic is in the trigger set of the code and it has no
    [ctLine]. *)
Definition ct_line_missing (all_basics : list Basics) (self : CashTrans.t) : bool :=
  negb (CashTrans.void_trans self)
  && match predefined_basic all_basics (CashTrans.base self) with
     | Some pb => bool_decide (pb ∈ CashTrans.predefined_basic_ctline)
     | None => false
     end
  && bool_decide (CashTrans.ct_lines self = []).

(** The finding [__mandatory_if_available] logs for a miss of the ctLine
    rule on a transaction whose [transType] element is [element_]. *)
Definition ct_line_finding (element_ : Element) (predefined_basic_ : option string)
    : Validation :=
  {| check := value_check; status := error;
     technical_error_type := Some mandatory_if_available_error;
     error_xml_element := Some (tag element_);
     error_row := Some (row_nr element_);
     complete_error_message := None;
     audit_trail := Some (trail element_);
     special_error_message :=
       Some [param_of_string predefined_basic_; PStr "ctLine"] |}.

(** ** Signatures in a document *)

(** The signature element of the last cash transaction of the document, in
    the order [validate] visits them. *)
Definition last_signature_element
    (cash_transactions : Dict (option string) (list CashTrans.t)) : option XmlChild :=
  match last (concat (dict_values cash_transactions)) with
  | Some cash_tran => CashTrans.signature_element cash_tran
  | None => None
  end.

(** Some cash transaction of the document has a signature element. *)
Definition contains_signature_element
    (cash_transactions : Dict (option string) (list CashTrans.t)) : bool :=
  existsb (fun cash_tran => bool_decide (CashTrans.signature_element cash_tran <> None))
          (concat (dict_values cash_transactions)).

(** The NO_SIGNATURE finding. *)
Definition no_signature_finding : Validation :=
  {| check := signature_check; status := error;
     technical_error_type := Some no_signature;
     error_xml_element := Some signature_xml_element;
     error_row := None; complete_error_message := None;
     audit_trail := None; special_error_message := None |}.

(** Register "A" with two transactions: the first carries a signature
    element, the second none. *)
Definition signed_then_unsigned : list XmlCashRegister :=
  [ sample_register "A"
      [ sample_cash_trans 10 "1" (Some (sample_signature_child 12 "c2lnbmF0dXJl"));
        sample_cash_trans 20 "2" None ] ].

(** ** The order of the healing strategies *)

Section StrategyOrder.
Import XMLStructureValidator.
Variable schema_dict : gmap string ElementInfo.

(** The local tag of an element of the store, when it is there. *)
Definition local_tag (st : State) (e : option ElemId) : option string :=
  match e with
  | Some x => match tree st !! x with
              | Some n => Some (after_last_brace "" (node_tag n))
              | None => None
              end
  | None => None
  end.

(** Strategy 1 declines (returns, leaving [handled_error] unset): the
    parent is not in the Schema Index, or the offender is one of its
    direct children there. *)
Definition declines_should_not_exist (st : State) (not_expected_element : ElemId)
    (parent : option ElemId) : bool :=
  match local_tag st parent, local_tag st (Some not_expected_element) with
  | Some parent_name, Some not_expected_element_name =>
      match schema_dict !! parent_name with
      | Some info =>
          bool_decide (not_expected_element_name ∈ immediate_children_names info)
      | None => true
      end
  | _, _ => false
  end.

(** Strategy 2 declines: the parent has received no dummy of the
    offender's name. *)
Definition declines_out_of_sequence (st : State) (parent : option ElemId)
    (not_expected_element_name : string) : bool :=
  negb (has_dummy_by_name (dummies st) parent not_expected_element_name).

(** The elements of [children] with tag [name], when all of them are in
    the store. *)
Fixpoint elements_with_tag (t : gmap ElemId Node) (name : string)
    (children : list ElemId) : option (list ElemId) :=
  match children with
  | [] => Some []
  | x :: rest =>
      match t !! x with
      | Some n =>
          match elements_with_tag t name rest with
          | Some l => Some (if bool_decide (node_tag n = name) then x :: l else l)
          | None => None
          end
      | None => None
      end
  end.

(** Strategy 3 declines: the offender has children, or its parent holds at
    most one element of its name. *)
Definition declines_multiple_of_same (st : State) (not_expected_element : ElemId)
    (not_expected_element_name : string) (parent : option ElemId) : bool :=
  match tree st !! not_expected_element with
  | Some n =>
      match node_children n with
      | [] =>
          match parent with
          | Some p =>
              match tree st !! p with
              | Some pn =>
                  match elements_with_tag (tree st) not_expected_element_name
                          (node_children pn) with
                  | Some all_identical_elements =>
                      negb (1 <? length all_identical_elements)%nat
                  | None => false
                  end
              | None => false
              end
          | None => false
          end
      | _ => true
      end
  | None => false
  end.

(** Strategy 4 declines: the message is not a missing-child message. *)
Definition declines_missing_child (error_ : LogEntry) : bool :=
  negb (is_missing_child error_).

(** Strategy 5 declines: the parent is not in the Schema Index, or the
    expected element is not one of its direct children there, or it is one
    that is not classified optional. *)
Definition declines_want_to_build_optional (st : State)
    (expected_element_name : option string) (parent : option ElemId) : bool :=
  match local_tag st parent, expected_element_name with
  | Some parent_name, Some expected =>
      match schema_dict !! parent_name with
      | Some info =>
          if bool_decide (after_last_brace "" expected ∈ immediate_children_names info)
          then match ei_immediate_children info !! after_last_brace "" expected with
               | Some child => negb (sc_optional child)
               | None => false
               end
          else true
      | None => true
      end
  | _, _ => false
  end.

(** The strategies in the order of [handle_structural_errors]; the second
    one is passed over for a missing-child message. *)
Definition strategy_order (error_ : LogEntry) : list Strategy :=
  if_element_should_not_exist
  :: (if is_missing_child error_ then [] else [out_of_sequence_error])
  ++ [multiple_of_same_element; missing_child_strategy; want_to_build_optional;
      add_expected_element_above].

(** The strategies entered for one offender: each one is entered only if
    all the earlier ones declined. *)
Definition strategy_trace (st : State) (error_ : LogEntry)
    (expected_element_name : option string) (not_expected_element : ElemId)
    (not_expected_element_name : string) : list Strategy :=
  match tree st !! not_expected_element with
  | None => []
  | Some n =>
      let parent := node_parent n in
      if_element_should_not_exist ::
      if declines_should_not_exist st not_expected_element parent
      then
        (if is_missing_child error_ then [] else [out_of_sequence_error]) ++
        if is_missing_child error_
           || declines_out_of_sequence st parent not_expected_element_name
        then
          multiple_of_same_element ::
          if declines_multiple_of_same st not_expected_element
               not_expected_element_name parent
          then
            missing_child_strategy ::
            if declines_missing_child error_
            then
              want_to_build_optional ::
              if declines_want_to_build_optional st expected_element_name parent
              then [add_expected_element_above]
              else []
            else []
          else []
        else []
      else []
  end.
End StrategyOrder.

(** ** Notions used to state the properties *)

Section Separated.
Context {H : Type} `{EqDecision H}.
Variable py_hash : HashKey -> H.

(** No two members of the list are the same set entry. *)
Inductive separated : list Validation -> Prop :=
  | separated_nil : separated []
  | separated_cons v l :
      Forall (fun w => same_set_entry py_hash v w = false) l ->
      separated l -> separated (v :: l).
End Separated.

(** A computation of the structure validator that neither enters a strategy
    nor touches [handled_error]. *)
Definition quiet {A : Type} (m : XMLStructureValidator.SM A) : Prop :=
  forall st,
    XMLStructureValidator.calls (m st).2 = XMLStructureValidator.calls st
    /\ XMLStructureValidator.handled_error (m st).2
       = XMLStructureValidator.handled_error st.

(** A computation of the structure validator that enters no strategy and,
    when it returns, has set [handled_error]. *)
Definition finishing (m : XMLStructureValidator.SM unit) : Prop :=
  forall st,
    XMLStructureValidator.calls (m st).2 = XMLStructureValidator.calls st
    /\ ((m st).1 = inr tt ->
        XMLStructureValidator.handled_error (m st).2 = Some true).

(** A computation of the structure validator that enters no strategy once
    [handled_error] is set. *)
Definition skipped (m : XMLStructureValidator.SM unit) : Prop :=
  forall st b,
    XMLStructureValidator.handled_error st = Some b ->
    XMLStructureValidator.calls (m st).2 = XMLStructureValidator.calls st.
(** ** The Schema Index and the XSD declarations *)

(** The nodes among [nodes] that carry the attribute [name = element_name];
    a later one overwrites an earlier one in the dictionaries. *)
Definition declared_as (element_name : string) (nodes : list XsdNode) : list XsdNode :=
  List.filter (fun d => bool_decide (attrib_get d "name" = Some element_name)) nodes.

(** The declaration has a [minOccurs] attribute, whatever its value. *)
Definition carries_minOccurs (d : XsdNode) : Prop :=
  exists v : string, ("minOccurs", v) ∈ attrib_of d.

(** A schema whose [company] element has a first child declared with
    [minOccurs = 1], and a second child without the attribute. *)
Definition sample_schema : XsdNode :=
  XsdEl "schema" []
    [XsdEl "element" [("name", "company")]
       [XsdEl "complexType" []
          [XsdEl "sequence" []
             [XsdEl "element" [("name", "registrationNumber"); ("minOccurs", "1")] [];
              XsdEl "element" [("name", "name")] []]]]].

(** A document [company] with the single child [name], read from rows 2
    and 3; the validator expected [registrationNumber] before [name]. *)
Definition sample_document : XMLStructureValidator.State :=
  XMLStructureValidator.mkState
    (<[0%nat := mkNode "{urn:StandardAuditFile-Taxation-CashRegister:DK}company" None None
                  [1%nat]]>
       (<[1%nat := mkNode "{urn:StandardAuditFile-Taxation-CashRegister:DK}name"
                     (Some "Shop") (Some 0%nat) []]> ∅))
    2%nat
    (<[0%nat := (2, false)]> (<[1%nat := (3, false)]> ∅))
    [] [] None [].

(** ** Closing the report (main.py, [run_analysis]) *)

(** The entry [Validation(check=..., check_obj=..., status=self.status.ok)]. *)
Definition ok_entry (check_ : Check) : Validation :=
  {| check := check_; status := ok;
     technical_error_type := None; error_xml_element := None; error_row := None;
     complete_error_message := None; audit_trail := None;
     special_error_message := None |}.

(** [XMLValidator.__check_if_no_errors]. The flags are [None], [False] or
    [True]; [not flag] holds for the first two, which are [false] here.
    [naming_error] is the flag left by the naming validator. *)
Definition check_if_no_errors (naming_error : bool) (st : Validator) : Validator :=
  let st := if negb naming_error then append_validation (ok_entry naming_check) st else st in
  let st := if negb (structure_error st)
            then append_validation (ok_entry structure_check) st else st in
  let st := if negb (certificate_error st)
            then append_validation (ok_entry certificate_check) st else st in
  let st := if negb (signature_error st)
            then append_validation (ok_entry signature_check) st else st in
  if negb (value_error st) then append_validation (ok_entry value_check) st else st.

(** The order of the report: by rank of the check, then by row, the
    findings without a row (or with row 0) last. *)
Definition report_order (v w : Validation) : Prop :=
  check_order (check v) < check_order (check w)
  \/ (check_order (check v) = check_order (check w)
      /\ match row_or_inf v, row_or_inf w with
         | Some r, Some r' => r <= r'
         | _, None => True
         | None, Some _ => False
         end).

(** ** Notions used for the passes and the basics *)

(** What a pass may do to the validator: append error findings of its own
    check, and set its own error flag exactly when it appended one. *)
Definition pass_logs (check_ : Check) (flag_of : Validator -> bool)
    (st st' : Validator) : Prop :=
  exists appended,
    validation st' = validation st ++ appended
    /\ Forall (fun v => check v = check_ /\ status v = error) appended
    /\ flag_of st' = (flag_of st || negb (bool_decide (appended = []))).

(** What the domain model reads from a basic, apart from its id. *)
Definition basic_view (b : Basics)
    : option string * option string * option string * Element :=
  (b_type b, b_desc b, b_predefined_id b, b_basic_type_element b).

(** A transaction carries a signature that the signature pass looks at: a
    [signature] element whose text is neither missing nor the dummy. *)
Definition is_signed (string_dummy : string) (cash_tran : CashTrans.t) : bool :=
  match CashTrans.signature_element cash_tran with
  | Some signature_element =>
      match text signature_element with
      | Some text_ => negb (bool_decide (text_ = string_dummy))
      | None => false
      end
  | None => false
  end.

(** A transaction object with the given number, instant and signature
    element, and nothing else. *)
Definition sample_object (nr_ : string) (nr_fl_ : float) (datetime : option Z)
    (signature_ : option XmlChild) : CashTrans.t :=
  {| CashTrans.base := BaseElement_init (sample_cashtransaction_element 10) None;
     CashTrans.nr := Some nr_;
     CashTrans.nr_fl := nr_fl_;
     CashTrans.trans_id := None;
     CashTrans.trans_type := None;
     CashTrans.trans_amnt_incl := None;
     CashTrans.trans_amnt_excl := None;
     CashTrans.trans_amnt_incl_fl := 0%float;
     CashTrans.employee_id := None;
     CashTrans.trans_date := None;
     CashTrans.trans_time := None;
     CashTrans.cash_tran_datetime := datetime;
     CashTrans.void_trans := false;
     CashTrans.training_id := false;
     CashTrans.raise_type := None;
     CashTrans.raise_amnt := 0%float;
     CashTrans.nr_previous_fl := None;
     CashTrans.nr_previous := None;
     CashTrans.nr_previous_check := true;
     CashTrans.signature_element := signature_;
     CashTrans.certificate_data := None;
     CashTrans.raises := [];
     CashTrans.ct_lines := [];
     CashTrans.payments := [] |}.

(** A cryptography interface in which the base64 text is its own decoding,
    every key loads and no signature verifies. *)
Definition refusing_crypto : Crypto :=
  {| PublicKey := unit;
     sha512 := fun message_ => message_;
     message_hh_mm_ss := fun _ => None;
     public_key_verify := fun _ _ _ _ => Some false;
     b64decode := fun text_ => Some text_;
     load_public_key := fun _ => Some tt |}.

(** The loop of [__get_unique_transactions_nr] from a set [seen_nrs] of
    numbers already seen, as a recursion on the transactions left. *)
Fixpoint unique_from (seen_nrs : list float) (cash_trans : list CashTrans.t)
    : list CashTrans.t :=
  match cash_trans with
  | [] => []
  | trans :: rest =>
      if negb (existsb (fun s => (CashTrans.nr_fl trans =? s)%float) seen_nrs)
      then trans :: unique_from (seen_nrs ++ [CashTrans.nr_fl trans]) rest
      else unique_from seen_nrs rest
  end.

(** ** The XSD type of an expected element (modules/validate_structure.py) *)

(** [str.lower()], on ASCII. *)
Definition lower_ascii (c : ascii) : ascii :=
  let n := nat_of_ascii c in
  if ((65 <=? n) && (n <=? 90))%nat then ascii_of_nat (n + 32) else c.

Fixpoint lower (s : string) : string :=
  match s with
  | EmptyString => EmptyString
  | String c rest => String (lower_ascii c) (lower rest)
  end.

(** The chain of tests of [__get_type_from_xsd] on the [type] attribute. *)
Definition classify_type (type_ : string) : string :=
  if XMLStructureValidator.is_substring "string" (lower type_)
     && negb (XMLStructureValidator.is_substring "report" (lower type_))
  then "String"
  else if XMLStructureValidator.is_substring "nonnegativeinteger" (lower type_)
  then "Nonnegativeinteger"
  else if XMLStructureValidator.is_substring "identificationstring" (lower type_)
  then "IdentificationString"
  else type_.

(** The loop of [__get_type_from_xsd] over [validator.xsd_elements];
    [None] when the loop ends without a [return]. *)
Fixpoint get_type_from_xsd_loop (xsd_elements : list XsdNode) (element_name : string)
    : option string :=
  match xsd_elements with
  | [] => None
  | xsd_element :: rest =>
      match attrib_get xsd_element "name" with
      | Some name_ =>
          if bool_decide (name_ = element_name)
          then match attrib_get xsd_element "type" with
               | None => Some "Empty"
               | Some type_ => Some (classify_type type_)
               end
          else get_type_from_xsd_loop rest element_name
      | None =>
          match attrib_get xsd_element "ref" with
          | Some ref_ =>
              if bool_decide (ref_ = ("ds:" ++ element_name)%string)
              then Some "Extrasignature"
              else get_type_from_xsd_loop rest element_name
          | None => get_type_from_xsd_loop rest element_name
          end
      end
  end.

(** [__get_type_from_xsd]. *)
Definition get_type_from_xsd (xsd_elements : list XsdNode) (full_element_name : string)
    : option string :=
  get_type_from_xsd_loop xsd_elements
    (XMLStructureValidator.after_last_brace "" full_element_name).

(** What identifies an added dummy in the set ([__eq__] and [__hash__]). *)
Definition dummy_key (d : AddedDummy) : option ElemId * string :=
  (parent_element d, name_of_added_element d).

(** ** Naming validator (modules/validate_naming.py) *)

(** [int(str)] is Python's ([None]: ValueError); the naming validator is
    parametric in it where it reads strings that need not be digits. *)
Class PyInt : Type := {
  py_int : string -> option Z
}.

(** [int] restricted to non-empty strings of ASCII digits: the part of
    Python's [int] whose value the model computes. *)
Definition int_of_digit_strings (s : string) : option Z :=
  if all_digits s && negb (bool_decide (s = "")) then Some (int_of_digits s) else None.

Definition digits_int : PyInt := {| py_int := int_of_digit_strings |}.

(** [s.split(sep)] for a one-character separator; [current] is the part
    being read. *)
Fixpoint split_on (sep : ascii) (current : string) (s : string) : list string :=
  match s with
  | EmptyString => [current]
  | String c rest =>
      if bool_decide (c = sep) then current :: split_on sep "" rest
      else split_on sep (current ++ String c "")%string rest
  end.

Definition filename_error_type : string := "FILENAME".

Module XMLNamingValidator.

(** [__filename_name_check]. *)
Definition filename_name_check (name : string) : bool :=
  bool_decide (name = "SAF-T Cash Register").

(** [__filename_id_check] on ASCII text, where [str.isdigit] accepts the
    digits 0 to 9 only and [int] then never raises. *)
Definition filename_id_check (id_ : string) : bool :=
  if negb (String.length id_ =? 8)%nat then false
  else if all_digits id_
       then (0 <=? int_of_digits id_) && (int_of_digits id_ <=? 99999999)
       else false.

(** [__filename_date_check] on ASCII text. *)
Definition filename_date_check (date : string) : bool :=
  if all_digits date
  then
    if negb (String.length date =? 14)%nat then false
    else
      let year := int_of_digits (substring 0 4 date) in
      let month := int_of_digits (substring 4 2 date) in
      let day := int_of_digits (substring 6 2 date) in
      let hour := int_of_digits (substring 8 2 date) in
      let minute := int_of_digits (substring 10 2 date) in
      let second := int_of_digits (substring 12 2 date) in
      ((1970 <=? year) && (year <? 2050))
      && ((0 <? month) && (month <=? 12))
      && ((0 <? day) && (day <=? 31))
      && ((0 <=? hour) && (hour <? 24))
      && ((0 <=? minute) && (minute <=? 60))
      && ((0 <=? second) && (second <=? 60))
  else false.

Section WithInt.
Context `{PyInt}.

(** The list comprehension [[0 < int(v) < 10 for v in file_number]]:
    [None] when some [int] raises ValueError. *)
Fixpoint file_versions_ok (file_number : list string) : option (list bool) :=
  match file_number with
  | [] => Some []
  | file_version :: rest =>
      match py_int file_version with
      | Some v =>
          match file_versions_ok rest with
          | Some l => Some (((0 <? v) && (v <? 10)) :: l)
          | None => None
          end
      | None => None
      end
  end.

(** [__filename_file_number_check]; its argument is the slice of the two
    last parts of the file name. *)
Definition filename_file_number_check (file_number : list string) : bool :=
  if (length file_number =? 2)%nat
  then match file_versions_ok file_number with
       | Some l => forallb (fun b => b) l
       | None => false
       end
  else false.

(** [XMLNamingValidator.validate] on the stem of the file name: the flag
    [naming_error] it leaves, and the validator. *)
Definition validate (stem : string) (st : Validator) : bool * Validator :=
  let file_name := split_on "_" "" stem in
  let naming_error :=
    match file_name with
    | [p0; p1; p2; p3; p4] =>
        negb (forallb (fun b => b)
                [filename_name_check p0; filename_id_check p1; filename_date_check p2;
                 filename_file_number_check [p3; p4]])
    | [p0; p1; p2; p3; p4; p5; p6] =>
        negb (forallb (fun b => b)
                [filename_name_check (String.concat " " [p0; p1; p2]);
                 filename_id_check p3; filename_date_check p4;
                 filename_file_number_check [p5; p6]])
    | _ => true
    end in
  (naming_error,
   if naming_error
   then log_validation_error_no_element naming_check filename_error_type st
   else st).
End WithInt.
End XMLNamingValidator.

(** ** Sample documents for the healing strategies *)

(** A document [company] with two [name] children, read from rows 2, 3
    and 4. *)
Definition sample_document_two_names : XMLStructureValidator.State :=
  XMLStructureValidator.mkState
    (<[0%nat := mkNode "{urn:StandardAuditFile-Taxation-CashRegister:DK}company" None None
                  [1%nat; 2%nat]]>
       (<[1%nat := mkNode "{urn:StandardAuditFile-Taxation-CashRegister:DK}name"
                     (Some "Shop") (Some 0%nat) []]>
          (<[2%nat := mkNode "{urn:StandardAuditFile-Taxation-CashRegister:DK}name"
                        (Some "Store") (Some 0%nat) []]> ∅)))
    3%nat
    (<[0%nat := (2, false)]> (<[1%nat := (3, false)]> (<[2%nat := (4, false)]> ∅)))
    [] [] None [].

(** The two kinds of log entry of the schema validator for an element
    with the wrong content. *)
Definition sample_missing_child_entry : LogEntry :=
  mkLogEntry
    "Element 'name': Missing child element(s). Expected is ( registrationNumber )."
    "SCHEMAV_ELEMENT_CONTENT" 3.

Definition sample_not_expected_entry : LogEntry :=
  mkLogEntry
    "Element 'name': This element is not expected. Expected is ( registrationNumber )."
    "SCHEMAV_ELEMENT_CONTENT" 3.

(** A dummy table that knows every element, and one that knows none. *)
Definition every_dummy_text (_ : string) : option string := Some "1".
Definition no_dummy_text (_ : string) : option string := None.

(** ** Dates (datetime.date, as modules/conventions/date_handler.py uses it) *)

(** [datetime.date]: the proleptic Gregorian calendar of the standard
    library, with its ordinals (1 is 0001-01-01), [date.__add__] and
    [date.weekday]. *)
Module PyDate.
Record t : Type := mk {
  year : Z;
  month : Z;
  day : Z
}.

#[global] Instance t_eq_dec : EqDecision t.
Proof. solve_decision. Defined.

Definition is_leap (year_ : Z) : bool :=
  (year_ mod 4 =? 0) && (negb (year_ mod 100 =? 0) || (year_ mod 400 =? 0)).

Definition days_before_year (year_ : Z) : Z :=
  let y := year_ - 1 in
  y * 365 + y / 4 - y / 100 + y / 400.

(** The tables [_DAYS_IN_MONTH] and [_DAYS_BEFORE_MONTH], read at the
    months 1 to 12. *)
Definition days_in_common_month (month_ : Z) : Z :=
  match month_ with
  | 1 => 31 | 2 => 28 | 3 => 31 | 4 => 30 | 5 => 31 | 6 => 30
  | 7 => 31 | 8 => 31 | 9 => 30 | 10 => 31 | 11 => 30 | 12 => 31
  | _ => -1
  end.

Definition days_before_common_month (month_ : Z) : Z :=
  match month_ with
  | 1 => 0 | 2 => 31 | 3 => 59 | 4 => 90 | 5 => 120 | 6 => 151
  | 7 => 181 | 8 => 212 | 9 => 243 | 10 => 273 | 11 => 304 | 12 => 334
  | _ => -1
  end.

Definition days_in_month (year_ month_ : Z) : Z :=
  if (month_ =? 2) && is_leap year_ then 29 else days_in_common_month month_.

Definition days_before_month (year_ month_ : Z) : Z :=
  days_before_common_month month_
  + (if (2 <? month_) && is_leap year_ then 1 else 0).

Definition ymd2ord (year_ month_ day_ : Z) : Z :=
  days_before_year year_ + days_before_month year_ month_ + day_.

(** The end of [_ord2ymd]: the month and the day of the [n]-th day of a
    year, counted from 0; the estimate [(n + 50) >> 5] of the month is
    either exact or one too large. *)
Definition month_and_day (n : Z) (leapyear : bool) : Z * Z :=
  let month_ := Z.shiftr (n + 50) 5 in
  let preceding :=
    days_before_common_month month_
    + (if (2 <? month_) && leapyear then 1 else 0) in
  if n <? preceding
  then
    let month_ := month_ - 1 in
    let preceding :=
      preceding
      - (days_in_common_month month_
         + (if (month_ =? 2) && leapyear then 1 else 0)) in
    (month_, n - preceding + 1)
  else (month_, n - preceding + 1).

(** [_ord2ymd], the inverse of [_ymd2ord]: 400, 100, 4 and 1 year
    cycles of 146097, 36524, 1461 and 365 days. *)
Definition ord2ymd (n : Z) : t :=
  let n := n - 1 in
  let n400 := n / 146097 in
  let n := n mod 146097 in
  let year_ := n400 * 400 + 1 in
  let n100 := n / 36524 in
  let n := n mod 36524 in
  let n4 := n / 1461 in
  let n := n mod 1461 in
  let n1 := n / 365 in
  let n := n mod 365 in
  let year_ := year_ + n100 * 100 + n4 * 4 + n1 in
  if (n1 =? 4) || (n100 =? 4) then mk (year_ - 1) 12 31
  else
    let leapyear := (n1 =? 3) && (negb (n4 =? 24) || (n100 =? 3)) in
    let '(month_, day_) := month_and_day n leapyear in
    mk year_ month_ day_.

Definition max_ordinal : Z := 3652059.

(** The field check of the constructor. *)
Definition valid (d : t) : bool :=
  (1 <=? year d) && (year d <=? 9999) && (1 <=? month d) && (month d <=? 12)
  && (1 <=? day d) && (day d <=? days_in_month (year d) (month d)).

(** [date(year, month, day)]. *)
Definition new (year_ month_ day_ : Z) : string + t :=
  if valid (mk year_ month_ day_) then inr (mk year_ month_ day_)
  else inl "ValueError".

(** [d.replace(day=...)]. *)
Definition replace_day (d : t) (day_ : Z) : string + t :=
  new (year d) (month d) day_.

Definition toordinal (d : t) : Z := ymd2ord (year d) (month d) (day d).

(** [d + timedelta(days=days)]. *)
Definition add_days (d : t) (days : Z) : string + t :=
  let o := toordinal d + days in
  if (0 <? o) && (o <=? max_ordinal) then inr (ord2ymd o)
  else inl "OverflowError".

(** [d.weekday()]: Monday is 0, Sunday is 6. *)
Definition weekday (d : t) : Z := (toordinal d + 6) mod 7.

(** [a <= b], the comparison of the (year, month, day) triples. *)
Definition leb (a b : t) : bool :=
  (year a <? year b)
  || ((year a =? year b)
      && ((month a <? month b)
          || ((month a =? month b) && (day a <=? day b)))).
End PyDate.

(** ** The date handler (modules/conventions/date_handler.py) *)

Module DateTimeHandler.
(** [_last_sunday_of_month]. *)
Definition last_sunday_of_month (year_ month_ : Z) : string + PyDate.t :=
  match PyDate.new year_ month_ 1 with
  | inl exn => inl exn
  | inr first =>
      match PyDate.replace_day first 28 with
      | inl exn => inl exn
      | inr day28 =>
          match PyDate.add_days day28 4 with
          | inl exn => inl exn
          | inr last_day => PyDate.add_days last_day (- (PyDate.weekday last_day + 1))
          end
      end
  end.

(** [_is_danish_dst]. *)
Definition is_danish_dst (date_obj : PyDate.t) : string + bool :=
  let year_ := PyDate.year date_obj in
  match last_sunday_of_month year_ 3 with
  | inl exn => inl exn
  | inr last_sunday_march =>
      match last_sunday_of_month year_ 10 with
      | inl exn => inl exn
      | inr last_sunday_october =>
          inr (PyDate.leb last_sunday_march date_obj
               && PyDate.leb date_obj last_sunday_october)
      end
  end.

(** [_apply_default_timezone] on the UTC offset of the time, in hours;
    [None] is a time without timezone. A date object is always truthy. *)
Definition apply_default_timezone (tzinfo : option Z) (date_obj : option PyDate.t)
    : string + option Z :=
  match tzinfo with
  | None =>
      match date_obj with
      | Some d =>
          match is_danish_dst d with
          | inl exn => inl exn
          | inr true => inr (Some 2)
          | inr false => inr (Some 1)
          end
      | None => inr (Some 1)
      end
  | Some offset => inr (Some offset)
  end.
End DateTimeHandler.

(** ** The chain of transaction numbers *)

(** The objects built from one [cashregister] element form a chain: each
    remembers the number of the object before it and has compared its own
    number with it; the first one remembers [previous]. *)
Fixpoint chained (previous : option float) (objects : list CashTrans.t) : Prop :=
  match objects with
  | [] => True
  | object :: rest =>
      CashTrans.nr_previous_fl object = previous
      /\ CashTrans.nr_previous_check object
         = match previous with
           | None => true
           | Some p => (CashTrans.nr_fl object =? p + 1)%float
           end
      /\ chained (Some (CashTrans.nr_fl object)) rest
  end.

(** The object is the one built from the [cashtransaction] element. *)
Definition built_from (cash_trans : XmlCashTrans) (object : CashTrans.t) : Prop :=
  CashTrans.base object
  = BaseElement_init (x_cashtransaction cash_trans) (x_transType cash_trans)
  /\ CashTrans.nr object = get_text_from_element (x_nr cash_trans)
  /\ CashTrans.signature_element object = x_signature cash_trans.

(** The objects of the [cashregister] elements with the id [reg_id], in
    document order. *)
Definition objects_of_register (reg_id : option string)
    (cash_regs : list XmlCashRegister) (groups : list (list CashTrans.t))
    : list CashTrans.t :=
  concat (map snd (List.filter (fun p => bool_decide (x_registerID (fst p) = reg_id))
                               (combine cash_regs groups))).

(** ** The chain of report windows *)

(** The objects built from the reports of one [cashregister] element:
    each starts its window at the time of the closest Z report before it
    and remembers that report's grand total; a window that starts at the
    default time marks the object to be skipped. *)
Fixpoint windowed (cls : EventReport.ClassVars) (objects : list EventReport.t) : Prop :=
  match objects with
  | [] => True
  | object :: rest =>
      EventReport.report_datetime_start object = EventReport.last_datetime cls
      /\ EventReport.grand_total_cash_sale_previous object
         = EventReport.last_grand_total_cash_sale cls
      /\ EventReport.skip object
         = (if bool_decide (EventReport.last_datetime cls = EventReport.default_datetime)
            then Some true else None)
      /\ windowed
           (if bool_decide (EventReport.report_type object = Some "Z report")
            then {| EventReport.last_datetime := EventReport.report_datetime object;
                    EventReport.last_grand_total_cash_sale :=
                      Some (EventReport.grand_total_cash_sale object) |}
            else cls)
           rest
  end.

(** The object is the one built from the [eventReport] element. *)
Definition report_built_from (event_report : XmlEventReport) (object : EventReport.t)
    : Prop :=
  EventReport.element object = x_eventReport_element event_report
  /\ EventReport.report_type object = get_text_from_element (x_reportType event_report)
  /\ EventReport.report_datetime object = x_report_datetime event_report.

(** The [eventReport] elements that have a [reportType] child. *)
Definition typed_reports (cash_reg : XmlCashRegister) : list XmlEventReport :=
  List.filter (fun event_report => bool_decide (x_reportType event_report <> None))
              (x_eventReports cash_reg).

(** The report objects of type [report_type_] of the [cashregister]
    elements with the id [reg_id], in document order. *)
Definition reports_of_register (report_type_ : string) (reg_id : option string)
    (cash_regs : list XmlCashRegister) (groups : list (list EventReport.t))
    : list EventReport.t :=
  List.filter (fun object => bool_decide (EventReport.report_type object = Some report_type_))
    (concat (map snd (List.filter (fun p => bool_decide (x_registerID (fst p) = reg_id))
                                  (combine cash_regs groups)))).

(** ** The [cash_transactions] property and the passes that read it *)

(** The dictionary behind [XMLValidator.cash_transactions]
    ([__all_cash_trans]): empty until an extraction has returned a
    dictionary that is not. *)
Definition Cache : Type := Dict (option string) (list CashTrans.t).

(** A method that reads the property runs on the validator and on the
    cache. An exception leaves the validator as it is then; the cache is
    only assigned by a read that returns. *)
Definition P (A : Type) : Type := Cache -> M (A * Cache).

Definition pret {A : Type} (a : A) : P A := fun cache => ret (a, cache).
Definition pbind {A B : Type} (m : P A) (k : A -> P B) : P B :=
  fun cache => bind (m cache) (fun '(a, cache') => k a cache').
Definition plift {A : Type} (m : M A) : P A :=
  fun cache => bind m (fun a => ret (a, cache)).

Fixpoint pfor_each {A : Type} (xs : list A) (body : A -> P unit) : P unit :=
  match xs with
  | [] => pret tt
  | x :: t => pbind (body x) (fun _ => pfor_each t body)
  end.

(** The findings [CashTrans.convert_nr] logs while the dictionary is
    extracted. *)
Definition number_finding (v : Validation) : Prop :=
  check v = structure_check /\ status v = error
  /\ technical_error_type v = Some should_contain_number.



Module Pass.
Section WithDocument.
Context `{PyBuiltins}.
Variable all_basics : list Basics.
(** The [cashregister] elements of the document. *)
Variable cash_regs : list XmlCashRegister.

(** [XMLValidator.cash_transactions]: [if not self.__all_cash_trans] the
    dictionary is extracted and assigned; an empty dictionary is extracted
    again by the next read. *)
Definition cash_transactions : P Cache :=
  fun cache =>
    match cache with
    | [] => bind (gen_all_cash_trans cash_regs) (fun d => ret (d, d))
    | _ :: _ => ret (cache, cache)
    end.

(** Body of the inner loop of [__event_report_vs_cash_trans]: the property
    is read for every report that is not skipped. *)
Definition event_report_vs_cash_trans_report (cash_reg : option string)
    (event_report : EventReport.t) : P unit :=
  match EventReport.skip event_report with
  | Some _ => pret tt
  | None =>
      pbind cash_transactions (fun d =>
      plift (XMLValueTestValidator.event_report_vs_cash_trans_report all_basics d
               cash_reg event_report))
  end.

(** [__event_report_vs_cash_trans]. *)
Definition event_report_vs_cash_trans
    (event_reports : Dict (option string) (list EventReport.t)) : P unit :=
  pfor_each event_reports (fun '(cash_reg, event_reports_) =>
    pfor_each event_reports_ (event_report_vs_cash_trans_report cash_reg)).

(** [__check_continous_numbering_in_cash_tran_pr_cash_register]: the
    property is read for the number of keys and again for the loop. *)
Definition check_continous_numbering_in_cash_tran_pr_cash_register : P (option bool) :=
  pbind cash_transactions (fun d =>
  if (1 <? length (dict_keys d))%nat
  then
    pbind cash_transactions (fun d' =>
    pret (Some (fold_left
                  (fun flag '(_, cash_trans) =>
                     fold_left (fun flag' cash_tran =>
                                  if negb (CashTrans.nr_previous_check cash_tran)
                                  then false else flag')
                               cash_trans flag)
                  d' true)))
  else pret None).

(** [__check_continous_numbering_in_cash_tran]: the property is read
    first, for the list of all transactions. *)
Definition check_continous_numbering_in_cash_tran : P unit :=
  pbind cash_transactions (fun d =>
  let all_cash_trans := concat (dict_values d) in
  let all_cash_trans := XMLValueTestValidator.get_unique_transactions_nr all_cash_trans in
  let all_cash_trans := XMLValueTestValidator.sort_by_nr_fl all_cash_trans in
  pbind check_continous_numbering_in_cash_tran_pr_cash_register (fun continuous =>
  if bool_decide (continuous = Some true)
  then plift (lift (fun st =>
         log_validation_error_no_element value_check continous_numbering_pr_cash_reg
           (set_value_error st)))
  else
    match all_cash_trans with
    | [] => pret tt
    | first :: rest =>
        plift (lift (XMLValueTestValidator.global_numbering_loop rest
                       (CashTrans.nr_fl first) (CashTrans.nr first)))
    end)).

Section WithCrypto.
Context `{Crypto}.
Variable string_dummy : string.
Variable company_id : option string.
Variable is_invalid_company_id : option bool.

End WithCrypto.
End WithDocument.
End Pass.

(** ** The document behind the dictionary *)

(** The number [convert_nr] gives the [nr] child of a transaction, whatever
    the validator's state ([None]: it raises). *)
Definition number_of `{PyBuiltins} (cash_trans : XmlCashTrans) : option float :=
  match CashTrans.convert_nr (x_nr cash_trans) init_validator with
  | Return x _ => Some x
  | Raise _ _ => None
  end.

(** Every number is the number before it plus 1, [nr(i+1) == nr(i) + 1];
    the first one follows [previous]. *)
Fixpoint consecutive (previous : option float) (numbers : list (option float)) : bool :=
  match numbers with
  | [] => true
  | Some n :: rest =>
      match previous with
      | None => true
      | Some p => (n =? p + 1)%float
      end && consecutive (Some n) rest
  | None :: _ => false
  end.

(** The transactions of every [cashregister] element are numbered
    consecutively, each element on its own. *)
Definition continuous_per_element `{PyBuiltins} (cash_regs : list XmlCashRegister) : bool :=
  forallb (fun cash_reg => consecutive None (map number_of (x_cashtransactions cash_reg)))
          cash_regs.

(** The register ids of the [cashregister] elements that hold a
    transaction, each id once, in document order. *)
Definition register_ids (cash_regs : list XmlCashRegister) : list (option string) :=
  fold_left (fun ids cash_reg =>
               match x_cashtransactions cash_reg with
               | [] => ids
               | _ :: _ =>
                   if bool_decide (x_registerID cash_reg ∈ ids) then ids
                   else ids ++ [x_registerID cash_reg]
               end)
            cash_regs [].



(** The validator after [appended] was logged and nothing else changed. *)
Definition with_findings (appended : list Validation) (st : Validator) : Validator :=
  {| validation := validation st ++ appended;
     structure_error := structure_error st;
     certificate_error := certificate_error st;
     signature_error := signature_error st;
     value_error := value_error st |}.

(** An action whose result and whose findings, all of them findings of
    [convert_nr], do not depend on the validator it runs on. *)
Definition uniform {A : Type} (m : M A) : Prop :=
  exists numbers,
    Forall number_finding numbers
    /\ ((exists a, forall st, m st = Return a (with_findings numbers st))
        \/ (exists exn, forall st, m st = Raise exn (with_findings numbers st))).

(** * Properties *)

Section ReportAggregatorFacts.
Context {H : Type} `{EqDecision H}.
Variable py_hash : HashKey -> H.
Variable set_iteration : list Validation -> list Validation.
Hypothesis set_iteration_perm : forall l, set_iteration l ≡ₚ l.

Local Abbreviation same := (same_set_entry py_hash).
Local Abbreviation separated := (separated py_hash).

Lemma same_set_entry_sym (v w : Validation) : same v w = same w v.
Proof.
  unfold same_set_entry, validation_eq.
  repeat (f_equal; try (apply bool_decide_ext; split; congruence)).
Qed.

Lemma same_hash_key (v w : Validation) : hash_key v = hash_key w -> same v w = true.
Proof.
  intros Hk. unfold same_set_entry, validation_eq, validation_hash.
  rewrite Hk. unfold hash_key in Hk.
  assert (check v = check w) by congruence.
  assert (error_row v = error_row w) by congruence.
  rewrite !bool_decide_eq_true_2 by done. reflexivity.
Qed.

Lemma separated_app_one (l : list Validation) (v : Validation) :
  separated l -> existsb (same v) l = false -> separated (l ++ [v]).
Proof.
  induction 1 as [|w l Hw Hl IH]; simpl; intros Hex.
  - repeat constructor.
  - apply orb_false_iff in Hex as [Hvw Hex]. constructor; [|auto].
    apply Forall_app; split; [exact Hw|].
    constructor; [|constructor]. rewrite same_set_entry_sym. exact Hvw.
Qed.

Lemma set_add_separated (s : list Validation) (v : Validation) :
  separated s -> separated (set_add py_hash s v).
Proof.
  intros Hs. unfold set_add. destruct (existsb (same v) s) eqn:E; [exact Hs|].
  apply separated_app_one; assumption.
Qed.

Lemma py_set_separated (l : list Validation) : separated (py_set py_hash l).
Proof.
  unfold py_set. generalize (separated_nil py_hash). generalize (@nil Validation) as acc.
  induction l as [|v l IH]; simpl; intros acc Hacc; [exact Hacc|].
  apply IH, set_add_separated, Hacc.
Qed.

Lemma separated_perm (l l' : list Validation) :
  l ≡ₚ l' -> separated l -> separated l'.
Proof.
  induction 1 as [|x l l' Hp IH|x y l|l l' l'' Hp1 IH1 Hp2 IH2]; intros Hs.
  - exact Hs.
  - inversion Hs as [|? ? Hx Hl]; subst. constructor; [|auto].
    rewrite <- Hp. exact Hx.
  - inversion Hs as [|? ? Hy Hl]; subst.
    inversion Hl as [|? ? Hx Hl']; subst.
    inversion Hy as [|? ? Hyx Hyl]; subst.
    constructor; [constructor; [|exact Hx]|constructor; assumption].
    rewrite same_set_entry_sym. exact Hyx.
  - auto.
Qed.

Lemma sorted_insert_perm (x : Validation) (l : list Validation) :
  sorted_insert x l ≡ₚ x :: l.
Proof.
  induction l as [|y t IH]; simpl; [reflexivity|].
  destruct (validation_lt x y); [reflexivity|].
  rewrite IH. apply perm_swap.
Qed.

Lemma sorted_perm (l : list Validation) : sorted l ≡ₚ l.
Proof.
  unfold sorted.
  assert (forall acc, fold_left (fun a x => sorted_insert x a) l acc ≡ₚ acc ++ l) as Hgen.
  { induction l as [|x l IH]; simpl; intros acc.
    - rewrite app_nil_r. reflexivity.
    - rewrite IH, sorted_insert_perm.
      rewrite (Permutation_middle acc l x). reflexivity. }
  rewrite Hgen. reflexivity.
Qed.

Lemma separated_lookup (l : list Validation) (i j : nat) (v w : Validation) :
  separated l -> i <> j -> l !! i = Some v -> l !! j = Some w -> same v w = false.
Proof.
  intros Hs. revert i j. induction Hs as [|x l Hx Hl IH]; intros i j Hij Hi Hj.
  - discriminate.
  - destruct i as [|i], j as [|j]; simpl in *.
    + congruence.
    + injection Hi as ->. rewrite Forall_forall in Hx.
      apply Hx. eapply list_elem_of_lookup_2; eauto.
    + injection Hj as ->. rewrite same_set_entry_sym. rewrite Forall_forall in Hx.
      apply Hx. eapply list_elem_of_lookup_2; eauto.
    + apply (IH i j); [lia|exact Hi|exact Hj].
Qed.

Lemma remove_duplicates_separated (validation_list : list Validation) :
  separated (remove_duplicates_and_sort_validation py_hash set_iteration validation_list).
Proof.
  unfold remove_duplicates_and_sort_validation.
  eapply separated_perm; [symmetry; apply sorted_perm|].
  eapply separated_perm; [symmetry; apply set_iteration_perm|].
  apply py_set_separated.
Qed.

Lemma set_add_keeps (s : list Validation) (v w : Validation) :
  w ∈ s -> w ∈ set_add py_hash s v.
Proof.
  unfold set_add. destruct (existsb (same v) s); [auto|].
  intros Hw. apply elem_of_app. left. exact Hw.
Qed.

Lemma set_add_represents (s : list Validation) (v : Validation) :
  exists w, w ∈ set_add py_hash s v /\ same v w = true.
Proof.
  unfold set_add. destruct (existsb (same v) s) eqn:E.
  - apply existsb_exists in E as (w & Hin & Hw). exists w. split; [|exact Hw].
    apply list_elem_of_In. exact Hin.
  - exists v. split; [apply elem_of_app; right; constructor|].
    apply same_hash_key. reflexivity.
Qed.

Lemma py_set_represents (l : list Validation) (v : Validation) :
  v ∈ l -> exists w, w ∈ py_set py_hash l /\ same v w = true.
Proof.
  unfold py_set. generalize (@nil Validation) as acc.
  induction l as [|x l IH]; intros acc Hv; [inversion Hv|].
  simpl. apply elem_of_cons in Hv as [->|Hv]; [|apply IH; exact Hv].
  destruct (set_add_represents acc x) as (w & Hw & Hsame).
  exists w. split; [|exact Hsame].
  clear IH Hsame. revert Hw. generalize (set_add py_hash acc x) as acc'.
  induction l as [|y l IHl]; simpl; intros acc' Hw; [exact Hw|].
  apply IHl, set_add_keeps, Hw.
Qed.
End ReportAggregatorFacts.

(** C2 (as stated) fails: both findings of the sample report have the value
    check and row 12, they differ in their error type and so in their hash,
    and both are in the deduplicated output. *)
Lemma dedup_keeps_equal_check_and_row :
  ~ (forall (i j : nat) (v w : Validation),
       i <> j ->
       remove_duplicates_and_sort_validation perfect_hash insertion_order
         [sample_total_cash_sales_finding; sample_tips_finding] !! i = Some v ->
       remove_duplicates_and_sort_validation perfect_hash insertion_order
         [sample_total_cash_sales_finding; sample_tips_finding] !! j = Some w ->
       (check v, error_row v) <> (check w, error_row w)).
Proof.
  intros Hclaim.
  apply (Hclaim 0%nat 1%nat sample_total_cash_sales_finding sample_tips_finding).
  - discriminate.
  - vm_compute. reflexivity.
  - vm_compute. reflexivity.
  - reflexivity.
Qed.

(** C2 (amended): after [remove_duplicates_and_sort_validation], no two
    findings at distinct positions of the output are the same set member,
    that is, have equal hashes and equal (check, source_row); in particular
    no two of them agree on all seven hashed fields (check, status, row,
    audit trail, element, error type, parameters). Every input finding has a
    set-equal representative in the output, and two input findings whose
    hashes differ are represented at two distinct positions of the output,
    also when they share (check, source_row). *)
Theorem dedup_output_distinct_set_members
    {H : Type} `{EqDecision H} (py_hash : HashKey -> H)
    (set_iteration : list Validation -> list Validation)
    (set_iteration_perm : forall l, set_iteration l ≡ₚ l)
    (validation_list : list Validation) :
  (forall (i j : nat) (v w : Validation),
      i <> j ->
      remove_duplicates_and_sort_validation py_hash set_iteration validation_list !! i = Some v ->
      remove_duplicates_and_sort_validation py_hash set_iteration validation_list !! j = Some w ->
      ~ (validation_hash py_hash v = validation_hash py_hash w
         /\ check v = check w /\ error_row v = error_row w)
      /\ hash_key v <> hash_key w)
  /\ (forall v : Validation,
        v ∈ validation_list ->
        exists w, w ∈ remove_duplicates_and_sort_validation py_hash set_iteration validation_list
                  /\ validation_hash py_hash v = validation_hash py_hash w
                  /\ check v = check w /\ error_row v = error_row w)
  /\ (forall v w : Validation,
        v ∈ validation_list -> w ∈ validation_list ->
        validation_hash py_hash v <> validation_hash py_hash w ->
        exists (i j : nat) (v' w' : Validation),
          i <> j
          /\ remove_duplicates_and_sort_validation py_hash set_iteration validation_list !! i
             = Some v'
          /\ remove_duplicates_and_sort_validation py_hash set_iteration validation_list !! j
             = Some w'
          /\ validation_hash py_hash v' = validation_hash py_hash v
          /\ check v' = check v /\ error_row v' = error_row v
          /\ validation_hash py_hash w' = validation_hash py_hash w
          /\ check w' = check w /\ error_row w' = error_row w).
Proof.
  assert (forall v : Validation,
            v ∈ validation_list ->
            exists w, w ∈ remove_duplicates_and_sort_validation py_hash set_iteration
                            validation_list
                      /\ validation_hash py_hash v = validation_hash py_hash w
                      /\ check v = check w /\ error_row v = error_row w) as Hrepresented.
  { intros v Hv.
    destruct (py_set_represents py_hash validation_list v Hv) as (w & Hw & Hsame).
    exists w. split.
    + unfold remove_duplicates_and_sort_validation.
      rewrite sorted_perm, set_iteration_perm. exact Hw.
    + unfold same_set_entry, validation_eq in Hsame.
      apply andb_true_iff in Hsame as [Hh Heq].
      apply andb_true_iff in Heq as [Hc Hr].
      apply bool_decide_eq_true in Hh, Hc, Hr. auto. }
  split; [|split; [exact Hrepresented|]].
  2:{ intros v w Hv Hw Hne.
      destruct (Hrepresented v Hv) as (v' & Hv' & Hvh & Hvc & Hvr).
      destruct (Hrepresented w Hw) as (w' & Hw' & Hwh & Hwc & Hwr).
      apply list_elem_of_lookup in Hv' as [i Hi]. apply list_elem_of_lookup in Hw' as [j Hj].
      exists i, j, v', w'. split.
      - intros ->. rewrite Hi in Hj. injection Hj as ->. congruence.
      - repeat split; congruence. }
  - intros i j v w Hij Hi Hj.
    pose proof (separated_lookup py_hash _ i j v w
                  (remove_duplicates_separated py_hash set_iteration set_iteration_perm
                     validation_list) Hij Hi Hj) as Hsep.
    split.
    + intros (Hh & Hc & Hr). unfold same_set_entry, validation_eq in Hsep.
      rewrite !bool_decide_eq_true_2 in Hsep by done. discriminate.
    + intros Hk. rewrite (same_hash_key py_hash v w Hk) in Hsep. discriminate.
Qed.

Lemma dedup_output_distinct_set_members_witness :
  (forall l : list Validation, insertion_order l ≡ₚ l)
  /\ (forall (i j : nat) (v w : Validation),
        i <> j ->
        remove_duplicates_and_sort_validation perfect_hash insertion_order
          [sample_tips_finding; sample_total_cash_sales_finding; sample_tips_finding] !! i = Some v ->
        remove_duplicates_and_sort_validation perfect_hash insertion_order
          [sample_tips_finding; sample_total_cash_sales_finding; sample_tips_finding] !! j = Some w ->
        hash_key v <> hash_key w).
Proof.
  split.
  - intros l. reflexivity.
  - intros i j v w Hij Hi Hj.
    exact (proj2 (proj1 (dedup_output_distinct_set_members perfect_hash insertion_order
                           (fun l => Permutation_refl l)
                           [sample_tips_finding; sample_total_cash_sales_finding;
                            sample_tips_finding]) i j v w Hij Hi Hj)).
Defined.

(** C4: the report prefix is a function of the findings list: it is [NOK_]
    exactly when some error finding is not of the value check, [FLAG_]
    exactly when there is no such finding but some error finding of the
    value check, and [OK_] exactly when there is no error finding; so exactly
    one of the three prefixes is chosen. *)
Theorem prefix_total_order (validation_ : list Validation) :
  (prefix validation_ = nok_prefix <->
     exists x, x ∈ validation_ /\ status x = error /\ check x <> value_check)
  /\ (prefix validation_ = flag_prefix <->
        ~ (exists x, x ∈ validation_ /\ status x = error /\ check x <> value_check)
        /\ exists x, x ∈ validation_ /\ status x = error /\ check x = value_check)
  /\ (prefix validation_ = ok_prefix <->
        ~ (exists x, x ∈ validation_ /\ status x = error))
  /\ (prefix validation_ = nok_prefix \/ prefix validation_ = flag_prefix
      \/ prefix validation_ = ok_prefix).
Proof.
  assert (forall (P : Validation -> Prop) `{forall x, Decision (P x)},
            existsb (fun x => bool_decide (status x = error)) (filter P validation_) = true
            <-> exists x, x ∈ validation_ /\ status x = error /\ P x) as Hex.
  { intros P HP. rewrite existsb_exists. split.
    - intros (x & Hin & Hs). apply list_elem_of_In, list_elem_of_filter in Hin as [HPx Hin].
      apply bool_decide_eq_true in Hs. eauto.
    - intros (x & Hin & Hs & HPx). exists x. split.
      + apply list_elem_of_In, list_elem_of_filter. auto.
      + apply bool_decide_eq_true. exact Hs. }
  unfold prefix.
  destruct (existsb _ (filter (fun x => check x <> value_check) validation_)) eqn:E1;
    [|destruct (existsb _ (filter (fun x => check x = value_check) validation_)) eqn:E2].
  - apply (proj1 (Hex (fun x => check x <> value_check) _)) in E1.
    split; [|split; [|split]].
    + split; auto.
    + split; [discriminate|]. intros [Hno _]. contradiction.
    + split; [discriminate|]. intros Hno. exfalso. apply Hno.
      destruct E1 as (x & Hin & Hs & _). eauto.
    + left. reflexivity.
  - apply (proj1 (Hex (fun x => check x = value_check) _)) in E2.
    assert (~ exists x, x ∈ validation_ /\ status x = error /\ check x <> value_check) as Hno.
    { intros Hx. apply (proj2 (Hex (fun x => check x <> value_check) _)) in Hx. congruence. }
    split; [|split; [|split]].
    + split; [discriminate|]. intros Hx. contradiction.
    + split; auto.
    + split; [discriminate|]. intros Hnone. exfalso. apply Hnone.
      destruct E2 as (x & Hin & Hs & _). eauto.
    + right. left. reflexivity.
  - assert (~ exists x, x ∈ validation_ /\ status x = error /\ check x <> value_check) as Hno1.
    { intros Hx. apply (proj2 (Hex (fun x => check x <> value_check) _)) in Hx. congruence. }
    assert (~ exists x, x ∈ validation_ /\ status x = error /\ check x = value_check) as Hno2.
    { intros Hx. apply (proj2 (Hex (fun x => check x = value_check) _)) in Hx. congruence. }
    split; [|split; [|split]].
    + split; [discriminate|]. intros Hx. contradiction.
    + split; [discriminate|]. intros [_ Hx]. contradiction.
    + split; [|reflexivity]. intros _ (x & Hin & Hs).
      destruct (decide (check x = value_check)).
      * apply Hno2. eauto.
      * apply Hno1. eauto.
    + right. right. reflexivity.
Qed.

(** ** Numbering continuity *)

(** [nr_previous_check] of a transaction is the condition
    [nr_fl == previous nr_fl + 1] against the transaction built just before
    it for the same [cashregister] element ([True] for the first one). *)
Lemma CashTrans_init_nr_previous_check `{PyBuiltins} (cash_trans : XmlCashTrans)
    (cls cls' : CashTrans.ClassVars) (obj : CashTrans.t) (st st' : Validator) :
  CashTrans.init cash_trans cls st = Return (obj, cls') st' ->
  CashTrans.nr_previous_check obj =
    match CashTrans.last_nr_fl cls with
    | None => true
    | Some previous => (CashTrans.nr_fl obj =? previous + 1)%float
    end
  /\ CashTrans.last_nr_fl cls' = Some (CashTrans.nr_fl obj).
Proof.
  unfold CashTrans.init, bind, ret.
  destruct (CashTrans.convert_nr (x_nr cash_trans) st) as [x st1|e st1]; [|discriminate].
  intros [= <- <- <-]. simpl. split; reflexivity.
Qed.

Lemma pr_cash_register_fold (cash_transactions : Dict (option string) (list CashTrans.t))
    (flag : bool) :
  fold_left
    (fun flag0 '(_, cash_trans) =>
       fold_left (fun flag' cash_tran =>
                    if negb (CashTrans.nr_previous_check cash_tran) then false else flag')
                 cash_trans flag0)
    cash_transactions flag
  = flag && forallb (fun reg => forallb CashTrans.nr_previous_check (snd reg)) cash_transactions.
Proof.
  assert (forall l f,
            fold_left (fun flag' cash_tran =>
                         if negb (CashTrans.nr_previous_check cash_tran) then false else flag')
                      l f
            = f && forallb CashTrans.nr_previous_check l) as Hinner.
  { induction l as [|c l IH]; intros f; simpl.
    - rewrite andb_true_r. reflexivity.
    - rewrite IH. destruct (CashTrans.nr_previous_check c), f; reflexivity. }
  revert flag. induction cash_transactions as [|[k l] d IH]; intros flag; simpl.
  - rewrite andb_true_r. reflexivity.
  - rewrite IH, Hinner, andb_assoc. reflexivity.
Qed.

Lemma global_numbering_loop_appends (l : list CashTrans.t) (numbering : float)
    (previous_numbering : option string) (st : Validator) :
  exists appended,
    validation (XMLValueTestValidator.global_numbering_loop l numbering previous_numbering st)
    = validation st ++ appended
    /\ Forall (fun v => technical_error_type v = Some not_continous_numbering
                        /\ check v = value_check) appended.
Proof.
  revert numbering previous_numbering st.
  induction l as [|c l IH]; intros numbering previous_numbering st; simpl.
  - exists []. rewrite app_nil_r. split; [reflexivity|constructor].
  - destruct (negb _).
    + destruct (IH (CashTrans.nr_fl c) (CashTrans.nr c)
                  (log_validation_error value_check (element (CashTrans.base c))
                     not_continous_numbering
                     (Some [param_of_string (CashTrans.nr c);
                            param_of_string previous_numbering])
                     (set_value_error st))) as (app & Happ & Hall).
      eexists (_ :: app). rewrite Happ. simpl. rewrite <- app_assoc. simpl.
      split; [reflexivity|]. constructor; [split; reflexivity|exact Hall].
    + apply IH.
Qed.

(** C1 (as stated) fails: in the interleaved document register A holds the
    numbers 1, 3 and register B the numbers 2, 4, so the per-register
    condition fails in both registers; the code emits no
    CONTINOUS_NUMBERING_PR_CASH_REGISTER finding (the claim says exactly
    one), and it runs the global check, which finds 1, 2, 3, 4 in order.
    Conversely, when each of two registers is numbered 1, 2 on its own, the
    condition holds everywhere and the finding is emitted. *)
Lemma numbering_break_pr_register_gives_no_finding :
  (exists cash_transactions st,
      gen_all_cash_trans (H := digits_builtins) interleaved_registers init_validator
      = Return cash_transactions st
      /\ forallb (fun reg => forallb CashTrans.nr_previous_check (snd reg)) cash_transactions
         = false
      /\ validation
           (XMLValueTestValidator.check_continous_numbering_in_cash_tran cash_transactions st)
         = [])
  /\ (exists cash_transactions st,
        gen_all_cash_trans (H := digits_builtins) separately_numbered_registers init_validator
        = Return cash_transactions st
        /\ forallb (fun reg => forallb CashTrans.nr_previous_check (snd reg)) cash_transactions
           = true
        /\ validation
             (XMLValueTestValidator.check_continous_numbering_in_cash_tran cash_transactions st)
           = [pr_cash_register_finding]).
Proof.
  split; eexists _, _; (split; [vm_compute; reflexivity|]); split; vm_compute; reflexivity.
Qed.

(** ** Parsing [nr] *)

Lemma list_ascii_of_string_app (s1 s2 : string) :
  list_ascii_of_string (s1 ++ s2)%string
  = list_ascii_of_string s1 ++ list_ascii_of_string s2.
Proof. induction s1 as [|c s1 IH]; simpl; [reflexivity|]. rewrite IH. reflexivity. Qed.

Lemma all_digits_app (s1 s2 : string) :
  all_digits (s1 ++ s2)%string = all_digits s1 && all_digits s2.
Proof. unfold all_digits. rewrite list_ascii_of_string_app. apply forallb_app. Qed.

Lemma findall_digits_from_runs (value current : string) :
  all_digits current = true ->
  Forall (fun run => run <> "" /\ all_digits run = true)
         (findall_digits_from current value).
Proof.
  revert current. induction value as [|c rest IH]; intros current Hcur; simpl.
  - case_bool_decide as Hempty; [constructor|].
    constructor; [split; assumption|constructor].
  - destruct (is_digit c) eqn:Hc.
    + apply IH. rewrite all_digits_app, Hcur. unfold all_digits. simpl.
      rewrite Hc. reflexivity.
    + apply Forall_app. split.
      * case_bool_decide as Hempty; [constructor|].
        constructor; [split; assumption|constructor].
      * apply IH. reflexivity.
Qed.

Lemma join_empty_digits (runs : list string) :
  Forall (fun run => run <> "" /\ all_digits run = true) runs ->
  runs <> [] ->
  join_empty runs <> "" /\ all_digits (join_empty runs) = true.
Proof.
  unfold join_empty. induction 1 as [|run runs [Hne Hd] Hruns IH]; intros Hnil; [done|].
  destruct runs as [|run' runs'].
  - simpl. split; assumption.
  - assert (String.concat "" (run :: run' :: runs')
            = (run ++ String.concat "" (run' :: runs'))%string) as -> by reflexivity.
    destruct IH as [IHne IHd]; [discriminate|].
    split.
    + destruct run; [done|]. simpl. discriminate.
    + rewrite all_digits_app, Hd, IHd. reflexivity.
Qed.

(** C6 (as stated) fails: for the nr text "A12B345" the longest digit run is
    "345", but [convert_nr] returns 12345, the value of all digit runs
    joined. *)
Lemma convert_nr_joins_all_digit_runs :
  CashTrans.convert_nr (H := digits_builtins)
    (Some {| child_element := sample_nr_element 3; text := Some "A12B345" |}) init_validator
  = Return 12345%float init_validator
  /\ float_of_digits (longest_digit_run "A12B345") = 345%float
  /\ (12345 =? 345)%float = false.
Proof. repeat split; vm_compute; reflexivity. Qed.

(** C6 (amended): on every string that parses as a float, holds a comma or
    consists of ASCII characters, [convert_nr] returns: the float the string
    parses to, when it parses; otherwise, if the string contains a comma, 0
    with one VALUE_DOES_NOT_CONTAIN_NR structure finding on the [nr]
    element; otherwise the float value of the concatenation of all maximal
    digit runs of the string, in order; and if the string has no digit, 0
    with one VALUE_DOES_NOT_CONTAIN_NR finding. It needs [float] to parse
    every non-empty string of digits. *)
Theorem convert_nr_total `{PyBuiltins}
    (py_float_digits : forall s : string,
        s <> "" -> all_digits s = true -> py_float s = Some (float_of_digits s))
    (nr_child : XmlChild) (value : string) (st : Validator) :
  text nr_child = Some value ->
  py_float value <> None \/ contains_comma value = true \/ isascii value = true ->
  CashTrans.convert_nr (Some nr_child) st =
    match py_float value with
    | Some x => Return x st
    | None =>
        if contains_comma value
        then Return 0%float
               (log_validation_error structure_check (child_element nr_child)
                  should_contain_number (Some [PStr value]) st)
        else
          match findall_digits value with
          | [] => Return 0%float
                    (log_validation_error structure_check (child_element nr_child)
                       should_contain_number (Some [PStr value]) st)
          | digits => Return (float_of_digits (join_empty digits)) st
          end
    end.
Proof.
  intros Htext _. unfold CashTrans.convert_nr. rewrite Htext.
  destruct (py_float value) as [x|]; [reflexivity|].
  destruct (contains_comma value); [reflexivity|].
  pose proof (findall_digits_from_runs value "" eq_refl) as Hruns.
  fold (findall_digits value) in Hruns.
  destruct (findall_digits value) as [|run runs] eqn:Hdigits; [reflexivity|].
  destruct (join_empty_digits (run :: runs) Hruns) as [Hne Hd]; [discriminate|].
  rewrite (py_float_digits _ Hne Hd). reflexivity.
Qed.

Lemma digits_builtins_parse_digits (s : string) :
  s <> "" -> all_digits s = true ->
  py_float (PyBuiltins := digits_builtins) s = Some (float_of_digits s).
Proof.
  intros Hne Hd. simpl. unfold float_of_digit_strings. rewrite Hd.
  rewrite bool_decide_eq_false_2 by exact Hne. reflexivity.
Qed.

Lemma convert_nr_total_witness :
  text {| child_element := sample_nr_element 3; text := Some "INV-0042/7" |}
  = Some "INV-0042/7"
  /\ isascii "INV-0042/7" = true
  /\ CashTrans.convert_nr (H := digits_builtins)
       (Some {| child_element := sample_nr_element 3; text := Some "INV-0042/7" |})
       init_validator
     = Return 427%float init_validator.
Proof.
  split; [reflexivity|]. split; [reflexivity|].
  exact (convert_nr_total (H := digits_builtins) digits_builtins_parse_digits
           {| child_element := sample_nr_element 3; text := Some "INV-0042/7" |}
           "INV-0042/7" init_validator eq_refl (or_intror (or_intror eq_refl))).
Defined.

(** ** Event reports: the grand-total carry *)



(** ** Mandatory-if-available: the ctLine rule *)

(** C9 (as stated) fails: 11003 is outside the set the claim names, and a
    non-void transaction of predefined basic 11003 without [ctLine] gets the
    ELEMENT_NOT_FOUND_WHEN_EXPECTED finding of the ctLine rule. *)
Lemma ct_line_rule_triggers_outside_claimed_set :
  ~ "11003" ∈ spec_ctline_trigger_set
  /\ mandatory_findings (H := digits_builtins) return_basics
       [sample_register "A" [sample_return]]
     = Some [ct_line_finding
               {| tag := "transType"; row_nr := 82;
                  trail := "auditfile/company/location/cashregister/cashtransaction" |}
               (Some "11003")].
Proof.
  split.
  - intros Hin. apply (bool_decide_eq_true_2 _) in Hin. vm_compute in Hin. discriminate.
  - vm_compute. reflexivity.
Qed.

(** C9 (amended): the ctLine rule of a CashTrans returns [False] exactly
    when the transaction is not void, its predefined basic is in
    {11001, 11002, 11003, 11004, 11006, 11008, 11009, 11012, 11013, 11014,
    11015, 11016, 11017, 11999} and its ctLine list is empty; the misses the
    value check collects for the rule are exactly these transactions, in
    order, and for each of them it logs one ELEMENT_NOT_FOUND_WHEN_EXPECTED
    finding on the [transType] element with the parameters (predefined
    basic, "ctLine"). A void transaction, and a transaction whose predefined
    basic is outside that set, yields none. *)
Theorem ct_line_rule_trigger_set (all_basics : list Basics)
    (events : Dict (option string) (list Event.t))
    (cash_transactions : Dict (option string) (list CashTrans.t))
    (self : CashTrans.t) (st : Validator) :
  CashTrans.predefined_basic_ctline
  = ["11001"; "11002"; "11003"; "11004"; "11006"; "11008"; "11009"; "11012";
     "11013"; "11014"; "11015"; "11016"; "11017"; "11999"]
  /\ CashTrans.mandatory_if_available_ct_line all_basics self
     = ("ctLine", negb (ct_line_missing all_basics self))
  /\ MandatoryIfAvailable.cash_trans_missed all_basics cash_transactions
       CashTrans.mandatory_if_available_ct_line
     = map (fun obj =>
              {| missed_basic_type_element := base_element_of (CashTrans.base obj);
                 missed_predefined_basic := predefined_basic all_basics (CashTrans.base obj);
                 missed_mandatory := ("ctLine", false) |})
           (List.filter (ct_line_missing all_basics)
                        (concat (dict_values cash_transactions)))
  /\ MandatoryIfAvailable.log_missed
       {| missed_basic_type_element := base_element_of (CashTrans.base self);
          missed_predefined_basic := predefined_basic all_basics (CashTrans.base self);
          missed_mandatory := ("ctLine", false) |} st
     = match base_element_of (CashTrans.base self) with
       | Some element_ =>
           Return tt
             (set_value_error
                (append_validation
                   (ct_line_finding element_
                      (predefined_basic all_basics (CashTrans.base self))) st))
       | None => Raise "AttributeError" st
       end.
Proof.
  assert (forall obj,
            CashTrans.mandatory_if_available_ct_line all_basics obj
            = ("ctLine", negb (ct_line_missing all_basics obj))) as Hrule.
  { intros obj. unfold CashTrans.mandatory_if_available_ct_line, ct_line_missing,
      mandatory_if_available.
    destruct (CashTrans.void_trans obj); [reflexivity|]. simpl.
    destruct (predefined_basic all_basics (CashTrans.base obj)) as [pb|]; [|reflexivity].
    destruct (bool_decide (pb ∈ CashTrans.predefined_basic_ctline)); [|reflexivity].
    destruct (CashTrans.ct_lines obj); reflexivity. }
  split; [reflexivity|]. split; [apply Hrule|]. split.
  - unfold MandatoryIfAvailable.cash_trans_missed, MandatoryIfAvailable.get_missed_mandatory,
      MandatoryIfAvailable.all_cash_trans.
    induction (concat (dict_values cash_transactions)) as [|obj l IH]; [reflexivity|].
    simpl. rewrite Hrule. simpl. rewrite negb_involutive.
    destruct (ct_line_missing all_basics obj) eqn:E; simpl; rewrite IH; [|reflexivity].
    rewrite Hrule, E. reflexivity.
  - unfold MandatoryIfAvailable.log_missed, log_validation_error_on, bind, lift. simpl.
    destruct (base_element_of (CashTrans.base self)); reflexivity.
Qed.

(** ** Signature mode discovery *)

Section VerifyFacts.
Context `{Crypto}.
Variable public_key : PublicKey.
Variable message_ : Signature.
Variable signature_ : string.

Local Abbreviation attempt :=
  (SignatureVerificationStrategy.try_combination public_key message_ signature_).

Lemma update_priority_front (priority : list Combination) (k : nat) (c : Combination) :
  priority !! k = Some c ->
  SignatureVerificationStrategy.update_priority priority k = Some (c :: delete k priority).
Proof. intros Hk. unfold SignatureVerificationStrategy.update_priority. rewrite Hk. reflexivity. Qed.

Lemma verify_from_spec (done rest : list Combination) :
  Forall (fun c => attempt c = Some false) done ->
  match SignatureVerificationStrategy.verify_from public_key message_ signature_
          (done ++ rest) (length done) rest with
  | SignatureVerificationStrategy.VerifyTrue priority' =>
      exists (k : nat) (c : Combination),
        (done ++ rest) !! k = Some c
        /\ attempt c = Some true
        /\ (forall (j : nat) (c' : Combination),
              (j < k)%nat -> (done ++ rest) !! j = Some c' -> attempt c' = Some false)
        /\ priority' = c :: delete k (done ++ rest)
  | SignatureVerificationStrategy.VerifyNone =>
      Forall (fun c => attempt c = Some false) (done ++ rest)
  | SignatureVerificationStrategy.VerifyRaise =>
      exists c, c ∈ done ++ rest /\ attempt c = None
  end.
Proof.
  revert done. induction rest as [|c rest IH]; intros done Hdone; simpl.
  - rewrite app_nil_r. exact Hdone.
  - assert ((done ++ c :: rest) !! length done = Some c) as Hlookup
      by apply list_lookup_middle, eq_refl.
    assert (forall (j : nat) (c' : Combination),
              (j < length done)%nat -> (done ++ c :: rest) !! j = Some c' ->
              attempt c' = Some false) as Hbefore.
    { intros j c' Hj Hc'. rewrite lookup_app_l in Hc' by exact Hj.
      rewrite Forall_forall in Hdone. apply Hdone.
      eapply list_elem_of_lookup_2. exact Hc'. }
    destruct (attempt c) as [[|]|] eqn:Hc.
    + case_bool_decide as Hidx.
      * rewrite (update_priority_front _ _ _ Hlookup).
        exists (length done), c. auto.
      * destruct done as [|d done]; [|simpl in Hidx; discriminate].
        exists O, c. simpl. repeat split; auto; intros; lia.
    + specialize (IH (done ++ [c])).
      rewrite <- app_assoc, length_app in IH. simpl in IH.
      replace (length done + 1)%nat with (S (length done)) in IH by lia.
      apply IH. apply Forall_app. split; [exact Hdone|]. constructor; [exact Hc|constructor].
    + exists c. split; [|exact Hc]. apply elem_of_app. right. constructor.
Qed.

Lemma verify_head (c : Combination) (rest : list Combination) :
  attempt c = Some true ->
  SignatureVerificationStrategy.verify public_key (c :: rest) message_ signature_
  = SignatureVerificationStrategy.VerifyTrue (c :: rest).
Proof.
  intros Hc. unfold SignatureVerificationStrategy.verify. simpl. rewrite Hc.
  reflexivity.
Qed.

Lemma verify_permutation (priority priority' : list Combination) :
  SignatureVerificationStrategy.verify public_key priority message_ signature_
  = SignatureVerificationStrategy.VerifyTrue priority' ->
  priority' ≡ₚ priority.
Proof.
  intros Hv. pose proof (verify_from_spec [] priority (List.Forall_nil _)) as Hspec.
  simpl in Hspec. unfold SignatureVerificationStrategy.verify in Hv. rewrite Hv in Hspec.
  destruct Hspec as (k & c & Hk & _ & _ & ->).
  symmetry. apply delete_Permutation. exact Hk.
Qed.
End VerifyFacts.

(** ** Signature validator *)

Section SignatureValidatorFacts.
Context `{Crypto}.
Variable string_dummy : string.
Variable company_id : option string.
Variable is_invalid_company_id : option bool.

Local Abbreviation step :=
  (XMLSignatureValidator.validate_cash_tran string_dummy company_id is_invalid_company_id).

Lemma validate_cash_tran_signature (cash_reg : option string) (cash_tran : CashTrans.t)
    (s : XMLSignatureValidator.State) :
  XMLSignatureValidator.signature (step cash_reg cash_tran s)
  = CashTrans.signature_element cash_tran.
Proof.
  unfold XMLSignatureValidator.validate_cash_tran.
  repeat (case_match; try reflexivity).
Qed.

Lemma validate_cash_tran_priority (cash_reg : option string) (cash_tran : CashTrans.t)
    (s : XMLSignatureValidator.State) :
  XMLSignatureValidator.priority (step cash_reg cash_tran s)
  ≡ₚ XMLSignatureValidator.priority s.
Proof.
  unfold XMLSignatureValidator.validate_cash_tran.
  repeat (case_match; try reflexivity); simpl;
    match goal with
    | Hv : SignatureVerificationStrategy.verify _ _ _ _
           = SignatureVerificationStrategy.VerifyTrue _ |- _ =>
        exact (verify_permutation _ _ _ _ _ Hv)
    end.
Qed.

(** The findings one transaction adds are not NO_SIGNATURE findings. *)
Lemma validate_cash_tran_findings (cash_reg : option string) (cash_tran : CashTrans.t)
    (s : XMLSignatureValidator.State) :
  exists appended,
    validation (XMLSignatureValidator.validator (step cash_reg cash_tran s))
    = validation (XMLSignatureValidator.validator s) ++ appended
    /\ Forall (fun v => technical_error_type v <> Some no_signature) appended.
Proof.
  unfold XMLSignatureValidator.validate_cash_tran.
  repeat case_match; simpl;
    first [ exists []; rewrite app_nil_r; split; [reflexivity|constructor]
          | eexists [_]; split; [reflexivity|];
            constructor; [simpl; discriminate|constructor] ].
Qed.

Lemma fold_validate_cash_tran (cash_reg : option string) (cash_trans : list CashTrans.t)
    (s : XMLSignatureValidator.State) :
  let s' := fold_left (fun acc cash_tran => step cash_reg cash_tran acc) cash_trans s in
  XMLSignatureValidator.signature s'
  = match last cash_trans with
    | Some cash_tran => CashTrans.signature_element cash_tran
    | None => XMLSignatureValidator.signature s
    end
  /\ XMLSignatureValidator.priority s' ≡ₚ XMLSignatureValidator.priority s
  /\ exists appended,
       validation (XMLSignatureValidator.validator s')
       = validation (XMLSignatureValidator.validator s) ++ appended
       /\ Forall (fun v => technical_error_type v <> Some no_signature) appended.
Proof.
  revert s. induction cash_trans as [|c l IH]; intros s; simpl.
  - split; [reflexivity|]. split; [reflexivity|].
    exists []. rewrite app_nil_r. split; [reflexivity|constructor].
  - destruct (IH (step cash_reg c s)) as (Hsig & Hperm & app & Happ & Hall).
    destruct (validate_cash_tran_findings cash_reg c s) as (app0 & Happ0 & Hall0).
    split; [|split].
    + rewrite Hsig. destruct l as [|c' l'].
      * apply validate_cash_tran_signature.
      * change (last (c :: c' :: l')) with (last (c' :: l')).
        destruct (last (c' :: l')) eqn:Hlast; [reflexivity|].
        apply last_None in Hlast. discriminate.
    + rewrite Hperm. apply validate_cash_tran_priority.
    + exists (app0 ++ app). rewrite Happ, Happ0, app_assoc. split; [reflexivity|].
      apply Forall_app. split; assumption.
Qed.

Lemma validate_register_spec (reg : option string * list CashTrans.t)
    (s s' : XMLSignatureValidator.State) :
  XMLSignatureValidator.validate_register string_dummy company_id is_invalid_company_id
    reg s = Some s' ->
  XMLSignatureValidator.signature s'
  = match last (snd reg) with
    | Some cash_tran => CashTrans.signature_element cash_tran
    | None => XMLSignatureValidator.signature s
    end
  /\ XMLSignatureValidator.priority s' ≡ₚ XMLSignatureValidator.priority s
  /\ exists appended,
       validation (XMLSignatureValidator.validator s')
       = validation (XMLSignatureValidator.validator s) ++ appended
       /\ Forall (fun v => technical_error_type v <> Some no_signature) appended.
Proof.
  unfold XMLSignatureValidator.validate_register.
  set (s0 := XMLSignatureValidator.mkState _ _ "0" O O _ _).
  destruct (fold_validate_cash_tran (fst reg) (snd reg) s0)
    as (Hsig & Hperm & app & Happ & Hall).
  destruct (_ && _).
  - destruct (XMLSignatureValidator.first_signature (fold_left _ _ _)) as [first|];
      [|discriminate].
    intros [= <-]. simpl. split; [exact Hsig|]. split; [exact Hperm|].
    eexists (app ++ [_]). split.
    + unfold XMLSignatureValidator.log_signature_error, set_signature_error,
        log_validation_error, append_validation. simpl.
      rewrite Happ, app_assoc. reflexivity.
    + apply Forall_app. split; [exact Hall|].
      constructor; [simpl; discriminate|constructor].
  - intros [= <-]. split; [exact Hsig|]. split; [exact Hperm|].
    exists app. split; assumption.
Qed.

Lemma last_app_cases {A : Type} (l1 l2 : list A) :
  last (l1 ++ l2) = match last l2 with Some x => Some x | None => last l1 end.
Proof.
  destruct l2 as [|x l2] using rev_ind.
  - rewrite app_nil_r. simpl. destruct (last l1); reflexivity.
  - rewrite app_assoc, !last_snoc. reflexivity.
Qed.

Lemma validate_registers_spec (regs : Dict (option string) (list CashTrans.t))
    (s s' : XMLSignatureValidator.State) :
  XMLSignatureValidator.validate_registers string_dummy company_id is_invalid_company_id
    regs s = Some s' ->
  XMLSignatureValidator.signature s'
  = match last (concat (dict_values regs)) with
    | Some cash_tran => CashTrans.signature_element cash_tran
    | None => XMLSignatureValidator.signature s
    end
  /\ XMLSignatureValidator.priority s' ≡ₚ XMLSignatureValidator.priority s
  /\ exists appended,
       validation (XMLSignatureValidator.validator s')
       = validation (XMLSignatureValidator.validator s) ++ appended
       /\ Forall (fun v => technical_error_type v <> Some no_signature) appended.
Proof.
  revert s. induction regs as [|reg regs IH]; intros s; simpl.
  - intros [= <-]. split; [reflexivity|]. split; [reflexivity|].
    exists []. rewrite app_nil_r. split; [reflexivity|constructor].
  - destruct (XMLSignatureValidator.validate_register _ _ _ reg s) as [s1|] eqn:Hreg;
      [|discriminate].
    intros Hrest. apply validate_register_spec in Hreg as (Hsig1 & Hperm1 & app1 & Happ1 & Hall1).
    apply IH in Hrest as (Hsig & Hperm & app & Happ & Hall).
    split; [|split].
    + rewrite Hsig. unfold dict_values. simpl. rewrite last_app_cases.
      fold (dict_values regs).
      destruct (last (concat (dict_values regs))); [reflexivity|exact Hsig1].
    + rewrite Hperm. exact Hperm1.
    + exists (app1 ++ app). rewrite Happ, Happ1, app_assoc. split; [reflexivity|].
      apply Forall_app. split; assumption.
Qed.

(** What [validate] does about NO_SIGNATURE: the finding is logged, once
    and last, exactly when the last cash transaction visited has no
    signature element (or there is no cash transaction). *)
Lemma validate_no_signature_spec
    (cash_transactions : Dict (option string) (list CashTrans.t))
    (priority_ priority' : list Combination) (v v' : Validator) :
  XMLSignatureValidator.validate string_dummy company_id is_invalid_company_id
    cash_transactions priority_ v = Some (priority', v') ->
  priority' ≡ₚ priority_
  /\ exists appended,
       validation v'
       = validation v ++ appended
         ++ (if bool_decide (last_signature_element cash_transactions = None)
             then [no_signature_finding] else [])
       /\ Forall (fun f => technical_error_type f <> Some no_signature) appended.
Proof.
  unfold XMLSignatureValidator.validate, last_signature_element.
  destruct (XMLSignatureValidator.validate_registers _ _ _ _ _) as [s|] eqn:Hregs;
    [|discriminate].
  apply validate_registers_spec in Hregs as (Hsig & Hperm & app & Happ & Hall).
  simpl in Hsig, Hperm, Happ. rewrite Hsig.
  destruct (last (concat (dict_values cash_transactions))) as [cash_tran|].
  - destruct (CashTrans.signature_element cash_tran) as [e|].
    + intros [= <- <-]. split; [exact Hperm|]. exists app.
      rewrite bool_decide_eq_false_2 by discriminate. rewrite app_nil_r. auto.
    + intros [= <- <-]. split; [exact Hperm|]. exists app.
      rewrite bool_decide_eq_true_2 by reflexivity.
      unfold XMLSignatureValidator.log_no_signature_error, append_validation. simpl.
      rewrite Happ, app_assoc. auto.
  - intros [= <- <-]. split; [exact Hperm|]. exists app.
    rewrite bool_decide_eq_true_2 by reflexivity.
    unfold XMLSignatureValidator.log_no_signature_error, append_validation. simpl.
    rewrite Happ, app_assoc. auto.
Qed.
End SignatureValidatorFacts.

(** C8: when [verify] succeeds, it succeeds with the first combination [c]
    of the priority list that verifies, at its index [k]; the list it leaves
    is [c] followed by the other combinations in their old order, so [c] is
    at index 0, and a new attempt on the same input succeeds at index 0 and
    leaves the list as it is. When it does not succeed the list is not
    touched. The list starts as 12 distinct combinations, and the signature
    pass leaves a permutation of the list it started from. *)
Theorem verify_promotes_successful_combination `{Crypto}
    (public_key : PublicKey) (priority : list Combination) (message_ : Signature)
    (signature_ : string) (string_dummy : string) (company_id : option string)
    (is_invalid_company_id : option bool)
    (cash_transactions : Dict (option string) (list CashTrans.t)) (v : Validator) :
  match SignatureVerificationStrategy.verify public_key priority message_ signature_ with
  | SignatureVerificationStrategy.VerifyTrue priority' =>
      exists (k : nat) (c : Combination),
        priority !! k = Some c
        /\ SignatureVerificationStrategy.try_combination public_key message_ signature_ c
           = Some true
        /\ (forall (j : nat) (c' : Combination),
              (j < k)%nat -> priority !! j = Some c' ->
              SignatureVerificationStrategy.try_combination public_key message_ signature_ c'
              = Some false)
        /\ priority' = c :: delete k priority
        /\ priority' !! O = Some c
        /\ priority' ≡ₚ priority
        /\ SignatureVerificationStrategy.verify public_key priority' message_ signature_
           = SignatureVerificationStrategy.VerifyTrue priority'
  | SignatureVerificationStrategy.VerifyNone =>
      Forall (fun c => SignatureVerificationStrategy.try_combination public_key message_
                         signature_ c = Some false) priority
  | SignatureVerificationStrategy.VerifyRaise =>
      exists c, c ∈ priority
                /\ SignatureVerificationStrategy.try_combination public_key message_
                     signature_ c = None
  end
  /\ length SignatureVerificationStrategy.verification_priority = 12%nat
  /\ NoDup SignatureVerificationStrategy.verification_priority
  /\ match XMLSignatureValidator.validate string_dummy company_id is_invalid_company_id
             cash_transactions priority v with
     | Some (priority', _) => priority' ≡ₚ priority
     | None => True
     end.
Proof.
  split; [|split; [|split]].
  - pose proof (verify_from_spec public_key message_ signature_ [] priority
                  (List.Forall_nil _)) as Hspec.
    simpl in Hspec. unfold SignatureVerificationStrategy.verify.
    destruct (SignatureVerificationStrategy.verify_from _ _ _ priority O priority)
      as [priority'| |]; [|exact Hspec|exact Hspec].
    destruct Hspec as (k & c & Hk & Hc & Hbefore & ->).
    exists k, c. repeat split; auto.
    + symmetry. apply delete_Permutation. exact Hk.
    + apply verify_head. exact Hc.
  - reflexivity.
  - apply (bool_decide_unpack _). vm_compute. exact I.
  - destruct (XMLSignatureValidator.validate _ _ _ _ _ _) as [[priority' v']|] eqn:Hv;
      [|exact I].
    apply validate_no_signature_spec in Hv as [Hperm _]. exact Hperm.
Qed.

(** C7 (evaluation at the failing input): register "A" holds a transaction
    with a signature element followed by one without; the document contains
    a signature element, and [validate] logs the NO_SIGNATURE finding, and
    nothing else, whatever the keys, the dummy text and the priority list
    are. *)
Theorem no_signature_logged_although_signature_present `{Crypto}
    (string_dummy : string) (company_id : option string)
    (is_invalid_company_id : option bool) (priority_ : list Combination) :
  exists cash_transactions st,
    gen_all_cash_trans (H := digits_builtins) signed_then_unsigned init_validator
    = Return cash_transactions st
    /\ contains_signature_element cash_transactions = true
    /\ XMLSignatureValidator.validate string_dummy company_id is_invalid_company_id
         cash_transactions priority_ st
       = Some (priority_, append_validation no_signature_finding (set_signature_error st)).
Proof.
  eexists _, _. split; [vm_compute; reflexivity|]. split; [vm_compute; reflexivity|].
  unfold XMLSignatureValidator.validate, XMLSignatureValidator.validate_registers,
    XMLSignatureValidator.validate_register.
  cbn [fold_left snd fst].
  unfold XMLSignatureValidator.validate_cash_tran.
  cbn -[signature_text_of].
  destruct (bool_decide ("c2lnbmF0dXJl" = string_dummy)); vm_compute; reflexivity.
Qed.

(** ** Structure validator: the order of the healing strategies *)

Section StructureFacts.
Import XMLStructureValidator.
Variable schema_dict : gmap string ElementInfo.
Variable audit_trail_translated : gmap string string.
Variable get_dummy_text : string -> option string.

Lemma quiet_sret {A : Type} (a : A) : quiet (sret a).
Proof. intros st. split; reflexivity. Qed.

Lemma quiet_sraise {A : Type} (e : string) : quiet (@sraise A e).
Proof. intros st. split; reflexivity. Qed.

Lemma quiet_sget : quiet sget.
Proof. intros st. split; reflexivity. Qed.

Lemma quiet_sbind {A B : Type} (m : SM A) (k : A -> SM B) :
  quiet m -> (forall a, quiet (k a)) -> quiet (sbind m k).
Proof.
  intros Hm Hk st. unfold sbind. specialize (Hm st).
  destruct (m st) as [[e|a] st1]; simpl in *; [exact Hm|].
  destruct (Hk a st1) as [Hc Hh]. rewrite Hc, Hh. exact Hm.
Qed.

Lemma quiet_smodify (f : State -> State) :
  (forall st, calls (f st) = calls st /\ handled_error (f st) = handled_error st) ->
  quiet (smodify f).
Proof. intros Hf st. apply Hf. Qed.

Lemma quiet_fun {A : Type} (m : SM A) :
  (forall st, (m st).2 = st) -> quiet m.
Proof. intros Hm st. rewrite Hm. split; reflexivity. Qed.

Lemma quiet_sfor_each {A : Type} (xs : list A) (body : A -> SM unit) :
  (forall x, quiet (body x)) -> quiet (sfor_each xs body).
Proof.
  intros Hbody. induction xs as [|x xs IH]; simpl.
  - apply quiet_sret.
  - apply quiet_sbind; [apply Hbody|intros _; exact IH].
Qed.

Lemma node_of_run (e : ElemId) (st : State) :
  node_of e st = (match tree st !! e with
                  | Some n => inr n
                  | None => inl "ReferenceError"
                  end, st).
Proof. unfold node_of. destruct (tree st !! e); reflexivity. Qed.

Lemma quiet_node_of (e : ElemId) : quiet (node_of e).
Proof. apply quiet_fun. intros st. rewrite node_of_run. reflexivity. Qed.

Lemma quiet_get_row_nr (e : ElemId) : quiet (get_row_nr e).
Proof.
  apply quiet_fun. intros st. unfold get_row_nr.
  repeat case_match; reflexivity.
Qed.

Lemma quiet_get_audit_trail (e : ElemId) :
  quiet (get_audit_trail audit_trail_translated e).
Proof.
  apply quiet_fun. intros st. unfold get_audit_trail.
  repeat case_match; reflexivity.
Qed.

Lemma quiet_extract_tag_from_element (e : option ElemId) :
  quiet (extract_tag_from_element e).
Proof.
  destruct e as [e|]; simpl; [|apply quiet_sraise].
  apply quiet_sbind; [apply quiet_node_of|intros n; apply quiet_sret].
Qed.

Lemma quiet_getchildren_of (e : option ElemId) : quiet (getchildren_of e).
Proof.
  destruct e as [e|]; simpl; [|apply quiet_sraise].
  apply quiet_sbind; [apply quiet_node_of|intros n; apply quiet_sret].
Qed.

Lemma quiet_getparent (e : ElemId) : quiet (getparent e).
Proof. apply quiet_sbind; [apply quiet_node_of|intros n; apply quiet_sret]. Qed.

Ltac quiet_step :=
  first
    [ apply quiet_sret | apply quiet_sraise | apply quiet_sget
    | apply quiet_node_of | apply quiet_get_row_nr | apply quiet_get_audit_trail
    | apply quiet_extract_tag_from_element | apply quiet_getchildren_of
    | apply quiet_getparent
    | apply quiet_smodify; intros ?; split; reflexivity
    | apply quiet_sbind; [|intros ?] ].

Lemma quiet_log_validation_error_at (e : ElemId) (error_type : string) :
  quiet (log_validation_error_at audit_trail_translated e error_type).
Proof. unfold log_validation_error_at. repeat quiet_step. Qed.

Lemma quiet_log_structural_error (e : ElemId) (error_ : LogEntry) (name : string) :
  quiet (log_structural_error audit_trail_translated e error_ name).
Proof. unfold log_structural_error. repeat quiet_step. Qed.

Lemma quiet_remove_child (parent : option ElemId) (e : ElemId) :
  quiet (remove_child parent e).
Proof.
  unfold remove_child. destruct parent as [p|]; [|apply quiet_sraise].
  repeat quiet_step. case_bool_decide; repeat quiet_step.
Qed.

Lemma quiet_new_element (tag_ : option string) : quiet (new_element tag_).
Proof.
  unfold new_element. destruct tag_ as [t|]; [|apply quiet_sraise].
  intros st. split; reflexivity.
Qed.

Lemma quiet_set_dummy_text (e : ElemId) (name : string) :
  quiet (set_dummy_text get_dummy_text e name).
Proof.
  unfold set_dummy_text. destruct (get_dummy_text name); [|apply quiet_sraise].
  repeat quiet_step.
Qed.

Lemma quiet_append_child (p e : ElemId) : quiet (append_child p e).
Proof. unfold append_child. repeat quiet_step. Qed.

Lemma quiet_addprevious (e new : ElemId) : quiet (addprevious e new).
Proof.
  unfold addprevious. quiet_step; [quiet_step|].
  destruct (node_parent _); [|apply quiet_sraise]. repeat quiet_step.
Qed.

Lemma quiet_add_dummy (parent : option ElemId) (added : ElemId) (row_ : Z) :
  quiet (add_dummy parent added row_).
Proof.
  unfold add_dummy. quiet_step; [quiet_step|].
  apply quiet_smodify. intros st. destruct (existsb _ _); split; reflexivity.
Qed.

Lemma quiet_line_mapping_log_add_dummy (e : ElemId) (error_ : LogEntry)
    (name : string) (for_row : ElemId) :
  quiet (line_mapping_log_add_dummy audit_trail_translated e error_ name for_row).
Proof.
  unfold line_mapping_log_add_dummy.
  repeat first [ apply quiet_log_structural_error | apply quiet_add_dummy | quiet_step ].
Qed.

Lemma quiet_add_missing_child_element (parent : ElemId) (expected : option string)
    (error_ : LogEntry) :
  quiet (add_missing_child_element audit_trail_translated get_dummy_text parent
           expected error_).
Proof.
  unfold add_missing_child_element.
  repeat first [ apply quiet_new_element | apply quiet_append_child
               | apply quiet_set_dummy_text | apply quiet_line_mapping_log_add_dummy
               | quiet_step ].
Qed.

Lemma quiet_with_tag (name : string) (children : list ElemId) :
  quiet (with_tag name children).
Proof.
  induction children as [|x t IH]; simpl; [apply quiet_sret|].
  quiet_step; [quiet_step|]. quiet_step; [exact IH|]. quiet_step.
Qed.

Lemma with_tag_run (name : string) (children : list ElemId) (st : State) :
  with_tag name children st
  = (match elements_with_tag (tree st) name children with
     | Some l => inr l
     | None => inl "ReferenceError"
     end, st).
Proof.
  induction children as [|x t IH]; simpl; [reflexivity|].
  unfold sbind at 1. rewrite node_of_run.
  destruct (tree st !! x) as [n|]; [|reflexivity].
  unfold sbind. rewrite IH.
  destruct (elements_with_tag (tree st) name t); reflexivity.
Qed.

Lemma finishing_set_handled : finishing (smodify (set_handled_error (Some true))).
Proof. intros st. split; reflexivity. Qed.

Lemma finishing_sraise (e : string) : finishing (sraise e).
Proof. intros st. split; [reflexivity|discriminate]. Qed.

Lemma finishing_sbind {A : Type} (m : SM A) (k : A -> SM unit) :
  quiet m -> (forall a, finishing (k a)) -> finishing (sbind m k).
Proof.
  intros Hm Hk st. unfold sbind. destruct (Hm st) as [Hc _].
  destruct (m st) as [[e|a] st1]; simpl in *.
  - split; [exact Hc|discriminate].
  - destruct (Hk a st1) as [Hc1 Hh1]. split; [congruence|exact Hh1].
Qed.

Lemma enter_then (s : Strategy) (body : SM unit) (st : State) :
  sbind (smodify (enter s)) (fun _ => body) st = body (enter s st).
Proof. reflexivity. Qed.

Lemma sbind_extract_tag {A : Type} (e : option ElemId) (k : string -> SM A) (st : State) :
  sbind (extract_tag_from_element e) k st
  = match local_tag st e with
    | Some t => k t st
    | None => (inl match e with
                   | Some _ => "ReferenceError"
                   | None => "AttributeError"
                   end, st)
    end.
Proof.
  unfold sbind, extract_tag_from_element, local_tag. destruct e as [x|]; [|reflexivity].
  unfold sbind. rewrite node_of_run. destruct (tree st !! x); reflexivity.
Qed.

(** The removal branch shared by strategies 1, 2 and 5. *)
Lemma finishing_log_remove (e : ElemId) (parent : option ElemId) :
  finishing
    (sbind (log_validation_error_at audit_trail_translated e out_of_sequence) (fun _ =>
     sbind (remove_child parent e) (fun _ =>
     smodify (set_handled_error (Some true))))).
Proof.
  apply finishing_sbind; [apply quiet_log_validation_error_at|intros _].
  apply finishing_sbind; [apply quiet_remove_child|intros _].
  apply finishing_set_handled.
Qed.

Lemma should_not_exist_declines (st : State) (e : ElemId) (parent : option ElemId) :
  declines_should_not_exist schema_dict st e parent = true ->
  handle_if_element_should_not_exist schema_dict audit_trail_translated e parent st
  = (inr tt, enter if_element_should_not_exist st).
Proof.
  unfold handle_if_element_should_not_exist, declines_should_not_exist.
  rewrite enter_then, !sbind_extract_tag.
  change (local_tag (enter if_element_should_not_exist st)) with (local_tag st).
  destruct (local_tag st parent) as [parent_name|]; [|discriminate].
  rewrite sbind_extract_tag.
  change (local_tag (enter if_element_should_not_exist st)) with (local_tag st).
  destruct (local_tag st (Some e)) as [name|]; [|discriminate].
  destruct (schema_dict !! parent_name) as [info|]; [|reflexivity].
  intros ->. reflexivity.
Qed.

Lemma should_not_exist_stops (st : State) (e : ElemId) (parent : option ElemId) :
  declines_should_not_exist schema_dict st e parent = false ->
  calls (handle_if_element_should_not_exist schema_dict audit_trail_translated e parent st).2
  = calls st ++ [if_element_should_not_exist]
  /\ ((handle_if_element_should_not_exist schema_dict audit_trail_translated e parent st).1
      = inr tt ->
      handled_error
        (handle_if_element_should_not_exist schema_dict audit_trail_translated e parent st).2
      = Some true).
Proof.
  unfold handle_if_element_should_not_exist, declines_should_not_exist.
  rewrite enter_then, !sbind_extract_tag.
  change (local_tag (enter if_element_should_not_exist st)) with (local_tag st).
  destruct (local_tag st parent) as [parent_name|]; [|split; [reflexivity|discriminate]].
  rewrite sbind_extract_tag.
  change (local_tag (enter if_element_should_not_exist st)) with (local_tag st).
  destruct (local_tag st (Some e)) as [name|]; [|split; [reflexivity|discriminate]].
  destruct (schema_dict !! parent_name) as [info|]; [|discriminate].
  intros ->. simpl negb. cbv iota.
  apply (finishing_log_remove e parent (enter if_element_should_not_exist st)).
Qed.

Lemma sbind_sget {A : Type} (k : State -> SM A) (st : State) :
  sbind sget k st = k st st.
Proof. reflexivity. Qed.

Lemma out_of_sequence_declines (st : State) (e : ElemId) (parent : option ElemId)
    (name : string) :
  declines_out_of_sequence st parent name = true ->
  handle_out_of_sequence_error audit_trail_translated parent e name st
  = (inr tt, enter out_of_sequence_error st).
Proof.
  unfold handle_out_of_sequence_error, declines_out_of_sequence.
  rewrite enter_then. unfold sbind, sget. simpl.
  intros Hd. apply negb_true_iff in Hd. rewrite Hd. reflexivity.
Qed.

Lemma out_of_sequence_stops (st : State) (e : ElemId) (parent : option ElemId)
    (name : string) :
  declines_out_of_sequence st parent name = false ->
  calls (handle_out_of_sequence_error audit_trail_translated parent e name st).2
  = calls st ++ [out_of_sequence_error]
  /\ ((handle_out_of_sequence_error audit_trail_translated parent e name st).1 = inr tt ->
      handled_error (handle_out_of_sequence_error audit_trail_translated parent e name st).2
      = Some true).
Proof.
  unfold handle_out_of_sequence_error, declines_out_of_sequence.
  rewrite enter_then. intros Hd. apply negb_false_iff in Hd.
  rewrite sbind_sget.
  change (dummies (enter out_of_sequence_error st)) with (dummies st). rewrite Hd.
  apply (finishing_log_remove e parent (enter out_of_sequence_error st)).
Qed.

Lemma sbind_getchildren_of {A : Type} (e : option ElemId) (k : list ElemId -> SM A)
    (st : State) :
  sbind (getchildren_of e) k st
  = match e with
    | Some x => match tree st !! x with
                | Some n => k (node_children n) st
                | None => (inl "ReferenceError", st)
                end
    | None => (inl "AttributeError", st)
    end.
Proof.
  unfold sbind, getchildren_of. destruct e as [x|]; [|reflexivity].
  unfold sbind. rewrite node_of_run. destruct (tree st !! x); reflexivity.
Qed.

Lemma sbind_with_tag {A : Type} (name : string) (children : list ElemId)
    (k : list ElemId -> SM A) (st : State) :
  sbind (with_tag name children) k st
  = match elements_with_tag (tree st) name children with
    | Some l => k l st
    | None => (inl "ReferenceError", st)
    end.
Proof.
  unfold sbind. rewrite with_tag_run.
  destruct (elements_with_tag (tree st) name children); reflexivity.
Qed.

Lemma finishing_prune (parent : option ElemId) (elements : list ElemId) :
  finishing
    (sbind (sfor_each elements (fun x =>
              sbind (log_validation_error_at audit_trail_translated x out_of_sequence)
                    (fun _ => remove_child parent x)))
           (fun _ => smodify (set_handled_error (Some true)))).
Proof.
  apply finishing_sbind; [|intros _; apply finishing_set_handled].
  apply quiet_sfor_each. intros x.
  apply quiet_sbind; [apply quiet_log_validation_error_at|intros _; apply quiet_remove_child].
Qed.

Lemma multiple_of_same_run (st : State) (e : ElemId) (name : string)
    (parent : option ElemId) :
  handle_multiple_of_same_element audit_trail_translated e name parent st
  = let st' := enter multiple_of_same_element st in
    match tree st !! e with
    | Some n =>
        match node_children n with
        | [] =>
            match parent with
            | Some p =>
                match tree st !! p with
                | Some pn =>
                    match elements_with_tag (tree st) name (node_children pn) with
                    | Some all_identical_elements =>
                        if (1 <? length all_identical_elements)%nat
                        then
                          sbind (sfor_each (rev (tl all_identical_elements)) (fun x =>
                                   sbind (log_validation_error_at audit_trail_translated x
                                            out_of_sequence)
                                         (fun _ => remove_child parent x)))
                                (fun _ => smodify (set_handled_error (Some true))) st'
                        else (inr tt, st')
                    | None => (inl "ReferenceError", st')
                    end
                | None => (inl "ReferenceError", st')
                end
            | None => (inl "AttributeError", st')
            end
        | _ => (inr tt, st')
        end
    | None => (inl "ReferenceError", st')
    end.
Proof.
  unfold handle_multiple_of_same_element. rewrite enter_then, sbind_getchildren_of.
  cbv zeta. change (tree (enter multiple_of_same_element st)) with (tree st).
  destruct (tree st !! e) as [n|]; [|reflexivity].
  destruct (node_children n) as [|c cs]; [|reflexivity].
  rewrite sbind_getchildren_of.
  change (tree (enter multiple_of_same_element st)) with (tree st).
  destruct parent as [p|]; [|reflexivity].
  destruct (tree st !! p) as [pn|]; [|reflexivity].
  rewrite sbind_with_tag.
  change (tree (enter multiple_of_same_element st)) with (tree st).
  destruct (elements_with_tag (tree st) name (node_children pn)) as [l|]; [|reflexivity].
  destruct (1 <? length l)%nat; reflexivity.
Qed.

Lemma multiple_of_same_declines (st : State) (e : ElemId) (name : string)
    (parent : option ElemId) :
  declines_multiple_of_same st e name parent = true ->
  handle_multiple_of_same_element audit_trail_translated e name parent st
  = (inr tt, enter multiple_of_same_element st).
Proof.
  rewrite multiple_of_same_run. unfold declines_multiple_of_same. cbv zeta.
  destruct (tree st !! e) as [n|]; [|discriminate].
  destruct (node_children n) as [|c cs]; [|reflexivity].
  destruct parent as [p|]; [|discriminate].
  destruct (tree st !! p) as [pn|]; [|discriminate].
  destruct (elements_with_tag (tree st) name (node_children pn)) as [l|]; [|discriminate].
  intros Hd. apply negb_true_iff in Hd. rewrite Hd. reflexivity.
Qed.

Lemma multiple_of_same_stops (st : State) (e : ElemId) (name : string)
    (parent : option ElemId) :
  declines_multiple_of_same st e name parent = false ->
  calls (handle_multiple_of_same_element audit_trail_translated e name parent st).2
  = calls st ++ [multiple_of_same_element]
  /\ ((handle_multiple_of_same_element audit_trail_translated e name parent st).1 = inr tt ->
      handled_error
        (handle_multiple_of_same_element audit_trail_translated e name parent st).2
      = Some true).
Proof.
  rewrite multiple_of_same_run. unfold declines_multiple_of_same. cbv zeta.
  destruct (tree st !! e) as [n|]; [|split; [reflexivity|discriminate]].
  destruct (node_children n) as [|c cs]; [|discriminate].
  destruct parent as [p|]; [|split; [reflexivity|discriminate]].
  destruct (tree st !! p) as [pn|]; [|split; [reflexivity|discriminate]].
  destruct (elements_with_tag (tree st) name (node_children pn)) as [l|];
    [|split; [reflexivity|discriminate]].
  intros Hd. apply negb_false_iff in Hd. rewrite Hd.
  apply (finishing_prune (Some p) (rev (tl l)) (enter multiple_of_same_element st)).
Qed.

Lemma missing_child_declines (st : State) (error_ : LogEntry) (e : ElemId)
    (expected : option string) :
  declines_missing_child error_ = true ->
  handle_missing_child audit_trail_translated get_dummy_text error_ e expected st
  = (inr tt, enter missing_child_strategy st).
Proof.
  unfold handle_missing_child, declines_missing_child. rewrite enter_then.
  intros Hd. apply negb_true_iff in Hd. rewrite Hd. reflexivity.
Qed.

Lemma missing_child_stops (st : State) (error_ : LogEntry) (e : ElemId)
    (expected : option string) :
  declines_missing_child error_ = false ->
  calls (handle_missing_child audit_trail_translated get_dummy_text error_ e expected st).2
  = calls st ++ [missing_child_strategy]
  /\ ((handle_missing_child audit_trail_translated get_dummy_text error_ e expected st).1
      = inr tt ->
      handled_error
        (handle_missing_child audit_trail_translated get_dummy_text error_ e expected st).2
      = Some true).
Proof.
  unfold handle_missing_child, declines_missing_child. rewrite enter_then.
  intros Hd. apply negb_false_iff in Hd. rewrite Hd.
  assert (finishing
            (sbind (add_missing_child_element audit_trail_translated get_dummy_text e
                      expected error_)
                   (fun _ => smodify (set_handled_error (Some true))))) as Hfin.
  { apply finishing_sbind; [apply quiet_add_missing_child_element|].
    intros _. apply finishing_set_handled. }
  apply (Hfin (enter missing_child_strategy st)).
Qed.

Lemma want_to_build_optional_run (st : State) (e : ElemId) (expected : option string)
    (parent : option ElemId) :
  handle_want_to_build_optional schema_dict audit_trail_translated e expected parent st
  = let st' := enter want_to_build_optional st in
    match local_tag st parent with
    | Some parent_name =>
        match expected with
        | Some x =>
            match schema_dict !! parent_name with
            | Some info =>
                if bool_decide (after_last_brace "" x ∈ immediate_children_names info)
                then match ei_immediate_children info !! after_last_brace "" x with
                     | Some child =>
                         if sc_optional child
                         then
                           sbind (log_validation_error_at audit_trail_translated e
                                    out_of_sequence) (fun _ =>
                           sbind (remove_child parent e) (fun _ =>
                           smodify (set_handled_error (Some true)))) st'
                         else (inr tt, st')
                     | None => (inl "KeyError", st')
                     end
                else (inr tt, st')
            | None => (inr tt, st')
            end
        | None => (inl "AttributeError", st')
        end
    | None => (inl match parent with
                   | Some _ => "ReferenceError"
                   | None => "AttributeError"
                   end, st')
    end.
Proof.
  unfold handle_want_to_build_optional. rewrite enter_then, sbind_extract_tag. cbv zeta.
  change (local_tag (enter want_to_build_optional st)) with (local_tag st).
  destruct (local_tag st parent) as [parent_name|]; [|reflexivity].
  destruct expected as [x|]; [|reflexivity].
  unfold sbind at 1. simpl extract_tag_from_tag. unfold sret at 1.
  destruct (schema_dict !! parent_name) as [info|]; [|reflexivity].
  destruct (bool_decide _); [|reflexivity].
  destruct (ei_immediate_children info !! _) as [child|]; [|reflexivity].
  destruct (sc_optional child); reflexivity.
Qed.

Lemma want_to_build_optional_declines (st : State) (e : ElemId) (expected : option string)
    (parent : option ElemId) :
  declines_want_to_build_optional schema_dict st expected parent = true ->
  handle_want_to_build_optional schema_dict audit_trail_translated e expected parent st
  = (inr tt, enter want_to_build_optional st).
Proof.
  rewrite want_to_build_optional_run. unfold declines_want_to_build_optional. cbv zeta.
  destruct (local_tag st parent) as [parent_name|]; [|discriminate].
  destruct expected as [x|]; [|discriminate].
  destruct (schema_dict !! parent_name) as [info|]; [|reflexivity].
  destruct (bool_decide _); [|reflexivity].
  destruct (ei_immediate_children info !! _) as [child|]; [|discriminate].
  destruct (sc_optional child); [discriminate|reflexivity].
Qed.

Lemma want_to_build_optional_stops (st : State) (e : ElemId) (expected : option string)
    (parent : option ElemId) :
  declines_want_to_build_optional schema_dict st expected parent = false ->
  calls (handle_want_to_build_optional schema_dict audit_trail_translated e expected
           parent st).2
  = calls st ++ [want_to_build_optional]
  /\ ((handle_want_to_build_optional schema_dict audit_trail_translated e expected
         parent st).1 = inr tt ->
      handled_error
        (handle_want_to_build_optional schema_dict audit_trail_translated e expected
           parent st).2
      = Some true).
Proof.
  rewrite want_to_build_optional_run. unfold declines_want_to_build_optional. cbv zeta.
  destruct (local_tag st parent) as [parent_name|]; [|split; [reflexivity|discriminate]].
  destruct expected as [x|]; [|split; [reflexivity|discriminate]].
  destruct (schema_dict !! parent_name) as [info|]; [|discriminate].
  destruct (bool_decide _); [|discriminate].
  destruct (ei_immediate_children info !! _) as [child|];
    [|split; [reflexivity|discriminate]].
  destruct (sc_optional child); [|discriminate].
  intros _. apply (finishing_log_remove e parent (enter want_to_build_optional st)).
Qed.

Lemma add_above_calls (st : State) (e : ElemId) (expected : option string)
    (error_ : LogEntry) :
  calls (add_expected_element_above_not_expected audit_trail_translated get_dummy_text e
           expected error_ st).2
  = calls st ++ [add_expected_element_above].
Proof.
  unfold add_expected_element_above_not_expected. rewrite enter_then.
  assert (quiet
            (sbind (new_element expected) (fun element_to_add =>
             sbind (set_dummy_text get_dummy_text element_to_add (default "" expected))
                   (fun _ =>
             sbind (addprevious e element_to_add) (fun _ =>
             line_mapping_log_add_dummy audit_trail_translated element_to_add error_
               (default "" expected) e))))) as Hq.
  { apply quiet_sbind; [apply quiet_new_element|intros x].
    apply quiet_sbind; [apply quiet_set_dummy_text|intros _].
    apply quiet_sbind; [apply quiet_addprevious|intros _].
    apply quiet_line_mapping_log_add_dummy. }
  apply (Hq (enter add_expected_element_above st)).
Qed.

Lemma if_not_handled_none (m : SM unit) (st : State) :
  handled_error st = None -> if_not_handled m st = m st.
Proof. intros Hh. unfold if_not_handled. rewrite sbind_sget, Hh. reflexivity. Qed.

Lemma if_not_handled_some (m : SM unit) (st : State) (b : bool) :
  handled_error st = Some b -> if_not_handled m st = (inr tt, st).
Proof. intros Hh. unfold if_not_handled. rewrite sbind_sget, Hh. reflexivity. Qed.

Lemma skipped_if_not_handled (m : SM unit) : skipped (if_not_handled m).
Proof. intros st b Hh. rewrite (if_not_handled_some m st b Hh). reflexivity. Qed.

Lemma skipped_guarded (m rest : SM unit) :
  skipped rest -> skipped (sbind (if_not_handled m) (fun _ => rest)).
Proof.
  intros Hrest st b Hh. unfold sbind. rewrite (if_not_handled_some m st b Hh).
  apply (Hrest st b Hh).
Qed.

(** One guarded strategy followed by the rest of the chain: the strategy is
    entered; the rest runs only if it declined. *)
Lemma guarded_step (h rest : SM unit) (s : Strategy) (d : bool)
    (trace_rest : list Strategy) (st : State) :
  handled_error st = None ->
  (d = true -> h st = (inr tt, enter s st)) ->
  (d = false ->
   calls (h st).2 = calls st ++ [s]
   /\ ((h st).1 = inr tt -> handled_error (h st).2 = Some true)) ->
  skipped rest ->
  (d = true -> calls (rest (enter s st)).2 = calls (enter s st) ++ trace_rest) ->
  calls (sbind (if_not_handled h) (fun _ => rest) st).2
  = calls st ++ s :: (if d then trace_rest else []).
Proof.
  intros Hnone Hdecl Hstop Hskip Hrest. unfold sbind.
  rewrite (if_not_handled_none h st Hnone). destruct d.
  - rewrite (Hdecl eq_refl). rewrite (Hrest eq_refl). simpl.
    rewrite <- app_assoc. reflexivity.
  - destruct (Hstop eq_refl) as [Hcalls Hhandled].
    destruct (h st) as [[err|[]] st1]; simpl in *; [exact Hcalls|].
    rewrite (Hskip st1 true (Hhandled eq_refl)). exact Hcalls.
Qed.

Lemma declines_should_not_exist_same (st st1 : State) (e : ElemId)
    (parent : option ElemId) :
  tree st1 = tree st ->
  declines_should_not_exist schema_dict st1 e parent
  = declines_should_not_exist schema_dict st e parent.
Proof.
  intros Ht. unfold declines_should_not_exist, local_tag. rewrite Ht. reflexivity.
Qed.

Lemma declines_multiple_of_same_same (st st1 : State) (e : ElemId) (name : string)
    (parent : option ElemId) :
  tree st1 = tree st ->
  declines_multiple_of_same st1 e name parent = declines_multiple_of_same st e name parent.
Proof. intros Ht. unfold declines_multiple_of_same. rewrite Ht. reflexivity. Qed.

Lemma declines_want_to_build_optional_same (st st1 : State) (expected : option string)
    (parent : option ElemId) :
  tree st1 = tree st ->
  declines_want_to_build_optional schema_dict st1 expected parent
  = declines_want_to_build_optional schema_dict st expected parent.
Proof.
  intros Ht. unfold declines_want_to_build_optional, local_tag. rewrite Ht. reflexivity.
Qed.

Lemma declines_out_of_sequence_same (st st1 : State) (parent : option ElemId)
    (name : string) :
  dummies st1 = dummies st ->
  declines_out_of_sequence st1 parent name = declines_out_of_sequence st parent name.
Proof. intros Hd. unfold declines_out_of_sequence. rewrite Hd. reflexivity. Qed.

(** The strategies after the first, from a state with the same document. *)
Lemma strategies_after_first (st st1 : State) (error_ : LogEntry)
    (expected : option string) (e : ElemId) (name : string) (parent : option ElemId) :
  tree st1 = tree st -> dummies st1 = dummies st -> handled_error st1 = None ->
  calls
    (sbind (if_not_handled
              (if negb (is_missing_child error_)
               then handle_out_of_sequence_error audit_trail_translated parent e name
               else sret tt)) (fun _ =>
     sbind (if_not_handled
              (handle_multiple_of_same_element audit_trail_translated e name parent))
           (fun _ =>
     sbind (if_not_handled
              (handle_missing_child audit_trail_translated get_dummy_text error_ e expected))
           (fun _ =>
     sbind (if_not_handled
              (handle_want_to_build_optional schema_dict audit_trail_translated e expected
                 parent)) (fun _ =>
     if_not_handled
       (add_expected_element_above_not_expected audit_trail_translated get_dummy_text e
          expected error_))))) st1).2
  = calls st1
    ++ (if is_missing_child error_ then [] else [out_of_sequence_error])
    ++ (if is_missing_child error_ || declines_out_of_sequence st parent name
        then
          multiple_of_same_element ::
          (if declines_multiple_of_same st e name parent
           then
             missing_child_strategy ::
             (if declines_missing_child error_
              then
                want_to_build_optional ::
                (if declines_want_to_build_optional schema_dict st expected parent
                 then [add_expected_element_above] else [])
              else [])
           else [])
        else []).
Proof.
  intros Ht Hd Hnone.
  set (rest5 := if_not_handled
                  (add_expected_element_above_not_expected audit_trail_translated
                     get_dummy_text e expected error_)).
  set (rest4 := sbind (if_not_handled
                         (handle_want_to_build_optional schema_dict audit_trail_translated
                            e expected parent)) (fun _ => rest5)).
  set (rest3 := sbind (if_not_handled
                         (handle_missing_child audit_trail_translated get_dummy_text
                            error_ e expected)) (fun _ => rest4)).
  set (rest2 := sbind (if_not_handled
                         (handle_multiple_of_same_element audit_trail_translated e name
                            parent)) (fun _ => rest3)).
  assert (skipped rest5) as Hs5 by apply skipped_if_not_handled.
  assert (skipped rest4) as Hs4 by (apply skipped_guarded; exact Hs5).
  assert (skipped rest3) as Hs3 by (apply skipped_guarded; exact Hs4).
  assert (skipped rest2) as Hs2 by (apply skipped_guarded; exact Hs3).
  assert (forall s, tree s = tree st -> handled_error s = None ->
                    calls (rest5 s).2 = calls s ++ [add_expected_element_above]) as H5.
  { intros s _ Hn. unfold rest5. rewrite (if_not_handled_none _ s Hn).
    apply add_above_calls. }
  assert (forall s, tree s = tree st -> handled_error s = None ->
                    calls (rest4 s).2
                    = calls s ++ want_to_build_optional ::
                        (if declines_want_to_build_optional schema_dict st expected parent
                         then [add_expected_element_above] else [])) as H4.
  { intros s Hts Hn. unfold rest4.
    rewrite <- (declines_want_to_build_optional_same st s expected parent Hts).
    apply guarded_step; auto.
    - apply want_to_build_optional_declines.
    - apply want_to_build_optional_stops. }
  assert (forall s, tree s = tree st -> handled_error s = None ->
                    calls (rest3 s).2
                    = calls s ++ missing_child_strategy ::
                        (if declines_missing_child error_
                         then
                           want_to_build_optional ::
                           (if declines_want_to_build_optional schema_dict st expected parent
                            then [add_expected_element_above] else [])
                         else [])) as H3.
  { intros s Hts Hn. unfold rest3. apply guarded_step; auto.
    - apply missing_child_declines.
    - apply missing_child_stops. }
  assert (forall s, tree s = tree st -> handled_error s = None ->
                    calls (rest2 s).2
                    = calls s ++ multiple_of_same_element ::
                        (if declines_multiple_of_same st e name parent
                         then
                           missing_child_strategy ::
                           (if declines_missing_child error_
                            then
                              want_to_build_optional ::
                              (if declines_want_to_build_optional schema_dict st expected
                                    parent
                               then [add_expected_element_above] else [])
                            else [])
                         else [])) as H2.
  { intros s Hts Hn. unfold rest2.
    rewrite <- (declines_multiple_of_same_same st s e name parent Hts).
    apply guarded_step; auto.
    - apply multiple_of_same_declines.
    - apply multiple_of_same_stops. }
  destruct (is_missing_child error_) eqn:Hmc; simpl negb; cbv iota.
  - simpl. unfold sbind at 1. rewrite (if_not_handled_none _ st1 Hnone). simpl.
    apply H2; assumption.
  - simpl orb. simpl app.
    rewrite <- (declines_out_of_sequence_same st st1 parent name Hd).
    pose proof (guarded_step
                  (handle_out_of_sequence_error audit_trail_translated parent e name)
                  rest2 out_of_sequence_error
                  (declines_out_of_sequence st1 parent name)
                  (multiple_of_same_element ::
                     (if declines_multiple_of_same st e name parent
                      then
                        missing_child_strategy ::
                        (if declines_missing_child error_
                         then
                           want_to_build_optional ::
                           (if declines_want_to_build_optional schema_dict st expected
                                 parent
                            then [add_expected_element_above] else [])
                         else [])
                      else []))
                  st1 Hnone) as Hstep.
    rewrite Hstep; auto.
    + apply out_of_sequence_declines.
    + apply out_of_sequence_stops.
Qed.

Lemma strategy_trace_prefix (st : State) (error_ : LogEntry) (expected : option string)
    (e : ElemId) (name : string) :
  exists n,
    strategy_trace schema_dict st error_ expected e name = take n (strategy_order error_).
Proof.
  unfold strategy_trace, strategy_order, declines_missing_child.
  destruct (tree st !! e) as [n|]; [|exists 0%nat; reflexivity].
  destruct (declines_should_not_exist schema_dict st e (node_parent n));
    [|exists 1%nat; reflexivity].
  destruct (is_missing_child error_); simpl.
  - destruct (declines_multiple_of_same st e name (node_parent n));
      [|exists 2%nat; reflexivity].
    exists 3%nat; reflexivity.
  - destruct (declines_out_of_sequence st (node_parent n) name);
      [|exists 2%nat; reflexivity].
    destruct (declines_multiple_of_same st e name (node_parent n));
      [|exists 3%nat; reflexivity].
    destruct (declines_want_to_build_optional schema_dict st expected (node_parent n));
      [exists 6%nat|exists 5%nat]; reflexivity.
Qed.

(** C5: for one offender, [handle_structure_error] enters the healing
    strategies in the order wrong-place removal, out-of-sequence duplicate
    removal (passed over for a missing-child message), repeated-same-tag
    pruning, missing-child insertion, skippable-optional removal, insert-above
    fallback: the strategies entered are [strategy_trace], in which a strategy
    appears only if every earlier one declined (returned with [handled_error]
    unset), and which is an initial segment of [strategy_order]. The
    out-of-sequence strategy looks for a dummy under the parent with the
    offender's own name. *)
Theorem healing_strategies_tried_in_order (st : State) (error_ : LogEntry)
    (expected : option string) (e : ElemId) (name : string) :
  calls (handle_structure_error schema_dict audit_trail_translated get_dummy_text
           error_ expected e name st).2
  = calls st ++ strategy_trace schema_dict st error_ expected e name
  /\ exists n,
       strategy_trace schema_dict st error_ expected e name
       = take n (strategy_order error_).
Proof.
  split; [|apply strategy_trace_prefix].
  unfold handle_structure_error, strategy_trace.
  unfold sbind at 1. unfold smodify at 1. cbv beta iota.
  unfold sbind at 1. unfold getparent. unfold sbind at 1. rewrite node_of_run.
  change (tree (set_handled_error None st)) with (tree st).
  destruct (tree st !! e) as [n|] eqn:Hn; [|simpl; rewrite app_nil_r; reflexivity].
  unfold sret at 1. cbv beta iota.
  set (st0 := set_handled_error None st).
  change (calls st) with (calls st0).
  rewrite <- (declines_should_not_exist_same st st0 e (node_parent n) eq_refl).
  apply guarded_step.
  - reflexivity.
  - apply should_not_exist_declines.
  - apply should_not_exist_stops.
  - repeat apply skipped_guarded. apply skipped_if_not_handled.
  - intros _. apply (strategies_after_first st); reflexivity.
Qed.
End StructureFacts.

(** ** The Schema Index *)

Section SchemaIndexFacts.
Import XMLStructureValidator.

Lemma dict_get_elem_of (l : list (string * string)) (k : string) :
  dict_get l k <> None <-> exists v, (k, v) ∈ l.
Proof.
  induction l as [|[k' v'] l IH]; simpl.
  - split; [congruence|]. intros [v Hv]. inversion Hv.
  - case_bool_decide as Hk.
    + subst k'. split; [|congruence]. intros _. exists v'. left.
    + rewrite IH. split; intros [v Hv]; exists v.
      * right. exact Hv.
      * inversion Hv; subst; [congruence|assumption].
Qed.

Lemma has_minOccurs_spec (d : XsdNode) :
  has_minOccurs d = true <-> carries_minOccurs d.
Proof.
  unfold has_minOccurs, carries_minOccurs, attrib_get.
  rewrite bool_decide_eq_true. apply dict_get_elem_of.
Qed.

(** A dictionary filled in a loop holds, under each key, the entry of the
    last node with that key. *)
Lemma fold_insert_lookup {X V : Type} (key : X -> option string) (val : string -> X -> V)
    (nodes : list X) (k : string) :
  fold_left
    (fun acc x => match key x with
                  | Some n => <[n := val n x]> acc
                  | None => acc
                  end) nodes (∅ : gmap string V) !! k
  = val k <$> last (List.filter (fun x => bool_decide (key x = Some k)) nodes).
Proof.
  induction nodes as [|x nodes IH] using rev_ind; [reflexivity|].
  rewrite fold_left_app, List.filter_app. simpl.
  destruct (key x) as [n|] eqn:Hkey.
  - case_bool_decide as Hn.
    + injection Hn as ->. rewrite lookup_insert_eq, last_snoc. reflexivity.
    + rewrite lookup_insert_ne by congruence. rewrite app_nil_r. exact IH.
  - rewrite bool_decide_eq_false_2 by congruence. rewrite app_nil_r. exact IH.
Qed.

Lemma collect_children_lookup (nodes : list XsdNode) (child_name : string) :
  collect_children nodes !! child_name
  = (fun d => mkSchemaChild child_name (has_minOccurs d))
      <$> last (declared_as child_name nodes).
Proof.
  unfold collect_children, declared_as.
  apply (fold_insert_lookup (fun d => attrib_get d "name")
           (fun n d => mkSchemaChild n (has_minOccurs d))).
Qed.

Lemma build_schema_collection_lookup (schema : XsdNode) (element_name : string) :
  build_schema_collection schema !! element_name
  = element_info element_name <$> last (declared_as element_name (findall schema "element")).
Proof.
  unfold build_schema_collection, declared_as.
  apply (fold_insert_lookup (fun d => attrib_get d "name") element_info).
Qed.

Lemma SchemaCollection_lookup (schema : XsdNode) (element_name : string)
    (info : ElementInfo) :
  SchemaCollection schema !! element_name = Some info ->
  exists decl,
    last (declared_as element_name (findall schema "element")) = Some decl
    /\ ei_optional info = has_minOccurs decl
    /\ ei_immediate_children info = get_all_immediate_children decl.
Proof.
  unfold SchemaCollection, generate_all_parents. rewrite lookup_fmap.
  rewrite build_schema_collection_lookup.
  destruct (last _) as [decl|] eqn:Hlast; [|discriminate].
  simpl. intros [= <-]. exists decl.
  split; [reflexivity|]. split; reflexivity.
Qed.

Lemma immediate_children_lookup (decl : XsdNode) (child_name : string)
    (child : SchemaChild) :
  get_all_immediate_children decl !! child_name = Some child ->
  exists current_sequence child_decl,
    head (findall decl "sequence") = Some current_sequence
    /\ last (declared_as child_name (getchildren current_sequence)) = Some child_decl
    /\ child = mkSchemaChild child_name (has_minOccurs child_decl).
Proof.
  unfold get_all_immediate_children.
  destruct (findall decl "sequence") as [|current_sequence rest].
  - rewrite lookup_empty. discriminate.
  - rewrite collect_children_lookup.
    destruct (last _) as [child_decl|] eqn:Hlast; [|discriminate].
    simpl. intros [= <-]. exists current_sequence, child_decl.
    split; [reflexivity|]. split; [exact Hlast|reflexivity].
Qed.

Lemma immediate_child_listed (decl : XsdNode) (info : ElementInfo) (child_name : string)
    (child : SchemaChild) :
  ei_immediate_children info = get_all_immediate_children decl ->
  ei_immediate_children info !! child_name = Some child ->
  child_name ∈ immediate_children_names info.
Proof.
  intros Heq Hlook. unfold immediate_children_names.
  apply list_elem_of_fmap. exists (child_name, child). split.
  - rewrite Heq in Hlook.
    destruct (immediate_children_lookup _ _ _ Hlook) as (sq & cd & _ & _ & ->). reflexivity.
  - apply elem_of_map_to_list. exact Hlook.
Qed.
End SchemaIndexFacts.

(** ** The skippable-optional strategy on the Schema Index *)

Section SkippableOptional.
Import XMLStructureValidator.
Variable audit_trail_translated : gmap string string.

Lemma sbind_run_ok {A B : Type} (m : SM A) (k : A -> SM B) (st st' : State) (a : A) :
  m st = (inr a, st') -> sbind m k st = k a st'.
Proof. intros Hm. unfold sbind. rewrite Hm. reflexivity. Qed.

Lemma log_validation_error_at_run (st : State) (e : ElemId) (en : Node) (row : Z)
    (error_type : string) :
  tree st !! e = Some en ->
  (get_row_nr e st).1 = inr row ->
  exists finding,
    log_validation_error_at audit_trail_translated e error_type st
    = (inr tt, add_finding finding st)
    /\ technical_error_type finding = Some error_type
    /\ error_row finding = Some row.
Proof.
  intros He Hrow.
  assert (get_row_nr e st = (inr row, st)) as Hrun.
  { revert Hrow. unfold get_row_nr.
    repeat case_match; simpl; intros [= <-]; reflexivity. }
  assert (exists trail, get_audit_trail audit_trail_translated e st = (inr trail, st))
    as [trail Htrail].
  { unfold get_audit_trail. cbv zeta. case_match; eexists; reflexivity. }
  unfold log_validation_error_at. rewrite sbind_extract_tag.
  unfold local_tag. rewrite He.
  rewrite (sbind_run_ok _ _ _ _ _ Hrun), (sbind_run_ok _ _ _ _ _ Htrail).
  eexists. split; [reflexivity|]. split; reflexivity.
Qed.

Lemma remove_child_run (st : State) (e p : ElemId) (pn en : Node) :
  tree st !! p = Some pn -> tree st !! e = Some en -> e ∈ node_children pn ->
  remove_child (Some p) e st
  = (inr tt,
     set_tree
       (<[e := mkNode (node_tag en) (node_text en) None (node_children en)]>
          (<[p := mkNode (node_tag pn) (node_text pn) (node_parent pn)
                         (List.filter (fun c => negb (bool_decide (c = e)))
                                      (node_children pn))]>
             (tree st))) st).
Proof.
  intros Hp He Hin. unfold remove_child.
  rewrite (sbind_run_ok _ _ st st pn) by (rewrite node_of_run, Hp; reflexivity).
  rewrite (sbind_run_ok _ _ st st en) by (rewrite node_of_run, He; reflexivity).
  rewrite (bool_decide_eq_true_2 _ Hin). reflexivity.
Qed.

(** Logging and removing an element that is a child of [p]. *)
Lemma log_remove_run (st : State) (e p : ElemId) (pn en : Node) (row : Z) :
  tree st !! p = Some pn -> tree st !! e = Some en ->
  e ∈ node_children pn -> e <> p ->
  (get_row_nr e st).1 = inr row ->
  exists st',
    sbind (log_validation_error_at audit_trail_translated e out_of_sequence) (fun _ =>
    sbind (remove_child (Some p) e) (fun _ =>
    smodify (set_handled_error (Some true)))) st = (inr tt, st')
    /\ handled_error st' = Some true
    /\ tree st' !! p
       = Some (mkNode (node_tag pn) (node_text pn) (node_parent pn)
                 (List.filter (fun c => negb (bool_decide (c = e))) (node_children pn)))
    /\ exists finding,
         findings st' = findings st ++ [finding]
         /\ technical_error_type finding = Some out_of_sequence
         /\ error_row finding = Some row.
Proof.
  intros Hp He Hin Hne Hrow.
  destruct (log_validation_error_at_run st e en row out_of_sequence He Hrow)
    as (finding & Hlog & Htype & Hfrow).
  rewrite (sbind_run_ok _ _ _ _ _ Hlog).
  rewrite (sbind_run_ok _ _ _ _ _
             (remove_child_run (add_finding finding st) e p pn en Hp He Hin)).
  eexists. split; [reflexivity|]. simpl.
  split; [reflexivity|]. split.
  - rewrite lookup_insert_ne by exact Hne. rewrite lookup_insert_eq. reflexivity.
  - exists finding. split; [reflexivity|]. split; assumption.
Qed.
End SkippableOptional.

(** C10: an element of the Schema Index is the last XSD declaration of its
    name; it is classified optional exactly when that declaration carries a
    [minOccurs] attribute, whatever the value, and so is each of its immediate
    children (the last declaration of the child's name in the first
    sequence). When the expected element is such a child whose declaration
    carries [minOccurs], the skippable-optional strategy logs an
    out-of-sequence finding, removes the unexpected element from its parent
    and marks the error handled. *)
Theorem schema_index_optional_iff_minOccurs_present (schema : XsdNode)
    (element_name : string) (info : ElementInfo) :
  SchemaCollection schema !! element_name = Some info ->
  exists decl,
    last (declared_as element_name (findall schema "element")) = Some decl
    /\ (ei_optional info = true <-> carries_minOccurs decl)
    /\ (forall child_name child,
          ei_immediate_children info !! child_name = Some child ->
          exists current_sequence child_decl,
            head (findall decl "sequence") = Some current_sequence
            /\ last (declared_as child_name (getchildren current_sequence))
               = Some child_decl
            /\ (sc_optional child = true <-> carries_minOccurs child_decl))
    /\ (forall current_sequence child_decl expected audit_trail_translated
               (st : XMLStructureValidator.State) e p pn en row,
          head (findall decl "sequence") = Some current_sequence ->
          last (declared_as (XMLStructureValidator.after_last_brace "" expected)
                  (getchildren current_sequence)) = Some child_decl ->
          carries_minOccurs child_decl ->
          XMLStructureValidator.tree st !! p = Some pn ->
          XMLStructureValidator.after_last_brace "" (node_tag pn) = element_name ->
          XMLStructureValidator.tree st !! e = Some en ->
          e ∈ node_children pn -> e <> p ->
          (XMLStructureValidator.get_row_nr e st).1 = inr row ->
          exists st',
            XMLStructureValidator.handle_want_to_build_optional
              (SchemaCollection schema) audit_trail_translated e (Some expected) (Some p) st
            = (inr tt, st')
            /\ XMLStructureValidator.handled_error st' = Some true
            /\ XMLStructureValidator.tree st' !! p
               = Some (mkNode (node_tag pn) (node_text pn) (node_parent pn)
                         (List.filter (fun c => negb (bool_decide (c = e)))
                            (node_children pn)))
            /\ exists finding,
                 XMLStructureValidator.findings st'
                 = XMLStructureValidator.findings st ++ [finding]
                 /\ technical_error_type finding = Some out_of_sequence
                 /\ error_row finding = Some row).
Proof.
  intros Hinfo.
  destruct (SchemaCollection_lookup schema element_name info Hinfo)
    as (decl & Hdecl & Hopt & Himm).
  exists decl. split; [exact Hdecl|]. split; [|split].
  - rewrite Hopt. apply has_minOccurs_spec.
  - intros child_name child Hchild. rewrite Himm in Hchild.
    destruct (immediate_children_lookup decl child_name child Hchild)
      as (current_sequence & child_decl & Hseq & Hlast & ->).
    exists current_sequence, child_decl. split; [exact Hseq|]. split; [exact Hlast|].
    apply has_minOccurs_spec.
  - intros current_sequence child_decl expected att st e p pn en row
           Hseq Hlast Hmin Hp Htag He Hin Hne Hrow.
    assert (ei_immediate_children info !! XMLStructureValidator.after_last_brace "" expected
            = Some (mkSchemaChild (XMLStructureValidator.after_last_brace "" expected) true))
      as Hchild.
    { rewrite Himm. unfold get_all_immediate_children.
      destruct (findall decl "sequence") as [|sq rest]; [discriminate|].
      injection Hseq as ->. rewrite collect_children_lookup, Hlast. simpl.
      rewrite (proj2 (has_minOccurs_spec child_decl) Hmin). reflexivity. }
    rewrite want_to_build_optional_run. cbv zeta.
    unfold local_tag. rewrite Hp, Htag, Hinfo.
    rewrite (bool_decide_eq_true_2 _ (immediate_child_listed decl info _ _ Himm Hchild)).
    rewrite Hchild. simpl sc_optional. cbv iota.
    apply (log_remove_run att (XMLStructureValidator.enter want_to_build_optional st)
             e p pn en row); [exact Hp|exact He|exact Hin|exact Hne|].
    rewrite <- Hrow. unfold XMLStructureValidator.get_row_nr.
    change (XMLStructureValidator.line_mapping
              (XMLStructureValidator.enter want_to_build_optional st))
      with (XMLStructureValidator.line_mapping st).
    change (XMLStructureValidator.tree
              (XMLStructureValidator.enter want_to_build_optional st))
      with (XMLStructureValidator.tree st).
    repeat case_match; reflexivity.
Qed.

(** The child [registrationNumber] of [sample_schema] is declared with
    [minOccurs = 1]; [name], found where it was expected, is removed. *)
Lemma schema_index_optional_iff_minOccurs_present_witness :
  exists st',
    XMLStructureValidator.handle_want_to_build_optional
      (SchemaCollection sample_schema) ∅ 1%nat (Some "registrationNumber") (Some 0%nat)
      sample_document
    = (inr tt, st')
    /\ XMLStructureValidator.handled_error st' = Some true
    /\ XMLStructureValidator.tree st' !! 0%nat
       = Some (mkNode "{urn:StandardAuditFile-Taxation-CashRegister:DK}company" None None []).
Proof.
  destruct (SchemaCollection sample_schema !! "company") as [info|] eqn:Hinfo;
    [|vm_compute in Hinfo; discriminate].
  destruct (schema_index_optional_iff_minOccurs_present sample_schema "company" info Hinfo)
    as (decl & Hdecl & _ & _ & Hrun).
  vm_compute in Hdecl. injection Hdecl as <-.
  destruct (Hrun
              (XsdEl "sequence" []
                 [XsdEl "element" [("name", "registrationNumber"); ("minOccurs", "1")] [];
                  XsdEl "element" [("name", "name")] []])
              (XsdEl "element" [("name", "registrationNumber"); ("minOccurs", "1")] [])
              "registrationNumber" ∅ sample_document 1%nat 0%nat
              (mkNode "{urn:StandardAuditFile-Taxation-CashRegister:DK}company" None None
                 [1%nat])
              (mkNode "{urn:StandardAuditFile-Taxation-CashRegister:DK}name"
                 (Some "Shop") (Some 0%nat) [])
              3)
    as (st' & Hst' & Hhandled & Htree & _).
  - reflexivity.
  - reflexivity.
  - exists "1". right. left.
  - reflexivity.
  - reflexivity.
  - reflexivity.
  - left.
  - lia.
  - reflexivity.
  - exists st'. split; [exact Hst'|]. split; [exact Hhandled|exact Htree].
Defined.

(** * Further properties of the code *)

(** ** The report: order and prefix *)

Lemma validation_lt_asym (a b : Validation) :
  validation_lt a b = true -> validation_lt b a = false.
Proof.
  unfold validation_lt, row_or_inf_ltb.
  generalize (check_order (check a)) (check_order (check b)). intros ca cb.
  destruct (Z.eqb_spec ca cb), (Z.eqb_spec cb ca); simpl; try lia.
  destruct (row_or_inf a), (row_or_inf b); try done. lia.
Qed.

Lemma validation_le_trans (a b c : Validation) :
  validation_lt b a = false -> validation_lt c b = false -> validation_lt c a = false.
Proof.
  unfold validation_lt, row_or_inf_ltb.
  generalize (check_order (check a)) (check_order (check b)) (check_order (check c)).
  intros ca cb cc.
  destruct (Z.eqb_spec cb ca), (Z.eqb_spec cc cb), (Z.eqb_spec cc ca); simpl;
    rewrite ?Z.ltb_ge; try lia;
    destruct (row_or_inf a), (row_or_inf b), (row_or_inf c); rewrite ?Z.ltb_ge;
    try done; lia.
Qed.

Lemma validation_le_report_order (a b : Validation) :
  validation_lt b a = false -> report_order a b.
Proof.
  unfold validation_lt, report_order, row_or_inf_ltb.
  generalize (check_order (check a)) (check_order (check b)). intros ca cb.
  destruct (Z.eqb_spec cb ca); simpl.
  - intros Hrow. right. split; [lia|].
    destruct (row_or_inf a), (row_or_inf b); try done. apply Z.ltb_ge. exact Hrow.
  - rewrite Z.ltb_ge. intros Hle. left. lia.
Qed.

Lemma sorted_insert_sorted (x : Validation) (l : list Validation) :
  StronglySorted (fun a b => validation_lt b a = false) l ->
  StronglySorted (fun a b => validation_lt b a = false) (sorted_insert x l).
Proof.
  induction 1 as [|y t Ht IH Hy]; simpl.
  - constructor; constructor.
  - destruct (validation_lt x y) eqn:Hxy.
    + constructor; [constructor; assumption|].
      constructor; [apply validation_lt_asym; exact Hxy|].
      eapply Forall_impl; [exact Hy|]. intros z Hz. simpl in Hz.
      apply (validation_le_trans x y z); [apply validation_lt_asym; exact Hxy|exact Hz].
    + constructor; [exact IH|].
      rewrite sorted_insert_perm. constructor; assumption.
Qed.

Lemma sorted_is_sorted (l : list Validation) :
  StronglySorted (fun a b => validation_lt b a = false) (sorted l).
Proof.
  unfold sorted.
  assert (forall acc,
            StronglySorted (fun a b => validation_lt b a = false) acc ->
            StronglySorted (fun a b => validation_lt b a = false)
              (fold_left (fun a x => sorted_insert x a) l acc)) as Hgen.
  { induction l as [|x l IH]; simpl; intros acc Hacc; [exact Hacc|].
    apply IH, sorted_insert_sorted, Hacc. }
  apply Hgen. constructor.
Qed.

Lemma StronglySorted_weaken {A : Type} (R R' : A -> A -> Prop) (l : list A) :
  (forall a b, R a b -> R' a b) -> StronglySorted R l -> StronglySorted R' l.
Proof.
  intros HR. induction 1 as [|x l Hl IH Hx]; constructor; [exact IH|].
  eapply Forall_impl; [exact Hx|]. intros b. apply HR.
Qed.

(** X1: whatever the hash function and the iteration order of the set, the
    report returned by [remove_duplicates_and_sort_validation] is in report
    order: any finding stands before every finding of a check of higher
    rank, and within one check before every finding with a larger row; the
    findings without a row (or with row 0) come last within their check. *)
Theorem report_is_in_report_order {H : Type} `{EqDecision H} (py_hash : HashKey -> H)
    (set_iteration : list Validation -> list Validation)
    (validation_list : list Validation) :
  StronglySorted report_order
    (remove_duplicates_and_sort_validation py_hash set_iteration validation_list).
Proof.
  unfold remove_duplicates_and_sort_validation.
  eapply StronglySorted_weaken; [|apply sorted_is_sorted].
  intros a b. apply validation_le_report_order.
Qed.

Lemma prefix_error_exists (P : Validation -> Prop) `{forall x, Decision (P x)}
    (l : list Validation) :
  existsb (fun x => bool_decide (status x = error)) (filter P l) = true
  <-> exists x, x ∈ l /\ status x = error /\ P x.
Proof.
  rewrite existsb_exists. split.
  - intros (x & Hin & Hs). apply list_elem_of_In, list_elem_of_filter in Hin as [HPx Hin].
    apply bool_decide_eq_true in Hs. eauto.
  - intros (x & Hin & Hs & HPx). exists x. split.
    + apply list_elem_of_In, list_elem_of_filter. auto.
    + apply bool_decide_eq_true. exact Hs.
Qed.

Lemma existsb_error_ext (P : Validation -> Prop) `{forall x, Decision (P x)}
    (l l' : list Validation) :
  (forall x y, check x = check y -> P x -> P y) ->
  (forall c, (exists x, x ∈ l /\ check x = c /\ status x = error)
             <-> (exists y, y ∈ l' /\ check y = c /\ status y = error)) ->
  existsb (fun x => bool_decide (status x = error)) (filter P l)
  = existsb (fun x => bool_decide (status x = error)) (filter P l').
Proof.
  intros HP Hext. apply eq_true_iff_eq. rewrite !prefix_error_exists.
  split; intros (x & Hin & Hs & HPx).
  - destruct (proj1 (Hext (check x))) as (y & Hy & Hc & Hsy); [eauto|].
    exists y. split; [exact Hy|]. split; [exact Hsy|]. apply (HP x); auto.
  - destruct (proj2 (Hext (check x))) as (y & Hy & Hc & Hsy); [eauto|].
    exists y. split; [exact Hy|]. split; [exact Hsy|]. apply (HP x); auto.
Qed.

(** The prefix only depends on which checks have an error finding. *)
Lemma prefix_ext (l l' : list Validation) :
  (forall c, (exists x, x ∈ l /\ check x = c /\ status x = error)
             <-> (exists y, y ∈ l' /\ check y = c /\ status y = error)) ->
  prefix l = prefix l'.
Proof.
  intros Hext. unfold prefix.
  rewrite (existsb_error_ext (fun x => check x <> value_check) l l');
    [|intros x y Hxy; rewrite Hxy; auto|exact Hext].
  rewrite (existsb_error_ext (fun x => check x = value_check) l l');
    [|intros x y Hxy; rewrite Hxy; auto|exact Hext].
  reflexivity.
Qed.

Lemma py_set_subset {H : Type} `{EqDecision H} (py_hash : HashKey -> H)
    (l : list Validation) (w : Validation) :
  w ∈ py_set py_hash l -> w ∈ l.
Proof.
  unfold py_set.
  assert (forall acc, w ∈ fold_left (set_add py_hash) l acc -> w ∈ acc \/ w ∈ l) as Hgen.
  { induction l as [|x l IH]; simpl; intros acc Hw; [left; exact Hw|].
    destruct (IH _ Hw) as [Hacc|Hl].
    - unfold set_add in Hacc. destruct (existsb _ acc).
      + left. exact Hacc.
      + apply elem_of_app in Hacc as [Hacc|Hx]; [left; exact Hacc|].
        apply list_elem_of_singleton in Hx. subst. right. left.
    - right. right. exact Hl. }
  intros Hw. destruct (Hgen [] Hw) as [Hnil|Hl]; [inversion Hnil|exact Hl].
Qed.

(** X2: when no two findings of the list with different hashed tuples have
    the same hash, removing the duplicates and sorting never changes the
    report prefix. Nothing is asked of the hash outside the list. *)
Theorem dedup_and_sort_keep_prefix {H : Type} `{EqDecision H} (py_hash : HashKey -> H)
    (set_iteration : list Validation -> list Validation)
    (set_iteration_perm : forall l, set_iteration l ≡ₚ l)
    (validation_list : list Validation)
    (no_collision : forall v w,
        v ∈ validation_list -> w ∈ validation_list ->
        py_hash (hash_key v) = py_hash (hash_key w) -> hash_key v = hash_key w) :
  prefix (remove_duplicates_and_sort_validation py_hash set_iteration validation_list)
  = prefix validation_list.
Proof.
  apply prefix_ext. intros c. unfold remove_duplicates_and_sort_validation. split.
  - intros (x & Hx & Hc & Hs). exists x. split; [|auto].
    rewrite sorted_perm, set_iteration_perm in Hx.
    apply (py_set_subset py_hash). exact Hx.
  - intros (y & Hy & Hc & Hs).
    destruct (py_set_represents py_hash validation_list y Hy) as (w & Hw & Hsame).
    exists w. split; [rewrite sorted_perm, set_iteration_perm; exact Hw|].
    unfold same_set_entry in Hsame. apply andb_true_iff in Hsame as [Hh _].
    apply bool_decide_eq_true in Hh.
    apply (no_collision y w Hy (py_set_subset py_hash validation_list w Hw)) in Hh.
    unfold hash_key in Hh. injection Hh as Hcheck Hstatus _ _ _ _ _.
    split; congruence.
Qed.

Lemma dedup_and_sort_keep_prefix_witness :
  (exists k k', k <> k' /\ row_hash k = row_hash k')
  /\ (forall l : list Validation, insertion_order l ≡ₚ l)
  /\ prefix (remove_duplicates_and_sort_validation row_hash insertion_order
               [ok_entry naming_check; sample_tips_finding; sample_tips_finding])
     = prefix [ok_entry naming_check; sample_tips_finding; sample_tips_finding].
Proof.
  split.
  { exists (hash_key sample_tips_finding), (hash_key sample_total_cash_sales_finding).
    split; [discriminate|reflexivity]. }
  split; [intros l; reflexivity|].
  apply (dedup_and_sort_keep_prefix row_hash insertion_order).
  - intros l. reflexivity.
  - intros v w Hv Hw Hhash.
    repeat (apply elem_of_cons in Hv as [->|Hv]); [| | |inversion Hv];
      repeat (apply elem_of_cons in Hw as [->|Hw]); try (inversion Hw; fail);
      first [reflexivity|discriminate Hhash].
Defined.

Lemma prefix_ok_entry (l : list Validation) (c : Check) :
  prefix (l ++ [ok_entry c]) = prefix l.
Proof.
  apply prefix_ext. intros c'. split.
  - intros (x & Hx & Hc & Hs). apply elem_of_app in Hx as [Hx|Hx]; [eauto|].
    apply list_elem_of_singleton in Hx. subst x. discriminate.
  - intros (y & Hy & Hc & Hs). exists y. split; [|auto]. apply elem_of_app. left. exact Hy.
Qed.

(** X3: the OK entries appended by [__check_if_no_errors] never change the
    report prefix, and every check whose error flag is not set gets its OK
    entry. *)
Theorem ok_entries_keep_prefix (naming_error : bool) (st : Validator) :
  prefix (validation (check_if_no_errors naming_error st)) = prefix (validation st)
  /\ (naming_error = false ->
      ok_entry naming_check ∈ validation (check_if_no_errors naming_error st))
  /\ (structure_error st = false ->
      ok_entry structure_check ∈ validation (check_if_no_errors naming_error st))
  /\ (certificate_error st = false ->
      ok_entry certificate_check ∈ validation (check_if_no_errors naming_error st))
  /\ (signature_error st = false ->
      ok_entry signature_check ∈ validation (check_if_no_errors naming_error st))
  /\ (value_error st = false ->
      ok_entry value_check ∈ validation (check_if_no_errors naming_error st)).
Proof.
  unfold check_if_no_errors.
  destruct st as [l se ce sge ve]. simpl.
  split.
  - destruct naming_error, se, ce, sge, ve; simpl; rewrite ?prefix_ok_entry; reflexivity.
  - destruct naming_error, se, ce, sge, ve; simpl; repeat split; intros Hflag;
      try discriminate; rewrite ?elem_of_app, ?list_elem_of_singleton; auto 10.
Qed.

Lemma ok_entries_keep_prefix_witness :
  prefix (validation (check_if_no_errors false
                        (set_value_error (append_validation sample_tips_finding
                                            init_validator))))
  = flag_prefix
  /\ ok_entry structure_check
     ∈ validation (check_if_no_errors false
                     (set_value_error (append_validation sample_tips_finding
                                         init_validator))).
Proof.
  destruct (ok_entries_keep_prefix false
              (set_value_error (append_validation sample_tips_finding init_validator)))
    as (Hprefix & _ & Hstructure & _).
  split.
  - rewrite Hprefix. vm_compute. reflexivity.
  - apply Hstructure. reflexivity.
Defined.

(** ** A finding without its flag *)

(** X4: when the text of [nr] does not parse and holds a comma or, being
    ASCII text, no digit, [convert_nr] logs a structure finding but leaves
    [structure_error] as it was; so when the structure pass found nothing,
    the closing step still appends the entry "structure check OK" to a
    report that holds a structure error, and the prefix is NOK. *)
Theorem number_finding_leaves_structure_flag `{PyBuiltins} (c : XmlChild)
    (value : string) (naming_error : bool) (st : Validator) :
  text c = Some value ->
  py_float value = None ->
  contains_comma value = true \/ (isascii value = true /\ findall_digits value = []) ->
  structure_error st = false ->
  let st' := outcome_state (CashTrans.convert_nr (Some c) st) in
  structure_error st' = false
  /\ (exists v, v ∈ validation st' /\ check v = structure_check /\ status v = error
                /\ technical_error_type v = Some should_contain_number)
  /\ ok_entry structure_check ∈ validation (check_if_no_errors naming_error st')
  /\ prefix (validation (check_if_no_errors naming_error st')) = nok_prefix.
Proof.
  intros Htext Hfloat Hcase Hflag. cbv zeta.
  set (v := {| check := structure_check; status := error;
               technical_error_type := Some should_contain_number;
               error_xml_element := Some (tag (child_element c));
               error_row := Some (row_nr (child_element c));
               complete_error_message := None;
               audit_trail := Some (trail (child_element c));
               special_error_message := Some [PStr value] |}).
  assert (outcome_state (CashTrans.convert_nr (Some c) st) = append_validation v st) as ->.
  { unfold CashTrans.convert_nr. rewrite Htext, Hfloat.
    destruct (contains_comma value); [reflexivity|].
    destruct Hcase as [Hcomma|[_ Hdigits]]; [discriminate|]. rewrite Hdigits. reflexivity. }
  assert (v ∈ validation (append_validation v st)) as Hv.
  { simpl. apply elem_of_app. right. left. }
  split; [exact Hflag|]. split; [exists v; auto|].
  assert (forall l c', prefix l = nok_prefix -> prefix (l ++ [ok_entry c']) = nok_prefix)
    as Hkeep by (intros l c' Hl; rewrite prefix_ok_entry; exact Hl).
  assert (prefix (validation (append_validation v st)) = nok_prefix) as Hnok.
  { unfold prefix.
    rewrite (proj2 (prefix_error_exists (fun x => check x <> value_check) _));
      [reflexivity|]. exists v. split; [exact Hv|]. split; [reflexivity|discriminate]. }
  unfold check_if_no_errors.
  destruct st as [l se ce sge ve]. simpl in *. subst se.
  destruct naming_error, ce, sge, ve; simpl;
    (split; [rewrite ?elem_of_app, ?list_elem_of_singleton; auto 10|]);
    repeat apply Hkeep; exact Hnok.
Qed.

Lemma number_finding_leaves_structure_flag_witness :
  ok_entry structure_check
  ∈ validation
      (check_if_no_errors false
         (outcome_state
            (CashTrans.convert_nr (H := digits_builtins)
               (Some {| child_element := sample_nr_element 3; text := Some "1,5" |})
               init_validator)))
  /\ prefix
       (validation
          (check_if_no_errors false
             (outcome_state
                (CashTrans.convert_nr (H := digits_builtins)
                   (Some {| child_element := sample_nr_element 3; text := Some "1,5" |})
                   init_validator))))
     = nok_prefix.
Proof.
  destruct (number_finding_leaves_structure_flag (H := digits_builtins)
              {| child_element := sample_nr_element 3; text := Some "1,5" |}
              "1,5" false init_validator)
    as (_ & _ & Hok & Hprefix).
  - reflexivity.
  - reflexivity.
  - left. reflexivity.
  - reflexivity.
  - split; [exact Hok|exact Hprefix].
Defined.

(** ** Looking up basics *)

Lemma find_app_cases {A : Type} (f : A -> bool) (l1 l2 : list A) :
  find f (l1 ++ l2) = match find f l1 with Some x => Some x | None => find f l2 end.
Proof.
  induction l1 as [|x l1 IH]; simpl; [reflexivity|].
  destruct (f x); [reflexivity|exact IH].
Qed.

(** X5: the copy that [get_basic] appends to the shared list after a hit by
    description is transparent: every later lookup, for any key, returns a
    basic with the same type, description, predefined id and element as it
    would have on the list before; the same key never appends twice; and the
    list only grows, by at most one entry. *)
Theorem get_basic_memo_is_transparent (all_basics : list Basics)
    (trans_type later : option string) :
  basic_view <$> fst (get_basic (snd (get_basic all_basics trans_type)) later)
  = basic_view <$> fst (get_basic all_basics later)
  /\ snd (get_basic (snd (get_basic all_basics trans_type)) trans_type)
     = snd (get_basic all_basics trans_type)
  /\ (exists added, snd (get_basic all_basics trans_type) = all_basics ++ added
                    /\ (length added <= 1)%nat)
  /\ match fst (get_basic all_basics trans_type) with
     | None => snd (get_basic all_basics trans_type) = all_basics
     | Some _ => True
     end.
Proof.
  destruct (find (fun basic => bool_decide (b_id basic = trans_type)) all_basics)
    as [b|] eqn:Hid.
  { assert (get_basic all_basics trans_type = (Some b, all_basics)) as Hg
      by (unfold get_basic; rewrite Hid; reflexivity).
    rewrite !Hg. simpl. rewrite Hg. simpl. split; [reflexivity|]. split; [reflexivity|].
    split; [exists []; rewrite app_nil_r; auto|exact I]. }
  destruct (find (fun basic => bool_decide (b_desc basic = trans_type)) all_basics)
    as [b|] eqn:Hdesc.
  2:{ assert (get_basic all_basics trans_type = (None, all_basics)) as Hg
        by (unfold get_basic; rewrite Hid, Hdesc; reflexivity).
      rewrite !Hg. simpl. rewrite Hg. simpl. split; [reflexivity|]. split; [reflexivity|].
      split; [exists []; rewrite app_nil_r; auto|reflexivity]. }
  assert (b_desc b = trans_type) as Hb.
  { apply find_some in Hdesc as [_ Hb]. apply bool_decide_eq_true in Hb. exact Hb. }
  assert (get_basic all_basics trans_type
          = (Some b,
             all_basics ++ [ {| b_type := b_type b; b_id := b_desc b; b_desc := b_desc b;
                                b_predefined_id := b_predefined_id b;
                                b_basic_type_element := b_basic_type_element b |} ])) as Hg
    by (unfold get_basic; rewrite Hid, Hdesc; reflexivity).
  rewrite !Hg. simpl. split; [|split; [|split]].
  - unfold get_basic. rewrite !find_app_cases. simpl.
    destruct (find (fun basic => bool_decide (b_id basic = later)) all_basics)
      as [x|] eqn:Hid'; [reflexivity|].
    case_bool_decide as Hlater.
    + assert (later = trans_type) as -> by congruence.
      rewrite Hdesc. reflexivity.
    + destruct (find (fun basic => bool_decide (b_desc basic = later)) all_basics)
        as [y|] eqn:Hdesc'; reflexivity.
  - unfold get_basic. rewrite find_app_cases, Hid. simpl.
    rewrite bool_decide_eq_true_2 by exact Hb. reflexivity.
  - eexists [_]. split; [reflexivity|]. simpl. lia.
  - exact I.
Qed.

(** ** Findings and error flags of the passes *)

Lemma pass_logs_refl (check_ : Check) (flag_of : Validator -> bool) (st : Validator) :
  pass_logs check_ flag_of st st.
Proof.
  exists []. rewrite app_nil_r, orb_false_r. split; [reflexivity|]. split; [constructor|reflexivity].
Qed.

Lemma pass_logs_trans (check_ : Check) (flag_of : Validator -> bool)
    (st1 st2 st3 : Validator) :
  pass_logs check_ flag_of st1 st2 -> pass_logs check_ flag_of st2 st3 ->
  pass_logs check_ flag_of st1 st3.
Proof.
  intros (app1 & Happ1 & Hall1 & Hflag1) (app2 & Happ2 & Hall2 & Hflag2).
  exists (app1 ++ app2). rewrite Happ2, Happ1, app_assoc. split; [reflexivity|].
  split; [apply Forall_app; split; assumption|].
  rewrite Hflag2, Hflag1.
  destruct app1, app2; simpl; rewrite ?orb_false_r, ?orb_true_r; reflexivity.
Qed.


Lemma pass_logs_bind {A B : Type} (check_ : Check) (flag_of : Validator -> bool)
    (m : M A) (k : A -> M B) :
  (forall st, pass_logs check_ flag_of st (outcome_state (m st))) ->
  (forall a st, pass_logs check_ flag_of st (outcome_state (k a st))) ->
  forall st, pass_logs check_ flag_of st (outcome_state (bind m k st)).
Proof.
  intros Hm Hk st. unfold bind. specialize (Hm st).
  destruct (m st) as [a st1|e st1]; simpl in *; [|exact Hm].
  eapply pass_logs_trans; [exact Hm|apply Hk].
Qed.

Lemma pass_logs_for_each {A : Type} (check_ : Check) (flag_of : Validator -> bool)
    (xs : list A) (body : A -> M unit) :
  (forall x st, pass_logs check_ flag_of st (outcome_state (body x st))) ->
  forall st, pass_logs check_ flag_of st (outcome_state (for_each xs body st)).
Proof.
  intros Hbody. induction xs as [|x xs IH]; simpl; intros st.
  - apply pass_logs_refl.
  - apply pass_logs_bind; [apply Hbody|intros _; exact IH].
Qed.



Section SignaturePassFacts.
Context `{Crypto}.
Variable string_dummy : string.
Variable company_id : option string.
Variable is_invalid_company_id : option bool.




End SignaturePassFacts.

(** ** The first signature of a register *)

Section FirstSignatureFacts.
Context `{Crypto}.
Variable string_dummy : string.
Variable company_id : option string.
Variable is_invalid_company_id : option bool.

Lemma unsigned_cash_tran_skipped (cash_reg : option string) (cash_tran : CashTrans.t)
    (s : XMLSignatureValidator.State) :
  is_signed string_dummy cash_tran = false ->
  XMLSignatureValidator.validate_cash_tran string_dummy company_id is_invalid_company_id
    cash_reg cash_tran s
  = XMLSignatureValidator.mkState (CashTrans.signature_element cash_tran)
      (XMLSignatureValidator.first_signature s) (XMLSignatureValidator.prev_signature s)
      (XMLSignatureValidator.nr_of_errors s) (XMLSignatureValidator.nr_of_signatures s)
      (XMLSignatureValidator.priority s) (XMLSignatureValidator.validator s).
Proof.
  unfold is_signed, XMLSignatureValidator.validate_cash_tran.
  destruct (CashTrans.signature_element cash_tran) as [e|]; [|reflexivity].
  destruct (text e) as [t|]; [|reflexivity].
  destruct (bool_decide (t = string_dummy)); [reflexivity|discriminate].
Qed.

Lemma first_signed_cash_tran_recorded (cash_reg : option string) (cash_tran : CashTrans.t)
    (s : XMLSignatureValidator.State) :
  is_signed string_dummy cash_tran = true ->
  XMLSignatureValidator.prev_signature s = "0" ->
  exists first prev,
    XMLSignatureValidator.validate_cash_tran string_dummy company_id is_invalid_company_id
      cash_reg cash_tran s
    = XMLSignatureValidator.mkState (CashTrans.signature_element cash_tran)
        first prev
        (XMLSignatureValidator.nr_of_errors s) (XMLSignatureValidator.nr_of_signatures s)
        (XMLSignatureValidator.priority s) (XMLSignatureValidator.validator s).
Proof.
  unfold is_signed, XMLSignatureValidator.validate_cash_tran. intros Hsigned Hprev.
  destruct (CashTrans.signature_element cash_tran) as [e|]; [|discriminate].
  destruct (text e) as [t|]; [|discriminate].
  destruct (bool_decide (t = string_dummy)); [discriminate|].
  rewrite Hprev. rewrite bool_decide_eq_false_2 by (intros Hne; apply Hne; reflexivity).
  eexists _, _. reflexivity.
Qed.

Lemma fold_with_one_signature (cash_reg : option string) (l : list CashTrans.t)
    (s : XMLSignatureValidator.State) :
  (XMLSignatureValidator.prev_signature s = "0"
   /\ (length (List.filter (is_signed string_dummy) l) <= 1)%nat)
  \/ List.filter (is_signed string_dummy) l = [] ->
  let s' := fold_left (fun acc cash_tran =>
                         XMLSignatureValidator.validate_cash_tran string_dummy company_id
                           is_invalid_company_id cash_reg cash_tran acc) l s in
  XMLSignatureValidator.validator s' = XMLSignatureValidator.validator s
  /\ XMLSignatureValidator.priority s' = XMLSignatureValidator.priority s
  /\ XMLSignatureValidator.nr_of_errors s' = XMLSignatureValidator.nr_of_errors s
  /\ XMLSignatureValidator.nr_of_signatures s' = XMLSignatureValidator.nr_of_signatures s.
Proof.
  revert s. induction l as [|c l IH]; intros s Hcase; simpl; [auto|].
  simpl in Hcase. destruct (is_signed string_dummy c) eqn:Hc.
  - destruct Hcase as [[Hprev Hcount]|Hnone]; [|discriminate].
    destruct (first_signed_cash_tran_recorded cash_reg c s Hc Hprev) as (first & prev & ->).
    destruct (IH (XMLSignatureValidator.mkState (CashTrans.signature_element c) first prev
                    (XMLSignatureValidator.nr_of_errors s)
                    (XMLSignatureValidator.nr_of_signatures s)
                    (XMLSignatureValidator.priority s)
                    (XMLSignatureValidator.validator s))) as (Hv & Hp & He & Hs).
    { right. simpl in Hcount. destruct (List.filter _ l); [reflexivity|simpl in Hcount; lia]. }
    simpl in *. auto.
  - rewrite (unsigned_cash_tran_skipped cash_reg c s Hc).
    destruct (IH (XMLSignatureValidator.mkState (CashTrans.signature_element c)
                    (XMLSignatureValidator.first_signature s)
                    (XMLSignatureValidator.prev_signature s)
                    (XMLSignatureValidator.nr_of_errors s)
                    (XMLSignatureValidator.nr_of_signatures s)
                    (XMLSignatureValidator.priority s)
                    (XMLSignatureValidator.validator s))) as (Hv & Hp & He & Hs).
    { exact Hcase. }
    simpl in *. auto.
Qed.
End FirstSignatureFacts.

(** X8: the first signature of a register is only recorded as the start of
    the chain, never verified: a register in which at most one transaction
    carries a signature (an element whose text is neither missing nor the
    dummy) yields no finding and leaves the priority list and the error flag
    as they were, whatever the signature, the certificate and the keys. *)
Theorem register_with_one_signature_yields_no_finding `{Crypto} (string_dummy : string)
    (company_id : option string) (is_invalid_company_id : option bool)
    (reg : option string * list CashTrans.t) (s : XMLSignatureValidator.State) :
  (length (List.filter (is_signed string_dummy) (snd reg)) <= 1)%nat ->
  exists s',
    XMLSignatureValidator.validate_register string_dummy company_id is_invalid_company_id
      reg s = Some s'
    /\ XMLSignatureValidator.validator s' = XMLSignatureValidator.validator s
    /\ XMLSignatureValidator.priority s' = XMLSignatureValidator.priority s.
Proof.
  intros Hcount. unfold XMLSignatureValidator.validate_register.
  set (s0 := XMLSignatureValidator.mkState _ _ "0" O O _ _).
  destruct (fold_with_one_signature string_dummy company_id is_invalid_company_id
              (fst reg) (snd reg) s0) as (Hv & Hp & He & Hs).
  { left. split; [reflexivity|exact Hcount]. }
  cbv zeta. rewrite He, Hs. simpl. eexists. split; [reflexivity|]. split; assumption.
Qed.

Lemma register_with_one_signature_yields_no_finding_witness :
  exists s',
    XMLSignatureValidator.validate_register (H := refusing_crypto) "dummy" (Some "12345678")
      (Some false)
      (Some "A", [sample_object "1" 1%float None None;
                  sample_object "2" 2%float None (Some (sample_signature_child 21 "c2ln"))])
      (XMLSignatureValidator.mkState None None "0" O O
         SignatureVerificationStrategy.verification_priority init_validator)
    = Some s'
    /\ XMLSignatureValidator.validator s' = init_validator.
Proof.
  destruct (register_with_one_signature_yields_no_finding (H := refusing_crypto)
              "dummy" (Some "12345678") (Some false)
              (Some "A", [sample_object "1" 1%float None None;
                          sample_object "2" 2%float None
                            (Some (sample_signature_child 21 "c2ln"))])
              (XMLSignatureValidator.mkState None None "0" O O
                 SignatureVerificationStrategy.verification_priority init_validator))
    as (s' & Hs' & Hv & _).
  - vm_compute. lia.
  - exists s'. split; [exact Hs'|exact Hv].
Defined.

(** ** The transactions the value validator looks at *)

(** X9: with a start instant, [filter_transactions_on_date] returns the
    transactions of the half-open window (start, end], in their order, when
    every transaction has an instant and the end instant is known; it
    returns [None] (the report then gets EVENT_REPORT_COULD_NOT_RUN) as soon
    as one transaction has no instant, and also when the start instant is
    missing and there is a transaction; on no transaction at all it returns
    the empty list whatever the instants. *)
Theorem filter_on_date_is_the_window (transactions : list CashTrans.t)
    (start_date end_date : option Z) (s e : Z) :
  (Forall (fun t => CashTrans.cash_tran_datetime t <> None) transactions ->
   XMLValueTestValidator.filter_transactions_on_date transactions (Some s) (Some e)
   = Some (List.filter
             (fun t => match CashTrans.cash_tran_datetime t with
                       | Some d => (s <? d) && (d <=? e)
                       | None => false
                       end) transactions))
  /\ (Exists (fun t => CashTrans.cash_tran_datetime t = None) transactions ->
      XMLValueTestValidator.filter_transactions_on_date transactions start_date end_date
      = None)
  /\ (transactions <> [] ->
      XMLValueTestValidator.filter_transactions_on_date transactions None end_date = None)
  /\ XMLValueTestValidator.filter_transactions_on_date [] start_date end_date = Some [].
Proof.
  split; [|split; [|split]].
  - induction 1 as [|t l Ht Hl IH]; simpl; [reflexivity|].
    destruct (CashTrans.cash_tran_datetime t) as [d|]; [|done].
    rewrite IH. destruct (s <? d), (d <=? e); reflexivity.
  - induction 1 as [t l Ht|t l Hl IH]; simpl.
    + rewrite Ht. destruct start_date; reflexivity.
    + destruct start_date as [s0|]; [|reflexivity].
      destruct (CashTrans.cash_tran_datetime t) as [d|]; [|reflexivity].
      rewrite IH. destruct (s0 <? d); [|reflexivity]. destruct end_date; reflexivity.
  - destruct transactions as [|t l]; [done|]. reflexivity.
  - reflexivity.
Qed.

Lemma filter_on_date_is_the_window_witness :
  XMLValueTestValidator.filter_transactions_on_date
    [sample_object "1" 1%float (Some 50) None; sample_object "2" 2%float (Some 100) None;
     sample_object "3" 3%float (Some 150) None]
    (Some 50) (Some 100)
  = Some [sample_object "2" 2%float (Some 100) None].
Proof.
  rewrite (proj1 (filter_on_date_is_the_window
                    [sample_object "1" 1%float (Some 50) None;
                     sample_object "2" 2%float (Some 100) None;
                     sample_object "3" 3%float (Some 150) None]
                    None None 50 100)).
  - reflexivity.
  - repeat constructor; discriminate.
Defined.

Lemma get_unique_is_unique_from (cash_trans unique : list CashTrans.t) :
  fst (fold_left
         (fun '(unique_transactions, seen_nrs) trans =>
            if negb (existsb (fun s => (CashTrans.nr_fl trans =? s)%float) seen_nrs)
            then (unique_transactions ++ [trans], seen_nrs ++ [CashTrans.nr_fl trans])
            else (unique_transactions, seen_nrs))
         cash_trans (unique, map CashTrans.nr_fl unique))
  = unique ++ unique_from (map CashTrans.nr_fl unique) cash_trans.
Proof.
  revert unique. induction cash_trans as [|t l IH]; intros unique; simpl.
  - rewrite app_nil_r. reflexivity.
  - destruct (negb _).
    + specialize (IH (unique ++ [t])). rewrite map_app in IH. simpl in IH.
      rewrite IH, <- app_assoc. reflexivity.
    + apply IH.
Qed.

Lemma unique_from_sublist (seen_nrs : list float) (cash_trans : list CashTrans.t) :
  sublist (unique_from seen_nrs cash_trans) cash_trans.
Proof.
  revert seen_nrs. induction cash_trans as [|t l IH]; intros seen_nrs; simpl.
  - constructor.
  - destruct (negb _); [apply sublist_skip|apply sublist_cons]; apply IH.
Qed.

Lemma unique_from_not_seen (seen_nrs : list float) (cash_trans : list CashTrans.t) :
  Forall (fun b => existsb (fun s => (CashTrans.nr_fl b =? s)%float) seen_nrs = false)
         (unique_from seen_nrs cash_trans).
Proof.
  revert seen_nrs. induction cash_trans as [|t l IH]; intros seen_nrs; simpl.
  - constructor.
  - destruct (existsb (fun s => (CashTrans.nr_fl t =? s)%float) seen_nrs) eqn:Hseen; simpl.
    + apply IH.
    + constructor; [exact Hseen|].
      eapply Forall_impl; [apply (IH (seen_nrs ++ [CashTrans.nr_fl t]))|].
      intros b Hb. simpl in Hb. rewrite existsb_app in Hb.
      apply orb_false_iff in Hb as [Hb _]. exact Hb.
Qed.

Lemma unique_from_distinct (seen_nrs : list float) (cash_trans : list CashTrans.t) :
  StronglySorted (fun a b => (CashTrans.nr_fl b =? CashTrans.nr_fl a)%float = false)
    (unique_from seen_nrs cash_trans).
Proof.
  revert seen_nrs. induction cash_trans as [|t l IH]; intros seen_nrs; simpl.
  - constructor.
  - destruct (negb _); [|apply IH].
    constructor; [apply IH|].
    eapply Forall_impl; [apply (unique_from_not_seen (seen_nrs ++ [CashTrans.nr_fl t]))|].
    intros b Hb. simpl in Hb. rewrite existsb_app in Hb.
    apply orb_false_iff in Hb as [_ Hb]. simpl in Hb. rewrite orb_false_r in Hb. exact Hb.
Qed.

Lemma unique_from_represents (seen_nrs : list float) (cash_trans : list CashTrans.t) :
  Forall (fun t => existsb (fun s => (CashTrans.nr_fl t =? s)%float) seen_nrs = true
                   \/ t ∈ unique_from seen_nrs cash_trans
                   \/ Exists (fun t' => (CashTrans.nr_fl t =? CashTrans.nr_fl t')%float = true)
                             (unique_from seen_nrs cash_trans))
         cash_trans.
Proof.
  revert seen_nrs. induction cash_trans as [|t l IH]; intros seen_nrs; simpl.
  - constructor.
  - destruct (existsb (fun s => (CashTrans.nr_fl t =? s)%float) seen_nrs) eqn:Hseen; simpl.
    + constructor; [left; exact Hseen|apply IH].
    + constructor; [right; left; left|].
      eapply Forall_impl; [apply (IH (seen_nrs ++ [CashTrans.nr_fl t]))|].
      intros b Hb. simpl in Hb. destruct Hb as [Hb|[Hb|Hb]].
      * rewrite existsb_app in Hb. apply orb_true_iff in Hb as [Hb|Hb]; [left; exact Hb|].
        simpl in Hb. rewrite orb_false_r in Hb. right. right. left. exact Hb.
      * right. left. right. exact Hb.
      * right. right. right. exact Hb.
Qed.

Lemma sort_insert_perm (x : CashTrans.t) (l : list CashTrans.t) :
  XMLValueTestValidator.sort_insert x l ≡ₚ x :: l.
Proof.
  induction l as [|y t IH]; simpl; [reflexivity|].
  destruct (_ <? _)%float; [reflexivity|]. rewrite IH. apply perm_swap.
Qed.

Lemma sort_by_nr_fl_perm (l : list CashTrans.t) :
  XMLValueTestValidator.sort_by_nr_fl l ≡ₚ l.
Proof.
  unfold XMLValueTestValidator.sort_by_nr_fl.
  assert (forall acc,
            fold_left (fun a x => XMLValueTestValidator.sort_insert x a) l acc ≡ₚ acc ++ l)
    as Hgen.
  { induction l as [|x l IH]; simpl; intros acc.
    - rewrite app_nil_r. reflexivity.
    - rewrite IH, sort_insert_perm. rewrite (Permutation_middle acc l x). reflexivity. }
  apply (Hgen []).
Qed.

(** X10: the transactions of the cross-register numbering check. Removing
    the repeated numbers keeps a subsequence of the transactions in which no
    transaction has the number of an earlier one, and in which every
    transaction is present or has its number represented; sorting by number
    only permutes it. *)
Theorem numbering_candidates_are_first_of_each_number (cash_trans : list CashTrans.t) :
  sublist (XMLValueTestValidator.get_unique_transactions_nr cash_trans) cash_trans
  /\ StronglySorted (fun a b => (CashTrans.nr_fl b =? CashTrans.nr_fl a)%float = false)
       (XMLValueTestValidator.get_unique_transactions_nr cash_trans)
  /\ Forall (fun t =>
               t ∈ XMLValueTestValidator.get_unique_transactions_nr cash_trans
               \/ Exists (fun t' => (CashTrans.nr_fl t =? CashTrans.nr_fl t')%float = true)
                         (XMLValueTestValidator.get_unique_transactions_nr cash_trans))
            cash_trans
  /\ XMLValueTestValidator.sort_by_nr_fl
       (XMLValueTestValidator.get_unique_transactions_nr cash_trans)
     ≡ₚ XMLValueTestValidator.get_unique_transactions_nr cash_trans.
Proof.
  assert (XMLValueTestValidator.get_unique_transactions_nr cash_trans
          = unique_from [] cash_trans) as ->.
  { unfold XMLValueTestValidator.get_unique_transactions_nr.
    apply (get_unique_is_unique_from cash_trans []). }
  split; [apply unique_from_sublist|]. split; [apply unique_from_distinct|].
  split; [|apply sort_by_nr_fl_perm].
  eapply Forall_impl; [apply (unique_from_represents [])|].
  intros t [Hseen|Hrest]; [discriminate|exact Hrest].
Qed.

(** ** Parents in the Schema Index *)

Lemma build_schema_collection_name (schema : XsdNode) (element_name : string)
    (info : ElementInfo) :
  build_schema_collection schema !! element_name = Some info ->
  ei_name info = element_name.
Proof.
  rewrite build_schema_collection_lookup.
  destruct (last _) as [decl|]; [|discriminate]. simpl. intros [= <-]. reflexivity.
Qed.

Lemma SchemaCollection_lookup_build (schema : XsdNode) (element_name : string)
    (info : ElementInfo) :
  SchemaCollection schema !! element_name = Some info ->
  exists info0,
    build_schema_collection schema !! element_name = Some info0
    /\ ei_immediate_children info = ei_immediate_children info0
    /\ ei_name info = element_name
    /\ ei_type info = ei_type info0
    /\ ei_parents info
       = map fst (List.filter
                    (fun kv => bool_decide (ei_name info0 ∈ immediate_children_names (snd kv)))
                    (map_to_list (build_schema_collection schema))).
Proof.
  unfold SchemaCollection, generate_all_parents. rewrite lookup_fmap.
  destruct (build_schema_collection schema !! element_name) as [info0|] eqn:Hbuild;
    [|discriminate].
  simpl. intros [= <-]. exists info0. simpl.
  split; [reflexivity|]. split; [reflexivity|].
  split; [apply (build_schema_collection_name schema); exact Hbuild|].
  split; reflexivity.
Qed.

Lemma SchemaCollection_of_build (schema : XsdNode) (element_name : string)
    (info0 : ElementInfo) :
  build_schema_collection schema !! element_name = Some info0 ->
  exists info,
    SchemaCollection schema !! element_name = Some info
    /\ immediate_children_names info = immediate_children_names info0.
Proof.
  intros Hbuild. unfold SchemaCollection, generate_all_parents.
  rewrite lookup_fmap, Hbuild. simpl. eexists. split; reflexivity.
Qed.

(** X11: in the Schema Index the [parents] of an element are exactly the
    indexed elements that list it among their immediate children, and the
    name recorded in an entry is the key under which it is stored. *)
Theorem parents_invert_immediate_children (schema : XsdNode) (element_name : string)
    (info : ElementInfo) :
  SchemaCollection schema !! element_name = Some info ->
  ei_name info = element_name
  /\ forall parent : string,
       parent ∈ ei_parents info
       <-> exists parent_info,
             SchemaCollection schema !! parent = Some parent_info
             /\ element_name ∈ immediate_children_names parent_info.
Proof.
  intros Hinfo.
  destruct (SchemaCollection_lookup_build schema element_name info Hinfo)
    as (info0 & Hbuild & _ & Hname & _ & Hparents).
  split; [exact Hname|]. intros parent. rewrite Hparents.
  rewrite (build_schema_collection_name schema element_name info0 Hbuild).
  split.
  - intros Hin. apply list_elem_of_fmap in Hin as ([k pinfo0] & -> & Hkv).
    apply list_elem_of_In, filter_In in Hkv as [Hkv Hchild].
    apply list_elem_of_In, elem_of_map_to_list in Hkv.
    apply bool_decide_eq_true in Hchild. simpl in *.
    destruct (SchemaCollection_of_build schema k pinfo0 Hkv) as (pinfo & Hp & Hnames).
    exists pinfo. split; [exact Hp|]. rewrite Hnames. exact Hchild.
  - intros (pinfo & Hp & Hchild).
    destruct (SchemaCollection_lookup_build schema parent pinfo Hp)
      as (pinfo0 & Hpbuild & Himm & _).
    apply list_elem_of_fmap. exists (parent, pinfo0). split; [reflexivity|].
    apply list_elem_of_In, filter_In. split.
    + apply list_elem_of_In, elem_of_map_to_list. exact Hpbuild.
    + apply bool_decide_eq_true. simpl.
      unfold immediate_children_names in *. rewrite <- Himm. exact Hchild.
Qed.

Lemma parents_invert_immediate_children_witness :
  exists info,
    SchemaCollection sample_schema !! "name" = Some info
    /\ ("company" ∈ ei_parents info
        <-> exists parent_info,
              SchemaCollection sample_schema !! "company" = Some parent_info
              /\ "name" ∈ immediate_children_names parent_info).
Proof.
  destruct (SchemaCollection sample_schema !! "name") as [info|] eqn:Hinfo;
    [|vm_compute in Hinfo; discriminate].
  exists info. split; [reflexivity|].
  exact (proj2 (parents_invert_immediate_children sample_schema "name" info Hinfo)
           "company").
Defined.

(** ** Local names *)

Lemma string_app_assoc (a b c : string) : ((a ++ b) ++ c = a ++ (b ++ c))%string.
Proof.
  induction a as [|x a IH]; [reflexivity|].
  change (String x ((a ++ b) ++ c) = String x (a ++ (b ++ c)))%string.
  f_equal. exact IH.
Qed.

Lemma string_app_nil_r (a : string) : (a ++ "" = a)%string.
Proof.
  induction a as [|x a IH]; [reflexivity|].
  change (String x (a ++ "") = String x a)%string. f_equal. exact IH.
Qed.

Lemma after_last_brace_no_brace (acc s : string) :
  (forall c, In c (list_ascii_of_string s) -> c <> "}"%char) ->
  XMLStructureValidator.after_last_brace acc s = (acc ++ s)%string.
Proof.
  revert acc. induction s as [|c s IH]; intros acc Hs; simpl.
  - symmetry. apply string_app_nil_r.
  - rewrite bool_decide_eq_false_2 by (apply Hs; left; reflexivity).
    rewrite IH by (intros c' Hc'; apply Hs; right; exact Hc').
    rewrite string_app_assoc. reflexivity.
Qed.

Lemma after_last_brace_app (acc namespace local : string) :
  XMLStructureValidator.after_last_brace acc (namespace ++ String "}" local)
  = XMLStructureValidator.after_last_brace "" local.
Proof.
  revert acc. induction namespace as [|c namespace IH]; intros acc; simpl.
  - reflexivity.
  - destruct (bool_decide (c = "}"%char)); apply IH.
Qed.

Lemma after_last_brace_result (acc s : string) :
  (forall c, In c (list_ascii_of_string acc) -> c <> "}"%char) ->
  forall c, In c (list_ascii_of_string (XMLStructureValidator.after_last_brace acc s)) ->
            c <> "}"%char.
Proof.
  revert acc. induction s as [|x s IH]; intros acc Hacc; simpl; [exact Hacc|].
  case_bool_decide as Hx.
  - apply IH. intros c [].
  - apply IH. intros c Hc. rewrite list_ascii_of_string_app in Hc.
    apply in_app_or in Hc as [Hc|Hc]; [apply Hacc; exact Hc|].
    simpl in Hc. destruct Hc as [<-|[]]. exact Hx.
Qed.

(** X12: [extract_tag_from_tag] returns the local name of a qualified tag:
    whatever stands before the last closing brace is dropped, a tag without
    a brace is returned as it is, and the result never holds a closing
    brace. *)
Theorem extract_tag_strips_namespace (namespace local : string)
    (st : XMLStructureValidator.State) :
  (forall c, In c (list_ascii_of_string local) -> c <> "}"%char) ->
  XMLStructureValidator.extract_tag_from_tag (Some (namespace ++ String "}" local)%string) st
  = (inr local, st)
  /\ XMLStructureValidator.extract_tag_from_tag (Some local) st = (inr local, st)
  /\ forall tag_ c,
       In c (list_ascii_of_string (XMLStructureValidator.after_last_brace "" tag_)) ->
       c <> "}"%char.
Proof.
  intros Hlocal. unfold XMLStructureValidator.extract_tag_from_tag, XMLStructureValidator.sret.
  rewrite after_last_brace_app, (after_last_brace_no_brace "" local Hlocal). simpl.
  split; [reflexivity|]. split; [reflexivity|].
  intros tag_. apply after_last_brace_result. intros c [].
Qed.

Lemma extract_tag_strips_namespace_witness :
  XMLStructureValidator.extract_tag_from_tag
    (Some "{urn:StandardAuditFile-Taxation-CashRegister:DK}cashtransaction") sample_document
  = (inr "cashtransaction", sample_document).
Proof.
  apply (proj1 (extract_tag_strips_namespace
                  "{urn:StandardAuditFile-Taxation-CashRegister:DK" "cashtransaction"
                  sample_document
                  ltac:(intros c Hc; simpl in Hc;
                        repeat (destruct Hc as [<-|Hc]; [discriminate|]);
                        destruct Hc))).
Defined.

(** ** The set of added dummies *)

(** X13: [add_dummy] on an element of the document always returns; the
    parent then has a dummy of the element's tag ([has_dummy_by_name]
    finds it), the dummies that were registered stay registered, no
    (parent, tag) pair is registered twice, and the document and the
    findings are not touched. *)
Theorem add_dummy_then_has_dummy (st : XMLStructureValidator.State)
    (parent : option ElemId) (added : ElemId) (row_ : Z) (n : Node) :
  XMLStructureValidator.tree st !! added = Some n ->
  exists st',
    XMLStructureValidator.add_dummy parent added row_ st = (inr tt, st')
    /\ XMLStructureValidator.has_dummy_by_name (XMLStructureValidator.dummies st')
         parent (node_tag n) = true
    /\ (forall p name_,
          XMLStructureValidator.has_dummy_by_name (XMLStructureValidator.dummies st)
            p name_ = true ->
          XMLStructureValidator.has_dummy_by_name (XMLStructureValidator.dummies st')
            p name_ = true)
    /\ (NoDup (map dummy_key (XMLStructureValidator.dummies st)) ->
        NoDup (map dummy_key (XMLStructureValidator.dummies st')))
    /\ XMLStructureValidator.tree st' = XMLStructureValidator.tree st
    /\ XMLStructureValidator.findings st' = XMLStructureValidator.findings st.
Proof.
  intros Hn. unfold XMLStructureValidator.add_dummy.
  rewrite (sbind_run_ok _ _ st st n)
    by (rewrite node_of_run, Hn; reflexivity).
  unfold XMLStructureValidator.smodify. eexists. split; [reflexivity|].
  destruct (existsb _ (XMLStructureValidator.dummies st)) eqn:Hhas.
  - split; [exact Hhas|]. split; [auto|]. split; [auto|]. split; reflexivity.
  - simpl. unfold XMLStructureValidator.has_dummy_by_name. split; [|split; [|split]].
    + rewrite existsb_app. simpl. rewrite !bool_decide_eq_true_2 by reflexivity.
      simpl. apply orb_true_r.
    + intros p name_ Hp. rewrite existsb_app, Hp. reflexivity.
    + intros Hnodup. rewrite map_app. simpl. apply NoDup_app. split; [exact Hnodup|].
      split; [|apply NoDup_singleton].
      intros key Hkey Hnew. apply list_elem_of_singleton in Hnew. subst key.
      apply list_elem_of_fmap in Hkey as (d & Hd & Hin).
      assert (existsb
                (fun dummy => bool_decide (parent_element dummy = parent)
                              && bool_decide (name_of_added_element dummy = node_tag n))
                (XMLStructureValidator.dummies st) = true) as Hcontra.
      { apply existsb_exists. exists d. split; [apply list_elem_of_In; exact Hin|].
        unfold dummy_key in Hd. simpl in Hd. injection Hd as Hp Hname.
        rewrite !bool_decide_eq_true_2 by congruence. reflexivity. }
      congruence.
    + split; reflexivity.
Qed.

Lemma add_dummy_then_has_dummy_witness :
  exists st',
    XMLStructureValidator.add_dummy (Some 0%nat) 1%nat 3 sample_document = (inr tt, st')
    /\ XMLStructureValidator.has_dummy_by_name (XMLStructureValidator.dummies st')
         (Some 0%nat) "{urn:StandardAuditFile-Taxation-CashRegister:DK}name" = true.
Proof.
  destruct (add_dummy_then_has_dummy sample_document (Some 0%nat) 1%nat 3
              (mkNode "{urn:StandardAuditFile-Taxation-CashRegister:DK}name"
                 (Some "Shop") (Some 0%nat) []))
    as (st' & Hrun & Hhas & _).
  - reflexivity.
  - exists st'. split; [exact Hrun|exact Hhas].
Defined.

(** ** A strategy declines or handles *)

(** X14: each of the five guarded healing strategies either declines, and
    then it returns having changed nothing of the document, the line map,
    the dummies, the findings and [handled_error], or it applies, and then,
    when it returns without an exception, [handled_error] is set. *)
Theorem strategy_declines_or_handles (schema_dict : gmap string ElementInfo)
    (audit_trail_translated : gmap string string)
    (get_dummy_text : string -> option string)
    (st : XMLStructureValidator.State) (error_ : LogEntry) (e : ElemId)
    (name : string) (expected : option string) (parent : option ElemId) :
  let handled (r : (string + unit) * XMLStructureValidator.State) : Prop :=
    match r.1 with
    | inr _ => XMLStructureValidator.handled_error r.2 = Some true
    | inl _ => True
    end in
  (if declines_should_not_exist schema_dict st e parent
   then XMLStructureValidator.handle_if_element_should_not_exist schema_dict
          audit_trail_translated e parent st
        = (inr tt, XMLStructureValidator.enter if_element_should_not_exist st)
   else handled (XMLStructureValidator.handle_if_element_should_not_exist schema_dict
                   audit_trail_translated e parent st))
  /\ (if declines_out_of_sequence st parent name
      then XMLStructureValidator.handle_out_of_sequence_error audit_trail_translated
             parent e name st
           = (inr tt, XMLStructureValidator.enter out_of_sequence_error st)
      else handled (XMLStructureValidator.handle_out_of_sequence_error
                      audit_trail_translated parent e name st))
  /\ (if declines_multiple_of_same st e name parent
      then XMLStructureValidator.handle_multiple_of_same_element audit_trail_translated
             e name parent st
           = (inr tt, XMLStructureValidator.enter multiple_of_same_element st)
      else handled (XMLStructureValidator.handle_multiple_of_same_element
                      audit_trail_translated e name parent st))
  /\ (if declines_missing_child error_
      then XMLStructureValidator.handle_missing_child audit_trail_translated
             get_dummy_text error_ e expected st
           = (inr tt, XMLStructureValidator.enter missing_child_strategy st)
      else handled (XMLStructureValidator.handle_missing_child audit_trail_translated
                      get_dummy_text error_ e expected st))
  /\ (if declines_want_to_build_optional schema_dict st expected parent
      then XMLStructureValidator.handle_want_to_build_optional schema_dict
             audit_trail_translated e expected parent st
           = (inr tt, XMLStructureValidator.enter want_to_build_optional st)
      else handled (XMLStructureValidator.handle_want_to_build_optional schema_dict
                      audit_trail_translated e expected parent st)).
Proof.
  cbv zeta.
  assert (forall r : (string + unit) * XMLStructureValidator.State,
            (r.1 = inr tt -> XMLStructureValidator.handled_error r.2 = Some true) ->
            match r.1 with
            | inr _ => XMLStructureValidator.handled_error r.2 = Some true
            | inl _ => True
            end) as Hmatch.
  { intros [[err|[]] st1] Hr; simpl in *; [exact I|apply Hr; reflexivity]. }
  split; [|split; [|split; [|split]]].
  - destruct (declines_should_not_exist schema_dict st e parent) eqn:Hd.
    + apply should_not_exist_declines. exact Hd.
    + apply Hmatch. apply (should_not_exist_stops _ _ _ _ _ Hd).
  - destruct (declines_out_of_sequence st parent name) eqn:Hd.
    + apply out_of_sequence_declines. exact Hd.
    + apply Hmatch. apply (out_of_sequence_stops _ _ _ _ _ Hd).
  - destruct (declines_multiple_of_same st e name parent) eqn:Hd.
    + apply multiple_of_same_declines. exact Hd.
    + apply Hmatch. apply (multiple_of_same_stops _ _ _ _ _ Hd).
  - destruct (declines_missing_child error_) eqn:Hd.
    + apply missing_child_declines. exact Hd.
    + apply Hmatch. apply (missing_child_stops _ _ _ _ _ _ Hd).
  - destruct (declines_want_to_build_optional schema_dict st expected parent) eqn:Hd.
    + apply want_to_build_optional_declines. exact Hd.
    + apply Hmatch. apply (want_to_build_optional_stops _ _ _ _ _ _ Hd).
Qed.

(** ** The type of an expected element *)

Lemma is_substring_app_l (p a r : string) :
  XMLStructureValidator.is_substring p r = true ->
  XMLStructureValidator.is_substring p (a ++ r) = true.
Proof.
  intros Hr. induction a as [|c a IH]; [exact Hr|].
  change (XMLStructureValidator.is_substring p (String c (a ++ r)) = true).
  simpl. rewrite IH. apply orb_true_r.
Qed.

Lemma is_substring_of_prefix (p s : string) :
  String.prefix p s = true -> XMLStructureValidator.is_substring p s = true.
Proof.
  intros Hp. destruct s; cbn [XMLStructureValidator.is_substring]; rewrite Hp; reflexivity.
Qed.

Lemma prefix_app_inv (a b s : string) :
  String.prefix (a ++ b) s = true ->
  exists r, s = (a ++ r)%string /\ String.prefix b r = true.
Proof.
  revert s. induction a as [|c a IH]; intros s Hs.
  - exists s. split; [reflexivity|exact Hs].
  - change (String.prefix (String c (a ++ b)) s = true) in Hs.
    destruct s as [|c' s]; [discriminate|]. simpl in Hs.
    destruct (ascii_dec c c') as [<-|]; [|discriminate].
    destruct (IH s Hs) as (r & -> & Hr). exists r. split; [reflexivity|exact Hr].
Qed.

Lemma is_substring_part (a b s : string) :
  XMLStructureValidator.is_substring (a ++ b) s = true ->
  XMLStructureValidator.is_substring b s = true.
Proof.
  induction s as [|c s IH]; cbn [XMLStructureValidator.is_substring].
  - rewrite !orb_false_r. intros Hp.
    destruct a as [|x a]; [|cbv in Hp; discriminate].
    destruct b as [|y b]; [reflexivity|cbv in Hp; discriminate].
  - intros Hp. apply orb_true_iff in Hp as [Hp|Hp].
    + destruct (prefix_app_inv a b _ Hp) as (r & Hs & Hr).
      apply is_substring_of_prefix in Hr.
      pose proof (is_substring_app_l b a r Hr) as Hsub. rewrite <- Hs in Hsub.
      exact Hsub.
    + rewrite (IH Hp). apply orb_true_r.
Qed.

Lemma classify_type_identification (type_ : string) :
  classify_type type_ = "IdentificationString" ->
  XMLStructureValidator.is_substring "report" (lower type_) = true.
Proof.
  unfold classify_type.
  destruct (XMLStructureValidator.is_substring "report" (lower type_)); [reflexivity|].
  rewrite andb_true_r.
  destruct (XMLStructureValidator.is_substring "string" (lower type_)) eqn:Hstring;
    [discriminate|].
  destruct (XMLStructureValidator.is_substring "nonnegativeinteger" (lower type_));
    [discriminate|].
  destruct (XMLStructureValidator.is_substring "identificationstring" (lower type_))
    eqn:Hid.
  - pose proof (is_substring_part "identification" "string" (lower type_) Hid) as Hs.
    congruence.
  - intros ->. vm_compute in Hstring. discriminate.
Qed.

(** X15: [__get_type_from_xsd] answers "IdentificationString" only for a
    declaration whose type also holds "report" (in any case): a type that
    holds "identificationstring" holds "string", so without "report" the
    answer is "String" and the dummy text is the one of strings. *)
Theorem identification_string_needs_report (xsd_elements : list XsdNode)
    (full_element_name : string) :
  get_type_from_xsd xsd_elements full_element_name = Some "IdentificationString" ->
  exists xsd_element type_,
    xsd_element ∈ xsd_elements
    /\ attrib_get xsd_element "name"
       = Some (XMLStructureValidator.after_last_brace "" full_element_name)
    /\ attrib_get xsd_element "type" = Some type_
    /\ XMLStructureValidator.is_substring "identificationstring" (lower type_) = true
    /\ XMLStructureValidator.is_substring "report" (lower type_) = true.
Proof.
  unfold get_type_from_xsd.
  generalize (XMLStructureValidator.after_last_brace "" full_element_name) as name_.
  intros name_. induction xsd_elements as [|x rest IH]; simpl; [discriminate|].
  assert (get_type_from_xsd_loop rest name_ = Some "IdentificationString" ->
          exists xsd_element type_,
            xsd_element ∈ x :: rest
            /\ attrib_get xsd_element "name" = Some name_
            /\ attrib_get xsd_element "type" = Some type_
            /\ XMLStructureValidator.is_substring "identificationstring" (lower type_) = true
            /\ XMLStructureValidator.is_substring "report" (lower type_) = true) as Hrest.
  { intros Hloop. destruct (IH Hloop) as (y & t & Hy & Hrest).
    exists y, t. split; [right; exact Hy|exact Hrest]. }
  destruct (attrib_get x "name") as [n|] eqn:Hname.
  - case_bool_decide as Hn; [|exact Hrest]. subst n.
    destruct (attrib_get x "type") as [t|] eqn:Htype; [|discriminate].
    intros [= Hclass]. exists x, t. split; [left|]. split; [exact Hname|].
    split; [exact Htype|].
    pose proof (classify_type_identification t Hclass) as Hreport.
    split; [|exact Hreport].
    revert Hclass. unfold classify_type. rewrite Hreport, andb_false_r.
    destruct (XMLStructureValidator.is_substring "nonnegativeinteger" (lower t));
      [discriminate|].
    destruct (XMLStructureValidator.is_substring "identificationstring" (lower t));
      [reflexivity|].
    intros ->. vm_compute in Hreport. discriminate.
  - destruct (attrib_get x "ref") as [r|]; [|exact Hrest].
    case_bool_decide; [discriminate|exact Hrest].
Qed.

Lemma identification_string_needs_report_witness :
  get_type_from_xsd
    [XsdEl "element" [("name", "reportID"); ("type", "ReportIdentificationString")] []]
    "{urn:StandardAuditFile-Taxation-CashRegister:DK}reportID"
  = Some "IdentificationString"
  /\ exists xsd_element type_,
       xsd_element
       ∈ [XsdEl "element" [("name", "reportID"); ("type", "ReportIdentificationString")] []]
       /\ attrib_get xsd_element "type" = Some type_
       /\ XMLStructureValidator.is_substring "report" (lower type_) = true.
Proof.
  split; [vm_compute; reflexivity|].
  destruct (identification_string_needs_report
              [XsdEl "element" [("name", "reportID"); ("type", "ReportIdentificationString")]
                 []]
              "{urn:StandardAuditFile-Taxation-CashRegister:DK}reportID")
    as (x & t & Hx & _ & Ht & _ & Hreport).
  - vm_compute. reflexivity.
  - exists x, t. split; [exact Hx|]. split; [exact Ht|exact Hreport].
Defined.

(** ** The naming validator *)

Lemma split_on_part (sep : ascii) (current part rest : string) :
  Forall (fun c => c <> sep) (list_ascii_of_string part) ->
  split_on sep current (part ++ String sep rest)
  = (current ++ part)%string :: split_on sep "" rest.
Proof.
  revert current. induction part as [|c part IH]; intros current Hpart.
  - simpl. rewrite bool_decide_eq_true_2 by reflexivity. rewrite string_app_nil_r.
    reflexivity.
  - change (split_on sep current (String c (part ++ String sep rest))
            = (current ++ String c part)%string :: split_on sep "" rest).
    simpl in Hpart. inversion Hpart as [|? ? Hc Hrest]; subst. simpl.
    rewrite bool_decide_eq_false_2 by exact Hc.
    rewrite (IH _ Hrest), string_app_assoc. reflexivity.
Qed.

Lemma split_on_last (sep : ascii) (current part : string) :
  Forall (fun c => c <> sep) (list_ascii_of_string part) ->
  split_on sep current part = [(current ++ part)%string].
Proof.
  revert current. induction part as [|c part IH]; intros current Hpart; simpl.
  - rewrite string_app_nil_r. reflexivity.
  - simpl in Hpart. inversion Hpart as [|? ? Hc Hrest]; subst.
    rewrite bool_decide_eq_false_2 by exact Hc.
    rewrite (IH _ Hrest), string_app_assoc. reflexivity.
Qed.

(** Splitting what was joined gives the parts back. *)
Lemma split_on_join (sep : ascii) (parts : list string) :
  parts <> [] ->
  Forall (fun part => Forall (fun c => c <> sep) (list_ascii_of_string part)) parts ->
  split_on sep "" (String.concat (String sep "") parts) = parts.
Proof.
  intros Hne Hparts. induction Hparts as [|part parts Hpart Hrest IH]; [done|].
  destruct parts as [|part' parts'].
  - simpl. apply (split_on_last sep "" part Hpart).
  - change (String.concat (String sep "") (part :: part' :: parts'))
      with (part ++ String sep (String.concat (String sep "") (part' :: parts')))%string.
    rewrite (split_on_part sep "" part _ Hpart). simpl. f_equal. apply IH. discriminate.
Qed.

Lemma split_on_length (sep : ascii) (current s : string) :
  length (split_on sep current s)
  = S (count_occ ascii_dec (list_ascii_of_string s) sep).
Proof.
  revert current. induction s as [|c s IH]; intros current; simpl; [reflexivity|].
  case_bool_decide as Hc.
  - subst c. destruct (ascii_dec sep sep); [|done]. simpl. rewrite IH. reflexivity.
  - destruct (ascii_dec c sep); [done|]. apply IH.
Qed.

Lemma all_digits_no_underscore (s : string) :
  all_digits s = true -> Forall (fun c => c <> "_"%char) (list_ascii_of_string s).
Proof.
  unfold all_digits. intros Hs. apply Forall_forall. intros c Hc ->.
  rewrite forallb_forall in Hs. apply list_elem_of_In in Hc. apply Hs in Hc.
  vm_compute in Hc. discriminate.
Qed.

(** X16: a stem made of the name, an id, a date and two version parts that
    pass the four checks, joined by underscores, is accepted, without a
    finding, in both spellings of the name: "SAF-T Cash Register" (five
    parts) and "SAF-T_Cash_Register" (seven parts). *)
Theorem well_formed_stems_are_accepted `{PyInt} (id_ date v1 v2 : string)
    (st : Validator) :
  XMLNamingValidator.filename_id_check id_ = true ->
  XMLNamingValidator.filename_date_check date = true ->
  XMLNamingValidator.filename_file_number_check [v1; v2] = true ->
  Forall (fun c => c <> "_"%char) (list_ascii_of_string v1) ->
  Forall (fun c => c <> "_"%char) (list_ascii_of_string v2) ->
  XMLNamingValidator.validate
    (String.concat "_" ["SAF-T Cash Register"; id_; date; v1; v2]) st = (false, st)
  /\ XMLNamingValidator.validate
       (String.concat "_" ["SAF-T"; "Cash"; "Register"; id_; date; v1; v2]) st
     = (false, st).
Proof.
  intros Hid Hdate Hnumber Hv1 Hv2.
  assert (Forall (fun c => c <> "_"%char) (list_ascii_of_string id_)) as Hid_.
  { apply all_digits_no_underscore. revert Hid.
    unfold XMLNamingValidator.filename_id_check.
    destruct (negb _); [discriminate|]. destruct (all_digits id_); [reflexivity|discriminate]. }
  assert (Forall (fun c => c <> "_"%char) (list_ascii_of_string date)) as Hdate_.
  { apply all_digits_no_underscore. revert Hdate.
    unfold XMLNamingValidator.filename_date_check.
    destruct (all_digits date); [reflexivity|discriminate]. }
  assert (forall name_, Forall (fun c => c <> "_"%char) (list_ascii_of_string name_) ->
                        Forall (fun part => Forall (fun c => c <> "_"%char)
                                                   (list_ascii_of_string part))
                               [name_; id_; date; v1; v2]) as Hparts.
  { intros name_ Hname. repeat constructor; assumption. }
  unfold XMLNamingValidator.validate. split.
  - rewrite (split_on_join "_" ["SAF-T Cash Register"; id_; date; v1; v2]);
      [|discriminate|apply Hparts; repeat constructor; discriminate].
    cbv zeta. cbn [forallb]. rewrite Hid, Hdate, Hnumber. reflexivity.
  - rewrite (split_on_join "_" ["SAF-T"; "Cash"; "Register"; id_; date; v1; v2]);
      [|discriminate|].
    + cbv zeta. cbn [forallb]. rewrite Hid, Hdate, Hnumber. reflexivity.
    + constructor; [repeat constructor; discriminate|].
      constructor; [repeat constructor; discriminate|].
      apply Hparts. repeat constructor; discriminate.
Qed.

Lemma well_formed_stems_are_accepted_witness :
  XMLNamingValidator.validate (H := digits_int)
    "SAF-T Cash Register_12345678_20240131235900_1_1" init_validator
  = (false, init_validator)
  /\ XMLNamingValidator.validate (H := digits_int)
       "SAF-T_Cash_Register_12345678_20240131235900_1_1" init_validator
     = (false, init_validator).
Proof.
  apply (well_formed_stems_are_accepted (H := digits_int)
           "12345678" "20240131235900" "1" "1" init_validator).
  - vm_compute. reflexivity.
  - vm_compute. reflexivity.
  - vm_compute. reflexivity.
  - repeat constructor; discriminate.
  - repeat constructor; discriminate.
Defined.

(** X17: a stem whose number of underscores is neither 4 nor 6 is rejected
    whatever it holds: [naming_error] is set and exactly the FILENAME finding
    of the naming check is appended. *)
Theorem stems_with_other_part_counts_are_rejected `{PyInt} (stem : string)
    (st : Validator) :
  count_occ ascii_dec (list_ascii_of_string stem) "_"%char <> 4%nat ->
  count_occ ascii_dec (list_ascii_of_string stem) "_"%char <> 6%nat ->
  XMLNamingValidator.validate stem st
  = (true, log_validation_error_no_element naming_check filename_error_type st).
Proof.
  intros H4 H6. unfold XMLNamingValidator.validate.
  pose proof (split_on_length "_" "" stem) as Hlen.
  destruct (split_on "_" "" stem) as [|p0 [|p1 [|p2 [|p3 [|p4 [|p5 [|p6 [|p7 l]]]]]]]];
    simpl in Hlen; try reflexivity; exfalso; lia.
Qed.

Lemma stems_with_other_part_counts_are_rejected_witness :
  XMLNamingValidator.validate (H := digits_int) "SAF-T Cash Register_12345678" init_validator
  = (true, log_validation_error_no_element naming_check filename_error_type init_validator).
Proof.
  apply (stems_with_other_part_counts_are_rejected (H := digits_int)).
  - vm_compute. lia.
  - vm_compute. lia.
Defined.

Lemma is_digit_value (c : ascii) :
  is_digit c = true -> 0 <= Z.of_nat (nat_of_ascii c) - 48 <= 9.
Proof.
  unfold is_digit. intros Hc. apply andb_true_iff in Hc as [Hlo Hhi].
  apply Nat.leb_le in Hlo, Hhi. lia.
Qed.

Lemma int_of_digits_fold_bound (l : list ascii) (acc : Z) :
  forallb is_digit l = true -> 0 <= acc ->
  0 <= fold_left (fun acc c => 10 * acc + (Z.of_nat (nat_of_ascii c) - 48)) l acc
    <= acc * 10 ^ Z.of_nat (length l) + 10 ^ Z.of_nat (length l) - 1.
Proof.
  revert acc. induction l as [|c l IH]; intros acc Hl Hacc.
  - simpl. lia.
  - simpl in Hl. apply andb_true_iff in Hl as [Hc Hl].
    pose proof (is_digit_value c Hc) as Hd.
    cbn [fold_left length].
    specialize (IH (10 * acc + (Z.of_nat (nat_of_ascii c) - 48)) Hl ltac:(lia)).
    rewrite Nat2Z.inj_succ, Z.pow_succ_r by lia.
    assert (0 < 10 ^ Z.of_nat (length l)) as Hpow by (apply Z.pow_pos_nonneg; lia).
    nia.
Qed.

Lemma string_length_list (s : string) :
  String.length s = length (list_ascii_of_string s).
Proof. induction s as [|c s IH]; simpl; [reflexivity|]. rewrite IH. reflexivity. Qed.

(** X18: on ASCII text the id check and the date check of the naming
    validator are lexical. The id check accepts exactly the ASCII strings of
    eight digits (its range test never fails), and the date check does not
    look at the calendar: for every year from 1970 to 2049, written with the
    digits 0 to 9, it accepts the 31st of February at 23:60:60. *)
Theorem naming_checks_are_lexical (id_ year : string) :
  (isascii id_ = true ->
   XMLNamingValidator.filename_id_check id_
   = (String.length id_ =? 8)%nat && all_digits id_)
  /\ (String.length year = 4%nat -> all_digits year = true ->
      1970 <= int_of_digits year < 2050 ->
      XMLNamingValidator.filename_date_check (year ++ "0231236060") = true).
Proof.
  split.
  - intros _. unfold XMLNamingValidator.filename_id_check.
    destruct (String.length id_ =? 8)%nat eqn:Hlen; [|reflexivity].
    destruct (all_digits id_) eqn:Hdigits; [|reflexivity]. simpl.
    apply Nat.eqb_eq in Hlen. rewrite string_length_list in Hlen.
    pose proof (int_of_digits_fold_bound (list_ascii_of_string id_) 0 Hdigits ltac:(lia))
      as Hbound.
    rewrite Hlen in Hbound. unfold int_of_digits.
    apply andb_true_iff. split; [apply Z.leb_le|apply Z.leb_le]; lia.
  - intros Hlen Hdigits Hyear.
    destruct year as [|a [|b [|c [|d [|e year]]]]]; try discriminate Hlen.
    unfold XMLNamingValidator.filename_date_check.
    rewrite all_digits_app, Hdigits. cbn [andb].
    change (all_digits "0231236060") with true. cbv iota.
    change (String a (String b (String c (String d ""))) ++ "0231236060")%string
      with (String a (String b (String c (String d "0231236060")))).
    change (substring 0 4 (String a (String b (String c (String d "0231236060")))))
      with (String a (String b (String c (String d "")))).
    change (substring 4 2 (String a (String b (String c (String d "0231236060")))))
      with "02".
    change (substring 6 2 (String a (String b (String c (String d "0231236060")))))
      with "31".
    change (substring 8 2 (String a (String b (String c (String d "0231236060")))))
      with "23".
    change (substring 10 2 (String a (String b (String c (String d "0231236060")))))
      with "60".
    change (substring 12 2 (String a (String b (String c (String d "0231236060")))))
      with "60".
    change (String.length (String a (String b (String c (String d "0231236060")))))
      with 14%nat.
    cbv zeta. cbn [Nat.eqb negb].
    change (int_of_digits "02") with 2. change (int_of_digits "31") with 31.
    change (int_of_digits "23") with 23. change (int_of_digits "60") with 60.
    destruct Hyear as [Hlo Hhi].
    apply Z.leb_le in Hlo. apply Z.ltb_lt in Hhi. rewrite Hlo, Hhi. reflexivity.
Qed.

Lemma naming_checks_are_lexical_witness :
  XMLNamingValidator.filename_id_check "12345678" = true
  /\ XMLNamingValidator.filename_date_check "20240231236060" = true.
Proof.
  split.
  - rewrite (proj1 (naming_checks_are_lexical "12345678" "2024") eq_refl). reflexivity.
  - apply (proj2 (naming_checks_are_lexical "12345678" "2024")).
    + reflexivity.
    + reflexivity.
    + change (int_of_digits "2024") with 2024. lia.
Defined.

(** ** What the healing strategies do to the document *)

Section HealingEffects.
Import XMLStructureValidator.
Variable audit_trail_translated : gmap string string.
Variable get_dummy_text : string -> option string.

Lemma get_row_nr_run (e : ElemId) (st : State) (row : Z) :
  (get_row_nr e st).1 = inr row -> get_row_nr e st = (inr row, st).
Proof.
  unfold get_row_nr. repeat case_match; simpl; intros [= <-]; reflexivity.
Qed.

Lemma log_structural_error_run (st : State) (e : ElemId) (error_ : LogEntry)
    (error_tag_name : string) (row : Z) :
  (get_row_nr e st).1 = inr row ->
  exists finding,
    log_structural_error audit_trail_translated e error_ error_tag_name st
    = (inr tt, add_finding finding st)
    /\ technical_error_type finding = Some (type_name error_)
    /\ error_xml_element finding = Some error_tag_name
    /\ error_row finding = Some row
    /\ check finding = structure_check.
Proof.
  intros Hrow. apply get_row_nr_run in Hrow.
  assert (exists trail, get_audit_trail audit_trail_translated e st = (inr trail, st))
    as [trail Htrail].
  { unfold get_audit_trail. cbv zeta. case_match; eexists; reflexivity. }
  unfold log_structural_error.
  rewrite (sbind_run_ok _ _ _ _ _ Hrow), (sbind_run_ok _ _ _ _ _ Htrail).
  eexists. split; [reflexivity|]. repeat split; reflexivity.
Qed.

Lemma insert_before_spec (e new : ElemId) (before after : list ElemId) :
  e ∉ before ->
  insert_before e new (before ++ e :: after) = before ++ new :: e :: after.
Proof.
  induction before as [|x before IH]; intros Hnot; simpl.
  - rewrite bool_decide_eq_true_2 by reflexivity. reflexivity.
  - rewrite bool_decide_eq_false_2.
    + rewrite IH; [reflexivity|]. intros Hin. apply Hnot. right. exact Hin.
    + intros ->. apply Hnot. left.
Qed.

Lemma add_above_run (st : State) (e p : ElemId) (en pn : Node) (name dummy : string)
    (error_ : LogEntry) (row : Z) :
  get_dummy_text name = Some dummy ->
  tree st !! e = Some en -> node_parent en = Some p -> tree st !! p = Some pn ->
  tree st !! fresh st = None -> e <> p ->
  (get_row_nr e st).1 = inr row -> row <> 0 ->
  exists st',
    add_expected_element_above_not_expected audit_trail_translated get_dummy_text e
      (Some name) error_ st = (inr tt, st')
    /\ tree st' !! fresh st = Some (mkNode name (Some dummy) (Some p) [])
    /\ tree st' !! p
       = Some (mkNode (node_tag pn) (node_text pn) (node_parent pn)
                 (insert_before e (fresh st) (node_children pn)))
    /\ line_mapping st' !! fresh st = Some (row, true)
    /\ has_dummy_by_name (dummies st') (Some p) name = true
    /\ (exists finding,
          findings st' = findings st ++ [finding]
          /\ technical_error_type finding = Some (type_name error_)
          /\ error_xml_element finding = Some (after_last_brace "" name)
          /\ error_row finding = Some row)
    /\ handled_error st' = handled_error st.
Proof.
  intros Hdummy He Hparent Hp Hfresh Hne Hrow Hrow0.
  assert (fresh st <> e) as Hfe by (intros Heq; rewrite Heq in Hfresh; congruence).
  assert (fresh st <> p) as Hfp by (intros Heq; rewrite Heq in Hfresh; congruence).
  unfold add_expected_element_above_not_expected. rewrite enter_then.
  set (st0 := enter add_expected_element_above st).
  unfold new_element. cbv beta iota zeta.
  unfold sbind at 1. cbv beta iota.
  change (fresh st0) with (fresh st). change (tree st0) with (tree st).
  set (new := fresh st) in *.
  unfold default. simpl (from_option _ _ _). change (id name) with name.
  set (st1 := set_fresh _ _).
  (* the dummy text *)
  assert (set_dummy_text get_dummy_text new name st1
          = (inr tt, set_tree (<[new := mkNode name (Some dummy) None []]> (tree st1)) st1))
    as Htext.
  { unfold set_dummy_text. rewrite Hdummy.
    rewrite (sbind_run_ok _ _ st1 st1 (mkNode name None None []));
      [reflexivity|].
    rewrite node_of_run. subst st1. simpl. rewrite lookup_insert_eq. reflexivity. }
  rewrite (sbind_run_ok _ _ _ _ _ Htext). clear Htext.
  set (st2 := set_tree _ st1).
  (* the insertion *)
  assert (addprevious e new st2
          = (inr tt,
             set_tree
               (<[new := mkNode name (Some dummy) (Some p) []]>
                  (<[p := mkNode (node_tag pn) (node_text pn) (node_parent pn)
                                 (insert_before e new (node_children pn))]> (tree st2)))
               st2)) as Hadd.
  { unfold addprevious.
    rewrite (sbind_run_ok _ _ st2 st2 en).
    2:{ rewrite node_of_run. subst st2 st1. simpl.
        rewrite !lookup_insert_ne by congruence. rewrite He. reflexivity. }
    rewrite Hparent.
    rewrite (sbind_run_ok _ _ st2 st2 pn).
    2:{ rewrite node_of_run. subst st2 st1. simpl.
        rewrite !lookup_insert_ne by congruence. rewrite Hp. reflexivity. }
    rewrite (sbind_run_ok _ _ st2 st2 (mkNode name (Some dummy) None [])).
    2:{ rewrite node_of_run. subst st2 st1. simpl.
        rewrite lookup_insert_eq. reflexivity. }
    reflexivity. }
  rewrite (sbind_run_ok _ _ _ _ _ Hadd). clear Hadd.
  set (st3 := set_tree _ st2).
  (* the line map, the finding and the dummy *)
  unfold line_mapping_log_add_dummy.
  assert (get_row_nr e st3 = (inr row, st3)) as Hrow3.
  { apply get_row_nr_run in Hrow. revert Hrow. unfold get_row_nr.
    change (line_mapping st3) with (line_mapping st).
    destruct (line_mapping st !! e) as [[row_ b]|]; [|discriminate].
    destruct (row_ =? 0).
    - assert (tree st3 !! e = Some en) as ->.
      { subst st3 st2 st1. simpl. rewrite !lookup_insert_ne by congruence. exact He. }
      rewrite He, Hparent.
      destruct (line_mapping st !! p) as [[prow b']|]; [|discriminate].
      intros [= <-]. reflexivity.
    - intros [= <-]. reflexivity. }
  rewrite (sbind_run_ok _ _ _ _ _ Hrow3). clear Hrow3.
  unfold sbind at 1. unfold smodify at 1. cbv beta iota.
  set (st4 := set_line_mapping _ st3).
  assert (get_row_nr new st4 = (inr row, st4)) as Hrow4.
  { unfold get_row_nr. subst st4. simpl. rewrite lookup_insert_eq.
    rewrite (proj2 (Z.eqb_neq row 0) Hrow0). reflexivity. }
  destruct (log_structural_error_run st4 new error_ (after_last_brace "" name) row)
    as (finding & Hlog & Htype & Helement & Hfrow & _).
  { rewrite Hrow4. reflexivity. }
  rewrite (sbind_run_ok _ _ _ _ _ Hlog). clear Hlog.
  set (st5 := add_finding finding st4).
  assert (getparent new st5 = (inr (Some p), st5)) as Hgetparent.
  { unfold getparent.
    rewrite (sbind_run_ok _ _ st5 st5 (mkNode name (Some dummy) (Some p) []));
      [reflexivity|].
    rewrite node_of_run. subst st5 st4 st3. simpl. rewrite lookup_insert_eq. reflexivity. }
  rewrite (sbind_run_ok _ _ _ _ _ Hgetparent). clear Hgetparent.
  assert (get_row_nr new st5 = (inr row, st5)) as Hrow5.
  { unfold get_row_nr. subst st5 st4. simpl. rewrite lookup_insert_eq.
    rewrite (proj2 (Z.eqb_neq row 0) Hrow0). reflexivity. }
  rewrite (sbind_run_ok _ _ _ _ _ Hrow5). clear Hrow5.
  unfold add_dummy.
  rewrite (sbind_run_ok _ _ st5 st5 (mkNode name (Some dummy) (Some p) [])).
  2:{ rewrite node_of_run. subst st5 st4 st3. simpl. rewrite lookup_insert_eq. reflexivity. }
  unfold smodify. eexists. split; [reflexivity|].
  cbn [node_tag].
  destruct (existsb _ (dummies st5)) eqn:Hhas.
  - split; [subst st5 st4 st3; simpl; rewrite lookup_insert_eq; reflexivity|].
    split; [subst st5 st4 st3; simpl; rewrite lookup_insert_ne by congruence;
            rewrite lookup_insert_eq; reflexivity|].
    split; [subst st5 st4; simpl; rewrite lookup_insert_eq; reflexivity|].
    split; [exact Hhas|].
    split; [|reflexivity].
    exists finding. split; [reflexivity|]. split; [exact Htype|]. split; assumption.
  - split; [subst st5 st4 st3; simpl; rewrite lookup_insert_eq; reflexivity|].
    split; [subst st5 st4 st3; simpl; rewrite lookup_insert_ne by congruence;
            rewrite lookup_insert_eq; reflexivity|].
    split; [subst st5 st4; simpl; rewrite lookup_insert_eq; reflexivity|].
    split.
    { unfold has_dummy_by_name. simpl. rewrite existsb_app. simpl.
      rewrite !bool_decide_eq_true_2 by reflexivity. simpl. apply orb_true_r. }
    split; [|reflexivity].
    exists finding. split; [reflexivity|]. split; [exact Htype|]. split; assumption.
Qed.

(** X19: [add_expected_element_above_not_expected] puts the new element
    directly before the offending one among the children of its parent and
    moves no other child; the new element carries the dummy text, is mapped
    to the row of the offending element and marked as added, is registered
    as a dummy under (parent, tag), and the one finding it logs carries the
    type of the log entry, the bare expected name and that row.
    [handled_error] is left as it was. *)
Theorem expected_element_is_added_just_above (st : State) (e p : ElemId) (en pn : Node)
    (before after : list ElemId) (name dummy : string) (error_ : LogEntry) (row : Z) :
  get_dummy_text name = Some dummy ->
  tree st !! e = Some en -> node_parent en = Some p -> tree st !! p = Some pn ->
  node_children pn = before ++ e :: after -> e ∉ before ->
  tree st !! fresh st = None -> e <> p ->
  (get_row_nr e st).1 = inr row -> row <> 0 ->
  exists st',
    add_expected_element_above_not_expected audit_trail_translated get_dummy_text e
      (Some name) error_ st = (inr tt, st')
    /\ tree st' !! fresh st = Some (mkNode name (Some dummy) (Some p) [])
    /\ tree st' !! p
       = Some (mkNode (node_tag pn) (node_text pn) (node_parent pn)
                 (before ++ fresh st :: e :: after))
    /\ line_mapping st' !! fresh st = Some (row, true)
    /\ has_dummy_by_name (dummies st') (Some p) name = true
    /\ (exists finding,
          findings st' = findings st ++ [finding]
          /\ technical_error_type finding = Some (type_name error_)
          /\ error_xml_element finding = Some (after_last_brace "" name)
          /\ error_row finding = Some row)
    /\ handled_error st' = handled_error st.
Proof.
  intros Hdummy He Hparent Hp Hchildren Hbefore Hfresh Hep Hrow Hrow0.
  destruct (add_above_run st e p en pn name dummy error_ row
              Hdummy He Hparent Hp Hfresh Hep Hrow Hrow0)
    as (st' & Hrun & Hnew & Hptree & Hlm & Hhas & Hfinding & Hh).
  exists st'. rewrite Hchildren, (insert_before_spec e (fresh st) before after Hbefore)
    in Hptree.
  repeat (split; [assumption|]). assumption.
Qed.

(** X20: when the log entry reports a missing child, [handle_missing_child]
    appends the new element as the last child of the offending element and
    keeps the children it had; the new element carries the dummy text, is
    mapped to the row of the offending element and marked as added, is
    registered as a dummy under (offending element, tag), one finding with
    the type of the log entry, the bare expected name and that row is
    logged, and [handled_error] is set. *)
Theorem missing_child_is_appended_last (st : State) (e : ElemId) (en : Node) (name dummy : string)
    (error_ : LogEntry) (row : Z) :
  is_missing_child error_ = true ->
  get_dummy_text name = Some dummy ->
  tree st !! e = Some en -> tree st !! fresh st = None ->
  (get_row_nr e st).1 = inr row -> row <> 0 ->
  exists st',
    handle_missing_child audit_trail_translated get_dummy_text error_ e (Some name) st
    = (inr tt, st')
    /\ tree st' !! fresh st = Some (mkNode name (Some dummy) (Some e) [])
    /\ tree st' !! e
       = Some (mkNode (node_tag en) (node_text en) (node_parent en)
                 (node_children en ++ [fresh st]))
    /\ line_mapping st' !! fresh st = Some (row, true)
    /\ has_dummy_by_name (dummies st') (Some e) name = true
    /\ (exists finding,
          findings st' = findings st ++ [finding]
          /\ technical_error_type finding = Some (type_name error_)
          /\ error_xml_element finding = Some (after_last_brace "" name)
          /\ error_row finding = Some row)
    /\ handled_error st' = Some true.
Proof.
  intros Hmissing Hdummy He Hfresh Hrow Hrow0.
  assert (fresh st <> e) as Hfe by (intros Heq; rewrite Heq in Hfresh; congruence).
  unfold handle_missing_child. rewrite enter_then, Hmissing.
  set (st0 := enter missing_child_strategy st).
  unfold add_missing_child_element, new_element. cbv beta iota zeta.
  unfold sbind at 1. unfold sbind at 1. cbv beta iota.
  change (fresh st0) with (fresh st). change (tree st0) with (tree st).
  set (new := fresh st) in *.
  unfold default. simpl (from_option _ _ _). change (id name) with name.
  set (st1 := set_fresh _ _).
  assert (append_child e new st1
          = (inr tt,
             set_tree
               (<[new := mkNode name None (Some e) []]>
                  (<[e := mkNode (node_tag en) (node_text en) (node_parent en)
                                 (node_children en ++ [new])]> (tree st1))) st1)) as Happend.
  { unfold append_child.
    rewrite (sbind_run_ok _ _ st1 st1 en).
    2:{ rewrite node_of_run. subst st1. simpl.
        rewrite lookup_insert_ne by congruence. rewrite He. reflexivity. }
    rewrite (sbind_run_ok _ _ st1 st1 (mkNode name None None [])).
    2:{ rewrite node_of_run. subst st1. simpl. rewrite lookup_insert_eq. reflexivity. }
    reflexivity. }
  rewrite (sbind_run_ok _ _ _ _ _ Happend). clear Happend.
  set (st2 := set_tree _ st1).
  assert (set_dummy_text get_dummy_text new name st2
          = (inr tt, set_tree (<[new := mkNode name (Some dummy) (Some e) []]> (tree st2)) st2))
    as Htext.
  { unfold set_dummy_text. rewrite Hdummy.
    rewrite (sbind_run_ok _ _ st2 st2 (mkNode name None (Some e) []));
      [reflexivity|].
    rewrite node_of_run. subst st2. simpl. rewrite lookup_insert_eq. reflexivity. }
  rewrite (sbind_run_ok _ _ _ _ _ Htext). clear Htext.
  set (st3 := set_tree _ st2).
  unfold line_mapping_log_add_dummy.
  assert (get_row_nr e st3 = (inr row, st3)) as Hrow3.
  { apply get_row_nr_run in Hrow. revert Hrow. unfold get_row_nr.
    change (line_mapping st3) with (line_mapping st).
    destruct (line_mapping st !! e) as [[row_ b]|]; [|discriminate].
    destruct (row_ =? 0).
    - assert (tree st3 !! e
              = Some (mkNode (node_tag en) (node_text en) (node_parent en)
                        (node_children en ++ [new]))) as ->.
      { subst st3 st2 st1. simpl. rewrite !lookup_insert_ne by congruence.
        rewrite lookup_insert_eq. reflexivity. }
      rewrite He. simpl.
      destruct (node_parent en) as [q|]; [|discriminate].
      destruct (line_mapping st !! q) as [[prow b']|]; [|discriminate].
      intros [= <-]. reflexivity.
    - intros [= <-]. reflexivity. }
  rewrite (sbind_run_ok _ _ _ _ _ Hrow3). clear Hrow3.
  unfold sbind at 1. unfold smodify at 1. cbv beta iota.
  set (st4 := set_line_mapping _ st3).
  assert (get_row_nr new st4 = (inr row, st4)) as Hrow4.
  { unfold get_row_nr. subst st4. simpl. rewrite lookup_insert_eq.
    rewrite (proj2 (Z.eqb_neq row 0) Hrow0). reflexivity. }
  destruct (log_structural_error_run st4 new error_ (after_last_brace "" name) row)
    as (finding & Hlog & Htype & Helement & Hfrow & _).
  { rewrite Hrow4. reflexivity. }
  rewrite (sbind_run_ok _ _ _ _ _ Hlog). clear Hlog.
  set (st5 := add_finding finding st4).
  assert (getparent new st5 = (inr (Some e), st5)) as Hgetparent.
  { unfold getparent.
    rewrite (sbind_run_ok _ _ st5 st5 (mkNode name (Some dummy) (Some e) []));
      [reflexivity|].
    rewrite node_of_run. subst st5 st4 st3. simpl. rewrite lookup_insert_eq. reflexivity. }
  rewrite (sbind_run_ok _ _ _ _ _ Hgetparent). clear Hgetparent.
  assert (get_row_nr new st5 = (inr row, st5)) as Hrow5.
  { unfold get_row_nr. subst st5 st4. simpl. rewrite lookup_insert_eq.
    rewrite (proj2 (Z.eqb_neq row 0) Hrow0). reflexivity. }
  rewrite (sbind_run_ok _ _ _ _ _ Hrow5). clear Hrow5.
  unfold add_dummy.
  rewrite (sbind_run_ok _ _ st5 st5 (mkNode name (Some dummy) (Some e) [])).
  2:{ rewrite node_of_run. subst st5 st4 st3. simpl. rewrite lookup_insert_eq. reflexivity. }
  unfold smodify. eexists. split; [reflexivity|].
  cbn [node_tag].
  destruct (existsb _ (dummies st5)) eqn:Hhas.
  - split; [subst st5 st4 st3; simpl; rewrite lookup_insert_eq; reflexivity|].
    split; [subst st5 st4 st3 st2 st1; simpl; rewrite !lookup_insert_ne by congruence;
            rewrite lookup_insert_eq; reflexivity|].
    split; [subst st5 st4; simpl; rewrite lookup_insert_eq; reflexivity|].
    split; [exact Hhas|].
    split; [|reflexivity].
    exists finding. split; [reflexivity|]. split; [exact Htype|]. split; assumption.
  - split; [subst st5 st4 st3; simpl; rewrite lookup_insert_eq; reflexivity|].
    split; [subst st5 st4 st3 st2 st1; simpl; rewrite !lookup_insert_ne by congruence;
            rewrite lookup_insert_eq; reflexivity|].
    split; [subst st5 st4; simpl; rewrite lookup_insert_eq; reflexivity|].
    split.
    { unfold has_dummy_by_name. simpl. rewrite existsb_app. simpl.
      rewrite !bool_decide_eq_true_2 by reflexivity. simpl. apply orb_true_r. }
    split; [|reflexivity].
    exists finding. split; [reflexivity|]. split; [exact Htype|]. split; assumption.
Qed.

(** X22: when the dummy text of the expected element cannot be looked up,
    [handle_missing_child] ends with that KeyError after [etree.SubElement]
    has already attached the new element: the offending element keeps a new
    last child without text, while the findings, the line map and the added
    dummies are what they were before the call; [handled_error] is not
    set. *)
Theorem missing_child_without_dummy_text_stays_attached (st : State) (e : ElemId)
    (en : Node) (name : string) (error_ : LogEntry) :
  is_missing_child error_ = true ->
  get_dummy_text name = None ->
  tree st !! e = Some en -> tree st !! fresh st = None ->
  exists st',
    handle_missing_child audit_trail_translated get_dummy_text error_ e (Some name) st
    = (inl "KeyError", st')
    /\ tree st' !! e
       = Some (mkNode (node_tag en) (node_text en) (node_parent en)
                 (node_children en ++ [fresh st]))
    /\ tree st' !! fresh st = Some (mkNode name None (Some e) [])
    /\ findings st' = findings st
    /\ line_mapping st' = line_mapping st
    /\ dummies st' = dummies st
    /\ handled_error st' = handled_error st.
Proof.
  intros Hmissing Hdummy He Hfresh.
  assert (fresh st <> e) as Hfe by (intros Heq; rewrite Heq in Hfresh; congruence).
  unfold handle_missing_child. rewrite enter_then, Hmissing.
  set (st0 := enter missing_child_strategy st).
  unfold add_missing_child_element, new_element. cbv beta iota zeta.
  unfold sbind at 1. unfold sbind at 1. cbv beta iota.
  change (fresh st0) with (fresh st). change (tree st0) with (tree st).
  set (new := fresh st) in *.
  unfold default. simpl (from_option _ _ _). change (id name) with name.
  set (st1 := set_fresh _ _).
  assert (append_child e new st1
          = (inr tt,
             set_tree
               (<[new := mkNode name None (Some e) []]>
                  (<[e := mkNode (node_tag en) (node_text en) (node_parent en)
                                 (node_children en ++ [new])]> (tree st1))) st1)) as Happend.
  { unfold append_child.
    rewrite (sbind_run_ok _ _ st1 st1 en).
    2:{ rewrite node_of_run. subst st1. simpl.
        rewrite lookup_insert_ne by congruence. rewrite He. reflexivity. }
    rewrite (sbind_run_ok _ _ st1 st1 (mkNode name None None [])).
    2:{ rewrite node_of_run. subst st1. simpl. rewrite lookup_insert_eq. reflexivity. }
    reflexivity. }
  rewrite (sbind_run_ok _ _ _ _ _ Happend). clear Happend.
  set (st2 := set_tree _ st1).
  unfold set_dummy_text. rewrite Hdummy. unfold sbind, sraise.
  exists st2. split; [reflexivity|].
  split; [subst st2 st1; simpl; rewrite lookup_insert_ne by congruence;
          rewrite lookup_insert_eq; reflexivity|].
  split; [subst st2; simpl; rewrite lookup_insert_eq; reflexivity|].
  repeat split; reflexivity.
Qed.

Lemma get_row_nr_ext (x : ElemId) (st st1 : State) :
  line_mapping st1 = line_mapping st -> tree st1 !! x = tree st !! x ->
  (get_row_nr x st1).1 = (get_row_nr x st).1.
Proof.
  intros Hlm Htree. unfold get_row_nr. rewrite Hlm, Htree.
  repeat case_match; reflexivity.
Qed.

Lemma filter_filter_not_in (x : ElemId) (xs cs : list ElemId) :
  List.filter (fun c => negb (bool_decide (c ∈ xs)))
              (List.filter (fun c => negb (bool_decide (c = x))) cs)
  = List.filter (fun c => negb (bool_decide (c ∈ x :: xs))) cs.
Proof.
  induction cs as [|c cs IH]; simpl; [reflexivity|].
  destruct (decide (c = x)) as [->|Hcx].
  - rewrite bool_decide_eq_true_2 by reflexivity. simpl.
    rewrite (bool_decide_eq_true_2 (x ∈ x :: xs)) by left. simpl. exact IH.
  - rewrite (bool_decide_eq_false_2 (c = x)) by exact Hcx. simpl.
    destruct (decide (c ∈ xs)) as [Hin|Hnin].
    + rewrite (bool_decide_eq_true_2 (c ∈ xs)) by exact Hin.
      rewrite (bool_decide_eq_true_2 (c ∈ x :: xs)) by (right; exact Hin). simpl. exact IH.
    + rewrite (bool_decide_eq_false_2 (c ∈ xs)) by exact Hnin.
      rewrite (bool_decide_eq_false_2 (c ∈ x :: xs)).
      * simpl. rewrite IH. reflexivity.
      * intros Hin. apply elem_of_cons in Hin as [?|?]; contradiction.
Qed.

Lemma filter_not_in_nil (cs : list ElemId) :
  List.filter (fun c => negb (bool_decide (c ∈ @nil ElemId))) cs = cs.
Proof.
  induction cs as [|c cs IH]; [reflexivity|]. cbn [List.filter].
  rewrite (bool_decide_eq_false_2 (c ∈ [])) by (intros Hin; inversion Hin).
  cbn [negb]. f_equal. exact IH.
Qed.

(** The loop of [handle_multiple_of_same_element]. *)
Lemma prune_run (p : ElemId) (ptag : string) (ptext : option string)
    (pparent : option ElemId) (xs : list ElemId) :
  forall (cs : list ElemId) (st : State),
    tree st !! p = Some (mkNode ptag ptext pparent cs) ->
    NoDup xs -> p ∉ xs ->
    Forall (fun x => x ∈ cs /\ is_Some (tree st !! x)
                     /\ exists row, (get_row_nr x st).1 = inr row) xs ->
    exists st' appended,
      sfor_each xs (fun x =>
        sbind (log_validation_error_at audit_trail_translated x out_of_sequence) (fun _ =>
        remove_child (Some p) x)) st = (inr tt, st')
      /\ tree st' !! p
         = Some (mkNode ptag ptext pparent
                   (List.filter (fun c => negb (bool_decide (c ∈ xs))) cs))
      /\ (forall y, y ∉ xs -> y <> p -> tree st' !! y = tree st !! y)
      /\ findings st' = findings st ++ appended
      /\ length appended = length xs
      /\ Forall (fun f => technical_error_type f = Some out_of_sequence) appended
      /\ line_mapping st' = line_mapping st
      /\ dummies st' = dummies st
      /\ handled_error st' = handled_error st.
Proof.
  induction xs as [|x xs IH]; intros cs st Hp Hnodup Hpx Hall.
  - exists st, []. split; [reflexivity|]. split; [rewrite filter_not_in_nil; exact Hp|].
    rewrite app_nil_r. repeat split; auto.
  - inversion Hall as [|? ? (Hxcs & [xn Hxn] & row & Hrow) Hrest]; subst.
    inversion Hnodup as [|? ? Hxxs Hnodup']; subst.
    assert (x <> p) as Hxp by (intros ->; apply Hpx; left).
    destruct (log_validation_error_at_run audit_trail_translated st x xn row
                out_of_sequence Hxn Hrow) as (finding & Hlog & Htype & _).
    cbn [sfor_each].
    rewrite (sbind_run_ok _ _ st _ tt
               (eq_trans (sbind_run_ok _ _ st _ tt Hlog)
                  (remove_child_run (add_finding finding st) x p
                     (mkNode ptag ptext pparent cs) xn Hp Hxn Hxcs))).
    set (st1 := set_tree _ _).
    destruct (IH (List.filter (fun c => negb (bool_decide (c = x))) cs) st1)
      as (st' & appended & Hrun & Hptree & Hother & Hfind & Hlen & Htypes & Hlm & Hd & Hh).
    + subst st1. simpl. rewrite lookup_insert_ne by congruence.
      rewrite lookup_insert_eq. reflexivity.
    + exact Hnodup'.
    + intros Hin. apply Hpx. right. exact Hin.
    + apply Forall_forall. intros y Hy. rewrite Forall_forall in Hrest.
      destruct (Hrest y Hy) as (Hycs & Hytree & rowy & Hrowy).
      assert (y <> x) as Hyx by (intros ->; contradiction).
      assert (y <> p) as Hyp by (intros ->; apply Hpx; right; exact Hy).
      assert (tree st1 !! y = tree st !! y) as Hsame.
      { subst st1. simpl. rewrite !lookup_insert_ne by congruence. reflexivity. }
      split; [|split].
      * apply list_elem_of_In, filter_In. split; [apply list_elem_of_In; exact Hycs|].
        rewrite bool_decide_eq_false_2 by exact Hyx. reflexivity.
      * rewrite Hsame. exact Hytree.
      * exists rowy. rewrite (get_row_nr_ext y st st1); [exact Hrowy|reflexivity|exact Hsame].
    + exists st', (finding :: appended). split; [exact Hrun|].
      split; [rewrite Hptree, filter_filter_not_in; reflexivity|].
      split.
      { intros y Hy Hyp. rewrite Hother; [|intros Hin; apply Hy; right; exact Hin|exact Hyp].
        subst st1. simpl. rewrite !lookup_insert_ne; [reflexivity|congruence|].
        intros ->. apply Hy. left. }
      split; [rewrite Hfind; subst st1; simpl; rewrite <- app_assoc; reflexivity|].
      split; [simpl; rewrite Hlen; reflexivity|].
      split; [constructor; assumption|].
      split; [rewrite Hlm; reflexivity|]. split; [rewrite Hd; reflexivity|].
      rewrite Hh. reflexivity.
Qed.

Lemma elements_with_tag_facts (t : gmap ElemId Node) (name : string)
    (cs l : list ElemId) :
  elements_with_tag t name cs = Some l ->
  Forall (fun x => x ∈ cs /\ is_Some (t !! x)) l
  /\ (NoDup cs -> NoDup l).
Proof.
  revert l. induction cs as [|c cs IH]; intros l; simpl.
  - intros [= <-]. split; [constructor|auto].
  - destruct (t !! c) as [n|] eqn:Hc; [|discriminate].
    destruct (elements_with_tag t name cs) as [l'|]; [|discriminate].
    destruct (IH l' eq_refl) as [Hall Hnodup].
    assert (Forall (fun x => x ∈ c :: cs /\ is_Some (t !! x)) l') as Hall'.
    { eapply Forall_impl; [exact Hall|]. intros x [Hx Hs]. split; [right; exact Hx|exact Hs]. }
    intros [= <-]. destruct (bool_decide (node_tag n = name)).
    + split.
      * constructor; [split; [left|rewrite Hc; eauto]|exact Hall'].
      * intros Hcs. inversion Hcs as [|? ? Hnotin Hcs']; subst.
        constructor; [|auto]. intros Hin. apply Hnotin.
        rewrite Forall_forall in Hall. apply (Hall c Hin).
    + split; [exact Hall'|]. intros Hcs. inversion Hcs; subst. auto.
Qed.

Lemma elements_with_tag_filter (t t' : gmap ElemId Node) (name : string)
    (xs cs l : list ElemId) :
  elements_with_tag t name cs = Some l ->
  (forall y, y ∈ cs -> y ∉ xs -> t' !! y = t !! y) ->
  elements_with_tag t' name (List.filter (fun c => negb (bool_decide (c ∈ xs))) cs)
  = Some (List.filter (fun c => negb (bool_decide (c ∈ xs))) l).
Proof.
  revert l. induction cs as [|c cs IH]; intros l; simpl.
  - intros [= <-] _. reflexivity.
  - destruct (t !! c) as [n|] eqn:Hc; [|discriminate].
    destruct (elements_with_tag t name cs) as [l'|]; [|discriminate].
    intros [= <-] Hsame.
    specialize (IH l' eq_refl (fun y Hy => Hsame y (list_elem_of_further _ _ _ Hy))).
    destruct (decide (c ∈ xs)) as [Hin|Hnin].
    + rewrite (bool_decide_eq_true_2 (c ∈ xs)) by exact Hin. simpl. rewrite IH.
      destruct (bool_decide (node_tag n = name)); [|reflexivity].
      simpl. rewrite (bool_decide_eq_true_2 (c ∈ xs)) by exact Hin. reflexivity.
    + rewrite (bool_decide_eq_false_2 (c ∈ xs)) by exact Hnin. simpl.
      rewrite (Hsame c (list_elem_of_here _ _) Hnin), Hc, IH.
      destruct (bool_decide (node_tag n = name)); [|reflexivity].
      simpl. rewrite (bool_decide_eq_false_2 (c ∈ xs)) by exact Hnin. reflexivity.
Qed.

Lemma elem_of_rev (x : ElemId) (l : list ElemId) : x ∈ rev l <-> x ∈ l.
Proof.
  split; intros Hx; apply list_elem_of_In; apply list_elem_of_In in Hx.
  - apply in_rev. exact Hx.
  - apply in_rev in Hx. exact Hx.
Qed.

Lemma filter_not_in_self (first : ElemId) (rest : list ElemId) :
  first ∉ rest ->
  List.filter (fun c => negb (bool_decide (c ∈ rest))) (first :: rest) = [first].
Proof.
  intros Hfirst. simpl. rewrite (bool_decide_eq_false_2 (first ∈ rest)) by exact Hfirst.
  simpl. f_equal.
  assert (forall l, (forall c, c ∈ l -> c ∈ rest) ->
                    List.filter (fun c => negb (bool_decide (c ∈ rest))) l = []) as Hgen.
  { induction l as [|c l IH]; intros Hl; simpl; [reflexivity|].
    rewrite (bool_decide_eq_true_2 (c ∈ rest)) by (apply Hl; left). simpl.
    apply IH. intros c' Hc'. apply Hl. right. exact Hc'. }
  apply Hgen. auto.
Qed.

(** X21: for an offending element without children whose tag occurs more
    than once among the children of its parent, [handle_multiple_of_same_element]
    removes every element of that tag but the first from the parent, leaves
    the other children in their order, logs one OUT_OF_SEQUENCE finding for
    each removed element and sets [handled_error]. *)
Theorem multiple_of_same_element_keeps_the_first (st : State) (e p : ElemId) (name : string)
    (en pn : Node) (first : ElemId) (rest : list ElemId) :
  tree st !! e = Some en -> node_children en = [] ->
  tree st !! p = Some pn ->
  elements_with_tag (tree st) name (node_children pn) = Some (first :: rest) ->
  rest <> [] ->
  NoDup (node_children pn) -> p ∉ node_children pn ->
  Forall (fun x => exists row, (get_row_nr x st).1 = inr row) rest ->
  exists st' appended,
    handle_multiple_of_same_element audit_trail_translated e name (Some p) st
    = (inr tt, st')
    /\ tree st' !! p
       = Some (mkNode (node_tag pn) (node_text pn) (node_parent pn)
                 (List.filter (fun c => negb (bool_decide (c ∈ rest))) (node_children pn)))
    /\ elements_with_tag (tree st') name
         (List.filter (fun c => negb (bool_decide (c ∈ rest))) (node_children pn))
       = Some [first]
    /\ findings st' = findings st ++ appended
    /\ length appended = length rest
    /\ Forall (fun f => technical_error_type f = Some out_of_sequence) appended
    /\ handled_error st' = Some true.
Proof.
  intros He Hleaf Hp Helements Hrest Hnodup Hpcs Hrows.
  destruct (elements_with_tag_facts _ _ _ _ Helements) as [Hfacts Hnodup_l].
  specialize (Hnodup_l Hnodup).
  inversion Hnodup_l as [|? ? Hfirst Hnodup_rest]; subst.
  inversion Hfacts as [|? ? _ Hfacts_rest]; subst.
  rewrite multiple_of_same_run. cbv zeta. rewrite He, Hleaf, Hp, Helements.
  assert ((1 <? length (first :: rest))%nat = true) as ->.
  { destruct rest; [done|]. reflexivity. }
  cbn [tail].
  destruct pn as [ptag ptext pparent cs]. simpl in *.
  destruct (prune_run p ptag ptext pparent (rev rest) cs
              (enter multiple_of_same_element st))
    as (st1 & appended & Hrun & Hptree & Hother & Hfind & Hlen & Htypes & _ & _ & Hh).
  - exact Hp.
  - rewrite <- (Permutation_rev rest). exact Hnodup_rest.
  - intros Hin. apply (proj1 (elem_of_rev _ _)) in Hin. apply Hpcs.
    rewrite Forall_forall in Hfacts_rest. apply (Hfacts_rest p Hin).
  - apply Forall_forall. intros x Hx. apply (proj1 (elem_of_rev _ _)) in Hx.
    rewrite Forall_forall in Hfacts_rest, Hrows.
    destruct (Hfacts_rest x Hx) as [Hxcs Hxtree]. split; [exact Hxcs|].
    split; [exact Hxtree|]. destruct (Hrows x Hx) as [row Hrow]. exists row.
    rewrite (get_row_nr_ext x st (enter multiple_of_same_element st)); [exact Hrow|reflexivity|reflexivity].
  - assert (List.filter (fun c => negb (bool_decide (c ∈ rev rest))) cs
            = List.filter (fun c => negb (bool_decide (c ∈ rest))) cs) as Hfilter.
    { apply List.filter_ext. intros c. f_equal. apply bool_decide_ext.
      apply elem_of_rev. }
    rewrite Hfilter in Hptree.
    rewrite (sbind_run_ok _ _ _ _ _ Hrun). unfold smodify.
    eexists _, appended. split; [reflexivity|]. simpl.
    split; [exact Hptree|]. split.
    + rewrite (elements_with_tag_filter (tree st) (tree st1) name rest cs (first :: rest)
                 Helements).
      * rewrite (filter_not_in_self first rest Hfirst). reflexivity.
      * intros y Hy Hnot. apply Hother.
        -- intros Hin. apply Hnot. apply (proj1 (elem_of_rev _ _)). exact Hin.
        -- intros ->. contradiction.
    + split; [exact Hfind|]. split; [rewrite Hlen; apply length_rev|].
      split; [exact Htypes|reflexivity].
Qed.
End HealingEffects.

Lemma expected_element_is_added_just_above_witness :
  exists st',
    XMLStructureValidator.add_expected_element_above_not_expected ∅ every_dummy_text 1%nat
      (Some "{urn:StandardAuditFile-Taxation-CashRegister:DK}registrationNumber")
      sample_not_expected_entry sample_document = (inr tt, st')
    /\ XMLStructureValidator.tree st' !! 0%nat
       = Some (mkNode "{urn:StandardAuditFile-Taxation-CashRegister:DK}company" None None
                 [2%nat; 1%nat]).
Proof.
  destruct (expected_element_is_added_just_above ∅ every_dummy_text sample_document
              1%nat 0%nat
              (mkNode "{urn:StandardAuditFile-Taxation-CashRegister:DK}name"
                 (Some "Shop") (Some 0%nat) [])
              (mkNode "{urn:StandardAuditFile-Taxation-CashRegister:DK}company" None None
                 [1%nat])
              [] []
              "{urn:StandardAuditFile-Taxation-CashRegister:DK}registrationNumber" "1"
              sample_not_expected_entry 3)
    as (st' & Hrun & _ & Hparent & _).
  - reflexivity.
  - reflexivity.
  - reflexivity.
  - reflexivity.
  - reflexivity.
  - intros Hin. inversion Hin.
  - reflexivity.
  - discriminate.
  - reflexivity.
  - discriminate.
  - exists st'. split; [exact Hrun|exact Hparent].
Defined.

Lemma missing_child_is_appended_last_witness :
  exists st',
    XMLStructureValidator.handle_missing_child ∅ every_dummy_text
      sample_missing_child_entry 1%nat
      (Some "{urn:StandardAuditFile-Taxation-CashRegister:DK}registrationNumber")
      sample_document = (inr tt, st')
    /\ XMLStructureValidator.tree st' !! 1%nat
       = Some (mkNode "{urn:StandardAuditFile-Taxation-CashRegister:DK}name"
                 (Some "Shop") (Some 0%nat) [2%nat])
    /\ XMLStructureValidator.handled_error st' = Some true.
Proof.
  destruct (missing_child_is_appended_last ∅ every_dummy_text sample_document 1%nat
              (mkNode "{urn:StandardAuditFile-Taxation-CashRegister:DK}name"
                 (Some "Shop") (Some 0%nat) [])
              "{urn:StandardAuditFile-Taxation-CashRegister:DK}registrationNumber" "1"
              sample_missing_child_entry 3)
    as (st' & Hrun & _ & Helement & _ & _ & _ & Hhandled).
  - reflexivity.
  - reflexivity.
  - reflexivity.
  - reflexivity.
  - reflexivity.
  - discriminate.
  - exists st'. split; [exact Hrun|]. split; [exact Helement|exact Hhandled].
Defined.

Lemma missing_child_without_dummy_text_stays_attached_witness :
  exists st',
    XMLStructureValidator.handle_missing_child ∅ no_dummy_text
      sample_missing_child_entry 1%nat
      (Some "{urn:StandardAuditFile-Taxation-CashRegister:DK}registrationNumber")
      sample_document = (inl "KeyError", st')
    /\ XMLStructureValidator.tree st' !! 1%nat
       = Some (mkNode "{urn:StandardAuditFile-Taxation-CashRegister:DK}name"
                 (Some "Shop") (Some 0%nat) [2%nat])
    /\ XMLStructureValidator.findings st' = [].
Proof.
  destruct (missing_child_without_dummy_text_stays_attached ∅ no_dummy_text
              sample_document 1%nat
              (mkNode "{urn:StandardAuditFile-Taxation-CashRegister:DK}name"
                 (Some "Shop") (Some 0%nat) [])
              "{urn:StandardAuditFile-Taxation-CashRegister:DK}registrationNumber"
              sample_missing_child_entry)
    as (st' & Hrun & Helement & _ & Hfindings & _).
  - reflexivity.
  - reflexivity.
  - reflexivity.
  - reflexivity.
  - exists st'. split; [exact Hrun|]. split; [exact Helement|exact Hfindings].
Defined.

Lemma multiple_of_same_element_keeps_the_first_witness :
  exists st',
    XMLStructureValidator.handle_multiple_of_same_element ∅ 2%nat
      "{urn:StandardAuditFile-Taxation-CashRegister:DK}name" (Some 0%nat)
      sample_document_two_names = (inr tt, st')
    /\ XMLStructureValidator.tree st' !! 0%nat
       = Some (mkNode "{urn:StandardAuditFile-Taxation-CashRegister:DK}company" None None
                 [1%nat])
    /\ XMLStructureValidator.handled_error st' = Some true.
Proof.
  destruct (multiple_of_same_element_keeps_the_first ∅ sample_document_two_names
              2%nat 0%nat "{urn:StandardAuditFile-Taxation-CashRegister:DK}name"
              (mkNode "{urn:StandardAuditFile-Taxation-CashRegister:DK}name"
                 (Some "Store") (Some 0%nat) [])
              (mkNode "{urn:StandardAuditFile-Taxation-CashRegister:DK}company" None None
                 [1%nat; 2%nat])
              1%nat [2%nat])
    as (st' & appended & Hrun & Hparent & _ & _ & _ & _ & Hhandled).
  - reflexivity.
  - reflexivity.
  - reflexivity.
  - reflexivity.
  - discriminate.
  - apply (bool_decide_unpack _). reflexivity.
  - apply (bool_decide_unpack _). reflexivity.
  - repeat constructor. exists 4. reflexivity.
  - exists st'. split; [exact Hrun|]. split; [exact Hparent|exact Hhandled].
Defined.

(** ** The calendar of the date handler *)

Ltac fold_constants :=
  repeat match goal with
         | |- context [Z.add (Zpos ?a) (Zpos ?b)] =>
             let r := eval vm_compute in (Z.add (Zpos a) (Zpos b)) in
             change (Z.add (Zpos a) (Zpos b)) with r
         end.

Lemma month_cases (m : Z) :
  1 <= m <= 12 ->
  m = 1 \/ m = 2 \/ m = 3 \/ m = 4 \/ m = 5 \/ m = 6 \/ m = 7 \/ m = 8
  \/ m = 9 \/ m = 10 \/ m = 11 \/ m = 12.
Proof. lia. Qed.

Lemma days_in_month_bounds (y m : Z) :
  1 <= m <= 12 -> 28 <= PyDate.days_in_month y m <= 31.
Proof.
  intros Hm. unfold PyDate.days_in_month, PyDate.days_in_common_month.
  destruct (month_cases m Hm) as [->|[->|[->|[->|[->|[->|[->|[->|[->|[->|[->| ->]]]]]]]]]]];
    destruct (PyDate.is_leap y); cbn; lia.
Qed.

(** The year in the cycles of 400, 100 and 4 years. *)
Lemma year_cycles (y : Z) :
  1 <= y ->
  exists a b c e,
    y - 1 = 400 * a + 100 * b + 4 * c + e
    /\ 0 <= a /\ 0 <= b <= 3 /\ 0 <= c <= 24 /\ 0 <= e <= 3
    /\ PyDate.days_before_year y = 146097 * a + 36524 * b + 1461 * c + 365 * e
    /\ PyDate.is_leap y
       = (e =? 3) && (negb (c =? 24) || (b =? 3)).
Proof.
  intros Hy.
  exists ((y - 1) / 400), ((y - 1) mod 400 / 100), ((y - 1) mod 100 / 4), ((y - 1) mod 4).
  unfold PyDate.days_before_year, PyDate.is_leap. cbv zeta.
  repeat split; try (Z.div_mod_to_equations; lia).
Qed.

Lemma cycle_split (d q r : Z) :
  0 <= r < d -> (d * q + r) / d = q /\ (d * q + r) mod d = r.
Proof.
  intros Hr. replace (d * q + r) with (r + q * d) by lia.
  rewrite Z.div_add, Z.mod_add by lia.
  rewrite Z.div_small, Z.mod_small by exact Hr. split; [lia|reflexivity].
Qed.

(** The year and the day of the year of an ordinal, as [_ord2ymd] finds
    them; the last day of a leap year is its special case. *)
Lemma ord2ymd_day_of_year (y doy : Z) :
  1 <= y -> 0 <= doy < 365 + (if PyDate.is_leap y then 1 else 0) ->
  PyDate.ord2ymd (PyDate.days_before_year y + doy + 1)
  = if doy =? 365 then PyDate.mk y 12 31
    else let '(month_, day_) := PyDate.month_and_day doy (PyDate.is_leap y) in
         PyDate.mk y month_ day_.
Proof.
  intros Hy Hdoy.
  destruct (year_cycles y Hy) as (a & b & c & e & Hyear & Ha & Hb & Hc & He & Hdays & Hleap).
  rewrite Hleap in Hdoy |- *. rewrite Hdays. clear Hdays Hleap.
  unfold PyDate.ord2ymd. cbv zeta.
  replace (146097 * a + 36524 * b + 1461 * c + 365 * e + doy + 1 - 1)
    with (146097 * a + (36524 * b + 1461 * c + 365 * e + doy)) by lia.
  assert (0 <= 36524 * b + 1461 * c + 365 * e + doy < 146097) as Hr400.
  { revert Hdoy. destruct ((e =? 3) && (negb (c =? 24) || (b =? 3))); lia. }
  destruct (cycle_split 146097 a _ Hr400) as [-> ->].
  destruct (doy =? 365) eqn:Hlast.
  - apply Z.eqb_eq in Hlast. subst doy.
    assert (e = 3 /\ (c <> 24 \/ b = 3)) as [-> Hcb].
    { revert Hdoy. destruct ((e =? 3) && (negb (c =? 24) || (b =? 3))) eqn:Hl; [|lia].
      intros _. apply andb_prop in Hl as [He3 Hcb]. apply Z.eqb_eq in He3.
      split; [exact He3|]. apply orb_prop in Hcb as [Hc24|Hb3].
      - left. apply negb_true_iff, Z.eqb_neq in Hc24. exact Hc24.
      - right. apply Z.eqb_eq in Hb3. exact Hb3. }
    destruct (decide (c = 24)) as [->|Hc24].
    + assert (b = 3) as -> by lia.
      change ((36524 * 3 + 1461 * 24 + 365 * 3 + 365) / 36524) with 4.
      change (4 =? 4) with true. rewrite orb_true_r. f_equal.
      Z.div_mod_to_equations. lia.
    + replace (36524 * b + 1461 * c + 365 * 3 + 365)
        with (36524 * b + (1461 * c + 1460)) by lia.
      destruct (cycle_split 36524 b (1461 * c + 1460) ltac:(lia)) as [-> ->].
      destruct (cycle_split 1461 c 1460 ltac:(lia)) as [-> ->].
      change (1460 / 365) with 4. change (4 =? 4) with true.
      cbn [orb]. f_equal. lia.
  - apply Z.eqb_neq in Hlast.
    assert (doy <= 364) as Hdoy'.
    { revert Hdoy. destruct ((e =? 3) && (negb (c =? 24) || (b =? 3))); lia. }
    replace (36524 * b + 1461 * c + 365 * e + doy)
      with (36524 * b + (1461 * c + (365 * e + doy))) by lia.
    destruct (cycle_split 36524 b (1461 * c + (365 * e + doy)) ltac:(lia)) as [-> ->].
    destruct (cycle_split 1461 c (365 * e + doy) ltac:(lia)) as [-> ->].
    destruct (cycle_split 365 e doy ltac:(lia)) as [-> ->].
    rewrite (proj2 (Z.eqb_neq e 4)) by lia.
    rewrite (proj2 (Z.eqb_neq b 4)) by lia. cbn [orb].
    destruct (PyDate.month_and_day doy _) as [month_ day_]. f_equal. lia.
Qed.

(** Every day of a common year and of a leap year, by evaluation. *)
Lemma month_and_day_checked :
  forallb (fun leapyear =>
    forallb (fun m =>
      forallb (fun d =>
        implb (d <=? PyDate.days_in_common_month m
                     + (if (m =? 2) && leapyear then 1 else 0))
              (let '(month_, day_) :=
                 PyDate.month_and_day
                   (PyDate.days_before_common_month m
                    + (if (2 <? m) && leapyear then 1 else 0) + d - 1) leapyear in
               (month_ =? m) && (day_ =? d)))
        (map Z.of_nat (seq 1 31)))
      (map Z.of_nat (seq 1 12)))
    [false; true] = true.
Proof. vm_compute. reflexivity. Qed.

Lemma in_Z_range (lo len : nat) (x : Z) :
  Z.of_nat lo <= x < Z.of_nat lo + Z.of_nat len ->
  In x (map Z.of_nat (seq lo len)).
Proof.
  intros Hx. apply in_map_iff. exists (Z.to_nat x). split; [lia|].
  apply in_seq. lia.
Qed.

Lemma days_in_month_split (y m : Z) :
  PyDate.days_in_month y m
  = PyDate.days_in_common_month m + (if (m =? 2) && PyDate.is_leap y then 1 else 0).
Proof.
  unfold PyDate.days_in_month. destruct (m =? 2) eqn:Hm2; cbn [andb]; [|lia].
  apply Z.eqb_eq in Hm2. subst m. destruct (PyDate.is_leap y); reflexivity.
Qed.

Lemma month_and_day_of_date (leapyear : bool) (m d : Z) :
  1 <= m <= 12 ->
  1 <= d <= PyDate.days_in_common_month m + (if (m =? 2) && leapyear then 1 else 0) ->
  PyDate.month_and_day
    (PyDate.days_before_common_month m + (if (2 <? m) && leapyear then 1 else 0) + d - 1)
    leapyear = (m, d).
Proof.
  intros Hm Hd.
  assert (d <= 31) as Hd31.
  { revert Hd. unfold PyDate.days_in_common_month.
    destruct (month_cases m Hm) as [->|[->|[->|[->|[->|[->|[->|[->|[->|[->|[->| ->]]]]]]]]]]];
      destruct leapyear; cbn; lia. }
  pose proof month_and_day_checked as Hall.
  rewrite forallb_forall in Hall.
  assert (In leapyear [false; true]) as Hin by (destruct leapyear; simpl; auto).
  specialize (Hall leapyear Hin).
  rewrite forallb_forall in Hall. specialize (Hall m (in_Z_range 1 12 m ltac:(lia))).
  rewrite forallb_forall in Hall. specialize (Hall d (in_Z_range 1 31 d ltac:(lia))).
  rewrite (proj2 (Z.leb_le d _)) in Hall by lia.
  cbn [implb] in Hall.
  destruct (PyDate.month_and_day _ leapyear) as [month_ day_]. f_equal; lia.
Qed.

Lemma day_of_year_range (y m d : Z) :
  1 <= m <= 12 -> 1 <= d <= PyDate.days_in_month y m ->
  0 <= PyDate.days_before_month y m + d - 1
     < 365 + (if PyDate.is_leap y then 1 else 0)
  /\ (PyDate.days_before_month y m + d - 1 = 365 -> m = 12 /\ d = 31).
Proof.
  intros Hm. unfold PyDate.days_before_month, PyDate.days_in_month,
    PyDate.days_in_common_month, PyDate.days_before_common_month.
  destruct (month_cases m Hm) as [->|[->|[->|[->|[->|[->|[->|[->|[->|[->|[->| ->]]]]]]]]]]];
    destruct (PyDate.is_leap y); cbn; lia.
Qed.

(** [fromordinal] inverts [toordinal] on the dates of the calendar. *)
Lemma ord2ymd_ymd2ord (y m d : Z) :
  1 <= y -> 1 <= m <= 12 -> 1 <= d <= PyDate.days_in_month y m ->
  PyDate.ord2ymd (PyDate.ymd2ord y m d) = PyDate.mk y m d.
Proof.
  intros Hy Hm Hd.
  destruct (day_of_year_range y m d Hm Hd) as [Hdoy Hlast].
  unfold PyDate.ymd2ord.
  replace (PyDate.days_before_year y + PyDate.days_before_month y m + d)
    with (PyDate.days_before_year y + (PyDate.days_before_month y m + d - 1) + 1) by lia.
  rewrite (ord2ymd_day_of_year y _ Hy Hdoy).
  destruct (_ =? 365) eqn:H365.
  - apply Z.eqb_eq in H365. destruct (Hlast H365) as [-> ->]. reflexivity.
  - unfold PyDate.days_before_month.
    rewrite days_in_month_split in Hd.
    rewrite (month_and_day_of_date (PyDate.is_leap y) m d Hm Hd). reflexivity.
Qed.

Lemma valid_spec (y m d : Z) :
  PyDate.valid (PyDate.mk y m d) = true
  <-> 1 <= y <= 9999 /\ 1 <= m <= 12 /\ 1 <= d <= PyDate.days_in_month y m.
Proof. unfold PyDate.valid. simpl. lia. Qed.

Lemma ymd2ord_range (y m d : Z) :
  1 <= y <= 9999 -> 1 <= m <= 12 -> 1 <= d <= PyDate.days_in_month y m ->
  1 <= PyDate.ymd2ord y m d <= PyDate.max_ordinal.
Proof.
  intros Hy Hm Hd. revert Hd.
  unfold PyDate.ymd2ord, PyDate.days_before_month, PyDate.days_in_month,
    PyDate.days_before_year, PyDate.max_ordinal, PyDate.days_in_common_month,
    PyDate.days_before_common_month. cbv zeta.
  destruct (month_cases m Hm) as [->|[->|[->|[->|[->|[->|[->|[->|[->|[->|[->| ->]]]]]]]]]]];
    destruct (PyDate.is_leap y) eqn:Hleap; cbn; intros Hd;
    unfold PyDate.is_leap in Hleap;
    try (apply andb_prop in Hleap as [Hleap _]; apply Z.eqb_eq in Hleap);
    Z.div_mod_to_equations; lia.
Qed.

(** [d + timedelta(days)], once the day it lands on is known. *)
Lemma add_days_lands (x : PyDate.t) (days y m d : Z) :
  PyDate.toordinal x + days = PyDate.ymd2ord y m d ->
  PyDate.valid (PyDate.mk y m d) = true ->
  PyDate.add_days x days = inr (PyDate.mk y m d).
Proof.
  intros Hord Hvalid. apply valid_spec in Hvalid as (Hy & Hm & Hd).
  pose proof (ymd2ord_range y m d Hy Hm Hd) as Hrange.
  unfold PyDate.add_days. cbv zeta. rewrite Hord.
  rewrite (proj2 (Z.ltb_lt 0 _)) by lia.
  rewrite (proj2 (Z.leb_le _ _)) by lia. simpl.
  rewrite ord2ymd_ymd2ord by lia. reflexivity.
Qed.

Lemma days_before_next_year (y : Z) :
  PyDate.days_before_year (y + 1)
  = PyDate.days_before_year y + 365 + (if PyDate.is_leap y then 1 else 0).
Proof.
  unfold PyDate.days_before_year, PyDate.is_leap. cbv zeta.
  destruct (y mod 4 =? 0) eqn:H4; destruct (y mod 100 =? 0) eqn:H100;
    destruct (y mod 400 =? 0) eqn:H400; simpl;
    apply Z.eqb_eq in H4 || apply Z.eqb_neq in H4;
    apply Z.eqb_eq in H100 || apply Z.eqb_neq in H100;
    apply Z.eqb_eq in H400 || apply Z.eqb_neq in H400;
    Z.div_mod_to_equations; lia.
Qed.

Lemma days_before_next_year_ord (y : Z) :
  PyDate.ymd2ord (y + 1) 1 1
  = PyDate.days_before_year y + 365 + (if PyDate.is_leap y then 1 else 0) + 1.
Proof.
  unfold PyDate.ymd2ord, PyDate.days_before_month. rewrite days_before_next_year.
  cbn. lia.
Qed.

(** The day after the last day of a month is the first of the next. *)
Lemma ymd2ord_month_end (y m : Z) :
  1 <= m <= 12 ->
  PyDate.ymd2ord y m (PyDate.days_in_month y m + 1)
  = if m =? 12 then PyDate.ymd2ord (y + 1) 1 1 else PyDate.ymd2ord y (m + 1) 1.
Proof.
  intros Hm. rewrite days_before_next_year_ord.
  unfold PyDate.ymd2ord, PyDate.days_before_month, PyDate.days_in_month,
    PyDate.days_in_common_month, PyDate.days_before_common_month.
  destruct (month_cases m Hm) as [->|[->|[->|[->|[->|[->|[->|[->|[->|[->|[->| ->]]]]]]]]]]];
    fold_constants; destruct (PyDate.is_leap y); cbn; lia.
Qed.

Lemma weekday_range (x : PyDate.t) : 0 <= PyDate.weekday x <= 6.
Proof. unfold PyDate.weekday. Z.div_mod_to_equations. lia. Qed.

(** Going back [weekday + 1] days from any day ends on a Sunday. *)
Lemma back_to_sunday (x s : PyDate.t) :
  PyDate.toordinal s = PyDate.toordinal x - (PyDate.weekday x + 1) ->
  PyDate.weekday s = 6.
Proof.
  unfold PyDate.weekday. intros ->. Z.div_mod_to_equations. lia.
Qed.

(** What [_last_sunday_of_month] computes in a month of [n] days: with
    [over = 32 - n], the Sunday among the seven days that end on day
    [over - 1] of the following month. *)
Lemma last_sunday_of_month_run (y m : Z) :
  1 <= y <= 9999 -> 1 <= m <= 12 -> (y = 9999 -> m <> 12) ->
  let next := if m =? 12 then PyDate.mk (y + 1) 1 (32 - PyDate.days_in_month y m)
              else PyDate.mk y (m + 1) (32 - PyDate.days_in_month y m) in
  let back := PyDate.weekday next + 1 in
  let s := if back <? PyDate.day next
           then PyDate.mk (PyDate.year next) (PyDate.month next) (PyDate.day next - back)
           else PyDate.mk y m (PyDate.days_in_month y m + PyDate.day next - back) in
  DateTimeHandler.last_sunday_of_month y m = inr s /\ PyDate.weekday s = 6.
Proof.
  intros Hy Hm Hlast next back s.
  pose proof (days_in_month_bounds y m Hm) as Hdim.
  assert (PyDate.valid next = true /\ 1 <= PyDate.day next <= 4
          /\ PyDate.toordinal next
             = PyDate.ymd2ord y m (PyDate.days_in_month y m + PyDate.day next))
    as (Hnext_valid & Hnext_day & Hnext_ord).
  { pose proof (ymd2ord_month_end y m Hm) as Hend. subst next.
    destruct (m =? 12) eqn:Hm12.
    - apply Z.eqb_eq in Hm12. subst m.
      change (PyDate.days_in_month y 12) with 31 in *.
      split; [|split].
      + apply valid_spec. change (PyDate.days_in_month (y + 1) 1) with 31. lia.
      + simpl. lia.
      + unfold PyDate.toordinal. cbn [PyDate.year PyDate.month PyDate.day].
        change (32 - 31) with 1. change (12 =? 12) with true in Hend.
        symmetry. exact Hend.
    - apply Z.eqb_neq in Hm12. split; [|split].
      + apply valid_spec. pose proof (days_in_month_bounds y (m + 1) ltac:(lia)). lia.
      + simpl. lia.
      + unfold PyDate.toordinal. cbn [PyDate.year PyDate.month PyDate.day].
        unfold PyDate.ymd2ord in Hend |- *. lia. }
  pose proof (weekday_range next) as Hw.
  assert (PyDate.valid s = true
          /\ PyDate.toordinal s = PyDate.toordinal next - back) as [Hs_valid Hs_ord].
  { subst s. destruct (back <? PyDate.day next) eqn:Hback.
    - apply Z.ltb_lt in Hback. destruct next as [ny nm nd]. simpl in *.
      apply valid_spec in Hnext_valid. split.
      + apply valid_spec. lia.
      + unfold PyDate.toordinal, PyDate.ymd2ord. simpl. lia.
    - apply Z.ltb_ge in Hback. split.
      + apply valid_spec. subst back. lia.
      + rewrite Hnext_ord. unfold PyDate.toordinal, PyDate.ymd2ord. simpl. lia. }
  split.
  - assert (PyDate.new y m 1 = inr (PyDate.mk y m 1)) as Hfirst.
    { unfold PyDate.new. rewrite (proj2 (valid_spec y m 1)) by lia. reflexivity. }
    assert (PyDate.replace_day (PyDate.mk y m 1) 28 = inr (PyDate.mk y m 28)) as Hday28.
    { unfold PyDate.replace_day, PyDate.new. cbn [PyDate.year PyDate.month].
      rewrite (proj2 (valid_spec y m 28)) by lia. reflexivity. }
    unfold DateTimeHandler.last_sunday_of_month. rewrite Hfirst, Hday28.
    rewrite (add_days_lands (PyDate.mk y m 28) 4
               (PyDate.year next) (PyDate.month next) (PyDate.day next)).
    + fold back. destruct s as [sy sm sd].
      apply add_days_lands; [|exact Hs_valid].
      destruct next as [ny nm nd]. simpl in *. unfold PyDate.toordinal in *.
      simpl in *. lia.
    + assert (PyDate.day next = 32 - PyDate.days_in_month y m) as Hnd
        by (subst next; destruct (m =? 12); reflexivity).
      destruct next as [ny nm nd]. unfold PyDate.toordinal in *. simpl in *.
      rewrite Hnext_ord. unfold PyDate.ymd2ord. lia.
    + destruct next. exact Hnext_valid.
  - apply (back_to_sunday next s). exact Hs_ord.
Qed.

(** In a month of 31 days the result is the Sunday among its last seven
    days. *)
Lemma last_sunday_of_long_month (y m : Z) :
  1 <= y <= 9999 -> 1 <= m <= 12 -> PyDate.days_in_month y m = 31 ->
  (y = 9999 -> m <> 12) ->
  exists d,
    DateTimeHandler.last_sunday_of_month y m = inr (PyDate.mk y m d)
    /\ 25 <= d <= 31
    /\ PyDate.weekday (PyDate.mk y m d) = 6.
Proof.
  intros Hy Hm Hdim Hlast.
  destruct (last_sunday_of_month_run y m Hy Hm Hlast) as [Hrun Hsunday].
  cbv zeta in Hrun, Hsunday. rewrite Hdim in Hrun, Hsunday.
  set (next := if m =? 12 then PyDate.mk (y + 1) 1 (32 - 31)
               else PyDate.mk y (m + 1) (32 - 31)) in *.
  pose proof (weekday_range next) as Hw.
  assert (PyDate.day next = 1) as Hday by (subst next; destruct (m =? 12); reflexivity).
  rewrite Hday in Hrun, Hsunday.
  rewrite (proj2 (Z.ltb_ge _ _)) in Hrun, Hsunday by lia.
  exists (31 + 1 - (PyDate.weekday next + 1)).
  split; [exact Hrun|]. split; [lia|exact Hsunday].
Qed.

(** X23: in a month of 31 days, and so in March and October,
    [_last_sunday_of_month] returns the last Sunday of that month: a Sunday
    of the given year and month on one of the days 25 to 31. December 9999
    is left out, where the intermediate date overflows. *)
Theorem last_sunday_of_a_31_day_month (year_ month_ : Z) :
  1 <= year_ <= 9999 ->
  month_ ∈ [1; 3; 5; 7; 8; 10; 12] ->
  (year_ = 9999 -> month_ <> 12) ->
  exists day_,
    DateTimeHandler.last_sunday_of_month year_ month_
    = inr (PyDate.mk year_ month_ day_)
    /\ 25 <= day_ <= 31
    /\ PyDate.weekday (PyDate.mk year_ month_ day_) = 6.
Proof.
  intros Hy Hm Hlast.
  apply last_sunday_of_long_month; [exact Hy| | |exact Hlast];
    repeat (apply elem_of_cons in Hm as [->|Hm]; [first [lia|reflexivity]|]);
    inversion Hm.
Qed.

Lemma last_sunday_of_a_31_day_month_witness :
  exists day_,
    DateTimeHandler.last_sunday_of_month 2024 10 = inr (PyDate.mk 2024 10 day_)
    /\ 25 <= day_ <= 31
    /\ PyDate.weekday (PyDate.mk 2024 10 day_) = 6.
Proof.
  apply (last_sunday_of_a_31_day_month 2024 10).
  - lia.
  - apply (bool_decide_unpack _). reflexivity.
  - lia.
Defined.

(** X24: in a month of 30 days [_last_sunday_of_month] returns a Sunday
    that need not lie in the month: when the following month begins on a
    Sunday, the result is that first day of the following month; otherwise
    it is the Sunday among the days 24 to 30 of the given month. *)
Theorem last_sunday_of_a_30_day_month (year_ month_ : Z) :
  1 <= year_ <= 9999 ->
  month_ ∈ [4; 6; 9; 11] ->
  exists s,
    DateTimeHandler.last_sunday_of_month year_ month_ = inr s
    /\ PyDate.weekday s = 6
    /\ if bool_decide (PyDate.weekday (PyDate.mk year_ (month_ + 1) 1) = 6)
       then s = PyDate.mk year_ (month_ + 1) 1
       else PyDate.year s = year_ /\ PyDate.month s = month_
            /\ 24 <= PyDate.day s <= 30.
Proof.
  intros Hy Hm.
  assert (1 <= month_ <= 11 /\ PyDate.days_in_month year_ month_ = 30) as [Hm' Hdim].
  { repeat (apply elem_of_cons in Hm as [->|Hm]; [split; [lia|reflexivity]|]).
    inversion Hm. }
  destruct (last_sunday_of_month_run year_ month_ Hy ltac:(lia) ltac:(lia))
    as [Hrun Hsunday].
  cbv zeta in Hrun, Hsunday. rewrite Hdim in Hrun, Hsunday.
  rewrite (proj2 (Z.eqb_neq month_ 12)) in Hrun, Hsunday by lia.
  change (32 - 30) with 2 in Hrun, Hsunday.
  cbn [PyDate.year PyDate.month PyDate.day] in Hrun, Hsunday.
  pose proof (weekday_range (PyDate.mk year_ (month_ + 1) 2)) as Hw.
  assert (PyDate.weekday (PyDate.mk year_ (month_ + 1) 1)
          = (PyDate.weekday (PyDate.mk year_ (month_ + 1) 2) + 6) mod 7) as Hfirst.
  { unfold PyDate.weekday, PyDate.toordinal, PyDate.ymd2ord. simpl.
    Z.div_mod_to_equations. lia. }
  eexists. split; [exact Hrun|]. split; [exact Hsunday|].
  case_bool_decide as Hdec.
  - assert (PyDate.weekday (PyDate.mk year_ (month_ + 1) 2) = 0) as Hzero
      by (rewrite Hfirst in Hdec; Z.div_mod_to_equations; lia).
    rewrite Hzero. simpl. reflexivity.
  - assert (PyDate.weekday (PyDate.mk year_ (month_ + 1) 2) <> 0) as Hnonzero.
    { intros Hzero. apply Hdec. rewrite Hfirst, Hzero. reflexivity. }
    rewrite (proj2 (Z.ltb_ge _ _)) by lia. simpl. lia.
Qed.

Lemma last_sunday_of_a_30_day_month_witness :
  DateTimeHandler.last_sunday_of_month 2022 4 = inr (PyDate.mk 2022 5 1).
Proof.
  destruct (last_sunday_of_a_30_day_month 2022 4) as (s & Hrun & _ & Hcases).
  - lia.
  - apply (bool_decide_unpack _). reflexivity.
  - rewrite Hrun. f_equal.
    rewrite bool_decide_eq_true_2 in Hcases by reflexivity. exact Hcases.
Defined.

(** X25: [_is_danish_dst] counts whole days: a date is in summer time
    from the last Sunday of March of its year up to and including the last
    Sunday of October, so every day from April to September is, no day of
    January, February, November or December is, and the two Sundays
    themselves are. The check returns for every date of the calendar, and
    [_apply_default_timezone] gives a time without timezone UTC+2 on
    exactly these days and UTC+1 on the others. *)
Theorem danish_dst_is_between_the_last_sundays (date_obj : PyDate.t) :
  PyDate.valid date_obj = true ->
  exists march october summer,
    DateTimeHandler.last_sunday_of_month (PyDate.year date_obj) 3
    = inr (PyDate.mk (PyDate.year date_obj) 3 march)
    /\ DateTimeHandler.last_sunday_of_month (PyDate.year date_obj) 10
       = inr (PyDate.mk (PyDate.year date_obj) 10 october)
    /\ 25 <= march <= 31 /\ 25 <= october <= 31
    /\ summer
       = (if PyDate.month date_obj <? 3 then false
          else if PyDate.month date_obj =? 3 then march <=? PyDate.day date_obj
          else if PyDate.month date_obj <? 10 then true
          else if PyDate.month date_obj =? 10 then PyDate.day date_obj <=? october
          else false)
    /\ DateTimeHandler.is_danish_dst date_obj = inr summer
    /\ DateTimeHandler.apply_default_timezone None (Some date_obj)
       = inr (Some (if summer then 2 else 1)).
Proof.
  destruct date_obj as [y m d]. intros Hvalid.
  apply valid_spec in Hvalid as (Hy & Hm & Hd). cbn [PyDate.year PyDate.month PyDate.day].
  destruct (last_sunday_of_long_month y 3 Hy ltac:(lia) eq_refl ltac:(lia))
    as (march & Hmarch & Hmarch_day & _).
  destruct (last_sunday_of_long_month y 10 Hy ltac:(lia) eq_refl ltac:(lia))
    as (october & Hoctober & Hoctober_day & _).
  exists march, october. eexists.
  split; [exact Hmarch|]. split; [exact Hoctober|].
  split; [exact Hmarch_day|]. split; [exact Hoctober_day|].
  split; [reflexivity|].
  assert (DateTimeHandler.is_danish_dst (PyDate.mk y m d)
          = inr (if m <? 3 then false
                 else if m =? 3 then march <=? d
                 else if m <? 10 then true
                 else if m =? 10 then d <=? october
                 else false)) as Hdst.
  { unfold DateTimeHandler.is_danish_dst. cbn [PyDate.year]. rewrite Hmarch, Hoctober.
    f_equal. unfold PyDate.leb. cbn [PyDate.year PyDate.month PyDate.day].
    rewrite Z.ltb_irrefl, Z.eqb_refl. cbn [orb andb].
    destruct (m <? 3) eqn:Hlt3; destruct (m =? 3) eqn:Heq3;
      destruct (m <? 10) eqn:Hlt10; destruct (m =? 10) eqn:Heq10;
      destruct (3 <? m) eqn:Hgt3; destruct (3 =? m) eqn:Heq3';
      destruct (10 =? m) eqn:Heq10'; cbn [orb andb]; try reflexivity; lia. }
  split; [exact Hdst|].
  unfold DateTimeHandler.apply_default_timezone. rewrite Hdst.
  destruct (if m <? 3 then _ else _); reflexivity.
Qed.

Lemma danish_dst_is_between_the_last_sundays_witness :
  DateTimeHandler.is_danish_dst (PyDate.mk 2024 10 27) = inr true
  /\ DateTimeHandler.apply_default_timezone None (Some (PyDate.mk 2024 10 27))
     = inr (Some 2).
Proof.
  destruct (danish_dst_is_between_the_last_sundays (PyDate.mk 2024 10 27) eq_refl)
    as (march & october & summer & _ & Hoctober & _ & _ & Hsummer & Hdst & Hzone).
  vm_compute in Hoctober. injection Hoctober as <-.
  vm_compute in Hsummer. subst summer. split; [exact Hdst|exact Hzone].
Defined.

(** ** Extraction of the cash transactions *)

Lemma dict_get_append_same {V : Type} (d : Dict (option string) (list V))
    (k : option string) (x : V) :
  dict_get (dict_append d k x) k = Some (default [] (dict_get d k) ++ [x]).
Proof.
  induction d as [|[k' xs] d IH]; simpl.
  - rewrite bool_decide_eq_true_2 by reflexivity. reflexivity.
  - destruct (decide (k' = k)) as [->|Hne].
    + rewrite !bool_decide_eq_true_2 by reflexivity. simpl.
      rewrite bool_decide_eq_true_2 by reflexivity. reflexivity.
    + rewrite !(bool_decide_eq_false_2 (k' = k)) by exact Hne. simpl.
      rewrite (bool_decide_eq_false_2 (k' = k)) by exact Hne. exact IH.
Qed.

Lemma dict_get_append_other {V : Type} (d : Dict (option string) (list V))
    (k k' : option string) (x : V) :
  k <> k' -> dict_get (dict_append d k x) k' = dict_get d k'.
Proof.
  intros Hne. induction d as [|[k0 xs] d IH]; simpl.
  - rewrite bool_decide_eq_false_2 by exact Hne. reflexivity.
  - destruct (decide (k0 = k)) as [->|Hne0].
    + rewrite bool_decide_eq_true_2 by reflexivity. simpl.
      rewrite bool_decide_eq_false_2 by exact Hne. reflexivity.
    + rewrite (bool_decide_eq_false_2 (k0 = k)) by exact Hne0. simpl.
      rewrite IH. reflexivity.
Qed.

Lemma dict_append_keys {V : Type} (d : Dict (option string) (list V))
    (k : option string) (x : V) :
  NoDup (dict_keys d) -> NoDup (dict_keys (dict_append d k x))
  /\ (forall k', k' ∈ dict_keys (dict_append d k x) <-> k' = k \/ k' ∈ dict_keys d).
Proof.
  unfold dict_keys. induction d as [|[k0 xs] d IH]; simpl; intros Hnodup.
  - split; [apply NoDup_singleton|]. intros k'. rewrite list_elem_of_singleton.
    split; [auto|]. intros [?|Hin]; [assumption|inversion Hin].
  - inversion Hnodup as [|? ? Hnotin Hnodup']; subst.
    destruct (decide (k0 = k)) as [->|Hne].
    + rewrite bool_decide_eq_true_2 by reflexivity. simpl.
      split; [exact Hnodup|]. intros k'. split; [auto|].
      intros [->|Hin]; [left|exact Hin].
    + rewrite (bool_decide_eq_false_2 (k0 = k)) by exact Hne. simpl.
      destruct (IH Hnodup') as [IHnodup IHkeys]. split.
      * constructor; [|exact IHnodup]. intros Hin. apply IHkeys in Hin as [?|Hin];
          [congruence|contradiction].
      * intros k'. rewrite !elem_of_cons, IHkeys. tauto.
Qed.

Lemma dict_append_nonempty {V : Type} (d : Dict (option string) (list V))
    (k : option string) (x : V) :
  Forall (fun p => snd p <> []) d -> Forall (fun p => snd p <> []) (dict_append d k x).
Proof.
  induction d as [|[k0 xs] d IH]; simpl; intros Hall.
  - constructor; [discriminate|constructor].
  - inversion Hall as [|? ? Hhead Htail]; subst.
    destruct (bool_decide (k0 = k)).
    + constructor; [|exact Htail]. simpl. intros Happ.
      apply app_eq_nil in Happ as [_ Happ]. discriminate.
    + constructor; [exact Hhead|apply IH; exact Htail].
Qed.

Lemma dict_get_nonempty {V : Type} (d : Dict (option string) (list V))
    (k : option string) :
  Forall (fun p => snd p <> []) d ->
  dict_get d k = match default [] (dict_get d k) with
                 | [] => None
                 | l => Some l
                 end.
Proof.
  induction d as [|[k0 xs] d IH]; simpl; intros Hall; [reflexivity|].
  inversion Hall as [|? ? Hhead Htail]; subst. simpl in Hhead.
  destruct (bool_decide (k0 = k)); [|apply IH; exact Htail].
  simpl. destruct xs; [contradiction|reflexivity].
Qed.

Section ExtractionFacts.
Context `{PyBuiltins}.

Lemma CashTrans_init_chain (cash_trans : XmlCashTrans) (cls cls' : CashTrans.ClassVars)
    (object : CashTrans.t) (st st' : Validator) :
  CashTrans.init cash_trans cls st = Return (object, cls') st' ->
  built_from cash_trans object
  /\ CashTrans.nr_previous_fl object = CashTrans.last_nr_fl cls
  /\ CashTrans.nr_previous_check object
     = match CashTrans.last_nr_fl cls with
       | None => true
       | Some p => (CashTrans.nr_fl object =? p + 1)%float
       end
  /\ CashTrans.last_nr_fl cls' = Some (CashTrans.nr_fl object).
Proof.
  unfold CashTrans.init, bind, ret.
  destruct (CashTrans.convert_nr (x_nr cash_trans) st) as [x st1|e st1]; [|discriminate].
  intros [= <- <- <-]. simpl. repeat split; reflexivity.
Qed.

(** The inner loop appends the objects of one element under its id. *)
Lemma gen_cash_trans_of_register_spec (reg_id : option string)
    (cash_transs : list XmlCashTrans) :
  forall (cls : CashTrans.ClassVars) (d d' : Dict (option string) (list CashTrans.t))
         (st st' : Validator),
    gen_cash_trans_of_register reg_id cash_transs cls d st = Return d' st' ->
    exists objects,
      Forall2 built_from cash_transs objects
      /\ chained (CashTrans.last_nr_fl cls) objects
      /\ (forall k, default [] (dict_get d' k)
                    = default [] (dict_get d k)
                      ++ (if bool_decide (reg_id = k) then objects else []))
      /\ (NoDup (dict_keys d) -> NoDup (dict_keys d'))
      /\ (Forall (fun p => snd p <> []) d -> Forall (fun p => snd p <> []) d').
Proof.
  induction cash_transs as [|x xs IH]; intros cls d d' st st'; simpl.
  - unfold ret. intros [= <- <-]. exists []. split; [constructor|]. split; [exact I|].
    split; [|auto]. intros k. destruct (bool_decide (reg_id = k)); rewrite app_nil_r;
      reflexivity.
  - unfold bind at 1.
    destruct (CashTrans.init x cls st) as [[object cls1] st1|e st1] eqn:Hinit;
      [|discriminate].
    intros Hrest.
    destruct (CashTrans_init_chain x cls cls1 object st st1 Hinit)
      as (Hbuilt & Hprev & Hcheck & Hlast).
    destruct (IH cls1 _ d' st1 st' Hrest) as (objects & Hall & Hchain & Hget & Hkeys & Hne).
    exists (object :: objects). split; [constructor; assumption|].
    split; [simpl; rewrite <- Hlast; auto|].
    split; [|split].
    + intros k. rewrite Hget. destruct (decide (reg_id = k)) as [->|Hk].
      * rewrite bool_decide_eq_true_2 by reflexivity.
        rewrite dict_get_append_same. simpl. rewrite <- app_assoc. reflexivity.
      * rewrite bool_decide_eq_false_2 by exact Hk.
        rewrite dict_get_append_other by exact Hk. reflexivity.
    + intros Hnodup. apply Hkeys. apply dict_append_keys. exact Hnodup.
    + intros Hnonempty. apply Hne. apply dict_append_nonempty. exact Hnonempty.
Qed.

Lemma gen_cash_trans_of_registers_spec (cash_regs : list XmlCashRegister) :
  forall (d d' : Dict (option string) (list CashTrans.t)) (st st' : Validator),
    gen_cash_trans_of_registers cash_regs d st = Return d' st' ->
    exists groups,
      Forall2 (fun cash_reg objects =>
                 Forall2 built_from (x_cashtransactions cash_reg) objects
                 /\ chained None objects) cash_regs groups
      /\ (forall k, default [] (dict_get d' k)
                    = default [] (dict_get d k) ++ objects_of_register k cash_regs groups)
      /\ (NoDup (dict_keys d) -> NoDup (dict_keys d'))
      /\ (Forall (fun p => snd p <> []) d -> Forall (fun p => snd p <> []) d').
Proof.
  induction cash_regs as [|cash_reg rest IH]; intros d d' st st'; simpl.
  - unfold ret. intros [= <- <-]. exists []. split; [constructor|].
    split; [|auto]. intros k. unfold objects_of_register. simpl.
    rewrite app_nil_r. reflexivity.
  - unfold bind at 1.
    destruct (gen_cash_trans_of_register _ _ _ d st) as [d1 st1|e st1] eqn:Hreg;
      [|discriminate].
    intros Hrest.
    destruct (gen_cash_trans_of_register_spec _ _ _ d d1 st st1 Hreg)
      as (objects & Hbuilt & Hchain & Hget & Hkeys & Hne).
    destruct (IH d1 d' st1 st' Hrest) as (groups & Hall & Hget' & Hkeys' & Hne').
    exists (objects :: groups). split; [constructor; [split|]; assumption|].
    split; [|auto].
    intros k. rewrite Hget', Hget. unfold objects_of_register. simpl.
    destruct (bool_decide (x_registerID cash_reg = k)); simpl.
    + rewrite <- app_assoc. reflexivity.
    + rewrite app_nil_r. reflexivity.
Qed.
End ExtractionFacts.

(** X26: when [__gen_all_cash_trans] returns, the dictionary holds under
    every register id the objects of the [cashregister] elements with that
    id, one for each [cashtransaction] element and in document order, and
    no key for an id without transactions; no id is listed twice. The chain
    of previous numbers starts anew at every [cashregister] element, also
    when two elements carry the same id: its first object has no previous
    number and passes the numbering check, every later one remembers the
    number of the object before it. *)
Theorem cash_transactions_are_grouped_and_chained `{PyBuiltins}
    (cash_regs : list XmlCashRegister) (st st' : Validator)
    (all_cash_trans : Dict (option string) (list CashTrans.t)) :
  gen_all_cash_trans cash_regs st = Return all_cash_trans st' ->
  exists groups : list (list CashTrans.t),
    Forall2 (fun cash_reg objects =>
               Forall2 built_from (x_cashtransactions cash_reg) objects
               /\ chained None objects) cash_regs groups
    /\ (forall reg_id,
          dict_get all_cash_trans reg_id
          = match objects_of_register reg_id cash_regs groups with
            | [] => None
            | objects => Some objects
            end)
    /\ NoDup (dict_keys all_cash_trans).
Proof.
  unfold gen_all_cash_trans. intros Hrun.
  destruct (gen_cash_trans_of_registers_spec cash_regs [] all_cash_trans st st' Hrun)
    as (groups & Hall & Hget & Hkeys & Hne).
  exists groups. split; [exact Hall|]. split.
  - intros reg_id. rewrite (dict_get_nonempty all_cash_trans reg_id (Hne (List.Forall_nil _))).
    rewrite Hget. reflexivity.
  - apply Hkeys. constructor.
Qed.

Lemma cash_transactions_are_grouped_and_chained_witness :
  exists all_cash_trans st',
    gen_all_cash_trans (H := digits_builtins) separately_numbered_registers init_validator
    = Return all_cash_trans st'
    /\ NoDup (dict_keys all_cash_trans)
    /\ exists first second,
         dict_get all_cash_trans (Some "B") = Some [first; second]
         /\ CashTrans.nr_previous_fl first = None
         /\ CashTrans.nr_previous_fl second = Some (CashTrans.nr_fl first).
Proof.
  destruct (gen_all_cash_trans (H := digits_builtins) separately_numbered_registers
              init_validator) as [all_cash_trans st'|exn st'] eqn:Hrun;
    [|vm_compute in Hrun; discriminate].
  destruct (cash_transactions_are_grouped_and_chained (H := digits_builtins)
              separately_numbered_registers init_validator st' all_cash_trans Hrun)
    as (groups & Hall & Hget & Hkeys).
  exists all_cash_trans, st'. split; [reflexivity|]. split; [exact Hkeys|].
  specialize (Hget (Some "B")).
  inversion Hall as [|regA groupA restA groupsA [HbuiltA _] HallB]; subst.
  inversion HallB as [|regB groupB restB groupsB [HbuiltB HchainB] Hnil]; subst.
  inversion Hnil; subst.
  inversion HbuiltB as [|x1 first xs1 objs1 _ Hrest1]; subst.
  inversion Hrest1 as [|x2 second xs2 objs2 _ Hrest2]; subst.
  inversion Hrest2; subst.
  exists first, second. split; [exact Hget|].
  destruct HchainB as (Hfirst & _ & Hsecond & _). split; assumption.
Defined.

(** ** Extraction of the event reports *)

Lemma dict_set_absent {V : Type} (d : Dict (option string) (list V))
    (k : option string) (x : V) :
  dict_mem d k = false -> dict_set d k [x] = dict_append d k x.
Proof.
  unfold dict_mem. induction d as [|[k0 xs] d IH]; simpl; intros Habsent; [reflexivity|].
  destruct (decide (k0 = k)) as [->|Hne].
  - rewrite (bool_decide_eq_true_2 (k = k)) in Habsent by reflexivity.
    rewrite bool_decide_eq_true_2 in Habsent by discriminate. discriminate.
  - rewrite (bool_decide_eq_false_2 (k0 = k)) in Habsent |- * by exact Hne.
    rewrite IH by exact Habsent. reflexivity.
Qed.

Section ReportExtractionFacts.
Context `{PyBuiltins}.

(** What one report does to the two dictionaries. *)
Lemma add_event_report_typed (reg_id : option string) (event_report : XmlEventReport)
    (report_type_ : XmlChild) (reports : Reports) (cls : EventReport.ClassVars) :
  x_reportType event_report = Some report_type_ ->
  let object := fst (EventReport.init event_report cls) in
  add_event_report reg_id event_report (reports, cls)
  = ({| all_z_reports :=
          if bool_decide (EventReport.report_type object = Some "Z report")
          then dict_append (all_z_reports reports) reg_id object
          else all_z_reports reports;
        all_x_reports :=
          if bool_decide (EventReport.report_type object = Some "X report")
          then dict_append (all_x_reports reports) reg_id object
          else all_x_reports reports |},
     snd (EventReport.init event_report cls)).
Proof.
  intros Htype. cbv zeta. unfold add_event_report. rewrite Htype.
  destruct (EventReport.init event_report cls) as [object cls'] eqn:Hinit.
  assert (EventReport.report_type object = text report_type_) as Hrt.
  { unfold EventReport.init in Hinit. injection Hinit as <- _. simpl.
    rewrite Htype. reflexivity. }
  cbn [fst snd]. rewrite Hrt. f_equal.
  destruct reports as [z x]. cbn [all_z_reports all_x_reports].
  destruct (decide (text report_type_ = Some "Z report")) as [Hz|Hz].
  - rewrite (bool_decide_eq_true_2 _ Hz).
    rewrite (bool_decide_eq_false_2 (text report_type_ = Some "X report"))
      by (rewrite Hz; discriminate).
    rewrite !andb_true_r, andb_false_r.
    destruct (dict_mem z reg_id) eqn:Hmem; [reflexivity|].
    rewrite (dict_set_absent z reg_id object Hmem). reflexivity.
  - rewrite (bool_decide_eq_false_2 _ Hz). rewrite andb_false_r.
    destruct (decide (text report_type_ = Some "X report")) as [Hx|Hx].
    + rewrite (bool_decide_eq_true_2 _ Hx). rewrite andb_true_r.
      destruct (dict_mem x reg_id) eqn:Hmem; [reflexivity|].
      rewrite (dict_set_absent x reg_id object Hmem). reflexivity.
    + rewrite (bool_decide_eq_false_2 _ Hx). rewrite andb_false_r. reflexivity.
Qed.

Lemma EventReport_init_window (event_report : XmlEventReport)
    (cls : EventReport.ClassVars) :
  let object := fst (EventReport.init event_report cls) in
  report_built_from event_report object
  /\ EventReport.report_datetime_start object = EventReport.last_datetime cls
  /\ EventReport.grand_total_cash_sale_previous object
     = EventReport.last_grand_total_cash_sale cls
  /\ EventReport.skip object
     = (if bool_decide (EventReport.last_datetime cls = EventReport.default_datetime)
        then Some true else None)
  /\ snd (EventReport.init event_report cls)
     = (if bool_decide (EventReport.report_type object = Some "Z report")
        then {| EventReport.last_datetime := EventReport.report_datetime object;
                EventReport.last_grand_total_cash_sale :=
                  Some (EventReport.grand_total_cash_sale object) |}
        else cls).
Proof.
  cbv zeta. unfold EventReport.init. simpl. repeat split; reflexivity.
Qed.

(** The reports of one element, appended under its id. *)
Lemma event_reports_of_register_spec (reg_id : option string)
    (event_reports : list XmlEventReport) :
  forall (reports : Reports) (cls : EventReport.ClassVars),
    exists objects,
      Forall2 report_built_from
        (List.filter (fun event_report => bool_decide (x_reportType event_report <> None))
                     event_reports) objects
      /\ windowed cls objects
      /\ let reports' :=
           fst (fold_left (fun acc event_report =>
                             add_event_report reg_id event_report acc)
                          event_reports (reports, cls)) in
         forall k,
           default [] (dict_get (all_z_reports reports') k)
           = default [] (dict_get (all_z_reports reports) k)
             ++ (if bool_decide (reg_id = k)
                 then List.filter (fun object =>
                                     bool_decide (EventReport.report_type object
                                                  = Some "Z report")) objects
                 else [])
           /\ default [] (dict_get (all_x_reports reports') k)
              = default [] (dict_get (all_x_reports reports) k)
                ++ (if bool_decide (reg_id = k)
                    then List.filter (fun object =>
                                        bool_decide (EventReport.report_type object
                                                     = Some "X report")) objects
                    else []).
Proof.
  induction event_reports as [|event_report rest IH]; intros reports cls.
  - exists []. split; [constructor|]. split; [exact I|]. cbv zeta. simpl.
    intros k. destruct (bool_decide (reg_id = k)); rewrite !app_nil_r; split; reflexivity.
  - cbn [fold_left List.filter].
    destruct (x_reportType event_report) as [report_type_|] eqn:Htype.
    + rewrite (bool_decide_eq_true_2 (Some report_type_ <> None)) by discriminate.
      rewrite (add_event_report_typed reg_id event_report report_type_ reports cls Htype).
      destruct (EventReport_init_window event_report cls)
        as (Hbuilt & Hstart & Hprevious & Hskip & Hcls).
      set (object := fst (EventReport.init event_report cls)) in *.
      rewrite Hcls.
      destruct (IH {| all_z_reports :=
                        if bool_decide (EventReport.report_type object = Some "Z report")
                        then dict_append (all_z_reports reports) reg_id object
                        else all_z_reports reports;
                      all_x_reports :=
                        if bool_decide (EventReport.report_type object = Some "X report")
                        then dict_append (all_x_reports reports) reg_id object
                        else all_x_reports reports |}
                   (if bool_decide (EventReport.report_type object = Some "Z report")
                    then {| EventReport.last_datetime := EventReport.report_datetime object;
                            EventReport.last_grand_total_cash_sale :=
                              Some (EventReport.grand_total_cash_sale object) |}
                    else cls))
        as (objects & Hall & Hwindowed & Hget).
      exists (object :: objects). split; [constructor; assumption|].
      split; [simpl; auto|].
      cbv zeta in Hget |- *. intros k. destruct (Hget k) as [Hz Hx].
      rewrite Hz, Hx. cbn [all_z_reports all_x_reports List.filter].
      destruct (decide (reg_id = k)) as [->|Hk].
      * rewrite !(bool_decide_eq_true_2 (k = k)) by reflexivity.
        split.
        -- destruct (bool_decide (EventReport.report_type object = Some "Z report"));
             [|reflexivity].
           rewrite dict_get_append_same. simpl. rewrite <- app_assoc. reflexivity.
        -- destruct (bool_decide (EventReport.report_type object = Some "X report"));
             [|reflexivity].
           rewrite dict_get_append_same. simpl. rewrite <- app_assoc. reflexivity.
      * rewrite !(bool_decide_eq_false_2 (reg_id = k)) by exact Hk.
        split.
        -- destruct (bool_decide (EventReport.report_type object = Some "Z report"));
             [|reflexivity].
           rewrite dict_get_append_other by exact Hk. reflexivity.
        -- destruct (bool_decide (EventReport.report_type object = Some "X report"));
             [|reflexivity].
           rewrite dict_get_append_other by exact Hk. reflexivity.
    + rewrite (bool_decide_eq_false_2 (None <> None)) by (intros Hne; apply Hne; reflexivity).
      assert (add_event_report reg_id event_report (reports, cls) = (reports, cls)) as ->.
      { unfold add_event_report. rewrite Htype. reflexivity. }
      apply IH.
Qed.

Lemma gen_all_event_reports_spec (cash_regs : list XmlCashRegister) :
  forall reports : Reports,
    exists groups,
      Forall2 (fun cash_reg objects =>
                 Forall2 report_built_from (typed_reports cash_reg) objects
                 /\ windowed EventReport.reset_class_variables objects) cash_regs groups
      /\ let reports' :=
           fold_left
             (fun reports cash_reg =>
                fst (fold_left (fun acc event_report =>
                                  add_event_report (x_registerID cash_reg) event_report acc)
                               (x_eventReports cash_reg)
                               (reports, EventReport.reset_class_variables)))
             cash_regs reports in
         forall k,
           default [] (dict_get (all_z_reports reports') k)
           = default [] (dict_get (all_z_reports reports) k)
             ++ reports_of_register "Z report" k cash_regs groups
           /\ default [] (dict_get (all_x_reports reports') k)
              = default [] (dict_get (all_x_reports reports) k)
                ++ reports_of_register "X report" k cash_regs groups.
Proof.
  induction cash_regs as [|cash_reg rest IH]; intros reports.
  - exists []. split; [constructor|]. cbv zeta. simpl. intros k.
    unfold reports_of_register. simpl. rewrite !app_nil_r. split; reflexivity.
  - cbn [fold_left].
    destruct (event_reports_of_register_spec (x_registerID cash_reg)
                (x_eventReports cash_reg) reports EventReport.reset_class_variables)
      as (objects & Hbuilt & Hwindowed & Hget).
    cbv zeta in Hget.
    set (reports1 := fst (fold_left _ (x_eventReports cash_reg) _)) in *.
    destruct (IH reports1) as (groups & Hall & Hget').
    exists (objects :: groups). split; [constructor; [split|]; assumption|].
    cbv zeta in Hget' |- *. intros k.
    destruct (Hget' k) as [Hz' Hx']. destruct (Hget k) as [Hz Hx].
    rewrite Hz', Hx', Hz, Hx. unfold reports_of_register. simpl.
    destruct (bool_decide (x_registerID cash_reg = k)); simpl.
    + rewrite !List.filter_app, <- !app_assoc. split; reflexivity.
    + rewrite !app_nil_r. split; reflexivity.
Qed.
End ReportExtractionFacts.

(** X27: [__gen_all_event_reports] builds one object for every
    [eventReport] element that has a [reportType] child. Per [cashregister]
    element the objects form a chain of windows: each starts at the time of
    the closest Z report before it in the same element (the default time
    when there is none, and then the object is marked to be skipped) and
    remembers that Z report's grand total; an X report never moves the
    chain. Under every register id the Z dictionary lists exactly the
    objects of type [Z report] of the elements with that id, in document
    order, the X dictionary those of type [X report]; objects of any other
    type are in neither. *)
Theorem event_reports_are_classified_and_windowed `{PyBuiltins}
    (cash_regs : list XmlCashRegister) :
  exists groups : list (list EventReport.t),
    Forall2 (fun cash_reg objects =>
               Forall2 report_built_from (typed_reports cash_reg) objects
               /\ windowed EventReport.reset_class_variables objects) cash_regs groups
    /\ forall reg_id,
         default [] (dict_get (all_z_reports (gen_all_event_reports cash_regs)) reg_id)
         = reports_of_register "Z report" reg_id cash_regs groups
         /\ default [] (dict_get (all_x_reports (gen_all_event_reports cash_regs)) reg_id)
            = reports_of_register "X report" reg_id cash_regs groups.
Proof.
  destruct (gen_all_event_reports_spec cash_regs {| all_z_reports := []; all_x_reports := [] |})
    as (groups & Hall & Hget).
  exists groups. split; [exact Hall|]. intros reg_id.
  destruct (Hget reg_id) as [Hz Hx]. unfold gen_all_event_reports.
  rewrite Hz, Hx. split; reflexivity.
Qed.

(** ** Extraction inside a pass *)

Lemma with_findings_nil (st : Validator) : with_findings [] st = st.
Proof. destruct st. unfold with_findings. simpl. rewrite app_nil_r. reflexivity. Qed.

Lemma with_findings_app (a b : list Validation) (st : Validator) :
  with_findings b (with_findings a st) = with_findings (a ++ b) st.
Proof. unfold with_findings. simpl. rewrite <- app_assoc. reflexivity. Qed.

Lemma uniform_ret {A : Type} (a : A) : uniform (ret a).
Proof.
  exists []. split; [constructor|]. left. exists a. intros st.
  rewrite with_findings_nil. reflexivity.
Qed.

Lemma uniform_raise {A : Type} (exn : string) : uniform (@raise A exn).
Proof.
  exists []. split; [constructor|]. right. exists exn. intros st.
  rewrite with_findings_nil. reflexivity.
Qed.

Lemma uniform_bind {A B : Type} (m : M A) (k : A -> M B) :
  uniform m -> (forall a, uniform (k a)) -> uniform (bind m k).
Proof.
  intros (numbers & Hnumbers & [[a Hm]|[exn Hm]]) Hk.
  - destruct (Hk a) as (numbers' & Hnumbers' & [[b Hka]|[exn Hka]]).
    + exists (numbers ++ numbers'). split; [apply Forall_app; auto|]. left. exists b.
      intros st. unfold bind. rewrite Hm, Hka, with_findings_app. reflexivity.
    + exists (numbers ++ numbers'). split; [apply Forall_app; auto|]. right. exists exn.
      intros st. unfold bind. rewrite Hm, Hka, with_findings_app. reflexivity.
  - exists numbers. split; [exact Hnumbers|]. right. exists exn.
    intros st. unfold bind. rewrite Hm. reflexivity.
Qed.

Lemma uniform_number_finding (element_ : Element) (special : option (list Param)) :
  uniform (lift (log_validation_error structure_check element_ should_contain_number
                   special)).
Proof.
  eexists [_]. split; [constructor; [|constructor]|].
  2:{ left. exists tt. intros st. reflexivity. }
  repeat split; reflexivity.
Qed.

Section ExtractionInsideAPass.
Context `{PyBuiltins}.

Lemma uniform_convert_nr (nr_child : option XmlChild) :
  uniform (CashTrans.convert_nr nr_child).
Proof.
  unfold CashTrans.convert_nr.
  destruct nr_child as [c|]; [|apply uniform_raise].
  destruct (text c) as [value|]; [|apply uniform_raise].
  destruct (py_float value); [apply uniform_ret|].
  destruct (contains_comma value).
  { apply uniform_bind; [apply uniform_number_finding|]. intros _. apply uniform_ret. }
  destruct (findall_digits value).
  { apply uniform_bind; [apply uniform_number_finding|]. intros _. apply uniform_ret. }
  destruct (py_float _); [apply uniform_ret|apply uniform_raise].
Qed.

Lemma uniform_init (cash_trans : XmlCashTrans) (cls : CashTrans.ClassVars) :
  uniform (CashTrans.init cash_trans cls).
Proof.
  unfold CashTrans.init. apply uniform_bind; [apply uniform_convert_nr|].
  intros nr_fl_. apply uniform_ret.
Qed.

Lemma uniform_gen_cash_trans_of_register (reg_id : option string)
    (cash_transs : list XmlCashTrans) :
  forall cls d, uniform (gen_cash_trans_of_register reg_id cash_transs cls d).
Proof.
  induction cash_transs as [|x xs IH]; intros cls d; simpl.
  - apply uniform_ret.
  - apply uniform_bind; [apply uniform_init|]. intros [object cls']. apply IH.
Qed.

Lemma uniform_gen_cash_trans_of_registers (cash_regs : list XmlCashRegister) :
  forall d, uniform (gen_cash_trans_of_registers cash_regs d).
Proof.
  induction cash_regs as [|cash_reg rest IH]; intros d; simpl.
  - apply uniform_ret.
  - apply uniform_bind; [apply uniform_gen_cash_trans_of_register|]. intros d'. apply IH.
Qed.

Lemma uniform_gen_all_cash_trans (cash_regs : list XmlCashRegister) :
  uniform (gen_all_cash_trans cash_regs).
Proof. apply uniform_gen_cash_trans_of_registers. Qed.

(** The dictionary only grows. *)
Lemma dict_append_length {V : Type} (d : Dict (option string) (list V))
    (k : option string) (x : V) :
  (length d <= length (dict_append d k x) /\ 1 <= length (dict_append d k x))%nat.
Proof.
  induction d as [|[k0 xs] d IH]; simpl; [lia|].
  destruct (bool_decide (k0 = k)); simpl; lia.
Qed.

Lemma gen_cash_trans_of_register_length (reg_id : option string)
    (cash_transs : list XmlCashTrans) :
  forall cls d d' st st',
    gen_cash_trans_of_register reg_id cash_transs cls d st = Return d' st' ->
    (length d <= length d')%nat
    /\ (cash_transs <> [] -> 1 <= length d')%nat.
Proof.
  induction cash_transs as [|x xs IH]; intros cls d d' st st'; simpl.
  - unfold ret. intros [= <- <-]. split; [lia|]. intros Hne. contradiction.
  - unfold bind at 1.
    destruct (CashTrans.init x cls st) as [[object cls1] st1|e st1]; [|discriminate].
    intros Hrest. destruct (IH _ _ _ _ _ Hrest) as [Hle _].
    pose proof (dict_append_length d reg_id object). split; [lia|]. intros _. lia.
Qed.

Lemma gen_cash_trans_of_registers_length (cash_regs : list XmlCashRegister) :
  forall d d' st st',
    gen_cash_trans_of_registers cash_regs d st = Return d' st' ->
    (length d <= length d')%nat
    /\ (d' = [] -> Forall (fun cash_reg => x_cashtransactions cash_reg = []) cash_regs).
Proof.
  induction cash_regs as [|cash_reg rest IH]; intros d d' st st'; simpl.
  - unfold ret. intros [= <- <-]. split; [lia|]. constructor.
  - unfold bind at 1.
    destruct (gen_cash_trans_of_register _ _ _ d st) as [d1 st1|e st1] eqn:Hreg;
      [|discriminate].
    intros Hrest.
    destruct (gen_cash_trans_of_register_length _ _ _ _ _ _ _ Hreg) as [Hle Hone].
    destruct (IH _ _ _ _ Hrest) as [Hle' Hnone].
    split; [lia|]. intros ->. constructor; [|apply Hnone; reflexivity].
    destruct (x_cashtransactions cash_reg) as [|x xs]; [reflexivity|].
    assert (1 <= length d1)%nat by (apply Hone; discriminate). simpl in Hle'. lia.
Qed.

Lemma gen_cash_trans_of_registers_none (cash_regs : list XmlCashRegister) :
  Forall (fun cash_reg => x_cashtransactions cash_reg = []) cash_regs ->
  forall d st, gen_cash_trans_of_registers cash_regs d st = Return d st.
Proof.
  induction 1 as [|cash_reg rest Hnone _ IH]; intros d st; simpl; [reflexivity|].
  rewrite Hnone. simpl. unfold bind, ret. apply IH.
Qed.

(** An extraction that returns the empty dictionary logs nothing, in any
    state. *)
Lemma gen_all_cash_trans_empty (cash_regs : list XmlCashRegister) (st st' : Validator) :
  gen_all_cash_trans cash_regs st = Return [] st' ->
  forall st2, gen_all_cash_trans cash_regs st2 = Return [] st2.
Proof.
  unfold gen_all_cash_trans. intros Hrun st2.
  apply gen_cash_trans_of_registers_none.
  exact (proj2 (gen_cash_trans_of_registers_length _ _ _ _ _ Hrun) eq_refl).
Qed.

(** What an extraction returns in one state it returns in every state. *)
Lemma gen_all_cash_trans_any_state (cash_regs : list XmlCashRegister)
    (d : Cache) (st st' : Validator) :
  gen_all_cash_trans cash_regs st = Return d st' ->
  exists numbers,
    Forall number_finding numbers
    /\ forall st2, gen_all_cash_trans cash_regs st2 = Return d (with_findings numbers st2).
Proof.
  intros Hrun.
  destruct (uniform_gen_all_cash_trans cash_regs) as (numbers & Hnumbers & [[a Hm]|[exn Hm]]).
  - exists numbers. split; [exact Hnumbers|]. intros st2.
    rewrite Hm in Hrun. injection Hrun as <- _. apply Hm.
  - rewrite Hm in Hrun. discriminate.
Qed.

(** A read of the property, when the document's transactions can be
    extracted: it returns the extracted dictionary and caches it; only the
    first read that extracts a dictionary with transactions logs anything. *)
Lemma cash_transactions_read (cash_regs : list XmlCashRegister) (d cache : Cache)
    (st0 st0' : Validator) :
  gen_all_cash_trans cash_regs st0 = Return d st0' ->
  cache = [] \/ cache = d ->
  forall st,
    exists numbers,
      Pass.cash_transactions cash_regs cache st = Return (d, d) (with_findings numbers st)
      /\ Forall number_finding numbers
      /\ (cache <> [] -> numbers = [])
      /\ (d = [] -> numbers = []).
Proof.
  intros Hrun Hcache st.
  destruct (gen_all_cash_trans_any_state _ _ _ _ Hrun) as (numbers & Hnumbers & Hany).
  unfold Pass.cash_transactions.
  destruct cache as [|entry cache'].
  - exists numbers. unfold bind, ret. rewrite Hany.
    split; [reflexivity|]. split; [exact Hnumbers|]. split; [intros Hne; contradiction|].
    intros ->. pose proof (gen_all_cash_trans_empty _ _ _ Hrun init_validator) as Hempty.
    rewrite Hany in Hempty. injection Hempty as Hempty.
    unfold with_findings in Hempty. simpl in Hempty. exact Hempty.
  - destruct Hcache as [Hcache|Hcache]; [discriminate|]. subst d.
    exists []. rewrite with_findings_nil. split; [reflexivity|].
    split; [constructor|]. split; [reflexivity|]. discriminate.
Qed.
End ExtractionInsideAPass.

(** ** The passes beside the extraction *)





Section PassesBesideTheExtraction.
Context `{PyBuiltins}.
Variable all_basics : list Basics.
Variable cash_regs : list XmlCashRegister.








End PassesBesideTheExtraction.


Section SignaturePassBesideTheExtraction.
Context `{PyBuiltins} `{Crypto}.
Variable string_dummy : string.
Variable company_id : option string.
Variable is_invalid_company_id : option bool.

End SignaturePassBesideTheExtraction.


(** ** The numbering check on the document *)

Lemma all_checks_append (d : Cache) (k : option string) (object : CashTrans.t) :
  forallb (fun reg => forallb CashTrans.nr_previous_check (snd reg)) (dict_append d k object)
  = forallb (fun reg => forallb CashTrans.nr_previous_check (snd reg)) d
    && CashTrans.nr_previous_check object.
Proof.
  induction d as [|[k0 xs] d IH]; simpl.
  - rewrite !andb_true_r. reflexivity.
  - destruct (bool_decide (k0 = k)); simpl.
    + rewrite forallb_app. simpl. rewrite andb_true_r.
      destruct (forallb CashTrans.nr_previous_check xs),
        (forallb (fun reg => forallb CashTrans.nr_previous_check (snd reg)) d),
        (CashTrans.nr_previous_check object); reflexivity.
    + rewrite IH, andb_assoc. reflexivity.
Qed.

Lemma dict_append_key_list {V : Type} (d : Dict (option string) (list V))
    (k : option string) (x : V) :
  dict_keys (dict_append d k x)
  = if bool_decide (k ∈ dict_keys d) then dict_keys d else dict_keys d ++ [k].
Proof.
  unfold dict_keys. induction d as [|[k0 xs] d IH]; simpl.
  - reflexivity.
  - destruct (decide (k0 = k)) as [->|Hne].
    + rewrite !bool_decide_eq_true_2 by (reflexivity || left). reflexivity.
    + rewrite (bool_decide_eq_false_2 (k0 = k)) by exact Hne. simpl. rewrite IH.
      destruct (decide (k ∈ map fst d)) as [Hin|Hnin].
      * rewrite !bool_decide_eq_true_2 by (exact Hin || (right; exact Hin)). reflexivity.
      * rewrite (bool_decide_eq_false_2 (k ∈ map fst d)) by exact Hnin.
        rewrite bool_decide_eq_false_2; [reflexivity|].
        intros Hin. apply elem_of_cons in Hin as [Heq|Hin]; [congruence|contradiction].
Qed.

Section NumberingOnTheDocument.
Context `{PyBuiltins}.

Lemma convert_nr_number_of (cash_trans : XmlCashTrans) (n : float) (st st' : Validator) :
  CashTrans.convert_nr (x_nr cash_trans) st = Return n st' ->
  number_of cash_trans = Some n.
Proof.
  intros Hrun. unfold number_of.
  destruct (uniform_convert_nr (x_nr cash_trans)) as (numbers & _ & [[a Hm]|[exn Hm]]).
  - rewrite Hm in Hrun |- *. injection Hrun as <- _. reflexivity.
  - rewrite Hm in Hrun. discriminate.
Qed.

Lemma CashTrans_init_number (cash_trans : XmlCashTrans) (cls cls' : CashTrans.ClassVars)
    (object : CashTrans.t) (st st' : Validator) :
  CashTrans.init cash_trans cls st = Return (object, cls') st' ->
  number_of cash_trans = Some (CashTrans.nr_fl object)
  /\ CashTrans.nr_previous_check object
     = match CashTrans.last_nr_fl cls with
       | None => true
       | Some p => (CashTrans.nr_fl object =? p + 1)%float
       end
  /\ CashTrans.last_nr_fl cls' = Some (CashTrans.nr_fl object).
Proof.
  unfold CashTrans.init, bind, ret.
  destruct (CashTrans.convert_nr (x_nr cash_trans) st) as [x st1|e st1] eqn:Hnr;
    [|discriminate].
  intros [= <- <- <-]. simpl. split; [|split; reflexivity].
  exact (convert_nr_number_of _ _ _ _ Hnr).
Qed.

Lemma gen_cash_trans_of_register_numbers (reg_id : option string)
    (cash_transs : list XmlCashTrans) :
  forall cls d d' st st',
    gen_cash_trans_of_register reg_id cash_transs cls d st = Return d' st' ->
    forallb (fun reg => forallb CashTrans.nr_previous_check (snd reg)) d'
    = forallb (fun reg => forallb CashTrans.nr_previous_check (snd reg)) d
      && consecutive (CashTrans.last_nr_fl cls) (map number_of cash_transs)
    /\ dict_keys d'
       = match cash_transs with
         | [] => dict_keys d
         | _ :: _ =>
             if bool_decide (reg_id ∈ dict_keys d) then dict_keys d
             else dict_keys d ++ [reg_id]
         end.
Proof.
  induction cash_transs as [|x xs IH]; intros cls d d' st st'; simpl.
  - unfold ret. intros [= <- <-]. rewrite andb_true_r. split; reflexivity.
  - unfold bind at 1.
    destruct (CashTrans.init x cls st) as [[object cls1] st1|e st1] eqn:Hinit;
      [|discriminate].
    intros Hrest.
    destruct (CashTrans_init_number x cls cls1 object st st1 Hinit)
      as (Hnumber & Hcheck & Hlast).
    destruct (IH cls1 _ d' st1 st' Hrest) as [Hall Hkeys].
    rewrite Hnumber, Hall, all_checks_append, Hlast, Hcheck, andb_assoc.
    split; [reflexivity|].
    rewrite Hkeys, dict_append_key_list.
    destruct xs as [|x' xs']; [reflexivity|].
    destruct (decide (reg_id ∈ dict_keys d)) as [Hin|Hnin].
    + rewrite !(bool_decide_eq_true_2 _ Hin). reflexivity.
    + rewrite (bool_decide_eq_false_2 _ Hnin).
      rewrite bool_decide_eq_true_2; [reflexivity|].
      apply elem_of_app. right. left.
Qed.

Lemma gen_cash_trans_of_registers_numbers (cash_regs : list XmlCashRegister) :
  forall d d' st st',
    gen_cash_trans_of_registers cash_regs d st = Return d' st' ->
    forallb (fun reg => forallb CashTrans.nr_previous_check (snd reg)) d'
    = forallb (fun reg => forallb CashTrans.nr_previous_check (snd reg)) d
      && continuous_per_element cash_regs
    /\ dict_keys d'
       = fold_left (fun ids cash_reg =>
                      match x_cashtransactions cash_reg with
                      | [] => ids
                      | _ :: _ =>
                          if bool_decide (x_registerID cash_reg ∈ ids) then ids
                          else ids ++ [x_registerID cash_reg]
                      end)
                   cash_regs (dict_keys d).
Proof.
  induction cash_regs as [|cash_reg rest IH]; intros d d' st st'; simpl.
  - unfold ret. intros [= <- <-]. rewrite andb_true_r. split; reflexivity.
  - unfold bind at 1.
    destruct (gen_cash_trans_of_register _ _ _ d st) as [d1 st1|e st1] eqn:Hreg;
      [|discriminate].
    intros Hrest.
    destruct (gen_cash_trans_of_register_numbers _ _ _ _ _ _ _ Hreg) as [Hall Hkeys].
    destruct (IH _ _ _ _ Hrest) as [Hall' Hkeys'].
    unfold continuous_per_element in *. simpl.
    rewrite Hall', Hall, Hkeys', Hkeys, andb_assoc. split; reflexivity.
Qed.

(** The dictionary against the document. *)
Lemma gen_all_cash_trans_numbers (cash_regs : list XmlCashRegister) (d : Cache)
    (st st' : Validator) :
  gen_all_cash_trans cash_regs st = Return d st' ->
  forallb (fun reg => forallb CashTrans.nr_previous_check (snd reg)) d
  = continuous_per_element cash_regs
  /\ dict_keys d = register_ids cash_regs.
Proof.
  unfold gen_all_cash_trans. intros Hrun.
  destruct (gen_cash_trans_of_registers_numbers _ _ _ _ _ Hrun) as [Hall Hkeys].
  split; [exact Hall|exact Hkeys].
Qed.

(** The numbering check on the dictionary it reads. *)
Lemma numbering_check_on_dictionary
    (cash_transactions : Dict (option string) (list CashTrans.t)) (st : Validator) :
  if ((1 <? length (dict_keys cash_transactions))%nat
      && forallb (fun reg => forallb CashTrans.nr_previous_check (snd reg)) cash_transactions)
  then
    XMLValueTestValidator.check_continous_numbering_in_cash_tran cash_transactions st
    = append_validation pr_cash_register_finding (set_value_error st)
  else
    XMLValueTestValidator.check_continous_numbering_in_cash_tran cash_transactions st
    = match XMLValueTestValidator.sort_by_nr_fl
              (XMLValueTestValidator.get_unique_transactions_nr
                 (concat (dict_values cash_transactions))) with
      | [] => st
      | first :: rest =>
          XMLValueTestValidator.global_numbering_loop rest (CashTrans.nr_fl first)
            (CashTrans.nr first) st
      end
    /\ exists appended,
         validation
           (XMLValueTestValidator.check_continous_numbering_in_cash_tran cash_transactions st)
         = validation st ++ appended
         /\ Forall (fun v => technical_error_type v = Some not_continous_numbering
                             /\ check v = value_check) appended.
Proof.
  unfold XMLValueTestValidator.check_continous_numbering_in_cash_tran,
    XMLValueTestValidator.check_continous_numbering_in_cash_tran_pr_cash_register.
  rewrite pr_cash_register_fold. simpl.
  destruct (1 <? length (dict_keys cash_transactions))%nat; simpl.
  - destruct (forallb _ cash_transactions); simpl.
    + reflexivity.
    + split; [reflexivity|].
      destruct (XMLValueTestValidator.sort_by_nr_fl _) as [|first rest].
      * exists []. rewrite app_nil_r. split; [reflexivity|constructor].
      * apply global_numbering_loop_appends.
  - split; [reflexivity|].
    destruct (XMLValueTestValidator.sort_by_nr_fl _) as [|first rest].
    + exists []. rewrite app_nil_r. split; [reflexivity|constructor].
    + apply global_numbering_loop_appends.
Qed.

(** The pass is one read of the property and then the check on the
    dictionary read: the later reads find it cached, or extract the empty
    dictionary again without logging. *)
Lemma numbering_pass_reads_once (cash_regs : list XmlCashRegister) (d cache : Cache)
    (st0 st0' st : Validator) :
  gen_all_cash_trans cash_regs st0 = Return d st0' ->
  cache = [] \/ cache = d ->
  exists numbers,
    Pass.cash_transactions cash_regs cache st = Return (d, d) (with_findings numbers st)
    /\ Pass.check_continous_numbering_in_cash_tran cash_regs cache st
       = Return (tt, d)
           (XMLValueTestValidator.check_continous_numbering_in_cash_tran d
              (with_findings numbers st)).
Proof.
  intros Hrun Hcache.
  destruct (cash_transactions_read cash_regs d cache st0 st0' Hrun Hcache st)
    as (numbers & Hread & _ & _ & _).
  exists numbers. split; [exact Hread|].
  assert (forall st1, Pass.cash_transactions cash_regs d st1 = Return (d, d) st1) as Hagain.
  { intros st1.
    destruct (cash_transactions_read cash_regs d d st0 st0' Hrun (or_intror eq_refl) st1)
      as (numbers' & Hread' & _ & Hcached & Hempty).
    assert (numbers' = []) as ->.
    { destruct d as [|entry rest]; [apply Hempty; reflexivity|apply Hcached; discriminate]. }
    rewrite with_findings_nil in Hread'. exact Hread'. }
  unfold Pass.check_continous_numbering_in_cash_tran,
    Pass.check_continous_numbering_in_cash_tran_pr_cash_register,
    XMLValueTestValidator.check_continous_numbering_in_cash_tran,
    XMLValueTestValidator.check_continous_numbering_in_cash_tran_pr_cash_register.
  unfold pbind at 1. unfold bind at 1. rewrite Hread. cbv zeta.
  unfold pbind at 1. unfold bind at 1.
  unfold pbind at 1. unfold bind at 1. rewrite Hagain.
  destruct (1 <? length (dict_keys d))%nat.
  - unfold pbind at 1. unfold bind at 1. rewrite Hagain. unfold pret, ret.
    case_bool_decide; [reflexivity|].
    destruct (XMLValueTestValidator.sort_by_nr_fl _); reflexivity.
  - unfold pret, ret. rewrite !bool_decide_eq_false_2 by discriminate.
    destruct (XMLValueTestValidator.sort_by_nr_fl _); reflexivity.
Qed.
End NumberingOnTheDocument.

(** C1 (amended): the numbering check, with its reads of the
    [cash_transactions] property, emits the file-level
    CONTINOUS_NUMBERING_PR_CASH_REGISTER finding, exactly once and without
    running the global step-of-1 check, exactly when the transactions of the
    document lie under at least two different register ids and, within every
    [cashregister] element on its own, each transaction number is the
    number before it plus 1. Otherwise it emits no such finding and runs the
    global check over the deduplicated, sorted transactions (sorted as by
    Python when no number is NaN), whose findings are all
    NOT_CONTINOUS_NUMBERING. When the property cannot be read, the check
    ends with that exception. *)
Theorem numbering_pr_cash_register_exclusive `{PyBuiltins}
    (cash_regs : list XmlCashRegister) (cache : Cache) (st : Validator) :
  cache = []
  \/ (exists st0 st0', gen_all_cash_trans cash_regs st0 = Return cache st0') ->
  match Pass.cash_transactions cash_regs cache st with
  | Raise exn st1 =>
      Pass.check_continous_numbering_in_cash_tran cash_regs cache st = Raise exn st1
  | Return (d, cache') st1 =>
      dict_keys d = register_ids cash_regs
      /\ exists st',
           Pass.check_continous_numbering_in_cash_tran cash_regs cache st
           = Return (tt, cache') st'
           /\ if (1 <? length (register_ids cash_regs))%nat
                 && continuous_per_element cash_regs
              then st' = append_validation pr_cash_register_finding (set_value_error st1)
              else
                (exists appended,
                    validation st' = validation st1 ++ appended
                    /\ Forall (fun v => technical_error_type v = Some not_continous_numbering
                                        /\ check v = value_check) appended)
                /\ (Forall (fun cash_tran =>
                              (CashTrans.nr_fl cash_tran =? CashTrans.nr_fl cash_tran)%float
                              = true) (concat (dict_values d)) ->
                    st' = match XMLValueTestValidator.sort_by_nr_fl
                                  (XMLValueTestValidator.get_unique_transactions_nr
                                     (concat (dict_values d))) with
                          | [] => st1
                          | first :: rest =>
                              XMLValueTestValidator.global_numbering_loop rest
                                (CashTrans.nr_fl first) (CashTrans.nr first) st1
                          end)
  end.
Proof.
  intros Hcache.
  destruct (Pass.cash_transactions cash_regs cache st) as [[d cache'] st1|exn st1] eqn:Hread.
  - assert (exists st0 st0', gen_all_cash_trans cash_regs st0 = Return d st0'
                             /\ (cache = [] \/ cache = d)) as (st0 & st0' & Hrun & Hcached).
    { unfold Pass.cash_transactions in Hread. destruct cache as [|entry rest].
      - unfold bind, ret in Hread.
        destruct (gen_all_cash_trans cash_regs st) as [d0 st2|e st2] eqn:Hgen;
          [|discriminate].
        injection Hread as <- _ _. exists st, st2. split; [exact Hgen|left; reflexivity].
      - destruct Hcache as [Hnil|(st0 & st0' & Hrun)]; [discriminate|].
        unfold ret in Hread. injection Hread as <- _ _.
        exists st0, st0'. split; [exact Hrun|right; reflexivity]. }
    destruct (gen_all_cash_trans_numbers cash_regs d st0 st0' Hrun) as [Hall Hkeys].
    split; [exact Hkeys|].
    destruct (numbering_pass_reads_once cash_regs d cache st0 st0' st Hrun Hcached)
      as (numbers & Hread' & Hpass).
    rewrite Hread in Hread'. injection Hread' as -> ->.
    eexists. split; [exact Hpass|].
    pose proof (numbering_check_on_dictionary d (with_findings numbers st)) as Hcheck.
    rewrite Hkeys, Hall in Hcheck.
    destruct ((1 <? length (register_ids cash_regs))%nat && continuous_per_element cash_regs).
    + exact Hcheck.
    + destruct Hcheck as [Hloop Happended]. split; [exact Happended|].
      intros _. exact Hloop.
  - unfold Pass.check_continous_numbering_in_cash_tran.
    unfold pbind at 1. unfold bind at 1. rewrite Hread. reflexivity.
Qed.

Lemma numbering_pr_cash_register_exclusive_witness :
  exists cache' st',
    Pass.check_continous_numbering_in_cash_tran (H := digits_builtins)
      separately_numbered_registers [] init_validator
    = Return (tt, cache') st'
    /\ validation st' = [pr_cash_register_finding].
Proof.
  pose proof (numbering_pr_cash_register_exclusive (H := digits_builtins)
                separately_numbered_registers [] init_validator (or_introl eq_refl))
    as Hcheck.
  destruct (Pass.cash_transactions (H := digits_builtins) separately_numbered_registers []
              init_validator) as [[d cache'] st1|exn st1] eqn:Hread;
    [|vm_compute in Hread; discriminate].
  destruct Hcheck as (_ & st' & Hrun & Hcase).
  assert ((1 <? length (register_ids separately_numbered_registers))%nat
          && continuous_per_element (H := digits_builtins) separately_numbered_registers
          = true) as Hcondition by (vm_compute; reflexivity).
  rewrite Hcondition in Hcase.
  exists cache', st'. split; [exact Hrun|].
  rewrite Hcase. vm_compute in Hread. injection Hread as _ _ <-. reflexivity.
Defined.

(** ** The event report pass on the document *)





Section ReportsOnTheDocument.
Context `{PyBuiltins}.
Variable all_basics : list Basics.


Variable cash_regs : list XmlCashRegister.



End ReportsOnTheDocument.


